(** * Non-bonded kernels of GROMACS (x86-64 SSE/SSE2 assembly): a shallow embedding

    The development follows three hand-written kernels:

    - [nb_kernel030_x86_64_sse]   (single precision, tabulated Lennard-Jones,
                                   one site per particle, four lanes),
    - [nb_kernel312_x86_64_sse2]  (double precision, tabulated Coulomb and
                                   plain Lennard-Jones, water-water, two lanes),
    - [nb_kernel232_x86_64_sse2]  (double precision, reaction-field Coulomb and
                                   tabulated Lennard-Jones, water-water).

    Integer registers are 32-bit words carried as [Z] with the wrap-around
    written out.  Floating-point lanes are carried as exact rationals ([Qc]):
    every [addps]/[mulpd]/... is the exact operation, so rounding is not part
    of the model; the hardware reciprocal-square-root seed and the
    double-to-single conversion are arbitrary functions.  Code blocks are
    transcribed instruction by instruction, a [let] per instruction, the bound
    name being the destination register or stack slot. *)

From Stdlib Require Import ZArith QArith Qcanon Qround List Lia Bool.
From Stdlib Require Import Permutation Wellfounded FunctionalExtensionality.
Import ListNotations.

Set Implicit Arguments.

(** ** 32-bit integer registers *)

Module W32.
Local Open Scope Z_scope.

Definition modulus : Z := 2 ^ 32.
Definition half_modulus : Z := 2 ^ 31.

(** The value a 32-bit destination holds after an arithmetic instruction. *)
Definition wrap (z : Z) : Z := z mod modulus.

(** Two's-complement reading of a register value in [[0, 2^32)]. *)
Definition signed (z : Z) : Z := if z <? half_modulus then z else z - modulus.

Definition add32 (a b : Z) : Z := wrap (a + b).
Definition sub32 (a b : Z) : Z := wrap (a - b).
Definition mul32 (a b : Z) : Z := wrap (a * b).
Definition shl32 (a n : Z) : Z := wrap (Z.shiftl a n).
Definition and32 (a b : Z) : Z := Z.land a b.

(** The three status flags the kernels branch on. *)
Record flags := Flags { ZF : bool; SF : bool; OF : bool }.

(** Flags left by the result [r] of an instruction; [ovf] tells whether the
    signed result did not fit. *)
Definition result_flags (r : Z) (ovf : bool) : flags :=
  Flags (r =? 0) (half_modulus <=? r) ovf.

(** [sub a, b] *)
Definition sub_flags (a b : Z) : flags :=
  let r := sub32 a b in
  result_flags r (negb (signed a - signed b =? signed r)).

(** [add a, b] *)
Definition add_flags (a b : Z) : flags :=
  let r := add32 a b in
  result_flags r (negb (signed a + signed b =? signed r)).

(** Condition codes: [le] (cmovle, jle), [g] (jg), [ge] (jge), [l] (jl),
    [nz] (jnz). *)
Definition cond_le (f : flags) : bool := ZF f || xorb (SF f) (OF f).
Definition cond_g (f : flags) : bool := negb (ZF f) && eqb (SF f) (OF f).
Definition cond_ge (f : flags) : bool := eqb (SF f) (OF f).
Definition cond_l (f : flags) : bool := xorb (SF f) (OF f).
Definition cond_nz (f : flags) : bool := negb (ZF f).

Definition in_range (z : Z) : Prop := 0 <= z < modulus.

Lemma wrap_small z : 0 <= z < 2 ^ 32 -> wrap z = z.
Proof. intros. unfold wrap, modulus. apply Z.mod_small. lia. Qed.

Lemma wrap_range z : in_range (wrap z).
Proof. unfold in_range, wrap, modulus. apply Z.mod_pos_bound. lia. Qed.

Lemma signed_small z : 0 <= z < 2 ^ 31 -> signed z = z.
Proof.
  intros. unfold signed, half_modulus.
  destruct (Z.ltb_spec z (2 ^ 31)); lia.
Qed.

(** Case split shared by the two comparison lemmas: the 32-bit difference
    either is the difference or is off by one modulus. *)
Lemma sub_wrap_cases a b :
  0 <= a < 4294967296 -> 0 <= b < 4294967296 ->
  (0 <= a - b /\ (a - b) mod 4294967296 = a - b) \/
  (a - b < 0 /\ (a - b) mod 4294967296 = a - b + 4294967296).
Proof.
  intros Ha Hb. destruct (Z_lt_le_dec (a - b) 0).
  - right. split; [lia|]. symmetry. apply Z.mod_unique with (q := -1); lia.
  - left. split; [lia|]. apply Z.mod_small. lia.
Qed.

Ltac split_comparisons :=
  repeat match goal with
         | |- context [?x <? ?y] => destruct (Z.ltb_spec x y)
         | |- context [?x <=? ?y] => destruct (Z.leb_spec x y)
         | |- context [?x =? ?y] => destruct (Z.eqb_spec x y)
         end; simpl; try reflexivity; try (exfalso; lia).

(** After [sub a, b] the condition [le] is the signed comparison of the two
    operands, whether or not the subtraction overflowed. *)
Lemma cond_le_sub a b :
  in_range a -> in_range b ->
  cond_le (sub_flags a b) = (signed a <=? signed b).
Proof.
  unfold in_range, cond_le, sub_flags, result_flags, sub32, wrap, signed,
    modulus, half_modulus; cbn [ZF SF OF]. intros Ha Hb.
  change (2 ^ 32) with 4294967296 in *. change (2 ^ 31) with 2147483648 in *.
  destruct (sub_wrap_cases Ha Hb) as [[Hs ->] | [Hs ->]];
    destruct (Z.ltb_spec a 2147483648), (Z.ltb_spec b 2147483648);
    split_comparisons.
Qed.

(** Likewise [g] after [sub a, b] is [b < a] on the signed readings. *)
Lemma cond_g_sub a b :
  in_range a -> in_range b ->
  cond_g (sub_flags a b) = (signed b <? signed a).
Proof.
  unfold in_range, cond_g, sub_flags, result_flags, sub32, wrap, signed,
    modulus, half_modulus; cbn [ZF SF OF]. intros Ha Hb.
  change (2 ^ 32) with 4294967296 in *. change (2 ^ 31) with 2147483648 in *.
  destruct (sub_wrap_cases Ha Hb) as [[Hs ->] | [Hs ->]];
    destruct (Z.ltb_spec a 2147483648), (Z.ltb_spec b 2147483648);
    split_comparisons.
Qed.

(** After [add x, 0] the condition [ge] tells whether the signed reading of
    [x] is non-negative. *)
Lemma cond_ge_add0 x : in_range x -> cond_ge (add_flags x 0) = (0 <=? signed x).
Proof.
  unfold in_range, cond_ge, add_flags, result_flags, add32, wrap, signed,
    modulus, half_modulus; cbn [ZF SF OF]. intros Hx.
  change (2 ^ 32) with 4294967296 in *. change (2 ^ 31) with 2147483648 in *.
  rewrite Z.add_0_r. rewrite (Z.mod_small x) by lia.
  change (0 <? 2147483648) with true. cbn iota. rewrite Z.add_0_r.
  destruct (Z.ltb_spec x 2147483648); split_comparisons.
Qed.

(** After [sub a, b] the condition [l] is the signed comparison. *)
Lemma cond_l_sub a b :
  in_range a -> in_range b ->
  cond_l (sub_flags a b) = (signed a <? signed b).
Proof.
  unfold in_range, cond_l, sub_flags, result_flags, sub32, wrap, signed,
    modulus, half_modulus; cbn [ZF SF OF]. intros Ha Hb.
  change (2 ^ 32) with 4294967296 in *. change (2 ^ 31) with 2147483648 in *.
  destruct (sub_wrap_cases Ha Hb) as [[Hs ->] | [Hs ->]];
    destruct (Z.ltb_spec a 2147483648), (Z.ltb_spec b 2147483648);
    split_comparisons.
Qed.

Lemma signed_wrap_neg z : - 2 ^ 31 <= z < 0 -> signed (wrap z) = z.
Proof.
  intros H. unfold signed, wrap, modulus, half_modulus.
  change (2 ^ 32) with 4294967296 in *. change (2 ^ 31) with 2147483648 in *.
  assert (E : z mod 4294967296 = z + 4294967296).
  { symmetry. apply Z.mod_unique with (q := -1); lia. }
  rewrite E. destruct (Z.ltb_spec (z + 4294967296) 2147483648); lia.
Qed.

Lemma wrap_add_back r : 0 <= r < 4 -> add32 (wrap (r - 4)) 4 = r.
Proof.
  intros H. unfold add32, wrap, modulus.
  rewrite Zplus_mod_idemp_l. replace (r - 4 + 4) with r by lia.
  apply Z.mod_small. lia.
Qed.

Lemma signed_nonneg z : in_range z -> 0 <= signed z -> signed z = z /\ z < 2 ^ 31.
Proof.
  unfold in_range, signed, modulus, half_modulus.
  change (2 ^ 32) with 4294967296. change (2 ^ 31) with 2147483648.
  intros Hr. destruct (Z.ltb_spec z 2147483648); lia.
Qed.

End W32.

(** ** The work-stealing scheduler ([.nb030_threadloop] ... [.nb030_outerend])

    The three kernels share this code verbatim (up to the label prefix):
<<
.nb030_threadloop:
        mov   rsi, [rbp + nb030_count]
        mov   eax, [rsi]
.nb030_spinlock:
        mov   ebx, eax
        add   ebx, 1
        lock cmpxchg [rsi], ebx
        pause
        jnz .nb030_spinlock
        mov ecx, [rsp + nb030_nri]
        mov edx, ecx
        sub ecx, ebx
        cmovle ebx, edx
        mov [rsp + nb030_n], eax
        mov [rsp + nb030_nn1], ebx
        sub ebx, eax
        mov esi, eax
        jg  .nb030_outerstart
        jmp .nb030_end
>>
    and, after one outer entry has been processed,
<<
        mov ecx, [rsp + nb030_nn1]
        inc esi
        sub ecx, esi
        jecxz .nb030_outerend
        mov [rsp + nb030_n], esi
        jmp .nb030_outer
.nb030_outerend:
        mov   ecx, [rsp + nb030_nri]
        sub   ecx, esi
        jecxz .nb030_end
        jmp   .nb030_threadloop
>> *)

Module Sched.
Import W32.
Local Open Scope Z_scope.

(** The constant added to the counter by [add ebx, 1]. *)
Definition chunksize : Z := 1.

(** Where a worker thread stands; the registers that are live at that label
    are carried with it. *)
Inductive pc : Type :=
| ThreadLoop                      (* about to read the shared counter *)
| SpinLock (eax : Z)              (* holds the value read, about to cmpxchg *)
| Outer (esi : Z) (nn1 : Z)       (* about to process outer entry [esi] *)
| End_.                           (* .nb030_end: terminal *)

(** What one atomic action of a thread does besides moving its [pc]. *)
Inductive event : Type :=
| Silent
| Claim (nn0 nn1 : Z)             (* a claimed range the thread goes on to process *)
| Process (n : Z).                (* one outer entry run through the inner loop *)

(** The code between a successful [cmpxchg] and the branch at [jg]:
    [eax] is the old counter value, [ebx] the value written.  The range
    [[nn0, nn1)] is taken when [jg] jumps; otherwise it is empty by the
    code's own (signed) test and the thread leaves. *)
Definition after_claim (nri eax ebx : Z) : pc * event :=
  let edx := nri in
  let ebx := if cond_le (sub_flags nri ebx) then edx else ebx in
  let nn1 := ebx in
  if cond_g (sub_flags ebx eax) then (Outer eax nn1, Claim eax nn1)
  else (End_, Silent).

(** The code after [.nb030_updateouterdata] has flushed entry [esi]. *)
Definition after_entry (nri esi nn1 : Z) : pc :=
  let esi := add32 esi 1 in
  if sub32 nn1 esi =? 0 then
    if sub32 nri esi =? 0 then End_ else ThreadLoop
  else Outer esi nn1.

(** One atomic action of a thread standing at [p] when the shared counter
    holds [count]: the new counter, the new [pc] and the event.  A thread at
    [End_] has no action. *)
Definition thread_step (nri count : Z) (p : pc) : option (Z * pc * event) :=
  match p with
  | ThreadLoop => Some (count, SpinLock count, Silent)
  | SpinLock eax =>
      let ebx := add32 eax chunksize in
      if count =? eax
      then let '(p', e) := after_claim nri eax ebx in Some (ebx, p', e)
      else Some (count, SpinLock count, Silent)
  | Outer esi nn1 => Some (count, after_entry nri esi nn1, Process esi)
  | End_ => None
  end.

(** The whole system: the counter, the threads, and a record of what has
    been claimed and processed so far (thread number first). *)
Record sys : Type := Sys {
  count : Z;
  threads : list pc;
  claims : list (nat * (Z * Z));
  processed : list (nat * Z)
}.

Definition record_claim (i : nat) (e : event) (l : list (nat * (Z * Z))) :=
  match e with Claim a b => (i, (a, b)) :: l | _ => l end.

Definition record_process (i : nat) (e : event) (l : list (nat * Z)) :=
  match e with Process n => (i, n) :: l | _ => l end.

(** Any thread may take the next action. *)
Inductive step (nri : Z) : sys -> sys -> Prop :=
| step_thread l1 p l2 c cl pr c' p' e :
    thread_step nri c p = Some (c', p', e) ->
    step nri (Sys c (l1 ++ p :: l2) cl pr)
         (Sys c' (l1 ++ p' :: l2)
              (record_claim (length l1) e cl)
              (record_process (length l1) e pr)).

Inductive steps (nri : Z) (s1 : sys) : sys -> Prop :=
| steps_refl : steps nri s1 s1
| steps_more s2 s3 : steps nri s1 s2 -> step nri s2 s3 -> steps nri s1 s3.

(** The counter is zero before any thread starts. *)
Definition init (nthreads : nat) : sys :=
  Sys 0 (repeat ThreadLoop nthreads) [] [].

Definition reachable (nri : Z) (nthreads : nat) (s : sys) : Prop :=
  steps nri (init nthreads) s.

Definition all_done (s : sys) : Prop := Forall (fun p => p = End_) (threads s).

(** The integers of [[a, b)], in order; empty when [b <= a]. *)
Definition zrange (a b : Z) : list Z :=
  map (fun k => a + Z.of_nat k) (seq 0 (Z.to_nat (b - a))).

(** Outer entries covered by the recorded claims. *)
Definition claimed (s : sys) : list Z :=
  flat_map (fun c => zrange (fst (snd c)) (snd (snd c))) (claims s).

(** A deterministic run under a given schedule (thread numbers), for
    testing. *)
Fixpoint replace_nth (i : nat) (p : pc) (l : list pc) : list pc :=
  match l, i with
  | [], _ => []
  | _ :: t, O => p :: t
  | h :: t, S i' => h :: replace_nth i' p t
  end.

Definition sched_step (nri : Z) (i : nat) (s : sys) : sys :=
  match nth_error (threads s) i with
  | Some p =>
      match thread_step nri (count s) p with
      | Some (c', p', e) =>
          Sys c' (replace_nth i p' (threads s))
              (record_claim i e (claims s)) (record_process i e (processed s))
      | None => s
      end
  | None => s
  end.

Definition run (nri : Z) (sched : list nat) (s : sys) : sys :=
  fold_left (fun s i => sched_step nri i s) sched s.


(** *** Facts about [zrange] *)

Lemma zrange_nil a b : b <= a -> zrange a b = [].
Proof.
  intros. unfold zrange. replace (Z.to_nat (b - a)) with 0%nat by lia. reflexivity.
Qed.

Lemma zrange_snoc a b : a <= b -> zrange a (b + 1) = zrange a b ++ [b].
Proof.
  intros. unfold zrange.
  replace (Z.to_nat (b + 1 - a)) with (Z.to_nat (b - a) + 1)%nat by lia.
  rewrite seq_app, map_app. simpl. f_equal. f_equal. lia.
Qed.

Lemma zrange_one a : zrange a (a + 1) = [a].
Proof. rewrite zrange_snoc by lia. rewrite zrange_nil by lia. reflexivity. Qed.

Lemma in_zrange e a b : In e (zrange a b) <-> a <= e < b.
Proof.
  unfold zrange. rewrite in_map_iff. split.
  - intros (k & <- & Hk). apply in_seq in Hk. lia.
  - intros He. exists (Z.to_nat (e - a)). split; [lia|]. apply in_seq. lia.
Qed.

Lemma NoDup_zrange a b : NoDup (zrange a b).
Proof.
  unfold zrange. apply Finite.Injective_map_NoDup.
  - intros x y Hxy. lia.
  - apply seq_NoDup.
Qed.

(** *** The invariant of the scheduler *)

Definition is_end (p : pc) : bool := match p with End_ => true | _ => false end.

Definition n_end (l : list pc) : Z := Z.of_nat (length (filter is_end l)).

(** What holds of a thread's registers when the counter is [c]. *)
Definition pc_ok (nri c : Z) (p : pc) : Prop :=
  match p with
  | ThreadLoop => True
  | SpinLock eax => 0 <= eax <= c
  | Outer esi nn1 => 0 <= esi /\ nn1 = esi + 1 /\ nn1 <= nri /\ nn1 <= c
  | End_ => nri <= c
  end.

(** Entries a thread has claimed and not yet processed. *)
Definition pending (p : pc) : list Z :=
  match p with Outer esi nn1 => zrange esi nn1 | _ => [] end.

Record inv (nri : Z) (N : nat) (s : sys) : Prop := Inv {
  inv_len : length (threads s) = N;
  inv_count : 0 <= count s <= nri + n_end (threads s);
  inv_pcs : Forall (pc_ok nri (count s)) (threads s);
  inv_claimed : Permutation (claimed s) (zrange 0 (Z.min (count s) nri));
  inv_processed :
    Permutation (map snd (processed s) ++ flat_map pending (threads s)) (claimed s)
}.

Lemma n_end_app l1 l2 : n_end (l1 ++ l2) = n_end l1 + n_end l2.
Proof. unfold n_end. rewrite filter_app, length_app. lia. Qed.

Lemma n_end_cons p l : n_end (p :: l) = (if is_end p then 1 else 0) + n_end l.
Proof. unfold n_end. cbn [filter]. destruct (is_end p); cbn [length]; lia. Qed.

Lemma n_end_le l : 0 <= n_end l <= Z.of_nat (length l).
Proof. unfold n_end. pose proof (filter_length_le is_end l). lia. Qed.

Lemma n_end_mid l1 p l2 :
  n_end (l1 ++ p :: l2) = n_end l1 + (if is_end p then 1 else 0) + n_end l2.
Proof. rewrite n_end_app, n_end_cons. lia. Qed.

Lemma pc_ok_mono nri c c' p : c <= c' -> pc_ok nri c p -> pc_ok nri c' p.
Proof. destruct p; simpl; intros; lia. Qed.

Lemma pending_repeat n : flat_map pending (repeat ThreadLoop n) = [].
Proof. induction n; simpl; auto. Qed.

Lemma after_claim_spec nri c :
  0 <= nri < 2 ^ 31 -> 0 <= c -> c + 1 < 2 ^ 31 ->
  after_claim nri c (add32 c chunksize) =
  if c <? nri then (Outer c (c + 1), Claim c (c + 1)) else (End_, Silent).
Proof.
  intros Hn Hc Hc1. unfold after_claim, add32, chunksize.
  rewrite wrap_small by lia.
  rewrite cond_le_sub by (unfold in_range, modulus; lia).
  rewrite !signed_small by lia.
  destruct (Z.leb_spec nri (c + 1)).
  - rewrite cond_g_sub by (unfold in_range, modulus; lia).
    rewrite !signed_small by lia.
    destruct (Z.ltb_spec c nri).
    + replace nri with (c + 1) by lia. reflexivity.
    + reflexivity.
  - rewrite cond_g_sub by (unfold in_range, modulus; lia).
    rewrite !signed_small by lia.
    destruct (Z.ltb_spec c (c + 1)); [|lia].
    destruct (Z.ltb_spec c nri); [reflexivity|lia].
Qed.

Lemma after_entry_spec nri esi :
  nri < 2 ^ 31 -> 0 <= esi < nri ->
  after_entry nri esi (esi + 1) = if esi + 1 =? nri then End_ else ThreadLoop.
Proof.
  intros Hn H. unfold after_entry, add32, sub32.
  rewrite (wrap_small (z := esi + 1)) by lia.
  replace (esi + 1 - (esi + 1)) with 0 by lia.
  rewrite (wrap_small (z := 0)) by lia. simpl.
  rewrite wrap_small by lia.
  destruct (Z.eqb_spec (nri - (esi + 1)) 0), (Z.eqb_spec (esi + 1) nri);
    try reflexivity; lia.
Qed.

Section Partition.
Variable nri : Z.
Variable N : nat.
Hypothesis nri_nonneg : 0 <= nri.
Hypothesis no_overflow : nri + Z.of_nat N < 2 ^ 31.

Lemma inv_init : inv nri N (init N).
Proof.
  constructor; simpl.
  - apply repeat_length.
  - pose proof (n_end_le (repeat ThreadLoop N)). lia.
  - apply Forall_forall. intros p Hp. apply repeat_spec in Hp. subst. exact I.
  - unfold claimed. simpl. rewrite zrange_nil; [constructor | lia].
  - unfold claimed. simpl. rewrite pending_repeat. constructor.
Qed.

Ltac red_sys :=
  unfold claimed in *;
  cbn [count threads claims processed record_claim record_process pending
       is_end map fst snd flat_map] in *.

Lemma inv_step s s' : inv nri N s -> step nri s s' -> inv nri N s'.
Proof.
  intros [Hlen Hcnt Hpcs Hcl Hpr] Hstep.
  destruct Hstep as [l1 p l2 c cl pr c' p' e Hts].
  red_sys.
  assert (HN : Z.of_nat (length l1) + 1 + Z.of_nat (length l2) = Z.of_nat N).
  { rewrite <- Hlen, length_app. cbn [length]. lia. }
  assert (Hlen' : forall q, length (l1 ++ q :: l2) = N).
  { intros q. rewrite <- Hlen, !length_app. reflexivity. }
  pose proof (n_end_le l1) as Hne1. pose proof (n_end_le l2) as Hne2.
  rewrite n_end_mid in Hcnt.
  apply Forall_app in Hpcs as [Hpc1 Hpc2].
  apply Forall_cons_iff in Hpc2 as [Hp Hpc2].
  rewrite flat_map_app in Hpr. red_sys.
  assert (Hmono : forall c2 q, c <= c2 -> pc_ok nri c2 q ->
                    Forall (pc_ok nri c2) (l1 ++ q :: l2)).
  { intros c2 q Hc2 Hq. apply Forall_app. split.
    - eapply Forall_impl; [|exact Hpc1]. intros r. apply pc_ok_mono. exact Hc2.
    - constructor; [exact Hq|].
      eapply Forall_impl; [|exact Hpc2]. intros r. apply pc_ok_mono. exact Hc2. }
  destruct p as [|eax|esi nn1|]; cbn [thread_step] in Hts; red_sys.
  - (* reading the counter *)
    injection Hts as <- <- <-.
    constructor; red_sys.
    + apply Hlen'.
    + rewrite n_end_mid. cbn [is_end]. lia.
    + apply Hmono; [lia | simpl; lia].
    + assumption.
    + rewrite flat_map_app. red_sys. assumption.
  - (* cmpxchg *)
    simpl in Hp.
    destruct (Z.eqb_spec c eax) as [->|Hne'].
    + (* success *)
      rewrite after_claim_spec in Hts by lia.
      destruct (Z.ltb_spec eax nri) as [Hlt|Hge]; injection Hts as <- <- <-;
        unfold add32, chunksize; rewrite wrap_small by lia.
      * constructor; red_sys.
        -- apply Hlen'.
        -- rewrite n_end_mid. cbn [is_end]. lia.
        -- apply Hmono; [lia | simpl; lia].
        -- rewrite zrange_one. cbn [app].
           replace (Z.min (eax + 1) nri) with (eax + 1) by lia.
           replace (Z.min eax nri) with eax in Hcl by lia.
           rewrite zrange_snoc by lia.
           apply Permutation_cons_app. rewrite app_nil_r. exact Hcl.
        -- rewrite flat_map_app. red_sys.
           rewrite zrange_one. cbn [app] in *.
           rewrite app_assoc. apply Permutation_sym, Permutation_cons_app.
           rewrite <- app_assoc. apply Permutation_sym. exact Hpr.
      * constructor; red_sys.
        -- apply Hlen'.
        -- rewrite n_end_mid. cbn [is_end]. lia.
        -- apply Hmono; [lia | simpl; lia].
        -- replace (Z.min (eax + 1) nri) with nri by lia.
           replace (Z.min eax nri) with nri in Hcl by lia. exact Hcl.
        -- rewrite flat_map_app. red_sys. exact Hpr.
    + (* failure: the counter is read again *)
      injection Hts as <- <- <-.
      constructor; red_sys.
      * apply Hlen'.
      * rewrite n_end_mid. cbn [is_end]. lia.
      * apply Hmono; [lia | simpl; lia].
      * assumption.
      * rewrite flat_map_app. red_sys. assumption.
  - (* one outer entry processed *)
    simpl in Hp. destruct Hp as (He0 & -> & Hn1 & Hn2).
    injection Hts as <- <- <-.
    rewrite after_entry_spec by lia.
    rewrite zrange_one in Hpr. cbn [app] in Hpr.
    assert (Hperm : forall q, pending q = [] ->
      Permutation (esi :: map snd pr ++ flat_map pending (l1 ++ q :: l2))
        (flat_map (fun c => zrange (fst (snd c)) (snd (snd c))) cl)).
    { intros q Hq. rewrite flat_map_app. cbn [flat_map]. rewrite Hq. cbn [app].
      etransitivity; [|exact Hpr].
      rewrite !app_assoc. apply Permutation_cons_app. reflexivity. }
    destruct (Z.eqb_spec (esi + 1) nri) as [Heq|Hneq].
    + constructor; red_sys.
      * apply Hlen'.
      * rewrite n_end_mid. cbn [is_end]. lia.
      * apply Hmono; [lia | simpl; lia].
      * assumption.
      * apply Hperm. reflexivity.
    + constructor; red_sys.
      * apply Hlen'.
      * rewrite n_end_mid. cbn [is_end]. lia.
      * apply Hmono; [lia | exact I].
      * assumption.
      * apply Hperm. reflexivity.
  - discriminate.
Qed.

Lemma inv_reachable s : reachable nri N s -> inv nri N s.
Proof.
  unfold reachable. induction 1 as [|s2 s3 H12 IH H23].
  - apply inv_init.
  - eapply inv_step; eauto.
Qed.

End Partition.

(** *** Termination measure *)

Definition pc_measure (c : Z) (p : pc) : nat :=
  match p with
  | ThreadLoop => 3
  | SpinLock eax => if eax =? c then 1 else 2
  | Outer _ _ => 4
  | End_ => 0
  end.

Definition sum_measure (c : Z) (l : list pc) : nat :=
  list_sum (map (pc_measure c) l).

(** Successful [cmpxchg]s still possible, weighted so that one of them pays
    for every other thread's stale read, plus what each thread has left to
    do before its next [cmpxchg]. *)
Definition measure (nri : Z) (N : nat) (s : sys) : nat :=
  (N + 4) * Z.to_nat (nri + Z.of_nat N - count s)
  + sum_measure (count s) (threads s).

Lemma sum_measure_app c l1 l2 :
  sum_measure c (l1 ++ l2) = (sum_measure c l1 + sum_measure c l2)%nat.
Proof. unfold sum_measure. rewrite map_app, list_sum_app. reflexivity. Qed.

Lemma sum_measure_mid c l1 p l2 :
  sum_measure c (l1 ++ p :: l2)
  = (sum_measure c l1 + pc_measure c p + sum_measure c l2)%nat.
Proof. rewrite sum_measure_app. unfold sum_measure. simpl. lia. Qed.

Lemma sum_measure_change c c' l :
  (sum_measure c' l <= sum_measure c l + length l)%nat.
Proof.
  unfold sum_measure. induction l as [|p l IH]; simpl; [lia|].
  assert (pc_measure c' p <= pc_measure c p + 1)%nat.
  { destruct p; simpl; try lia.
    destruct (eax =? c'), (eax =? c); lia. }
  lia.
Qed.

Lemma pc_measure_le c p : (pc_measure c p <= 4)%nat.
Proof. destruct p; simpl; try lia. destruct (eax =? c); lia. Qed.

Lemma thread_step_total nri c p :
  p <> End_ -> exists r, thread_step nri c p = Some r.
Proof.
  destruct p; simpl; intros Hp; try (eexists; reflexivity); [|congruence].
  destruct (c =? eax); [|eexists; reflexivity].
  destruct (after_claim nri eax (add32 eax chunksize)). eexists; reflexivity.
Qed.

Lemma pc_eq_dec (p q : pc) : {p = q} + {p <> q}.
Proof. decide equality; apply Z.eq_dec. Qed.

Lemma no_deadlock nri s : (forall s', ~ step nri s s') -> all_done s.
Proof.
  intros Hstuck. unfold all_done. apply Forall_forall. intros p Hin.
  destruct (pc_eq_dec p End_) as [|Hne]; [assumption|exfalso].
  destruct s as [c l cl pr]. simpl in Hin.
  apply in_split in Hin as (l1 & l2 & ->).
  destruct (thread_step_total nri c Hne) as [[[c' p'] e] Hts].
  eapply Hstuck. apply step_thread. exact Hts.
Qed.

Lemma steps_step_l nri s1 s2 s3 :
  step nri s1 s2 -> steps nri s2 s3 -> steps nri s1 s3.
Proof.
  intros H12 H23. induction H23.
  - eapply steps_more; [apply steps_refl | exact H12].
  - eapply steps_more; eauto.
Qed.

Lemma steps_trans nri s1 s2 s3 :
  steps nri s1 s2 -> steps nri s2 s3 -> steps nri s1 s3.
Proof.
  intros H12 H23. induction H23; [assumption|]. eapply steps_more; eauto.
Qed.

Section Termination.
Variable nri : Z.
Variable N : nat.
Hypothesis nri_nonneg : 0 <= nri.
Hypothesis no_overflow : nri + Z.of_nat N < 2 ^ 31.

Lemma measure_step s s' :
  inv nri N s -> step nri s s' -> (measure nri N s' < measure nri N s)%nat.
Proof.
  intros [Hlen Hcnt Hpcs _ _] Hstep.
  destruct Hstep as [l1 p l2 c cl pr c' p' e Hts].
  unfold measure. cbn [count threads] in *.
  assert (HN : (length l1 + 1 + length l2 = N)%nat).
  { rewrite <- Hlen, length_app. cbn [length]. lia. }
  pose proof (n_end_le l1) as Hne1. pose proof (n_end_le l2) as Hne2.
  rewrite n_end_mid in Hcnt.
  apply Forall_app in Hpcs as [_ Hpc2].
  apply Forall_cons_iff in Hpc2 as [Hp _].
  rewrite !sum_measure_mid.
  destruct p as [|eax|esi nn1|]; cbn [thread_step] in Hts; cbn [is_end] in Hcnt.
  - injection Hts as <- <- <-. cbn [pc_measure]. rewrite Z.eqb_refl. lia.
  - simpl in Hp. destruct (Z.eqb_spec c eax) as [->|Hne'].
    + rewrite after_claim_spec in Hts by lia.
      assert (Hc' : c' = eax + 1).
      { destruct (eax <? nri); injection Hts as <- _ _;
          unfold add32, chunksize; apply wrap_small; lia. }
      subst c'. clear Hts.
      pose proof (sum_measure_change eax (eax + 1) l1).
      pose proof (sum_measure_change eax (eax + 1) l2).
      pose proof (pc_measure_le (eax + 1) p').
      cbn [pc_measure]. rewrite Z.eqb_refl.
      replace (Z.to_nat (nri + Z.of_nat N - eax))
        with (S (Z.to_nat (nri + Z.of_nat N - (eax + 1)))) by lia.
      rewrite Nat.mul_succ_r. lia.
    + injection Hts as <- <- <-. cbn [pc_measure]. rewrite Z.eqb_refl.
      destruct (Z.eqb_spec eax c); [congruence | lia].
  - simpl in Hp. destruct Hp as (He0 & -> & Hn1 & Hn2).
    injection Hts as <- <- <-.
    rewrite after_entry_spec by lia.
    destruct (esi + 1 =? nri); cbn [pc_measure]; lia.
  - discriminate.
Qed.

Lemma acc_of_measure n :
  forall s, inv nri N s -> (measure nri N s < n)%nat ->
            Acc (fun s2 s1 => step nri s1 s2) s.
Proof.
  induction n as [|n IH]; intros s Hinv Hm; [lia|].
  constructor. intros s' Hs'. apply IH.
  - eapply inv_step; eauto.
  - pose proof (measure_step Hinv Hs'). lia.
Qed.

Lemma inv_acc s : inv nri N s -> Acc (fun s2 s1 => step nri s1 s2) s.
Proof. intros H. eapply acc_of_measure; [exact H | apply Nat.lt_succ_diag_r]. Qed.

Lemma acc_done s :
  Acc (fun s2 s1 => step nri s1 s2) s -> exists s', steps nri s s' /\ all_done s'.
Proof.
  induction 1 as [s _ IH].
  destruct (Forall_dec (fun p => p = End_) (fun p => pc_eq_dec p End_) (threads s))
    as [Hd|Hnd].
  - exists s. split; [apply steps_refl | exact Hd].
  - assert (Hex : exists s', step nri s s').
    { destruct (Exists_dec (fun p => p <> End_) (threads s)) as [Hex|Hnex].
      - intros p. destruct (pc_eq_dec p End_); [right; auto | left; auto].
      - apply Exists_exists in Hex as (p & Hin & Hne).
        destruct s as [c l cl pr]. simpl in Hin.
        apply in_split in Hin as (l1 & l2 & ->).
        destruct (thread_step_total nri c Hne) as [[[c' p'] e] Hts].
        eexists. apply step_thread. exact Hts.
      - exfalso. apply Hnd. apply Forall_forall. intros p Hin.
        destruct (pc_eq_dec p End_) as [|Hne]; [assumption|exfalso].
        apply Hnex. apply Exists_exists. eauto. }
    destruct Hex as [s1 Hs1].
    destruct (IH s1 Hs1) as (s' & Hsteps & Hdone).
    exists s'. split; [|exact Hdone]. eapply steps_step_l; eauto.
Qed.

End Termination.

(** *** The executable run follows the step relation *)

Lemma replace_nth_app l1 p p' l2 :
  replace_nth (length l1) p' (l1 ++ p :: l2) = l1 ++ p' :: l2.
Proof. induction l1 as [|q l1 IH]; simpl; [reflexivity | now rewrite IH]. Qed.

Lemma sched_step_steps nri i s : steps nri s (sched_step nri i s).
Proof.
  unfold sched_step. destruct s as [c l cl pr]. cbn [threads count claims processed].
  destruct (nth_error l i) as [p|] eqn:Hnth; [|apply steps_refl].
  destruct (thread_step nri c p) as [[[c' p'] e]|] eqn:Hts; [|apply steps_refl].
  apply nth_error_split in Hnth as (l1 & l2 & -> & <-).
  rewrite replace_nth_app.
  eapply steps_more; [apply steps_refl|]. apply step_thread. exact Hts.
Qed.

Lemma run_steps nri sched : forall s, steps nri s (run nri sched s).
Proof.
  unfold run. induction sched as [|i sched IH]; intros s; simpl.
  - apply steps_refl.
  - eapply steps_trans; [apply sched_step_steps | apply IH].
Qed.

(** *** The scheduler hands out every outer entry exactly once *)

Lemma all_done_pending l :
  Forall (fun p => p = End_) l -> flat_map pending l = [].
Proof. induction 1 as [|p l Hp _ IH]; simpl; [reflexivity|]. subst. exact IH. Qed.

(** C1 (as amended).  For every outer-entry count [0 <= nri] and every number
    of threads [nthreads >= 1] such that [nri + nthreads] still fits the
    signed 32-bit counter, in every state the threads can reach by
    interleaving their compare-and-swap loops: the claimed ranges are
    pairwise disjoint and lie in [[0, nri)]; once all threads are at their
    terminal label the claimed ranges (and the entries processed) are exactly
    [[0, nri)]; a state in which no thread can move has all threads
    terminated; no schedule runs forever; and the terminal state can be
    reached. *)
Theorem scheduler_partition (nri : Z) (nthreads : nat) :
  0 <= nri -> (1 <= nthreads)%nat -> nri + Z.of_nat nthreads < 2 ^ 31 ->
  forall s, reachable nri nthreads s ->
    NoDup (claimed s)
    /\ (forall e, In e (claimed s) -> 0 <= e < nri)
    /\ (all_done s ->
        Permutation (claimed s) (zrange 0 nri)
        /\ Permutation (map snd (processed s)) (zrange 0 nri))
    /\ ((forall s', ~ step nri s s') -> all_done s)
    /\ Acc (fun s2 s1 => step nri s1 s2) s
    /\ (exists s', steps nri s s' /\ all_done s').
Proof.
  intros Hnri HN Hov s Hreach.
  pose proof (inv_reachable Hnri Hov Hreach) as Hinv.
  pose proof Hinv as [Hlen Hcnt Hpcs Hcl Hpr].
  split; [|split; [|split; [|split; [|split]]]].
  - eapply Permutation_NoDup; [apply Permutation_sym; exact Hcl | apply NoDup_zrange].
  - intros e He. eapply Permutation_in in He; [|exact Hcl].
    apply in_zrange in He. lia.
  - intros Hdone. unfold all_done in Hdone.
    assert (Hge : nri <= count s).
    { destruct (threads s) as [|p l]; [simpl in Hlen; lia|].
      apply Forall_cons_iff in Hdone as [-> _].
      apply Forall_cons_iff in Hpcs as [Hp _]. exact Hp. }
    replace (Z.min (count s) nri) with nri in Hcl by lia.
    split; [exact Hcl|].
    rewrite (all_done_pending Hdone), app_nil_r in Hpr.
    etransitivity; eassumption.
  - apply no_deadlock.
  - apply (inv_acc Hnri Hov Hinv).
  - apply acc_done. apply (inv_acc Hnri Hov Hinv).
Qed.

Lemma scheduler_partition_witness :
  let s := run 3 [0; 1; 0; 1; 1; 0; 0; 1; 0; 1; 1; 0; 0; 1]%nat (init 2) in
    NoDup (claimed s)
    /\ (forall e, In e (claimed s) -> 0 <= e < 3)
    /\ (all_done s ->
        Permutation (claimed s) (zrange 0 3)
        /\ Permutation (map snd (processed s)) (zrange 0 3))
    /\ ((forall s', ~ step 3 s s') -> all_done s)
    /\ Acc (fun s2 s1 => step 3 s1 s2) s
    /\ (exists s', steps 3 s s' /\ all_done s').
Proof.
  apply (@scheduler_partition 3 2); [lia | lia | lia | apply run_steps].
Defined.

(** *** Where the 32-bit counter overflows *)

Lemma step_first nri c p l2 cl pr c' p' e :
  thread_step nri c p = Some (c', p', e) ->
  step nri (Sys c (p :: l2) cl pr)
       (Sys c' (p' :: l2) (record_claim 0 e cl) (record_process 0 e pr)).
Proof. intros H. exact (@step_thread nri [] p l2 c cl pr c' p' e H). Qed.

Lemma step_second nri c q p l2 cl pr c' p' e :
  thread_step nri c p = Some (c', p', e) ->
  step nri (Sys c (q :: p :: l2) cl pr)
       (Sys c' (q :: p' :: l2) (record_claim 1 e cl) (record_process 1 e pr)).
Proof. intros H. exact (@step_thread nri [q] p l2 c cl pr c' p' e H). Qed.

Lemma step_third nri c q r p l2 cl pr c' p' e :
  thread_step nri c p = Some (c', p', e) ->
  step nri (Sys c (q :: r :: p :: l2) cl pr)
       (Sys c' (q :: r :: p' :: l2) (record_claim 2 e cl) (record_process 2 e pr)).
Proof. intros H. exact (@step_thread nri [q; r] p l2 c cl pr c' p' e H). Qed.

(** The first thread alone takes the entries [0 .. k-1] one by one. *)
Lemma solo_run nri l2 k :
  0 <= nri < 2 ^ 31 -> Z.of_nat k < nri ->
  exists cl pr, steps nri (Sys 0 (ThreadLoop :: l2) [] [])
                      (Sys (Z.of_nat k) (ThreadLoop :: l2) cl pr).
Proof.
  intros Hn. induction k as [|k IH]; intros Hk.
  - exists [], []. apply steps_refl.
  - destruct IH as (cl & pr & Hs); [lia|].
    set (c := Z.of_nat k) in *.
    assert (Hc' : Z.of_nat (S k) = c + 1) by lia. rewrite Hc'.
    do 2 eexists.
    eapply steps_more; [eapply steps_more; [eapply steps_more; [exact Hs|] |] |].
    + apply step_first. reflexivity.
    + apply step_first. cbn [thread_step]. rewrite Z.eqb_refl.
      rewrite after_claim_spec by lia.
      destruct (Z.ltb_spec c nri); [|lia]. reflexivity.
    + unfold add32, chunksize. rewrite wrap_small by lia.
      cbn [record_claim record_process].
      replace (ThreadLoop :: l2) with (after_entry nri c (c + 1) :: l2).
      * apply step_first. reflexivity.
      * rewrite after_entry_spec by lia.
        destruct (Z.eqb_spec (c + 1) nri); [lia | reflexivity].
Qed.

(** C1 as stated (any [nri >= 0], any number of threads) fails on the code:
    with [nri = 2^31 - 1] and three threads, one thread takes the last entry
    and leaves by [jecxz], a second pushes the counter to [2^31] and leaves,
    and the third then claims [[2^31, 2^31 + 1)], whose signed reading passes
    both the clamp and the emptiness test. *)
Lemma scheduler_overflow_counterexample :
  ~ (forall s, reachable 2147483647 3 s ->
       forall e, In e (claimed s) -> 0 <= e < 2147483647).
Proof.
  intros H.
  destruct (@solo_run 2147483647 [ThreadLoop; ThreadLoop] (Z.to_nat 2147483646))
    as (cl & pr & Hs); [lia | lia |].
  rewrite Z2Nat.id in Hs by lia.
  pose proof (run_steps 2147483647 [0;0;0;1;1;2;2]%nat
                (Sys 2147483646 [ThreadLoop; ThreadLoop; ThreadLoop] cl pr)) as Hr.
  specialize (H _ (steps_trans Hs Hr) 2147483648).
  assert (Hin : In 2147483648
    (claimed (run 2147483647 [0;0;0;1;1;2;2]%nat
                (Sys 2147483646 [ThreadLoop; ThreadLoop; ThreadLoop] cl pr)))).
  { vm_compute. left. reflexivity. }
  specialize (H Hin). lia.
Qed.

End Sched.

(** ** SSE registers and the instructions the kernels use

    A lane holds an exact rational.  [v4] is an xmm register read as four
    single-precision lanes ([l0] the lowest), [v2] the same register read as
    two double-precision lanes.  The functions carry the instruction names;
    for a two-operand instruction the first argument is the destination's old
    value. *)

Module SSE.
Import W32.
Local Open Scope Z_scope.

(** A floating-point lane. *)
Abbreviation real := Qc.

(** Arrays of floating-point numbers and of 32-bit integers, addressed by
    element. *)
Definition fmem : Type := Z -> real.
Definition imem : Type := Z -> Z.

Definition store (m : fmem) (i : Z) (v : real) : fmem :=
  fun j => if j =? i then v else m j.

(** [mov r32, [mem]]: the register is zero-extended. *)
Definition ld32 (m : imem) (i : Z) : Z := wrap (m i).

Record v4 : Type := V4 { l0 : real; l1 : real; l2 : real; l3 : real }.
Record v2 : Type := V2 { d0 : real; d1 : real }.

Definition lane4 (v : v4) (k : Z) : real :=
  match k with 0 => l0 v | 1 => l1 v | 2 => l2 v | _ => l3 v end.

Definition lane2 (v : v2) (k : Z) : real :=
  match k with 0 => d0 v | _ => d1 v end.

Local Open Scope Qc_scope.

(** *** Packed and scalar single precision *)

Definition xorps_self : v4 := V4 0 0 0 0.
Definition addps (d s : v4) : v4 := V4 (l0 d + l0 s) (l1 d + l1 s) (l2 d + l2 s) (l3 d + l3 s).
Definition subps (d s : v4) : v4 := V4 (l0 d - l0 s) (l1 d - l1 s) (l2 d - l2 s) (l3 d - l3 s).
Definition mulps (d s : v4) : v4 := V4 (l0 d * l0 s) (l1 d * l1 s) (l2 d * l2 s) (l3 d * l3 s).
Definition addss (d s : v4) : v4 := V4 (l0 d + l0 s) (l1 d) (l2 d) (l3 d).
Definition subss (d s : v4) : v4 := V4 (l0 d - l0 s) (l1 d) (l2 d) (l3 d).

(** [shufps d, s, imm8]: two lanes picked from [d], two from [s]. *)
Definition shufps (d s : v4) (imm : Z) : v4 :=
  V4 (lane4 d (Z.land imm 3))
     (lane4 d (Z.land (Z.shiftr imm 2) 3))
     (lane4 s (Z.land (Z.shiftr imm 4) 3))
     (lane4 s (Z.land (Z.shiftr imm 6) 3)).

Definition movlhps (d s : v4) : v4 := V4 (l0 d) (l1 d) (l0 s) (l1 s).
Definition movhlps (d s : v4) : v4 := V4 (l2 s) (l3 s) (l2 d) (l3 d).
Definition unpcklps (d s : v4) : v4 := V4 (l0 d) (l0 s) (l1 d) (l1 s).
Definition unpckhps (d s : v4) : v4 := V4 (l2 d) (l2 s) (l3 d) (l3 s).

(** Loads: [movss xmm, m32] clears the upper lanes; [movlps]/[movhps] replace
    one half and keep the other. *)
Definition movss (m : fmem) (i : Z) : v4 := V4 (m i) 0 0 0.
Definition movss_v (v : real) : v4 := V4 v 0 0 0.       (* from a scalar variable *)
Definition movlps (d : v4) (m : fmem) (i : Z) : v4 := V4 (m i) (m (i + 1)%Z) (l2 d) (l3 d).
Definition movhps (d : v4) (m : fmem) (i : Z) : v4 := V4 (l0 d) (l1 d) (m i) (m (i + 1)%Z).

(** [addss xmm, m32] / [subss]: only the low lane of the source exists. *)
Definition addss_m (d : v4) (m : fmem) (i : Z) : v4 := V4 (l0 d + m i) (l1 d) (l2 d) (l3 d).

(** Stores. *)
Definition movss_st (m : fmem) (i : Z) (s : v4) : fmem := store m i (l0 s).
Definition movlps_st (m : fmem) (i : Z) (s : v4) : fmem :=
  store (store m i (l0 s)) (i + 1)%Z (l1 s).
Definition movhps_st (m : fmem) (i : Z) (s : v4) : fmem :=
  store (store m i (l2 s)) (i + 1)%Z (l3 s).

(** *** Conversions between lanes and 32-bit integers *)

(** Truncation toward zero, and the "integer indefinite" word [0x80000000]
    when the result does not fit a signed 32-bit integer. *)
Definition trunc (x : real) : Z := Z.quot (Qnum x) (Zpos (Qden x)).

Definition cvtt (x : real) : Z :=
  let t := trunc x in
  if ((- half_modulus <=? t) && (t <? half_modulus))%bool then wrap t
  else half_modulus.

Definition of_int (n : Z) : real := Q2Qc (inject_Z (signed n)).

(** An mmx register as two 32-bit words (low first). *)
Definition mmx : Type := (Z * Z)%type.

Definition cvttps2pi (s : v4) : mmx := (cvtt (l0 s), cvtt (l1 s)).
Definition cvtpi2ps (d : v4) (s : mmx) : v4 :=
  V4 (of_int (fst s)) (of_int (snd s)) (l2 d) (l3 d).
Definition pslld (d : mmx) (n : Z) : mmx := (shl32 (fst d) n, shl32 (snd d) n).
Definition psrlq32 (d : mmx) : mmx := (snd d, 0%Z).
Definition movd (d : mmx) : Z := fst d.

(** *** Packed and scalar double precision *)

Definition xorpd_self : v2 := V2 0 0.
Definition addpd (d s : v2) : v2 := V2 (d0 d + d0 s) (d1 d + d1 s).
Definition subpd (d s : v2) : v2 := V2 (d0 d - d0 s) (d1 d - d1 s).
Definition mulpd (d s : v2) : v2 := V2 (d0 d * d0 s) (d1 d * d1 s).
Definition addsd (d s : v2) : v2 := V2 (d0 d + d0 s) (d1 d).
Definition subsd (d s : v2) : v2 := V2 (d0 d - d0 s) (d1 d).
Definition mulsd (d s : v2) : v2 := V2 (d0 d * d0 s) (d1 d).
Definition unpcklpd (d s : v2) : v2 := V2 (d0 d) (d0 s).
Definition unpckhpd (d s : v2) : v2 := V2 (d1 d) (d1 s).
Definition shufpd (d s : v2) (imm : Z) : v2 :=
  V2 (lane2 d (Z.land imm 1)) (lane2 s (Z.land (Z.shiftr imm 1) 1)).

(** [movsd xmm, m64] clears the high lane; [movsd xmm, xmm] keeps it;
    [movlpd]/[movhpd] replace one lane. *)
Definition movsd (m : fmem) (i : Z) : v2 := V2 (m i) 0.
Definition movsd_v (v : real) : v2 := V2 v 0.           (* from a scalar variable *)
Definition movsd_rr (d s : v2) : v2 := V2 (d0 s) (d1 d).
Definition movlpd (d : v2) (m : fmem) (i : Z) : v2 := V2 (m i) (d1 d).
Definition movhpd (d : v2) (m : fmem) (i : Z) : v2 := V2 (d0 d) (m i).
Definition movapd_ld (m : fmem) (i : Z) : v2 := V2 (m i) (m (i + 1)%Z).

Definition cvttpd2pi (s : v2) : mmx := (cvtt (d0 s), cvtt (d1 s)).
Definition cvtpi2pd (s : mmx) : v2 := V2 (of_int (fst s)) (of_int (snd s)).

(** *** Conversions between the two precisions *)

Section Precision.
(** Rounding of a double to the nearest single. *)
Variable to_single : real -> real.

Definition cvtpd2ps (s : v2) : v4 := V4 (to_single (d0 s)) (to_single (d1 s)) 0 0.
Definition cvtps2pd (s : v4) : v2 := V2 (l0 s) (l1 s).
End Precision.

(** A value broadcast to both lanes ([shufpd x, x, 0]). *)
Definition splat2 (v : real) : v2 := V2 v v.

Definition movlpd_st (m : fmem) (i : Z) (s : v2) : fmem := store m i (d0 s).
Definition movhpd_st (m : fmem) (i : Z) (s : v2) : fmem := store m i (d1 s).

(** *** The constants every kernel builds on its stack *)

(** [0x3f000000] (single) and [0x3fe0000000000000] (double): one half. *)
Definition half_bits : real := Q2Qc (1 # 2).

(** [addps]/[addpd] of the register with itself, as every prologue does. *)
Definition one : real := half_bits + half_bits.
Definition two : real := one + one.
Definition three : real := one + two.

(** A value broadcast to the four lanes ([shufps x, x, 0]). *)
Definition splat (v : real) : v4 := V4 v v v v.

(** The sum [l0 + l2 + (l1 + l3)] that [movhlps; addps; shufps 1; addss]
    leaves in the low lane. *)
Definition hsum (v : v4) : real := l0 v + l2 v + (l1 v + l3 v).

(** [f[i .. i+2] -= t] and [f[i .. i+2] += t], all three elements read
    before the first is written. *)
Definition sub_force (f : fmem) (i : Z) (tx ty tz : real) : fmem :=
  store (store (store f i (f i - tx)) (i + 1)%Z (f (i + 1)%Z - ty))
        (i + 2)%Z (f (i + 2)%Z - tz).

Definition add_force (f : fmem) (i : Z) (tx ty tz : real) : fmem :=
  store (store (store f i (f i + tx)) (i + 1)%Z (f (i + 1)%Z + ty))
        (i + 2)%Z (f (i + 2)%Z + tz).

Lemma one_eq : half_bits + half_bits = 1.
Proof. apply Qc_is_canon. reflexivity. Qed.


Lemma store_other m i v j : j <> i -> store m i v j = m j.
Proof. unfold store. intros H. destruct (Z.eqb_spec j i); [contradiction | reflexivity]. Qed.

Lemma v4_ext (u v : v4) :
  l0 u = l0 v -> l1 u = l1 v -> l2 u = l2 v -> l3 u = l3 v -> u = v.
Proof. destruct u, v; simpl; intros; subst; reflexivity. Qed.

Lemma v2_ext (u v : v2) : d0 u = d0 v -> d1 u = d1 v -> u = v.
Proof. destruct u, v; simpl; intros; subst; reflexivity. Qed.

Lemma zero_minus_zero : 0 - 0 = 0.
Proof. ring. Qed.

(** A lane whose coupling coefficients are zero contributes nothing,
    whatever the other factors hold. *)
Ltac zero_lane :=
  rewrite ?Qcmult_0_r, ?Qcmult_0_l, ?Qcplus_0_l, ?Qcplus_0_r, ?zero_minus_zero,
          ?Qcmult_0_r, ?Qcmult_0_l, ?Qcplus_0_l, ?Qcplus_0_r; reflexivity.

Lemma sub_force_frame f i tx ty tz p :
  (p < i \/ i + 2 < p)%Z -> sub_force f i tx ty tz p = f p.
Proof.
  intros H. unfold sub_force. rewrite !store_other by lia. reflexivity.
Qed.

Lemma add_force_frame f i tx ty tz p :
  (p < i \/ i + 2 < p)%Z -> add_force f i tx ty tz p = f p.
Proof.
  intros H. unfold add_force. rewrite !store_other by lia. reflexivity.
Qed.



Lemma two_eq : two = 1 + 1.
Proof. apply Qc_is_canon. reflexivity. Qed.

Lemma three_eq : three = 1 + 1 + 1.
Proof. apply Qc_is_canon. reflexivity. Qed.

Lemma half_eq : half_bits * (1 + 1) = 1.
Proof. apply Qc_is_canon. reflexivity. Qed.

(** Truncation of a non-negative lane is the floor. *)
Lemma trunc_nonneg (x : real) : 0 <= x -> (0 <= trunc x)%Z.
Proof.
  unfold Qcle, Qle, trunc. simpl. intros H.
  apply Z.quot_pos; lia.
Qed.

Lemma trunc_floor (x : real) : 0 <= x -> trunc x = Qfloor x.
Proof.
  unfold Qcle, Qle, trunc. simpl. intros H.
  destruct x as [[n d] Hc]. simpl in *.
  apply Z.quot_div_nonneg; lia.
Qed.

Lemma of_int_small (n : Z) : (0 <= n < 2 ^ 31)%Z -> of_int n = Q2Qc (inject_Z n).
Proof. intros H. unfold of_int. rewrite signed_small by exact H. reflexivity. Qed.

Lemma cvtt_small (x : real) :
  0 <= x -> (trunc x < 2 ^ 31)%Z -> cvtt x = trunc x.
Proof.
  intros H0 H1. pose proof (trunc_nonneg H0) as Hn.
  unfold cvtt, half_modulus.
  destruct (Z.leb_spec (- 2 ^ 31) (trunc x)); [|lia].
  destruct (Z.ltb_spec (trunc x) (2 ^ 31)); [|lia].
  simpl. apply wrap_small. lia.
Qed.

(** The fractional offset lies in [[0, 1)]. *)
Lemma eps_range (x : real) :
  0 <= x -> (trunc x < 2 ^ 31)%Z ->
  0 <= x - of_int (cvtt x) /\ x - of_int (cvtt x) < 1.
Proof.
  intros H0 H1. pose proof (trunc_nonneg H0) as Hn.
  rewrite cvtt_small by assumption.
  rewrite of_int_small by lia.
  rewrite trunc_floor by assumption.
  pose proof (Qfloor_le x) as Hle. pose proof (Qlt_floor x) as Hlt.
  unfold Qcle, Qclt, Qcminus, Qcplus, Qcopp. cbn [this Q2Qc].
  rewrite !Qred_correct.
  rewrite inject_Z_plus in Hlt. simpl inject_Z in *.
  split.
  - apply (Qplus_le_l _ _ (inject_Z (Qfloor x))). ring_simplify. exact Hle.
  - apply (Qplus_lt_l _ _ (inject_Z (Qfloor x))). ring_simplify.
    eapply Qlt_le_trans; [exact Hlt|].
    change (inject_Z 1) with 1%Q. rewrite Qplus_comm. apply Qle_refl.
Qed.

Lemma shl32_3 (n : Z) : (0 <= n < 2 ^ 29)%Z -> shl32 n 3 = (8 * n)%Z.
Proof.
  intros H. unfold shl32. rewrite Z.shiftl_mul_pow2 by lia.
  rewrite wrap_small by lia. lia.
Qed.

Lemma shl32_2 (n : Z) : (0 <= n < 2 ^ 30)%Z -> shl32 n 2 = (4 * n)%Z.
Proof.
  intros H. unfold shl32. rewrite Z.shiftl_mul_pow2 by lia.
  rewrite wrap_small by lia. lia.
Qed.

(** The split of a non-negative scaled distance that fits the index
    register after the shift by [sh] bits. *)
Lemma split_index (rt : real) (sh : Z) :
  0 <= rt -> (trunc rt < 2 ^ 28)%Z -> (sh = 2 \/ sh = 3)%Z ->
  shl32 (cvtt rt) sh = (2 ^ sh * trunc rt)%Z
  /\ rt - of_int (cvtt rt) = rt - Q2Qc (inject_Z (trunc rt))
  /\ 0 <= rt - of_int (cvtt rt) /\ rt - of_int (cvtt rt) < 1.
Proof.
  intros H0 H1 Hsh. pose proof (trunc_nonneg H0) as Hn.
  assert (H31 : (trunc rt < 2 ^ 31)%Z) by lia.
  destruct (eps_range H0 H31) as [He0 He1].
  rewrite cvtt_small by assumption.
  rewrite of_int_small by lia.
  rewrite cvtt_small in He0, He1 by assumption.
  rewrite of_int_small in He0, He1 by lia.
  repeat split; try assumption.
  destruct Hsh as [-> | ->].
  - rewrite shl32_2 by lia. reflexivity.
  - rewrite shl32_3 by lia. reflexivity.
Qed.

(** Lane [i] of a pair of index registers. *)
Definition reg2 (r : Z * Z) (i : Z) : Z :=
  match i with 0%Z => fst r | _ => snd r end.

Lemma lane2_cases (i : Z) : (0 <= i < 2)%Z -> i = 0%Z \/ i = 1%Z.
Proof. lia. Qed.

End SSE.

(** ** The interaction laws as the specification words them *)

Module Formula.
Import SSE.
Local Open Scope Qc_scope.

(** One Newton-Raphson refinement of [y] towards [1/sqrt x]:
    [y' = 0.5*(3 - x*y*y)*y]. *)
Definition nr_step (x y : real) : real := half_bits * (three - x * y * y) * y.

(** The cubic spline in Horner form and its derivative-consistent force
    factor. *)
Definition spline_V (Y F G H eps : real) : real := Y + eps * (F + eps * (G + eps * H)).
Definition spline_F (F G H eps : real) : real :=
  F + (1 + 1) * eps * G + (1 + 1 + 1) * (eps * eps) * H.

(** Lennard-Jones: energy and force over distance. *)
Definition six : real := 1 + 1 + 1 + 1 + 1 + 1.
Definition twelve : real := six + six.
Definition lj_V (c6 c12 rinv : real) : real := c12 * rinv ^ 12 - c6 * rinv ^ 6.
Definition lj_F (c6 c12 rinv : real) : real :=
  (twelve * c12 * rinv ^ 12 - six * c6 * rinv ^ 6) * rinv ^ 2.

(** Reaction field: energy and force over distance. *)
Definition rf_V (qq krf crf rsq rinv : real) : real := qq * (rinv + krf * rsq - crf).
Definition rf_F (qq krf rsq rinv : real) : real :=
  qq * (rinv - (1 + 1) * krf * rsq) * rinv * rinv.

(** The step in the form [y * (1.5 - 0.5 * x * y^2)]. *)
Lemma nr_step_alt x y :
  nr_step x y = y * ((1 + half_bits) - half_bits * x * (y * y)).
Proof.
  assert (H : half_bits * (1 + 1 + 1) = 1 + half_bits)
    by (apply Qc_is_canon; reflexivity).
  unfold nr_step. rewrite three_eq, <- H. ring.
Qed.

Lemma six_eq : three + three = six.
Proof. apply Qc_is_canon. reflexivity. Qed.

Lemma twelve_eq : three + three + (three + three) = twelve.
Proof. apply Qc_is_canon. reflexivity. Qed.

(** With an exact reciprocal distance the reaction-field force over
    distance is [qq*(r^-3 - 2*krf)]. *)
Lemma rf_F_closed qq krf rsq rinv :
  rsq * rinv * rinv = 1 ->
  rf_F qq krf rsq rinv = qq * (rinv ^ 3 - (1 + 1) * krf).
Proof.
  intros H. unfold rf_F. cbn [Qcpower].
  transitivity (qq * (rinv * rinv * rinv - (1 + 1) * krf * (rsq * rinv * rinv)));
    [ring | rewrite H; ring].
Qed.

End Formula.

(** ** What a kernel is called with

    All kernels have the same prototype; the arrays the kernel only reads
    are gathered in [args], the arrays it accumulates into in [outputs]. *)

Module Kernel.
Import W32 SSE.
Local Open Scope Z_scope.

Record args : Type := Args {
  a_nri : Z;                (* *p_nri *)
  a_iinr : imem;
  a_jindex : imem;
  a_jjnr : imem;
  a_shift : imem;
  a_shiftvec : fmem;
  a_gid : imem;
  a_pos : fmem;
  a_charge : fmem;
  a_facel : real;           (* *p_facel *)
  a_krf : real;             (* *argkrf *)
  a_crf : real;             (* *argcrf *)
  a_type : imem;
  a_ntype : Z;              (* *p_ntype *)
  a_vdwparam : fmem;
  a_tabscale : real;        (* *p_tabscale *)
  a_VFtab : fmem
}.

Record outputs : Type := Outputs {
  o_faction : fmem;
  o_fshift : fmem;
  o_Vc : fmem;
  o_Vvdw : fmem
}.

(** The eight xmm registers, read as single-precision lanes. *)
Record xmms : Type := Xmm {
  r0 : v4; r1 : v4; r2 : v4; r3 : v4; r4 : v4; r5 : v4; r6 : v4; r7 : v4
}.

(** The water kernels take their parameters from the first particle of
    the list: its index, and the row of the parameter table computed from
    its type. *)
Definition first_particle (a : args) : Z := ld32 (a_iinr a) 0.
Definition vdw_index (a : args) : Z :=
  let t2 := shl32 (ld32 (a_type a) (first_particle a)) 1 in
  add32 t2 (mul32 t2 (wrap (a_ntype a))).

End Kernel.

(** ** [nb_kernel030_x86_64_sse]: tabulated Lennard-Jones, single precision *)

Module NB030.
Import W32 SSE Kernel.
Local Open Scope Z_scope.

(** Stack slots written once before the thread loop. *)
Record consts : Type := Consts {
  nb030_ntype : Z;
  nb030_tsc : v4;
  nb030_half : v4;
  nb030_two : v4;
  nb030_three : v4
}.

(** Stack slots written at [.nb030_outer] and read by the inner loop. *)
Record entry : Type := Entry {
  nb030_is3 : Z;
  nb030_ii3 : Z;
  nb030_ntia : Z;
  nb030_ix : v4;
  nb030_iy : v4;
  nb030_iz : v4
}.

(** The per-entry accumulators. *)
Record accum : Type := Accum {
  nb030_Vvdwtot : v4;
  nb030_fix : v4;
  nb030_fiy : v4;
  nb030_fiz : v4
}.

(** What the inner loop carries from block to block: the accumulators, the
    pointer into [jjnr] (as an element index), the loop counter, the xmm
    registers and the force array.  The slots [nb030_dx], [nb030_dy],
    [nb030_dz], [nb030_c6], [nb030_c12] and [nb030_fscal] are written before
    they are read in every block and appear as local names. *)
Record inner : Type := Inner {
  i_acc : accum;
  nb030_innerjjnr : Z;
  nb030_innerk : Z;
  i_xmm : xmms;
  i_faction : fmem
}.

Section Code.

(** The hardware approximation behind [rsqrtps]. *)
Variable rsqrt_approx : real -> real.

Definition rsqrtps (s : v4) : v4 :=
  V4 (rsqrt_approx (l0 s)) (rsqrt_approx (l1 s))
     (rsqrt_approx (l2 s)) (rsqrt_approx (l3 s)).

(** Lines 114-155: argument spill and the constants half, two, three. *)
Definition prologue (a : args) (x : xmms) : consts * xmms :=
  let xmm3 := movss_v (a_tabscale a) in             (* movss xmm3, [rax] *)
  let xmm3 := shufps xmm3 xmm3 0 in
  let nb030_tsc := xmm3 in
  let xmm1 := movss_v half_bits in                  (* movss xmm1, [rsp + nb030_half] *)
  let xmm1 := shufps xmm1 xmm1 0 in
  let xmm2 := xmm1 in
  let xmm2 := addps xmm2 xmm2 in                    (* one *)
  let xmm3 := xmm2 in
  let xmm2 := addps xmm2 xmm2 in                    (* two *)
  let xmm3 := addps xmm3 xmm2 in                    (* three *)
  (Consts (wrap (a_ntype a)) nb030_tsc xmm1 xmm2 xmm3,
   Xmm (r0 x) xmm1 xmm2 xmm3 (r4 x) (r5 x) (r6 x) (r7 x)).

(** Lines 187-249: [.nb030_outer] up to the store of [nb030_innerk]; [esi]
    is the outer entry, [ninner] the running inner-iteration count.  Returns
    the flags of [add edx, 0] for the [jge] that follows. *)
Definition outer_setup (a : args) (k : consts) (esi : Z) (ninner : Z)
    (x : xmms) (faction : fmem) : entry * inner * Z * flags :=
  let ebx := ld32 (a_shift a) esi in
  let rbx := ebx + ebx * 2 in                       (* lea rbx, [rbx + rbx*2] *)
  let nb030_is3 := wrap rbx in
  let xmm0 := movss (a_shiftvec a) rbx in
  let xmm1 := movss (a_shiftvec a) (rbx + 1) in
  let xmm2 := movss (a_shiftvec a) (rbx + 2) in
  let ebx := ld32 (a_iinr a) esi in
  let edx := ld32 (a_type a) ebx in
  let edx := mul32 edx (nb030_ntype k) in
  let edx := shl32 edx 1 in
  let nb030_ntia := edx in
  let rbx := ebx + ebx * 2 in
  let xmm0 := addss_m xmm0 (a_pos a) rbx in
  let xmm1 := addss_m xmm1 (a_pos a) (rbx + 1) in
  let xmm2 := addss_m xmm2 (a_pos a) (rbx + 2) in
  let xmm0 := shufps xmm0 xmm0 0 in
  let xmm1 := shufps xmm1 xmm1 0 in
  let xmm2 := shufps xmm2 xmm2 0 in
  let nb030_ix := xmm0 in
  let nb030_iy := xmm1 in
  let nb030_iz := xmm2 in
  let nb030_ii3 := wrap rbx in
  let xmm4 := xorps_self in
  let nb030_Vvdwtot := xmm4 in
  let nb030_fix := xmm4 in
  let nb030_fiy := xmm4 in
  let nb030_fiz := xmm4 in
  let ecx := ld32 (a_jindex a) esi in
  let edx := ld32 (a_jindex a) (esi + 1) in
  let edx := sub32 edx ecx in
  let ecx := shl32 ecx 2 in
  let nb030_innerjjnr := ecx / 4 in                 (* jjnr + rcx bytes *)
  let ecx := edx in
  let edx := sub32 edx 4 in
  let ecx := add32 ecx ninner in
  let nb030_ninner := ecx in
  let fl := add_flags edx 0 in
  let edx := add32 edx 0 in
  let nb030_innerk := edx in
  (Entry nb030_is3 nb030_ii3 nb030_ntia nb030_ix nb030_iy nb030_iz,
   Inner (Accum nb030_Vvdwtot nb030_fix nb030_fiy nb030_fiz)
         nb030_innerjjnr nb030_innerk
         (Xmm xmm0 xmm1 xmm2 (r3 x) xmm4 (r5 x) (r6 x) (r7 x)) faction,
   nb030_ninner, fl).

(** Lines 331-351 (and again 602-621, 793-812): displacement of the i site
    from the j sites in [xmm0]-[xmm2], and its square.  Returns the stack
    slots [nb030_dx], [nb030_dy], [nb030_dz] and the registers [xmm4]
    (rsq), [xmm5], [xmm6]. *)
Definition calc_dr (e : entry) (xmm0 xmm1 xmm2 : v4)
    : v4 * v4 * v4 * (v4 * v4 * v4) :=
  let xmm4 := nb030_ix e in
  let xmm5 := nb030_iy e in
  let xmm6 := nb030_iz e in
  let xmm4 := subps xmm4 xmm0 in
  let xmm5 := subps xmm5 xmm1 in
  let xmm6 := subps xmm6 xmm2 in
  let nb030_dx := xmm4 in
  let nb030_dy := xmm5 in
  let nb030_dz := xmm6 in
  let xmm4 := mulps xmm4 xmm4 in
  let xmm5 := mulps xmm5 xmm5 in
  let xmm6 := mulps xmm6 xmm6 in
  let xmm4 := addps xmm4 xmm5 in
  let xmm4 := addps xmm4 xmm6 in                    (* rsq *)
  (nb030_dx, nb030_dy, nb030_dz, (xmm4, xmm5, xmm6)).

(** Lines 353-362 (and again 623-632, 814-823): the reciprocal square root
    of [xmm4].  Returns [xmm0] (rinv), [xmm1], [xmm2], [xmm5]. *)
Definition calc_rinv (k : consts) (xmm4 : v4) : v4 * v4 * v4 * v4 :=
  let xmm5 := rsqrtps xmm4 in                       (* lookup seed *)
  let xmm2 := xmm5 in
  let xmm5 := mulps xmm5 xmm5 in
  let xmm1 := nb030_three k in
  let xmm5 := mulps xmm5 xmm4 in                    (* rsq*lu*lu *)
  let xmm0 := nb030_half k in
  let xmm1 := subps xmm1 xmm5 in                    (* 3 - rsq*lu*lu *)
  let xmm1 := mulps xmm1 xmm2 in
  let xmm0 := mulps xmm0 xmm1 in                    (* rinv *)
  (xmm0, xmm1, xmm2, xmm5).

(** Lines 409-417 (and the five other table evaluations): the cubic spline
    from the coefficients Y, F, G, H in [xmm4]-[xmm7], eps in [xmm1] and
    eps2 in [xmm2].  Returns [xmm5] (VV), [xmm6] (Geps), [xmm7] (FF). *)
Definition spline (k : consts) (xmm1 xmm2 xmm4 xmm5 xmm6 xmm7 : v4)
    : v4 * v4 * v4 :=
  let xmm6 := mulps xmm6 xmm1 in                    (* Geps *)
  let xmm7 := mulps xmm7 xmm2 in                    (* Heps2 *)
  let xmm5 := addps xmm5 xmm6 in
  let xmm5 := addps xmm5 xmm7 in                    (* Fp *)
  let xmm7 := mulps xmm7 (nb030_two k) in           (* two*Heps2 *)
  let xmm7 := addps xmm7 xmm6 in
  let xmm7 := addps xmm7 xmm5 in                    (* FF *)
  let xmm5 := mulps xmm5 xmm1 in                    (* eps*Fp *)
  let xmm5 := addps xmm5 xmm4 in                    (* VV *)
  (xmm5, xmm6, xmm7).

(** Lines 363-390: the scaled distance [r*tabscale] split into the table
    index and the offset eps for four lanes; [xmm0] is rinv, [xmm4] is rsq.
    The [3*j] of the four particles move from [rax]-[rdx] to [mm0]-[mm3];
    [eax]-[edx] receive the table indices. *)
Definition table_split4 (k : consts) (rax rbx rcx rdx : Z)
    (xmm0 xmm4 xmm5 xmm6 : v4)
    : v4 * v4 * v4 * v4 * v4 * (Z * Z * Z * Z) * (Z * Z * Z * Z) :=
  let xmm4 := mulps xmm4 xmm0 in                    (* r *)
  let xmm4 := mulps xmm4 (nb030_tsc k) in
  let xmm5 := movhlps xmm5 xmm4 in
  let mm6 := cvttps2pi xmm4 in
  let mm7 := cvttps2pi xmm5 in                      (* lu indices *)
  let xmm6 := cvtpi2ps xmm6 mm6 in
  let xmm5 := cvtpi2ps xmm5 mm7 in
  let xmm6 := movlhps xmm6 xmm5 in
  let xmm4 := subps xmm4 xmm6 in
  let xmm1 := xmm4 in                               (* eps *)
  let xmm2 := xmm1 in
  let xmm2 := mulps xmm2 xmm2 in                    (* eps2 *)
  let mm6 := pslld mm6 3 in
  let mm7 := pslld mm7 3 in
  let mm0 := wrap rax in                            (* movd mm0, eax *)
  let mm1 := wrap rbx in
  let mm2 := wrap rcx in
  let mm3 := wrap rdx in
  let eax := movd mm6 in
  let mm6 := psrlq32 mm6 in
  let ecx := movd mm7 in
  let mm7 := psrlq32 mm7 in
  let ebx := movd mm6 in
  let edx := movd mm7 in
  (xmm1, xmm2, xmm4, xmm5, xmm6, (mm0, mm1, mm2, mm3), (eax, ebx, ecx, edx)).

(** Lines 392-426: the dispersion table for four lanes, indices in
    [eax]-[edx].  Returns the slots [nb030_fscal], [nb030_Vvdwtot] and the
    registers [xmm3]-[xmm7]. *)
Definition dispersion4 (a : args) (k : consts) (nb030_c6 nb030_Vvdwtot : v4)
    (eax ebx ecx edx : Z) (xmm1 xmm2 xmm3 xmm5 xmm7 : v4)
    : v4 * v4 * (v4 * v4 * v4 * v4 * v4) :=
  let xmm5 := movlps xmm5 (a_VFtab a) eax in
  let xmm7 := movlps xmm7 (a_VFtab a) ecx in
  let xmm5 := movhps xmm5 (a_VFtab a) ebx in
  let xmm7 := movhps xmm7 (a_VFtab a) edx in        (* half dispersion table *)
  let xmm4 := xmm5 in
  let xmm4 := shufps xmm4 xmm7 136 in
  let xmm5 := shufps xmm5 xmm7 221 in
  let xmm7 := movlps xmm7 (a_VFtab a) (eax + 2) in
  let xmm3 := movlps xmm3 (a_VFtab a) (ecx + 2) in
  let xmm7 := movhps xmm7 (a_VFtab a) (ebx + 2) in
  let xmm3 := movhps xmm3 (a_VFtab a) (edx + 2) in  (* other half *)
  let xmm6 := xmm7 in
  let xmm6 := shufps xmm6 xmm3 136 in
  let xmm7 := shufps xmm7 xmm3 221 in
  let '(xmm5, xmm6, xmm7) := spline k xmm1 xmm2 xmm4 xmm5 xmm6 xmm7 in
  let xmm4 := nb030_c6 in
  let xmm7 := mulps xmm7 xmm4 in                    (* fijD *)
  let xmm5 := mulps xmm5 xmm4 in                    (* Vvdw6 *)
  let xmm5 := addps xmm5 nb030_Vvdwtot in
  let nb030_fscal := xmm7 in
  let nb030_Vvdwtot := xmm5 in
  (nb030_fscal, nb030_Vvdwtot, (xmm3, xmm4, xmm5, xmm6, xmm7)).

(** Lines 468-534: the partial force, the update of the i accumulators and
    the read-modify-write of the four j particles, whose [3*j] are in
    [eax]-[edx]; [xmm4] holds the scalar force. *)
Definition update_forces4 (nb030_dx nb030_dy nb030_dz : v4) (acc : accum)
    (nb030_Vvdwtot : v4) (eax ebx ecx edx : Z) (xmm4 xmm6 : v4) (faction : fmem)
    : accum * xmms * fmem :=
  let xmm0 := nb030_dx in
  let xmm1 := nb030_dy in
  let xmm2 := nb030_dz in
  let xmm0 := mulps xmm0 xmm4 in
  let xmm1 := mulps xmm1 xmm4 in
  let xmm2 := mulps xmm2 xmm4 in                    (* tx, ty, tz *)
  let xmm3 := nb030_fix acc in
  let xmm4 := nb030_fiy acc in
  let xmm5 := nb030_fiz acc in
  let xmm3 := addps xmm3 xmm0 in
  let xmm4 := addps xmm4 xmm1 in
  let xmm5 := addps xmm5 xmm2 in
  let nb030_fix := xmm3 in
  let nb030_fiy := xmm4 in
  let nb030_fiz := xmm5 in
  (* the fj's - start by accumulating x & y forces from memory *)
  let xmm4 := movlps xmm4 faction eax in
  let xmm6 := movlps xmm6 faction ecx in
  let xmm4 := movhps xmm4 faction ebx in
  let xmm6 := movhps xmm6 faction edx in
  let xmm3 := xmm4 in
  let xmm3 := shufps xmm3 xmm6 136 in
  let xmm4 := shufps xmm4 xmm6 221 in
  let xmm3 := subps xmm3 xmm0 in
  let xmm4 := subps xmm4 xmm1 in
  let xmm6 := xmm3 in
  let xmm6 := unpcklps xmm6 xmm4 in
  let xmm3 := unpckhps xmm3 xmm4 in
  let faction := movlps_st faction eax xmm6 in
  let faction := movlps_st faction ecx xmm3 in
  let faction := movhps_st faction ebx xmm6 in
  let faction := movhps_st faction edx xmm3 in
  (* and the z forces *)
  let xmm4 := movss faction (eax + 2) in
  let xmm5 := movss faction (ebx + 2) in
  let xmm6 := movss faction (ecx + 2) in
  let xmm7 := movss faction (edx + 2) in
  let xmm4 := subss xmm4 xmm2 in
  let xmm2 := shufps xmm2 xmm2 229 in
  let xmm5 := subss xmm5 xmm2 in
  let xmm2 := shufps xmm2 xmm2 234 in
  let xmm6 := subss xmm6 xmm2 in
  let xmm2 := shufps xmm2 xmm2 255 in
  let xmm7 := subss xmm7 xmm2 in
  let faction := movss_st faction (eax + 2) xmm4 in
  let faction := movss_st faction (ebx + 2) xmm5 in
  let faction := movss_st faction (ecx + 2) xmm6 in
  let faction := movss_st faction (edx + 2) xmm7 in
  (Accum nb030_Vvdwtot nb030_fix nb030_fiy nb030_fiz,
   Xmm xmm0 xmm1 xmm2 xmm3 xmm4 xmm5 xmm6 xmm7, faction).

(** Lines 252-534: one pass of [.nb030_unroll_loop], four j particles. *)
Definition unroll_body (a : args) (k : consts) (e : entry) (s : inner) : inner :=
  let xmm3 := r3 (i_xmm s) in
  let xmm4 := r4 (i_xmm s) in
  let xmm5 := r5 (i_xmm s) in
  let xmm6 := r6 (i_xmm s) in
  let xmm7 := r7 (i_xmm s) in
  let faction := i_faction s in
  let nb030_Vvdwtot := nb030_Vvdwtot (i_acc s) in
  let rdx := nb030_innerjjnr s in
  let eax := ld32 (a_jjnr a) rdx in
  let ebx := ld32 (a_jjnr a) (rdx + 1) in
  let ecx := ld32 (a_jjnr a) (rdx + 2) in
  let edx := ld32 (a_jjnr a) (rdx + 3) in
  let nb030_innerjjnr := nb030_innerjjnr s + 4 in   (* add qword ptr [...], 16 *)
  let mm0 := eax in
  let mm1 := ebx in
  let mm2 := ecx in
  let mm3 := edx in
  let eax := ld32 (a_type a) eax in
  let ebx := ld32 (a_type a) ebx in
  let ecx := ld32 (a_type a) ecx in
  let edx := ld32 (a_type a) edx in
  let eax := shl32 eax 1 in
  let ebx := shl32 ebx 1 in
  let ecx := shl32 ecx 1 in
  let edx := shl32 edx 1 in
  let edi := nb030_ntia e in
  let eax := add32 eax edi in
  let ebx := add32 ebx edi in
  let ecx := add32 ecx edi in
  let edx := add32 edx edi in
  let xmm6 := movlps xmm6 (a_vdwparam a) eax in
  let xmm7 := movlps xmm7 (a_vdwparam a) ecx in
  let xmm6 := movhps xmm6 (a_vdwparam a) ebx in
  let xmm7 := movhps xmm7 (a_vdwparam a) edx in
  let xmm4 := xmm6 in
  let xmm4 := shufps xmm4 xmm7 136 in
  let xmm6 := shufps xmm6 xmm7 221 in
  let eax := mm0 in
  let ebx := mm1 in
  let ecx := mm2 in
  let edx := mm3 in
  let nb030_c6 := xmm4 in
  let nb030_c12 := xmm6 in
  let rax := eax + eax * 2 in                       (* lea rax, [rax + rax*2] *)
  let rbx := ebx + ebx * 2 in
  let rcx := ecx + ecx * 2 in
  let rdx := edx + edx * 2 in
  let xmm4 := movlps xmm4 (a_pos a) rax in
  let xmm5 := movlps xmm5 (a_pos a) rcx in
  let xmm2 := movss (a_pos a) (rax + 2) in
  let xmm6 := movss (a_pos a) (rcx + 2) in
  let xmm4 := movhps xmm4 (a_pos a) rbx in
  let xmm5 := movhps xmm5 (a_pos a) rdx in
  let xmm0 := movss (a_pos a) (rbx + 2) in
  let xmm1 := movss (a_pos a) (rdx + 2) in
  let xmm2 := shufps xmm2 xmm0 0 in
  let xmm6 := shufps xmm6 xmm1 0 in
  let xmm0 := xmm4 in
  let xmm1 := xmm4 in
  let xmm2 := shufps xmm2 xmm6 136 in
  let xmm0 := shufps xmm0 xmm5 136 in
  let xmm1 := shufps xmm1 xmm5 221 in
  let '(nb030_dx, nb030_dy, nb030_dz, (xmm4, xmm5, xmm6)) :=
    calc_dr e xmm0 xmm1 xmm2 in
  let '(xmm0, xmm1, xmm2, xmm5) := calc_rinv k xmm4 in
  let '(xmm1, xmm2, xmm4, xmm5, xmm6, (mm0, mm1, mm2, mm3), (eax, ebx, ecx, edx)) :=
    table_split4 k rax rbx rcx rdx xmm0 xmm4 xmm5 xmm6 in
  let '(nb030_fscal, nb030_Vvdwtot, (xmm3, xmm4, xmm5, xmm6, xmm7)) :=
    dispersion4 a k nb030_c6 nb030_Vvdwtot eax ebx ecx edx
                xmm1 xmm2 xmm3 xmm5 xmm7 in
  (* repulsion *)
  let xmm5 := movlps xmm5 (a_VFtab a) (eax + 4) in
  let xmm7 := movlps xmm7 (a_VFtab a) (ecx + 4) in
  let xmm5 := movhps xmm5 (a_VFtab a) (ebx + 4) in
  let xmm7 := movhps xmm7 (a_VFtab a) (edx + 4) in
  let xmm4 := xmm5 in
  let xmm4 := shufps xmm4 xmm7 136 in
  let xmm5 := shufps xmm5 xmm7 221 in
  let xmm7 := movlps xmm7 (a_VFtab a) (eax + 6) in
  let xmm3 := movlps xmm3 (a_VFtab a) (ecx + 6) in
  let xmm7 := movhps xmm7 (a_VFtab a) (ebx + 6) in
  let xmm3 := movhps xmm3 (a_VFtab a) (edx + 6) in
  let xmm6 := xmm7 in
  let xmm6 := shufps xmm6 xmm3 136 in
  let xmm7 := shufps xmm7 xmm3 221 in
  let '(xmm5, xmm6, xmm7) := spline k xmm1 xmm2 xmm4 xmm5 xmm6 xmm7 in
  let xmm4 := nb030_c12 in
  let xmm7 := mulps xmm7 xmm4 in
  let xmm5 := mulps xmm5 xmm4 in
  let xmm7 := addps xmm7 nb030_fscal in
  let xmm5 := addps xmm5 nb030_Vvdwtot in
  let nb030_Vvdwtot := xmm5 in
  let xmm4 := xorps_self in
  let xmm7 := mulps xmm7 (nb030_tsc k) in
  let xmm7 := mulps xmm7 xmm0 in
  let xmm4 := subps xmm4 xmm7 in
  let eax := mm0 in
  let ebx := mm1 in
  let ecx := mm2 in
  let edx := mm3 in
  let '(acc, x, faction) :=
    update_forces4 nb030_dx nb030_dy nb030_dz (i_acc s) nb030_Vvdwtot
                   eax ebx ecx edx xmm4 xmm6 faction in
  Inner acc nb030_innerjjnr (nb030_innerk s) x faction.

(** Lines 547-759: [.nb030_dopair], two j particles in lanes 0 and 1.
    [xmm3] is read ([movlhps xmm3, xmm7]) before the block has written it. *)
Definition dopair (a : args) (k : consts) (e : entry) (s : inner) : inner :=
  let xmm1 := r1 (i_xmm s) in
  let xmm3 := r3 (i_xmm s) in
  let xmm6 := r6 (i_xmm s) in
  let faction := i_faction s in
  let nb030_Vvdwtot := nb030_Vvdwtot (i_acc s) in
  let rcx := nb030_innerjjnr s in
  let eax := ld32 (a_jjnr a) rcx in
  let ebx := ld32 (a_jjnr a) (rcx + 1) in
  let nb030_innerjjnr := nb030_innerjjnr s + 2 in   (* add qword ptr [...], 8 *)
  let xmm7 := xorps_self in
  let ecx := eax in
  let edx := ebx in
  let ecx := ld32 (a_type a) ecx in
  let edx := ld32 (a_type a) edx in
  let ecx := shl32 ecx 1 in
  let edx := shl32 edx 1 in
  let edi := nb030_ntia e in
  let ecx := add32 ecx edi in
  let edx := add32 edx edi in
  let xmm6 := movlps xmm6 (a_vdwparam a) ecx in
  let xmm6 := movhps xmm6 (a_vdwparam a) edx in
  let xmm4 := xmm6 in
  let xmm4 := shufps xmm4 xmm4 8 in
  let xmm6 := shufps xmm6 xmm6 13 in
  let xmm4 := movlhps xmm4 xmm7 in
  let xmm6 := movlhps xmm6 xmm7 in
  let nb030_c6 := xmm4 in
  let nb030_c12 := xmm6 in
  let rax := eax + eax * 2 in                       (* lea rax, [rax + rax*2] *)
  let rbx := ebx + ebx * 2 in
  let xmm1 := movlps xmm1 (a_pos a) rax in
  let xmm2 := movss (a_pos a) (rax + 2) in
  let xmm1 := movhps xmm1 (a_pos a) rbx in
  let xmm0 := movss (a_pos a) (rbx + 2) in
  let xmm3 := movlhps xmm3 xmm7 in
  let xmm2 := shufps xmm2 xmm0 0 in
  let xmm0 := xmm1 in
  let xmm2 := shufps xmm2 xmm2 136 in
  let xmm0 := shufps xmm0 xmm0 136 in
  let xmm1 := shufps xmm1 xmm1 221 in
  let xmm7 := xorps_self in
  let '(nb030_dx, nb030_dy, nb030_dz, (xmm4, xmm5, xmm6)) :=
    calc_dr e xmm0 xmm1 xmm2 in
  let '(xmm0, xmm1, xmm2, xmm5) := calc_rinv k xmm4 in
  let xmm4 := mulps xmm4 xmm0 in                    (* r *)
  let xmm4 := mulps xmm4 (nb030_tsc k) in
  let mm6 := cvttps2pi xmm4 in
  let xmm6 := cvtpi2ps xmm6 mm6 in
  let xmm4 := subps xmm4 xmm6 in
  let xmm1 := xmm4 in                               (* eps *)
  let xmm2 := xmm1 in
  let xmm2 := mulps xmm2 xmm2 in                    (* eps2 *)
  let mm6 := pslld mm6 3 in
  let ecx := movd mm6 in
  let mm6 := psrlq32 mm6 in
  let edx := movd mm6 in
  (* dispersion *)
  let xmm5 := movlps xmm5 (a_VFtab a) ecx in
  let xmm5 := movhps xmm5 (a_VFtab a) edx in
  let xmm4 := xmm5 in
  let xmm4 := shufps xmm4 xmm4 136 in
  let xmm5 := shufps xmm5 xmm5 221 in
  let xmm7 := movlps xmm7 (a_VFtab a) (ecx + 2) in
  let xmm7 := movhps xmm7 (a_VFtab a) (edx + 2) in
  let xmm6 := xmm7 in
  let xmm6 := shufps xmm6 xmm6 136 in
  let xmm7 := shufps xmm7 xmm7 221 in
  let '(xmm5, xmm6, xmm7) := spline k xmm1 xmm2 xmm4 xmm5 xmm6 xmm7 in
  let xmm4 := nb030_c6 in
  let xmm7 := mulps xmm7 xmm4 in                    (* fijD *)
  let xmm5 := mulps xmm5 xmm4 in                    (* Vvdw6 *)
  let xmm5 := addps xmm5 nb030_Vvdwtot in
  let nb030_fscal := xmm7 in
  let nb030_Vvdwtot := xmm5 in
  (* repulsion *)
  let xmm5 := movlps xmm5 (a_VFtab a) (ecx + 4) in
  let xmm5 := movhps xmm5 (a_VFtab a) (edx + 4) in
  let xmm4 := xmm5 in
  let xmm4 := shufps xmm4 xmm7 136 in
  let xmm5 := shufps xmm5 xmm7 221 in
  let xmm7 := movlps xmm7 (a_VFtab a) (ecx + 6) in
  let xmm7 := movhps xmm7 (a_VFtab a) (edx + 6) in
  let xmm6 := xmm7 in
  let xmm6 := shufps xmm6 xmm3 136 in
  let xmm7 := shufps xmm7 xmm3 221 in
  let '(xmm5, xmm6, xmm7) := spline k xmm1 xmm2 xmm4 xmm5 xmm6 xmm7 in
  let xmm4 := nb030_c12 in
  let xmm7 := mulps xmm7 xmm4 in                    (* fijR *)
  let xmm5 := mulps xmm5 xmm4 in                    (* Vvdw12 *)
  let xmm7 := addps xmm7 nb030_fscal in
  let xmm5 := addps xmm5 nb030_Vvdwtot in
  let nb030_Vvdwtot := xmm5 in
  let xmm4 := xorps_self in
  let xmm7 := mulps xmm7 (nb030_tsc k) in
  let xmm7 := mulps xmm7 xmm0 in
  let xmm4 := subps xmm4 xmm7 in
  let xmm0 := nb030_dx in
  let xmm1 := nb030_dy in
  let xmm2 := nb030_dz in
  let xmm0 := mulps xmm0 xmm4 in
  let xmm1 := mulps xmm1 xmm4 in
  let xmm2 := mulps xmm2 xmm4 in                    (* tx, ty, tz *)
  let xmm3 := nb030_fix (i_acc s) in
  let xmm4 := nb030_fiy (i_acc s) in
  let xmm5 := nb030_fiz (i_acc s) in
  let xmm3 := addps xmm3 xmm0 in
  let xmm4 := addps xmm4 xmm1 in
  let xmm5 := addps xmm5 xmm2 in
  let nb030_fix := xmm3 in
  let nb030_fiy := xmm4 in
  let nb030_fiz := xmm5 in
  (* update the fj's *)
  let xmm3 := movss faction rax in
  let xmm4 := movss faction (rax + 1) in
  let xmm5 := movss faction (rax + 2) in
  let xmm3 := subss xmm3 xmm0 in
  let xmm4 := subss xmm4 xmm1 in
  let xmm5 := subss xmm5 xmm2 in
  let faction := movss_st faction rax xmm3 in
  let faction := movss_st faction (rax + 1) xmm4 in
  let faction := movss_st faction (rax + 2) xmm5 in
  let xmm0 := shufps xmm0 xmm0 225 in
  let xmm1 := shufps xmm1 xmm1 225 in
  let xmm2 := shufps xmm2 xmm2 225 in
  let xmm3 := movss faction rbx in
  let xmm4 := movss faction (rbx + 1) in
  let xmm5 := movss faction (rbx + 2) in
  let xmm3 := subss xmm3 xmm0 in
  let xmm4 := subss xmm4 xmm1 in
  let xmm5 := subss xmm5 xmm2 in
  let faction := movss_st faction rbx xmm3 in
  let faction := movss_st faction (rbx + 1) xmm4 in
  let faction := movss_st faction (rbx + 2) xmm5 in
  Inner (Accum nb030_Vvdwtot nb030_fix nb030_fiy nb030_fiz)
        nb030_innerjjnr (nb030_innerk s)
        (Xmm xmm0 xmm1 xmm2 xmm3 xmm4 xmm5 xmm6 xmm7) faction.

(** Lines 766-929: [.nb030_dosingle], one j particle in lane 0. *)
Definition dosingle (a : args) (k : consts) (e : entry) (s : inner) : inner :=
  let faction := i_faction s in
  let nb030_Vvdwtot := nb030_Vvdwtot (i_acc s) in
  let rcx := nb030_innerjjnr s in
  let eax := ld32 (a_jjnr a) rcx in
  let xmm6 := xorps_self in
  let ecx := eax in
  let ecx := ld32 (a_type a) ecx in
  let ecx := shl32 ecx 1 in
  let ecx := add32 ecx (nb030_ntia e) in
  let xmm6 := movlps xmm6 (a_vdwparam a) ecx in
  let xmm4 := xmm6 in
  let xmm4 := shufps xmm4 xmm4 252 in
  let xmm6 := shufps xmm6 xmm6 253 in
  let nb030_c6 := xmm4 in
  let nb030_c12 := xmm6 in
  let rax := eax + eax * 2 in                       (* lea rax, [rax + rax*2] *)
  let xmm0 := movss (a_pos a) rax in
  let xmm1 := movss (a_pos a) (rax + 1) in
  let xmm2 := movss (a_pos a) (rax + 2) in
  let '(nb030_dx, nb030_dy, nb030_dz, (xmm4, xmm5, xmm6)) :=
    calc_dr e xmm0 xmm1 xmm2 in
  let '(xmm0, xmm1, xmm2, xmm5) := calc_rinv k xmm4 in
  let xmm4 := mulps xmm4 xmm0 in                    (* r *)
  let xmm4 := mulps xmm4 (nb030_tsc k) in
  let mm6 := cvttps2pi xmm4 in
  let xmm6 := cvtpi2ps xmm6 mm6 in
  let xmm4 := subps xmm4 xmm6 in
  let xmm1 := xmm4 in                               (* eps *)
  let xmm2 := xmm1 in
  let xmm2 := mulps xmm2 xmm2 in                    (* eps2 *)
  let mm6 := pslld mm6 3 in
  let ebx := movd mm6 in
  (* dispersion *)
  let xmm4 := movlps xmm4 (a_VFtab a) ebx in
  let xmm6 := movlps xmm6 (a_VFtab a) (ebx + 2) in
  let xmm5 := xmm4 in
  let xmm7 := xmm6 in
  let xmm5 := shufps xmm5 xmm5 1 in
  let xmm7 := shufps xmm7 xmm7 1 in
  let '(xmm5, xmm6, xmm7) := spline k xmm1 xmm2 xmm4 xmm5 xmm6 xmm7 in
  let xmm4 := nb030_c6 in
  let xmm7 := mulps xmm7 xmm4 in                    (* fijD *)
  let xmm5 := mulps xmm5 xmm4 in                    (* Vvdw6 *)
  let xmm5 := addss xmm5 nb030_Vvdwtot in
  let nb030_fscal := xmm7 in
  let nb030_Vvdwtot :=                              (* movss [rsp + nb030_Vvdwtot], xmm5 *)
    V4 (l0 xmm5) (l1 nb030_Vvdwtot) (l2 nb030_Vvdwtot) (l3 nb030_Vvdwtot) in
  (* repulsion *)
  let xmm4 := movlps xmm4 (a_VFtab a) (ebx + 4) in
  let xmm6 := movlps xmm6 (a_VFtab a) (ebx + 6) in
  let xmm5 := xmm4 in
  let xmm7 := xmm6 in
  let xmm5 := shufps xmm5 xmm5 1 in
  let xmm7 := shufps xmm7 xmm7 1 in
  let '(xmm5, xmm6, xmm7) := spline k xmm1 xmm2 xmm4 xmm5 xmm6 xmm7 in
  let xmm4 := nb030_c12 in
  let xmm7 := mulps xmm7 xmm4 in                    (* fijR *)
  let xmm5 := mulps xmm5 xmm4 in                    (* Vvdw12 *)
  let xmm7 := addps xmm7 nb030_fscal in
  let xmm5 := addss xmm5 nb030_Vvdwtot in
  let nb030_Vvdwtot :=
    V4 (l0 xmm5) (l1 nb030_Vvdwtot) (l2 nb030_Vvdwtot) (l3 nb030_Vvdwtot) in
  let xmm4 := xorps_self in
  let xmm7 := mulps xmm7 (nb030_tsc k) in
  let xmm7 := mulps xmm7 xmm0 in
  let xmm4 := subps xmm4 xmm7 in
  let xmm0 := nb030_dx in
  let xmm1 := nb030_dy in
  let xmm2 := nb030_dz in
  let xmm0 := mulps xmm0 xmm4 in
  let xmm1 := mulps xmm1 xmm4 in
  let xmm2 := mulps xmm2 xmm4 in                    (* tx, ty, tz *)
  let xmm3 := nb030_fix (i_acc s) in
  let xmm4 := nb030_fiy (i_acc s) in
  let xmm5 := nb030_fiz (i_acc s) in
  let xmm3 := addss xmm3 xmm0 in
  let xmm4 := addss xmm4 xmm1 in
  let xmm5 := addss xmm5 xmm2 in
  let nb030_fix := xmm3 in
  let nb030_fiy := xmm4 in
  let nb030_fiz := xmm5 in
  (* update fj *)
  let xmm3 := movss faction rax in
  let xmm4 := movss faction (rax + 1) in
  let xmm5 := movss faction (rax + 2) in
  let xmm3 := subss xmm3 xmm0 in
  let xmm4 := subss xmm4 xmm1 in
  let xmm5 := subss xmm5 xmm2 in
  let faction := movss_st faction rax xmm3 in
  let faction := movss_st faction (rax + 1) xmm4 in
  let faction := movss_st faction (rax + 2) xmm5 in
  Inner (Accum nb030_Vvdwtot nb030_fix nb030_fiy nb030_fiz)
        (nb030_innerjjnr s) (nb030_innerk s)
        (Xmm xmm0 xmm1 xmm2 xmm3 xmm4 xmm5 xmm6 xmm7) faction.

(** Lines 930-1000: [.nb030_updateouterdata]; [n] is the entry just done
    ([mov esi, [rsp + nb030_n]]). *)
Definition updateouterdata (a : args) (e : entry) (n : Z) (s : inner)
    (o : outputs) : xmms * outputs :=
  let xmm3 := r3 (i_xmm s) in
  let xmm4 := r4 (i_xmm s) in
  let xmm5 := r5 (i_xmm s) in
  let xmm6 := r6 (i_xmm s) in
  let faction := i_faction s in
  let fshift := o_fshift o in
  let ecx := nb030_ii3 e in
  let edx := nb030_is3 e in
  let xmm0 := nb030_fix (i_acc s) in
  let xmm1 := nb030_fiy (i_acc s) in
  let xmm2 := nb030_fiz (i_acc s) in
  let xmm3 := movhlps xmm3 xmm0 in
  let xmm4 := movhlps xmm4 xmm1 in
  let xmm5 := movhlps xmm5 xmm2 in
  let xmm0 := addps xmm0 xmm3 in
  let xmm1 := addps xmm1 xmm4 in
  let xmm2 := addps xmm2 xmm5 in
  let xmm3 := xmm0 in
  let xmm4 := xmm1 in
  let xmm5 := xmm2 in
  let xmm3 := shufps xmm3 xmm3 1 in
  let xmm4 := shufps xmm4 xmm4 1 in
  let xmm5 := shufps xmm5 xmm5 1 in
  let xmm0 := addss xmm0 xmm3 in
  let xmm1 := addss xmm1 xmm4 in
  let xmm2 := addss xmm2 xmm5 in
  (* increment i force *)
  let xmm3 := movss faction ecx in
  let xmm4 := movss faction (ecx + 1) in
  let xmm5 := movss faction (ecx + 2) in
  let xmm3 := addss xmm3 xmm0 in
  let xmm4 := addss xmm4 xmm1 in
  let xmm5 := addss xmm5 xmm2 in
  let faction := movss_st faction ecx xmm3 in
  let faction := movss_st faction (ecx + 1) xmm4 in
  let faction := movss_st faction (ecx + 2) xmm5 in
  (* increment fshift force *)
  let xmm3 := movss fshift edx in
  let xmm4 := movss fshift (edx + 1) in
  let xmm5 := movss fshift (edx + 2) in
  let xmm3 := addss xmm3 xmm0 in
  let xmm4 := addss xmm4 xmm1 in
  let xmm5 := addss xmm5 xmm2 in
  let fshift := movss_st fshift edx xmm3 in
  let fshift := movss_st fshift (edx + 1) xmm4 in
  let fshift := movss_st fshift (edx + 2) xmm5 in
  let esi := n in
  let edx := ld32 (a_gid a) esi in
  let xmm7 := nb030_Vvdwtot (i_acc s) in
  let xmm6 := movhlps xmm6 xmm7 in
  let xmm7 := addps xmm7 xmm6 in
  let xmm6 := xmm7 in
  let xmm6 := shufps xmm6 xmm6 1 in
  let xmm7 := addss xmm7 xmm6 in
  let xmm7 := addss_m xmm7 (o_Vvdw o) edx in
  let Vvdw := movss_st (o_Vvdw o) edx xmm7 in
  (Xmm xmm0 xmm1 xmm2 xmm3 xmm4 xmm5 xmm6 xmm7,
   Outputs faction fshift (o_Vc o) Vvdw).

(** [.nb030_unroll_loop] with its back edge
    ([sub dword ptr [rsp + nb030_innerk], 4; jl .nb030_finish_inner]). *)
Fixpoint unroll_loop (fuel : nat) (a : args) (k : consts) (e : entry)
    (s : inner) : option inner :=
  match fuel with
  | O => None
  | S fuel' =>
      let s := unroll_body a k e s in
      let fl := sub_flags (nb030_innerk s) 4 in
      let s := Inner (i_acc s) (nb030_innerjjnr s) (sub32 (nb030_innerk s) 4)
                     (i_xmm s) (i_faction s) in
      if cond_l fl then Some s else unroll_loop fuel' a k e s
  end.

(** [.nb030_finish_inner] ... [.nb030_checksingle]: the tail. *)
Definition finish_inner (a : args) (k : consts) (e : entry) (s : inner) : inner :=
  let s := Inner (i_acc s) (nb030_innerjjnr s) (add32 (nb030_innerk s) 4)
                 (i_xmm s) (i_faction s) in
  let edx := nb030_innerk s in
  let edx := and32 edx 2 in
  let s := if edx =? 0 then s else dopair a k e s in          (* jnz .nb030_dopair *)
  let edx := nb030_innerk s in
  let edx := and32 edx 1 in
  if edx =? 0 then s else dosingle a k e s.                   (* jnz .nb030_dosingle *)

(** One outer entry, from [.nb030_outer] to the end of
    [.nb030_updateouterdata]. *)
Definition outer_entry (fuel : nat) (a : args) (k : consts) (esi : Z)
    (ninner : Z) (x : xmms) (o : outputs) : option (Z * xmms * outputs) :=
  let '(e, s, ninner, fl) := outer_setup a k esi ninner x (o_faction o) in
  match (if cond_ge fl then unroll_loop fuel a k e s else Some s) with
  | None => None
  | Some s =>
      let s := finish_inner a k e s in
      let '(x, o) := updateouterdata a e esi s o in
      Some (ninner, x, o)
  end.

End Code.

(** *** Block specifications

    Each block is compared with scalar functions of one j particle
    ([ln_V], [ln_tx], ...) that repeat the block's arithmetic for a single
    lane in the order the code performs it. *)

Local Open Scope Qc_scope.

Lemma accum_ext (u v : accum) :
  nb030_Vvdwtot u = nb030_Vvdwtot v -> nb030_fix u = nb030_fix v ->
  nb030_fiy u = nb030_fiy v -> nb030_fiz u = nb030_fiz v -> u = v.
Proof. destruct u, v; simpl; intros; subst; reflexivity. Qed.

Lemma inner_ext (u v : inner) :
  i_acc u = i_acc v -> nb030_innerjjnr u = nb030_innerjjnr v ->
  nb030_innerk u = nb030_innerk v -> i_xmm u = i_xmm v ->
  i_faction u = i_faction v -> u = v.
Proof. destruct u, v; simpl; intros; subst; reflexivity. Qed.

(** *** The force update of the unrolled loop (lines 468-534) *)

Ltac store_cases :=
  unfold sub_force, add_force, store;
  repeat match goal with
         | |- context [Z.eqb ?x ?y] =>
             destruct (Z.eqb_spec x y); try (exfalso; lia)
         end;
  try reflexivity.

Definition disjoint_slots (i0 i1 : Z) : Prop := (i0 + 2 < i1 \/ i1 + 2 < i0)%Z.


Lemma update_forces4_faction dx dy dz acc V i0 i1 i2 i3 fs x6 f p :
  disjoint_slots i0 i1 -> disjoint_slots i0 i2 -> disjoint_slots i0 i3 ->
  disjoint_slots i1 i2 -> disjoint_slots i1 i3 -> disjoint_slots i2 i3 ->
  snd (update_forces4 dx dy dz acc V i0 i1 i2 i3 fs x6 f) p =
  sub_force
    (sub_force
       (sub_force
          (sub_force f i0 (l0 dx * l0 fs) (l0 dy * l0 fs) (l0 dz * l0 fs))
          i1 (l1 dx * l1 fs) (l1 dy * l1 fs) (l1 dz * l1 fs))
       i2 (l2 dx * l2 fs) (l2 dy * l2 fs) (l2 dz * l2 fs))
    i3 (l3 dx * l3 fs) (l3 dy * l3 fs) (l3 dz * l3 fs) p.
Proof.
  unfold disjoint_slots. intros H01 H02 H03 H12 H13 H23.
  destruct dx, dy, dz, fs, x6.
  cbv beta iota zeta delta
    [update_forces4 snd fst l0 l1 l2 l3 nb030_fix nb030_fiy nb030_fiz
     addps subps mulps subss shufps unpcklps unpckhps movss movlps movhps
     movss_st movlps_st movhps_st lane4
     Z.land Z.shiftr Z.shiftl Pos.land Z.of_N Pos.div2 Z.div2 Pos.iter Z.opp Z.pos_sub
     Pos.pred_double Pos.succ Pos.Nsucc_double Pos.Ndouble].
  store_cases.
Qed.

Lemma update_forces4_frame dx dy dz acc V i0 i1 i2 i3 fs x6 f p :
  (p < i0 \/ i0 + 2 < p)%Z -> (p < i1 \/ i1 + 2 < p)%Z ->
  (p < i2 \/ i2 + 2 < p)%Z -> (p < i3 \/ i3 + 2 < p)%Z ->
  snd (update_forces4 dx dy dz acc V i0 i1 i2 i3 fs x6 f) p = f p.
Proof.
  intros H0 H1 H2 H3.
  cbv beta iota zeta delta
    [update_forces4 snd fst movss_st movlps_st movhps_st].
  rewrite !store_other by lia. reflexivity.
Qed.

(** *** The reciprocal square root and the table lookup, lane by lane *)

Definition reg4 (r : Z * Z * Z * Z) (i : Z) : Z :=
  let '(a0, a1, a2, a3) := r in
  match i with 0 => a0 | 1 => a1 | 2 => a2 | _ => a3 end%Z.

Lemma lane_cases (i : Z) : (0 <= i < 4)%Z -> i = 0%Z \/ i = 1%Z \/ i = 2%Z \/ i = 3%Z.
Proof. lia. Qed.

Ltac block_red :=
  cbv beta iota zeta delta
    [calc_dr calc_rinv spline table_split4 dispersion4 prologue reg4
     nb030_ntype nb030_tsc nb030_half nb030_two nb030_three
     l0 l1 l2 l3 splat
     xorps_self addps subps mulps addss subss shufps movlhps movhlps
     unpcklps unpckhps movss movss_v movlps movhps addss_m
     rsqrtps cvttps2pi cvtpi2ps pslld psrlq32 movd fst snd lane4
     Z.land Z.shiftr Z.shiftl Pos.land Z.of_N Pos.div2 Z.div2 Pos.iter Z.opp Z.pos_sub
     Pos.pred_double Pos.succ Pos.Nsucc_double Pos.Ndouble].

Section Blocks.
Variable rsqrt_approx : real -> real.
Variable a : args.

(** The constants the prologue leaves on the stack. *)
Lemma prologue_consts x :
  fst (prologue a x) =
  Consts (wrap (a_ntype a)) (splat (a_tabscale a)) (splat half_bits)
         (splat two) (splat three).
Proof. reflexivity. Qed.

(** Lines 353-362 apply one Newton-Raphson step to the seed in each lane. *)
Lemma calc_rinv_one_step x (v : v4) (i : Z) :
  (0 <= i < 4)%Z ->
  lane4 (fst (fst (fst (calc_rinv rsqrt_approx (fst (prologue a x)) v)))) i =
  Formula.nr_step (lane4 v i) (rsqrt_approx (lane4 v i)).
Proof.
  intros Hi. destruct v as [v0 v1 v2 v3].
  destruct (lane_cases Hi) as [-> | [-> | [-> | ->]]];
    block_red; unfold Formula.nr_step, three, two, one; ring.
Qed.

(** Lines 363-390: lane [i] of [r*tabscale] is split into the truncated
    integer and the remainder; the index register holds the integer times
    eight (the table has eight numbers per point). *)
Lemma table_split4_lane k rax rbx rcx rdx rinv rsq x5 x6 tsc (i : Z) :
  nb030_tsc k = splat tsc -> (0 <= i < 4)%Z ->
  let rt := lane4 rsq i * lane4 rinv i * tsc in
  let '(eps, eps2, _, _, _, _, idx) :=
    table_split4 k rax rbx rcx rdx rinv rsq x5 x6 in
  reg4 idx i = shl32 (cvtt rt) 3
  /\ lane4 eps i = rt - of_int (cvtt rt)
  /\ lane4 eps2 i = lane4 eps i * lane4 eps i.
Proof.
  intros Hk Hi. destruct k as [nt ktsc khf ktw kth]. simpl in Hk. subst ktsc.
  destruct rinv, rsq, x5, x6.
  destruct (lane_cases Hi) as [-> | [-> | [-> | ->]]];
    block_red; repeat split; reflexivity.
Qed.

(** Lines 392-426: the four numbers at the index are Y, F, G, H; the
    energy gains [c6 * VV], the force slot receives [c6 * FF]. *)
Lemma dispersion4_lane k c6 V eax ebx ecx edx eps eps2 x3 x5 x7 (i : Z) :
  nb030_two k = splat two -> (0 <= i < 4)%Z ->
  lane4 eps2 i = lane4 eps i * lane4 eps i ->
  let n := reg4 (eax, ebx, ecx, edx) i in
  let T := a_VFtab a in
  let '(fscal, V', _) :=
    dispersion4 a k c6 V eax ebx ecx edx eps eps2 x3 x5 x7 in
  lane4 V' i = lane4 V i + lane4 c6 i *
      Formula.spline_V (T n) (T (n + 1)%Z) (T (n + 2)%Z) (T (n + 3)%Z) (lane4 eps i)
  /\ lane4 fscal i = lane4 c6 i *
      Formula.spline_F (T (n + 1)%Z) (T (n + 2)%Z) (T (n + 3)%Z) (lane4 eps i).
Proof.
  intros Hk Hi He. destruct k as [nt ktsc khf ktw kth]. simpl in Hk. subst ktw.
  destruct c6, V, eps, eps2, x3, x5, x7.
  destruct (lane_cases Hi) as [-> | [-> | [-> | ->]]];
    revert He; block_red; intros ->;
    unfold Formula.spline_V, Formula.spline_F; rewrite two_eq;
    match goal with
    | |- context [(?n + 2 + 1)%Z] => replace (n + 2 + 1)%Z with (n + 3)%Z by lia
    end;
    split; ring.
Qed.

End Blocks.

(** The same with the index and the offset spelled out, for a
    non-negative scaled distance inside the table. *)
Lemma table_split4_index k rax rbx rcx rdx rinv rsq x5 x6 tsc (i : Z) :
  nb030_tsc k = splat tsc -> (0 <= i < 4)%Z ->
  let rt := lane4 rsq i * lane4 rinv i * tsc in
  0 <= rt -> (trunc rt < 2 ^ 28)%Z ->
  let '(eps, eps2, _, _, _, _, idx) :=
    table_split4 k rax rbx rcx rdx rinv rsq x5 x6 in
  reg4 idx i = (8 * trunc rt)%Z
  /\ lane4 eps i = rt - Q2Qc (inject_Z (trunc rt))
  /\ 0 <= lane4 eps i /\ lane4 eps i < 1
  /\ lane4 eps2 i = lane4 eps i * lane4 eps i.
Proof.
  intros Hk Hi rt H0 H1.
  generalize (table_split4_lane k rax rbx rcx rdx rinv rsq x5 x6 Hk Hi).
  destruct (table_split4 k rax rbx rcx rdx rinv rsq x5 x6)
    as [[[[[[eps eps2] ?] ?] ?] ?] idx].
  cbv beta iota zeta. fold rt. intros (Hidx & Heps & Heps2).
  destruct (@split_index rt 3 H0 H1) as (Hs & He & He0 & He1); [lia|].
  split; [rewrite Hidx; exact Hs|].
  split; [rewrite Heps; exact He|].
  split; [rewrite Heps; exact He0|].
  split; [rewrite Heps; exact He1|exact Heps2].
Qed.


(** *** The three loop bodies *)

Section Lane.
Variable rsqrt_approx : real -> real.
Variable a : args.
Variables nt is3 ii3 ntia : Z.
Variables tsc hf tw th : real.
Variables ix iy iz : real.

Section OneLane.
Variable j : Z.

Definition ln_c6i : Z := add32 (shl32 (ld32 (a_type a) j) 1) ntia.
Definition ln_c6 : real := a_vdwparam a ln_c6i.
Definition ln_c12 : real := a_vdwparam a (ln_c6i + 1)%Z.
Definition ln_j3 : Z := (j + j * 2)%Z.
Definition ln_dx : real := ix - a_pos a ln_j3.
Definition ln_dy : real := iy - a_pos a (ln_j3 + 1)%Z.
Definition ln_dz : real := iz - a_pos a (ln_j3 + 2)%Z.
Definition ln_rsq : real := ln_dx * ln_dx + ln_dy * ln_dy + ln_dz * ln_dz.
Definition ln_lu : real := rsqrt_approx ln_rsq.
Definition ln_rinv : real := hf * ((th - ln_lu * ln_lu * ln_rsq) * ln_lu).
Definition ln_rt : real := ln_rsq * ln_rinv * tsc.
Definition ln_n : Z := cvtt ln_rt.
Definition ln_eps : real := ln_rt - of_int ln_n.
Definition ln_eps2 : real := ln_eps * ln_eps.
Definition ln_idx : Z := shl32 ln_n 3.
Definition sp_Fp (F G H eps eps2 : real) : real := F + G * eps + H * eps2.
Definition sp_FF (F G H eps eps2 : real) : real :=
  H * eps2 * tw + G * eps + sp_Fp F G H eps eps2.
Definition sp_VV (Y F G H eps eps2 : real) : real := sp_Fp F G H eps eps2 * eps + Y.
Definition ln_VVd : real :=
  sp_VV (a_VFtab a ln_idx) (a_VFtab a (ln_idx + 1)%Z) (a_VFtab a (ln_idx + 2)%Z)
        (a_VFtab a (ln_idx + 2 + 1)%Z) ln_eps ln_eps2.
Definition ln_FFd : real :=
  sp_FF (a_VFtab a (ln_idx + 1)%Z) (a_VFtab a (ln_idx + 2)%Z)
        (a_VFtab a (ln_idx + 2 + 1)%Z) ln_eps ln_eps2.
Definition ln_VVr : real :=
  sp_VV (a_VFtab a (ln_idx + 4)%Z) (a_VFtab a (ln_idx + 4 + 1)%Z)
        (a_VFtab a (ln_idx + 6)%Z) (a_VFtab a (ln_idx + 6 + 1)%Z) ln_eps ln_eps2.
Definition ln_FFr : real :=
  sp_FF (a_VFtab a (ln_idx + 4 + 1)%Z) (a_VFtab a (ln_idx + 6)%Z)
        (a_VFtab a (ln_idx + 6 + 1)%Z) ln_eps ln_eps2.
Definition ln_V (V0 : real) : real := ln_VVr * ln_c12 + (ln_VVd * ln_c6 + V0).
Definition ln_fscal : real := 0 - (ln_FFr * ln_c12 + ln_FFd * ln_c6) * tsc * ln_rinv.
Definition ln_tx : real := ln_dx * ln_fscal.
Definition ln_ty : real := ln_dy * ln_fscal.
Definition ln_tz : real := ln_dz * ln_fscal.
End OneLane.

Ltac lane_red :=
  cbv beta iota zeta delta
    [dosingle dopair unroll_body updateouterdata calc_dr calc_rinv spline
     table_split4 dispersion4 update_forces4
     i_acc i_xmm i_faction nb030_innerjjnr nb030_innerk
     nb030_Vvdwtot nb030_fix nb030_fiy nb030_fiz
     nb030_is3 nb030_ii3 nb030_ntia nb030_ix nb030_iy nb030_iz
     nb030_ntype nb030_tsc nb030_half nb030_two nb030_three
     r0 r1 r2 r3 r4 r5 r6 r7 l0 l1 l2 l3 splat
     xorps_self addps subps mulps addss subss shufps movlhps movhlps
     unpcklps unpckhps movss movss_v movlps movhps addss_m movss_st movlps_st movhps_st
     rsqrtps cvttps2pi cvtpi2ps pslld psrlq32 movd fst snd lane4
     Z.land Z.shiftr Z.shiftl Pos.land Z.of_N Pos.div2 Z.div2 Pos.iter Z.opp Z.pos_sub
     Pos.pred_double Pos.succ Pos.Nsucc_double Pos.Ndouble
     ln_c6i ln_c6 ln_c12 ln_j3 ln_dx ln_dy ln_dz ln_rsq ln_lu ln_rinv ln_rt ln_n ln_eps ln_eps2
     ln_idx sp_Fp sp_FF sp_VV ln_VVd ln_FFd ln_VVr ln_FFr ln_V ln_fscal ln_tx ln_ty ln_tz
     sub_force].

Ltac split_inner s :=
  destruct s as [[[? ? ? ?] [? ? ? ?] [? ? ? ?] [? ? ? ?]] ? ? [? ? ? ? ? ? ? ?] ?].

Let k := Consts nt (splat tsc) (splat hf) (splat tw) (splat th).
Let e := Entry is3 ii3 ntia (splat ix) (splat iy) (splat iz).
Let V := ln_V.
Let tx := ln_tx.
Let ty := ln_ty.
Let tz := ln_tz.

(** [.nb030_dosingle]: lane 0 of every accumulator receives the one
    particle's contribution, the other lanes keep their value. *)
Lemma dosingle_spec s :
  let j := ld32 (a_jjnr a) (nb030_innerjjnr s) in
  let acc := i_acc s in
  dosingle rsqrt_approx a k e s =
  Inner (Accum (V4 (V j (l0 (nb030_Vvdwtot acc))) (l1 (nb030_Vvdwtot acc))
                   (l2 (nb030_Vvdwtot acc)) (l3 (nb030_Vvdwtot acc)))
               (addss (nb030_fix acc) (V4 (tx j) 0 0 0))
               (addss (nb030_fiy acc) (V4 (ty j) 0 0 0))
               (addss (nb030_fiz acc) (V4 (tz j) 0 0 0)))
        (nb030_innerjjnr s) (nb030_innerk s)
        (i_xmm (dosingle rsqrt_approx a k e s))
        (sub_force (i_faction s) (j + j * 2)%Z (tx j) (ty j) (tz j)).
Proof.
  split_inner s. subst k e V tx ty tz. lane_red. reflexivity.
Qed.

(** [.nb030_dopair]: lanes 0 and 1 receive the two particles'
    contributions; lanes 2 and 3 compute with whatever the registers held,
    multiplied by the zero coefficients [movlhps] put there. *)
Lemma dopair_spec s :
  let j0 := ld32 (a_jjnr a) (nb030_innerjjnr s) in
  let j1 := ld32 (a_jjnr a) (nb030_innerjjnr s + 1) in
  let acc := i_acc s in
  dopair rsqrt_approx a k e s =
  Inner (Accum (V4 (V j0 (l0 (nb030_Vvdwtot acc))) (V j1 (l1 (nb030_Vvdwtot acc)))
                   (l2 (nb030_Vvdwtot acc)) (l3 (nb030_Vvdwtot acc)))
               (addps (nb030_fix acc) (V4 (tx j0) (tx j1) 0 0))
               (addps (nb030_fiy acc) (V4 (ty j0) (ty j1) 0 0))
               (addps (nb030_fiz acc) (V4 (tz j0) (tz j1) 0 0)))
        (nb030_innerjjnr s + 2) (nb030_innerk s)
        (i_xmm (dopair rsqrt_approx a k e s))
        (sub_force (sub_force (i_faction s) (j0 + j0 * 2)%Z (tx j0) (ty j0) (tz j0))
                   (j1 + j1 * 2)%Z (tx j1) (ty j1) (tz j1)).
Proof.
  split_inner s. subst k e V tx ty tz.
  (apply inner_ext; [apply accum_ext; apply v4_ext | ..]).
  all: lane_red.
  1-2: reflexivity.
  1-2: zero_lane.
  1-2: reflexivity.
  1-2: zero_lane.
  1-2: reflexivity.
  1-2: zero_lane.
  1-2: reflexivity.
  1-2: zero_lane.
  all: reflexivity.
Qed.

(** One pass of [.nb030_unroll_loop]: four real lanes. *)
Lemma unroll_body_spec s :
  let j0 := ld32 (a_jjnr a) (nb030_innerjjnr s) in
  let j1 := ld32 (a_jjnr a) (nb030_innerjjnr s + 1) in
  let j2 := ld32 (a_jjnr a) (nb030_innerjjnr s + 2) in
  let j3 := ld32 (a_jjnr a) (nb030_innerjjnr s + 3) in
  let acc := i_acc s in
  let fs := V4 (ln_fscal j0) (ln_fscal j1) (ln_fscal j2) (ln_fscal j3) in
  let dx := V4 (ln_dx j0) (ln_dx j1) (ln_dx j2) (ln_dx j3) in
  let dy := V4 (ln_dy j0) (ln_dy j1) (ln_dy j2) (ln_dy j3) in
  let dz := V4 (ln_dz j0) (ln_dz j1) (ln_dz j2) (ln_dz j3) in
  unroll_body rsqrt_approx a k e s =
  Inner (Accum (V4 (V j0 (l0 (nb030_Vvdwtot acc))) (V j1 (l1 (nb030_Vvdwtot acc)))
                   (V j2 (l2 (nb030_Vvdwtot acc))) (V j3 (l3 (nb030_Vvdwtot acc))))
               (addps (nb030_fix acc) (V4 (tx j0) (tx j1) (tx j2) (tx j3)))
               (addps (nb030_fiy acc) (V4 (ty j0) (ty j1) (ty j2) (ty j3)))
               (addps (nb030_fiz acc) (V4 (tz j0) (tz j1) (tz j2) (tz j3))))
        (nb030_innerjjnr s + 4) (nb030_innerk s)
        (i_xmm (unroll_body rsqrt_approx a k e s))
        (snd (update_forces4 dx dy dz acc (nb030_Vvdwtot acc)
                (wrap (j0 + j0 * 2)) (wrap (j1 + j1 * 2))
                (wrap (j2 + j2 * 2)) (wrap (j3 + j3 * 2))
                fs xorps_self (i_faction s))).
Proof.
  split_inner s. subst k e V tx ty tz.
  (apply inner_ext; [apply accum_ext; apply v4_ext | ..]).
  all: lane_red.
  all: reflexivity.
Qed.

End Lane.

(** *** The inner loop, the tail and the flush *)

(** The back edge of [.nb030_unroll_loop] around an arbitrary body that
    advances the [jjnr] pointer by four and keeps the counter. *)
Section Loop.
Variable body : inner -> inner.
Variable touched : Z -> Z -> Prop.

Fixpoint loop4 (fuel : nat) (s : inner) : option inner :=
  match fuel with
  | O => None
  | S fuel' =>
      let s := body s in
      let fl := sub_flags (nb030_innerk s) 4 in
      let s := Inner (i_acc s) (nb030_innerjjnr s) (sub32 (nb030_innerk s) 4)
                     (i_xmm s) (i_faction s) in
      if cond_l fl then Some s else loop4 fuel' s
  end.

Definition clear (lo hi p : Z) : Prop :=
  forall q, (lo <= q < hi)%Z -> ~ touched q p.

Hypothesis body_innerk : forall s, nb030_innerk (body s) = nb030_innerk s.
Hypothesis body_innerjjnr :
  forall s, nb030_innerjjnr (body s) = (nb030_innerjjnr s + 4)%Z.
Hypothesis body_frame : forall s p,
  clear (nb030_innerjjnr s) (nb030_innerjjnr s + 4) p ->
  i_faction (body s) p = i_faction s p.

Lemma clear_sub lo hi lo' hi' p :
  (lo <= lo')%Z -> (hi' <= hi)%Z -> clear lo hi p -> clear lo' hi' p.
Proof. intros H1 H2 H q Hq. apply H. lia. Qed.

Lemma loop4_spec fuel : forall s,
  in_range (nb030_innerk s) ->
  (0 <= signed (nb030_innerk s) < 4 * Z.of_nat fuel)%Z ->
  exists s' m r,
    loop4 fuel s = Some s'
    /\ (0 < m)%Z /\ (0 <= r < 4)%Z
    /\ signed (nb030_innerk s) = (4 * (m - 1) + r)%Z
    /\ nb030_innerk s' = wrap (r - 4)
    /\ nb030_innerjjnr s' = (nb030_innerjjnr s + 4 * m)%Z
    /\ forall p, clear (nb030_innerjjnr s) (nb030_innerjjnr s + 4 * m) p ->
                 i_faction s' p = i_faction s p.
Proof.
  induction fuel as [|fuel IH]; intros s Hr HK; [lia|].
  cbn [loop4]. rewrite body_innerk, body_innerjjnr.
  assert (H4 : in_range 4) by (unfold in_range, modulus; lia).
  rewrite cond_l_sub by assumption.
  destruct (signed_nonneg Hr (proj1 HK)) as [Hs Hlt31].
  rewrite (signed_small (z := 4)) by lia.
  destruct (Z.ltb_spec (signed (nb030_innerk s)) 4) as [Hlt|Hge].
  - eexists. exists 1%Z, (signed (nb030_innerk s)).
    split; [reflexivity|]. cbn [nb030_innerk nb030_innerjjnr i_faction].
    repeat split; try lia.
    + unfold sub32. rewrite Hs. reflexivity.
    + intros p Hp. apply body_frame.
      eapply clear_sub; [| |exact Hp]; lia.
  - set (s2 := Inner _ _ _ _ _).
    assert (Hk2 : nb030_innerk s2 = (nb030_innerk s - 4)%Z).
    { subst s2. cbn [nb030_innerk]. unfold sub32. apply wrap_small.
      unfold in_range, modulus in Hr. lia. }
    destruct (IH s2) as (s' & m & r & Hrun & Hm & Hr' & HKr & Hk' & Hj' & Hf').
    + rewrite Hk2. unfold in_range, modulus in *. lia.
    + rewrite Hk2. rewrite signed_small; lia.
    + exists s', (m + 1)%Z, r. split; [exact Hrun|].
      assert (Hs2 : signed (nb030_innerk s2) = (signed (nb030_innerk s) - 4)%Z).
      { rewrite Hk2, Hs. apply signed_small. lia. }
      subst s2. cbn [nb030_innerjjnr i_faction] in *.
      repeat split; try lia.
      intros p Hp. rewrite Hf'.
      * apply body_frame. eapply clear_sub; [| |exact Hp]; lia.
      * eapply clear_sub; [| |exact Hp]; lia.
Qed.

End Loop.

Section Entry.
Variable rsqrt_approx : real -> real.
Variable a : args.
Variables nt is3 ii3 ntia : Z.
Variables tsc hf tw th : real.
Variables ix iy iz : real.

Let k := Consts nt (splat tsc) (splat hf) (splat tw) (splat th).
Let e := Entry is3 ii3 ntia (splat ix) (splat iy) (splat iz).

(** The elements of the force array that belong to the particle
    [jjnr[q]]: the unrolled loop addresses them through a 32-bit copy of
    [3*j], the tail through the 64-bit [lea]. *)
Definition j_slot (q p : Z) : Prop :=
  let j := ld32 (a_jjnr a) q in
  (j + j * 2 <= p <= j + j * 2 + 2
   \/ wrap (j + j * 2) <= p <= wrap (j + j * 2) + 2)%Z.

Definition untouched : Z -> Z -> Z -> Prop := clear j_slot.

Lemma untouched_sub lo hi lo' hi' p :
  (lo <= lo')%Z -> (hi' <= hi)%Z -> untouched lo hi p -> untouched lo' hi' p.
Proof. apply clear_sub. Qed.

Ltac not_slot H q :=
  let Hq := fresh in
  assert (Hq : ~ j_slot q _) by (apply H; lia);
  unfold j_slot in Hq; cbv zeta in Hq; lia.

Lemma unroll_body_frame s p :
  untouched (nb030_innerjjnr s) (nb030_innerjjnr s + 4) p ->
  i_faction (unroll_body rsqrt_approx a k e s) p = i_faction s p.
Proof.
  intros H. subst k e. rewrite unroll_body_spec. cbn [i_faction].
  apply update_forces4_frame.
  - not_slot H (nb030_innerjjnr s).
  - not_slot H (nb030_innerjjnr s + 1)%Z.
  - not_slot H (nb030_innerjjnr s + 2)%Z.
  - not_slot H (nb030_innerjjnr s + 3)%Z.
Qed.

Lemma unroll_body_innerk s :
  nb030_innerk (unroll_body rsqrt_approx a k e s) = nb030_innerk s.
Proof. subst k e. rewrite unroll_body_spec. reflexivity. Qed.

Lemma unroll_body_innerjjnr s :
  nb030_innerjjnr (unroll_body rsqrt_approx a k e s) = (nb030_innerjjnr s + 4)%Z.
Proof. subst k e. rewrite unroll_body_spec. reflexivity. Qed.

Lemma dopair_frame s p :
  untouched (nb030_innerjjnr s) (nb030_innerjjnr s + 2) p ->
  i_faction (dopair rsqrt_approx a k e s) p = i_faction s p.
Proof.
  intros H. subst k e. rewrite dopair_spec. cbn [i_faction].
  rewrite !sub_force_frame; [reflexivity | |].
  - not_slot H (nb030_innerjjnr s).
  - not_slot H (nb030_innerjjnr s + 1)%Z.
Qed.

Lemma dosingle_frame s p :
  untouched (nb030_innerjjnr s) (nb030_innerjjnr s + 1) p ->
  i_faction (dosingle rsqrt_approx a k e s) p = i_faction s p.
Proof.
  intros H. subst k e. rewrite dosingle_spec. cbn [i_faction].
  rewrite sub_force_frame; [reflexivity |].
  not_slot H (nb030_innerjjnr s).
Qed.

Lemma dopair_innerjjnr s :
  nb030_innerjjnr (dopair rsqrt_approx a k e s) = (nb030_innerjjnr s + 2)%Z.
Proof. subst k e. rewrite dopair_spec. reflexivity. Qed.

Lemma dopair_innerk s :
  nb030_innerk (dopair rsqrt_approx a k e s) = nb030_innerk s.
Proof. subst k e. rewrite dopair_spec. reflexivity. Qed.

Lemma unroll_loop_eq fuel : forall s,
  unroll_loop rsqrt_approx fuel a k e s =
  loop4 (unroll_body rsqrt_approx a k e) fuel s.
Proof.
  induction fuel as [|fuel IH]; intros s; [reflexivity|].
  cbn [unroll_loop loop4]. rewrite IH. reflexivity.
Qed.

(** The unrolled loop runs [m] passes and leaves a remainder [r] in
    [nb030_innerk]; it writes the force array at j particles only. *)
Lemma unroll_loop_spec fuel s :
  in_range (nb030_innerk s) ->
  (0 <= signed (nb030_innerk s) < 4 * Z.of_nat fuel)%Z ->
  exists s' m r,
    unroll_loop rsqrt_approx fuel a k e s = Some s'
    /\ (0 < m)%Z /\ (0 <= r < 4)%Z
    /\ signed (nb030_innerk s) = (4 * (m - 1) + r)%Z
    /\ nb030_innerk s' = wrap (r - 4)
    /\ nb030_innerjjnr s' = (nb030_innerjjnr s + 4 * m)%Z
    /\ forall p, untouched (nb030_innerjjnr s) (nb030_innerjjnr s + 4 * m) p ->
                 i_faction s' p = i_faction s p.
Proof.
  rewrite unroll_loop_eq.
  apply (@loop4_spec (unroll_body rsqrt_approx a k e) j_slot
           unroll_body_innerk unroll_body_innerjjnr unroll_body_frame).
Qed.

(** The tail: [r] is the remainder, [nb030_innerk] holds [r - 4] on
    arrival at [.nb030_finish_inner]. *)
Lemma finish_inner_spec s r :
  nb030_innerk s = wrap (r - 4) -> (0 <= r < 4)%Z ->
  finish_inner rsqrt_approx a k e s =
  let s0 := Inner (i_acc s) (nb030_innerjjnr s) r (i_xmm s) (i_faction s) in
  match r with
  | 0 => s0
  | 1 => dosingle rsqrt_approx a k e s0
  | 2 => dopair rsqrt_approx a k e s0
  | _ => dosingle rsqrt_approx a k e (dopair rsqrt_approx a k e s0)
  end%Z.
Proof.
  intros Hk Hr. unfold finish_inner. rewrite Hk. rewrite wrap_add_back by exact Hr.
  cbv zeta. cbn [nb030_innerk].
  assert (Hc : (r = 0 \/ r = 1 \/ r = 2 \/ r = 3)%Z) by lia.
  destruct Hc as [-> | [-> | [-> | ->]]]; cbn [and32 Z.land Pos.land Z.eqb Z.of_N];
    rewrite ?dopair_innerk; cbn [nb030_innerk and32 Z.land Pos.land Z.eqb Z.of_N];
    reflexivity.
Qed.

Lemma finish_inner_frame s r p :
  nb030_innerk s = wrap (r - 4) -> (0 <= r < 4)%Z ->
  untouched (nb030_innerjjnr s) (nb030_innerjjnr s + r) p ->
  i_faction (finish_inner rsqrt_approx a k e s) p = i_faction s p.
Proof.
  intros Hk Hr Hp. rewrite (finish_inner_spec s Hk Hr). cbv zeta.
  assert (Hc : (r = 0 \/ r = 1 \/ r = 2 \/ r = 3)%Z) by lia.
  destruct Hc as [-> | [-> | [-> | ->]]].
  - reflexivity.
  - rewrite dosingle_frame; [reflexivity|]. exact Hp.
  - rewrite dopair_frame; [reflexivity|]. exact Hp.
  - rewrite dosingle_frame.
    + rewrite dopair_frame; [reflexivity|].
      eapply untouched_sub; [| |exact Hp]; cbn [nb030_innerjjnr]; lia.
    + rewrite dopair_innerjjnr. cbn [nb030_innerjjnr].
      eapply untouched_sub; [| |exact Hp]; lia.
Qed.

(** [.nb030_updateouterdata]: the horizontal sums of the accumulators go to
    the i particle's slot, to the shift slot and to the energy slot. *)
Lemma updateouterdata_spec n s o :
  snd (updateouterdata a e n s o) =
  let acc := i_acc s in
  let Fx := hsum (nb030_fix acc) in
  let Fy := hsum (nb030_fiy acc) in
  let Fz := hsum (nb030_fiz acc) in
  let g := ld32 (a_gid a) n in
  Outputs (add_force (i_faction s) ii3 Fx Fy Fz)
          (add_force (o_fshift o) is3 Fx Fy Fz)
          (o_Vc o)
          (store (o_Vvdw o) g (hsum (nb030_Vvdwtot acc) + o_Vvdw o g)).
Proof.
  destruct s as [[[? ? ? ?] [? ? ? ?] [? ? ? ?] [? ? ? ?]] ? ? [? ? ? ? ? ? ? ?] ?].
  destruct o. reflexivity.
Qed.

End Entry.

(** *** One outer entry *)

(** What [.nb030_outer] computes for entry [esi]: the shift and particle
    offsets, the type row and the shifted position of the i particle. *)
Definition entry_of (a : args) (ntype esi : Z) : entry :=
  let sh := ld32 (a_shift a) esi in
  let ii := ld32 (a_iinr a) esi in
  let sh3 := (sh + sh * 2)%Z in
  let ii3 := (ii + ii * 2)%Z in
  Entry (wrap sh3) (wrap ii3) (shl32 (mul32 (ld32 (a_type a) ii) ntype) 1)
        (splat (a_shiftvec a sh3 + a_pos a ii3))
        (splat (a_shiftvec a (sh3 + 1)%Z + a_pos a (ii3 + 1)%Z))
        (splat (a_shiftvec a (sh3 + 2)%Z + a_pos a (ii3 + 2)%Z)).

(** First element of the entry's j list and the number of its elements. *)
Definition nj0 (a : args) (esi : Z) : Z := (shl32 (ld32 (a_jindex a) esi) 2 / 4)%Z.
Definition ninner_of (a : args) (esi : Z) : Z :=
  sub32 (ld32 (a_jindex a) (esi + 1)) (ld32 (a_jindex a) esi).

Definition zero_acc : accum := Accum xorps_self xorps_self xorps_self xorps_self.

Lemma add32_0_sub32 x y : add32 (sub32 x y) 0 = sub32 x y.
Proof.
  unfold add32, sub32, wrap. rewrite Z.add_0_r. apply Z.mod_mod.
  unfold modulus. lia.
Qed.

Lemma outer_setup_spec a k esi ninner x f :
  outer_setup a k esi ninner x f =
  (entry_of a (nb030_ntype k) esi,
   Inner zero_acc (nj0 a esi) (add32 (sub32 (ninner_of a esi) 4) 0)
         (i_xmm (snd (fst (fst (outer_setup a k esi ninner x f))))) f,
   add32 (ninner_of a esi) ninner,
   add_flags (sub32 (ninner_of a esi) 4) 0).
Proof. reflexivity. Qed.

Section OuterEntry.
Variable rsqrt_approx : real -> real.
Variable a : args.
Variable nt : Z.
Variables tsc hf tw th : real.

Let k := Consts nt (splat tsc) (splat hf) (splat tw) (splat th).

(** The state in which the entry reaches [.nb030_updateouterdata]. *)
Definition inner_result (fuel : nat) (esi : Z) (x : xmms) (f : fmem) : option inner :=
  let e := entry_of a nt esi in
  let s := snd (fst (fst (outer_setup a k esi 0 x f))) in
  match (if cond_ge (add_flags (sub32 (ninner_of a esi) 4) 0)
         then unroll_loop rsqrt_approx fuel a k e s else Some s) with
  | None => None
  | Some s => Some (finish_inner rsqrt_approx a k e s)
  end.

Lemma outer_entry_unfold fuel esi ninner x o :
  outer_entry rsqrt_approx fuel a k esi ninner x o =
  match inner_result fuel esi x (o_faction o) with
  | None => None
  | Some s =>
      Some (add32 (ninner_of a esi) ninner,
            fst (updateouterdata a (entry_of a nt esi) esi s o),
            snd (updateouterdata a (entry_of a nt esi) esi s o))
  end.
Proof.
  unfold outer_entry, inner_result.
  rewrite (outer_setup_spec a k esi ninner x (o_faction o)).
  rewrite (outer_setup_spec a k esi 0 x (o_faction o)).
  cbn [fst snd nb030_ntype k].
  destruct (cond_ge _).
  - destruct (unroll_loop _ _ _ _ _ _); [|reflexivity].
    destruct (updateouterdata _ _ _ _ _). reflexivity.
  - destruct (updateouterdata _ _ _ _ _). reflexivity.
Qed.

(** The inner loop of an entry with [N] j particles returns, and writes
    the force array at those particles only. *)
Lemma inner_result_spec fuel esi x f :
  let N := ninner_of a esi in
  (N < 2 ^ 31)%Z -> (N <= 4 * Z.of_nat fuel)%Z ->
  exists s,
    inner_result fuel esi x f = Some s
    /\ forall p, untouched a (nj0 a esi) (nj0 a esi + N) p -> i_faction s p = f p.
Proof.
  intros N HN Hfuel.
  assert (HNr : in_range N) by apply wrap_range.
  unfold inner_result. cbv zeta.
  rewrite (outer_setup_spec a k esi 0 x f). cbn [fst snd]. subst k.
  set (x' := i_xmm _).
  rewrite add32_0_sub32. fold N.
  assert (H4 : in_range (sub32 N 4)) by apply wrap_range.
  rewrite cond_ge_add0 by exact H4.
  unfold entry_of. cbv zeta.
  destruct (Z_lt_le_dec N 4) as [Hlt|Hge].
  - (* fewer than four: straight to the tail *)
    assert (Hs : signed (sub32 N 4) = (N - 4)%Z).
    { unfold sub32. apply signed_wrap_neg. unfold in_range in HNr. lia. }
    rewrite Hs. destruct (Z.leb_spec 0 (N - 4)); [lia|].
    eexists. split; [reflexivity|].
    intros p Hp.
    rewrite (@finish_inner_frame rsqrt_approx a nt _ _ _ tsc hf tw th _ _ _ _ N p).
    + reflexivity.
    + reflexivity.
    + unfold in_range in HNr. lia.
    + exact Hp.
  - assert (Hk : sub32 N 4 = (N - 4)%Z).
    { unfold sub32. apply wrap_small. lia. }
    assert (Hs : signed (sub32 N 4) = (N - 4)%Z).
    { rewrite Hk. apply signed_small. lia. }
    rewrite Hs. destruct (Z.leb_spec 0 (N - 4)); [|lia].
    match goal with
    | |- context [unroll_loop _ _ _ _
                    (Entry ?i1 ?i2 ?i3 (splat ?px) (splat ?py) (splat ?pz)) ?s] =>
        destruct (@unroll_loop_spec rsqrt_approx a nt i1 i2 i3 tsc hf tw th
                    px py pz fuel s)
          as (s' & m & r & Hrun & Hm & Hr & HK & Hk' & Hj' & Hf')
    end.
    + cbn [nb030_innerk]. exact H4.
    + cbn [nb030_innerk]. rewrite Hs. lia.
    + rewrite Hrun. eexists. split; [reflexivity|].
      cbn [nb030_innerk nb030_innerjjnr i_faction] in *.
      rewrite Hs in HK.
      intros p Hp.
      rewrite (@finish_inner_frame rsqrt_approx a nt _ _ _ tsc hf tw th _ _ _ s' r p).
      * apply Hf'. eapply untouched_sub; [| |exact Hp]; lia.
      * exact Hk'.
      * exact Hr.
      * rewrite Hj'. eapply untouched_sub; [| |exact Hp]; lia.
Qed.

End OuterEntry.

(** *** A reference evaluation, one pair at a time

    The reference follows the specification: the reciprocal distance by one
    Newton-Raphson step, the scaled distance split into index and offset,
    dispersion and repulsion from the two cubic splines at that index.
    The integer arithmetic of the indices is the kernel's. *)

Section Reference.
Variable rsqrt_approx : real -> real.
Variable a : args.
Variable ntia : Z.
Variables ix iy iz : real.

Record pair : Type := Pair { p_V : real; p_tx : real; p_ty : real; p_tz : real }.

Definition ref_pair (j : Z) : pair :=
  let tsc := a_tabscale a in
  let j3 := (3 * j)%Z in
  let dx := ix - a_pos a j3 in
  let dy := iy - a_pos a (j3 + 1)%Z in
  let dz := iz - a_pos a (j3 + 2)%Z in
  let rsq := dx * dx + dy * dy + dz * dz in
  let rinv := Formula.nr_step rsq (rsqrt_approx rsq) in
  let rt := rsq * rinv * tsc in
  let n := cvtt rt in
  let eps := rt - of_int n in
  let i := shl32 n 3 in
  let T := a_VFtab a in
  let tj := add32 (shl32 (ld32 (a_type a) j) 1) ntia in
  let c6 := a_vdwparam a tj in
  let c12 := a_vdwparam a (tj + 1)%Z in
  let VVd := Formula.spline_V (T i) (T (i + 1)%Z) (T (i + 2)%Z) (T (i + 3)%Z) eps in
  let FFd := Formula.spline_F (T (i + 1)%Z) (T (i + 2)%Z) (T (i + 3)%Z) eps in
  let VVr := Formula.spline_V (T (i + 4)%Z) (T (i + 5)%Z) (T (i + 6)%Z) (T (i + 7)%Z) eps in
  let FFr := Formula.spline_F (T (i + 5)%Z) (T (i + 6)%Z) (T (i + 7)%Z) eps in
  let fscal := - ((c6 * FFd + c12 * FFr) * tsc * rinv) in
  Pair (c6 * VVd + c12 * VVr) (fscal * dx) (fscal * dy) (fscal * dz).

(** Scalar running totals of one outer entry and the force array. *)
Record totals : Type := Totals {
  t_V : real; t_fx : real; t_fy : real; t_fz : real; t_faction : fmem
}.

Definition ref_step (t : totals) (j : Z) : totals :=
  let p := ref_pair j in
  Totals (t_V t + p_V p) (t_fx t + p_tx p) (t_fy t + p_ty p) (t_fz t + p_tz p)
         (sub_force (t_faction t) (3 * j)%Z (p_tx p) (p_ty p) (p_tz p)).

Definition ref_eval (js : list Z) (t : totals) : totals := fold_left ref_step js t.

(** What the entry's flush will see of an inner-loop state. *)
Definition totals_of (s : inner) : totals :=
  Totals (hsum (nb030_Vvdwtot (i_acc s))) (hsum (nb030_fix (i_acc s)))
         (hsum (nb030_fiy (i_acc s))) (hsum (nb030_fiz (i_acc s))) (i_faction s).

(** The [n] particles from position [p] of [jjnr]. *)
Definition j_list (p n : Z) : list Z :=
  map (fun q => ld32 (a_jjnr a) (p + Z.of_nat q)) (seq 0 (Z.to_nat n)).

Lemma totals_ext (u v : totals) :
  t_V u = t_V v -> t_fx u = t_fx v -> t_fy u = t_fy v -> t_fz u = t_fz v ->
  t_faction u = t_faction v -> u = v.
Proof. destruct u, v; simpl; intros; subst; reflexivity. Qed.

(** The lane arithmetic of the kernel against the reference. *)
Lemma lane_ref (j : Z) :
  let tsc := a_tabscale a in
  (forall V0, ln_V rsqrt_approx a ntia tsc half_bits three ix iy iz j V0
              = V0 + p_V (ref_pair j))
  /\ ln_tx rsqrt_approx a ntia tsc half_bits two three ix iy iz j = p_tx (ref_pair j)
  /\ ln_ty rsqrt_approx a ntia tsc half_bits two three ix iy iz j = p_ty (ref_pair j)
  /\ ln_tz rsqrt_approx a ntia tsc half_bits two three ix iy iz j = p_tz (ref_pair j).
Proof.
  cbv zeta.
  assert (Hrinv : ln_rinv rsqrt_approx a half_bits three ix iy iz j =
                  Formula.nr_step (ln_rsq a ix iy iz j)
                                  (rsqrt_approx (ln_rsq a ix iy iz j))).
  { unfold ln_rinv, ln_lu, Formula.nr_step. ring. }
  unfold ln_V, ln_tx, ln_ty, ln_tz, ln_fscal, ln_VVd, ln_VVr, ln_FFd, ln_FFr,
    ln_c6, ln_c12, ln_c6i, ln_eps2, ln_eps, ln_idx, ln_n, ln_rt.
  rewrite Hrinv.
  unfold ln_rsq, ln_dx, ln_dy, ln_dz, ln_j3, sp_VV, sp_FF, sp_Fp,
    ref_pair, p_V, p_tx, p_ty, p_tz, Formula.spline_V, Formula.spline_F.
  cbv zeta.
  replace (j + j * 2)%Z with (3 * j)%Z by lia.
  set (i := shl32 _ 3).
  replace (i + 2 + 1)%Z with (i + 3)%Z by lia.
  replace (i + 4 + 1)%Z with (i + 5)%Z by lia.
  replace (i + 6 + 1)%Z with (i + 7)%Z by lia.
  rewrite two_eq.
  repeat split; intros; ring.
Qed.

End Reference.

(** *** The tail against the reference *)

Lemma j_list_1 a p : j_list a p 1 = [ld32 (a_jjnr a) p].
Proof. unfold j_list. simpl. rewrite Z.add_0_r. reflexivity. Qed.

Lemma j_list_2 a p : j_list a p 2 = [ld32 (a_jjnr a) p; ld32 (a_jjnr a) (p + 1)].
Proof. unfold j_list. simpl. rewrite Z.add_0_r. reflexivity. Qed.

Lemma j_list_3 a p :
  j_list a p 3 = [ld32 (a_jjnr a) p; ld32 (a_jjnr a) (p + 1); ld32 (a_jjnr a) (p + 2)].
Proof. unfold j_list. simpl. rewrite Z.add_0_r. reflexivity. Qed.

Section Tail.
Variable rsqrt_approx : real -> real.
Variable a : args.
Variables is3 ii3 ntia : Z.
Variables ix iy iz : real.
Variable x0 : xmms.

Let k := fst (prologue a x0).
Let e := Entry is3 ii3 ntia (splat ix) (splat iy) (splat iz).

Ltac forget_xmm :=
  match goal with
  | |- context [i_xmm ?t] => generalize (i_xmm t); intro
  end.

Ltac use_lane j :=
  let HV := fresh "HV" in
  let Hx := fresh "Hx" in
  let Hy := fresh "Hy" in
  let Hz := fresh "Hz" in
  destruct (lane_ref rsqrt_approx a ntia ix iy iz j) as (HV & Hx & Hy & Hz);
  cbv zeta in HV, Hx, Hy, Hz;
  rewrite ?HV, ?Hx, ?Hy, ?Hz; clear HV Hx Hy Hz.

(** C7. Tail-path equivalence: when the unrolled loop leaves a remainder of
    [N] j particles, [1 <= N <= 3], the do-pair / do-single paths selected by
    bits 1 and 0 of [N] produce, in the horizontal sums of the accumulators
    and in the force array, exactly what [N] separate single-pair reference
    evaluations of those particles produce, in order, each particle once;
    this holds whatever the xmm registers and the upper accumulator lanes
    hold on entry. *)
Theorem tail_equivalence (s : inner) (N : Z) :
  (1 <= N <= 3)%Z -> nb030_innerk s = wrap (N - 4) ->
  totals_of (finish_inner rsqrt_approx a k e s) =
  ref_eval rsqrt_approx a ntia ix iy iz (j_list a (nb030_innerjjnr s) N) (totals_of s).
Proof.
  intros HN Hk. subst k e. rewrite prologue_consts.
  rewrite finish_inner_spec with (r := N); [| exact Hk | lia].
  cbv zeta.
  assert (Hc : (N = 1 \/ N = 2 \/ N = 3)%Z) by lia.
  destruct s as [[[V0 V1 V2 V3] [fx0 fx1 fx2 fx3] [fy0 fy1 fy2 fy3] [fz0 fz1 fz2 fz3]]
                   jp ik x f].
  cbn [nb030_innerjjnr i_acc i_xmm i_faction].
  destruct Hc as [-> | [-> | ->]].
  - rewrite dosingle_spec. cbv zeta. forget_xmm.
    rewrite j_list_1. cbn [nb030_innerjjnr i_acc i_faction nb030_Vvdwtot
                           nb030_fix nb030_fiy nb030_fiz].
    set (j := ld32 (a_jjnr a) jp).
    unfold ref_eval, ref_step, totals_of, hsum, addss.
    cbn [fold_left t_V t_fx t_fy t_fz t_faction i_acc i_faction nb030_Vvdwtot
         nb030_fix nb030_fiy nb030_fiz l0 l1 l2 l3].
    use_lane j. replace (j + j * 2)%Z with (3 * j)%Z by lia.
    apply totals_ext; cbn [t_V t_fx t_fy t_fz t_faction]; try ring. reflexivity.
  - rewrite dopair_spec. cbv zeta. forget_xmm.
    rewrite j_list_2. cbn [nb030_innerjjnr i_acc i_faction nb030_Vvdwtot
                           nb030_fix nb030_fiy nb030_fiz].
    set (j := ld32 (a_jjnr a) jp). set (j' := ld32 (a_jjnr a) (jp + 1)).
    unfold ref_eval, ref_step, totals_of, hsum, addps.
    cbn [fold_left t_V t_fx t_fy t_fz t_faction i_acc i_faction nb030_Vvdwtot
         nb030_fix nb030_fiy nb030_fiz l0 l1 l2 l3].
    use_lane j. use_lane j'.
    replace (j + j * 2)%Z with (3 * j)%Z by lia.
    replace (j' + j' * 2)%Z with (3 * j')%Z by lia.
    apply totals_ext; cbn [t_V t_fx t_fy t_fz t_faction]; try ring. reflexivity.
  - rewrite dosingle_spec. cbv zeta. forget_xmm.
    rewrite dopair_spec. cbv zeta. forget_xmm.
    rewrite j_list_3. cbn [nb030_innerjjnr i_acc i_faction nb030_Vvdwtot
                           nb030_fix nb030_fiy nb030_fiz].
    set (j := ld32 (a_jjnr a) jp). set (j' := ld32 (a_jjnr a) (jp + 1)).
    set (j'' := ld32 (a_jjnr a) (jp + 2)).
    unfold ref_eval, ref_step, totals_of, hsum, addps, addss.
    cbn [fold_left t_V t_fx t_fy t_fz t_faction i_acc i_faction nb030_Vvdwtot
         nb030_fix nb030_fiy nb030_fiz l0 l1 l2 l3].
    use_lane j. use_lane j'. use_lane j''.
    replace (j + j * 2)%Z with (3 * j)%Z by lia.
    replace (j' + j' * 2)%Z with (3 * j')%Z by lia.
    replace (j'' + j'' * 2)%Z with (3 * j'')%Z by lia.
    apply totals_ext; cbn [t_V t_fx t_fy t_fz t_faction]; try ring. reflexivity.
Qed.

End Tail.

(** *** Whole entries *)

Lemma hsum_zero : hsum xorps_self = 0.
Proof. apply Qc_is_canon. reflexivity. Qed.

Lemma add_force_zero f i p : add_force f i 0 0 0 p = f p.
Proof.
  unfold add_force, store.
  repeat match goal with
         | |- context [Z.eqb ?x ?y] => destruct (Z.eqb_spec x y); subst
         end; ring.
Qed.

Lemma store_zero (f : fmem) i p : store f i (0 + f i) p = f p.
Proof. unfold store. destruct (Z.eqb_spec p i); subst; ring. Qed.

Section Entries.
Variable rsqrt_approx : real -> real.
Variable a : args.
Variable x0 : xmms.

Let k := fst (prologue a x0).
Let nt := wrap (a_ntype a).
Let inner_of :=
  inner_result rsqrt_approx a nt (a_tabscale a) half_bits two three.

Lemma inner_result_empty fuel esi x f :
  ninner_of a esi = 0%Z ->
  exists x', inner_of fuel esi x f = Some (Inner zero_acc (nj0 a esi) 0 x' f).
Proof.
  intros HN. subst inner_of. unfold inner_result. cbv zeta.
  rewrite outer_setup_spec. cbn [fst snd]. rewrite HN.
  change (cond_ge (add_flags (sub32 0 4) 0)) with false. cbv iota.
  unfold entry_of. cbv zeta.
  rewrite finish_inner_spec with (r := 0%Z); [| reflexivity | lia].
  cbv zeta. cbn [i_acc nb030_innerjjnr i_xmm i_faction].
  eexists. reflexivity.
Qed.


(** C8. Zero-length inner range: an outer entry whose [jindex] range is
    empty returns (for any fuel) having added the zero vector to the i
    particle's force, the zero vector to the shift force and zero to the
    energy slot; every element of the force, shift-force and energy arrays
    keeps its value, and the Coulomb energies are not touched. *)
Theorem empty_entry (fuel : nat) (esi ninner : Z) (x : xmms) (o : outputs) :
  ld32 (a_jindex a) (esi + 1) = ld32 (a_jindex a) esi ->
  let e := entry_of a nt esi in
  let g := ld32 (a_gid a) esi in
  exists x' o',
    outer_entry rsqrt_approx fuel a k esi ninner x o = Some (wrap ninner, x', o')
    /\ o_faction o' = add_force (o_faction o) (nb030_ii3 e) 0 0 0
    /\ o_fshift o' = add_force (o_fshift o) (nb030_is3 e) 0 0 0
    /\ o_Vvdw o' = store (o_Vvdw o) g (0 + o_Vvdw o g)
    /\ o_Vc o' = o_Vc o
    /\ (forall p, o_faction o' p = o_faction o p)
    /\ (forall p, o_fshift o' p = o_fshift o p)
    /\ (forall p, o_Vvdw o' p = o_Vvdw o p).
Proof.
  intros Hj e g.
  assert (HN : ninner_of a esi = 0%Z).
  { unfold ninner_of. rewrite Hj. unfold sub32. rewrite Z.sub_diag. reflexivity. }
  destruct (inner_result_empty fuel esi x (o_faction o) HN) as [x' Hin].
  subst k inner_of nt. rewrite prologue_consts, outer_entry_unfold, Hin.
  unfold entry_of. cbv zeta. rewrite updateouterdata_spec. cbv zeta.
  cbn [i_acc i_faction zero_acc nb030_Vvdwtot nb030_fix nb030_fiy nb030_fiz snd].
  rewrite hsum_zero, HN.
  eexists. eexists. split; [|split; [|split; [|split; [|split; [|split; [|split]]]]]].
  - unfold add32. rewrite Z.add_0_l. reflexivity.
  - reflexivity.
  - reflexivity.
  - reflexivity.
  - reflexivity.
  - intros p. apply add_force_zero.
  - intros p. apply add_force_zero.
  - intros p. apply store_zero.
Qed.

(** C9. Per-outer-entry flush of the i force: an entry with [N] j particles
    (given enough fuel for [N/4] passes) returns; its inner loop ends in a
    state [s] whose force array differs from the entry's initial one at j
    particles only, and the entry's outputs are obtained from [s] by adding
    one and the same vector, the horizontal sums of the three force
    accumulators of [s], once to the i particle's slot of the force array and
    once to the entry's slot of the shift-force array, which nothing else in
    the entry writes. *)
Theorem iforce_flush (fuel : nat) (esi ninner : Z) (x : xmms) (o : outputs) :
  let N := ninner_of a esi in
  let e := entry_of a nt esi in
  (N < 2 ^ 31)%Z -> (N <= 4 * Z.of_nat fuel)%Z ->
  exists s x',
    inner_of fuel esi x (o_faction o) = Some s
    /\ (forall p, untouched a (nj0 a esi) (nj0 a esi + N) p ->
                  i_faction s p = o_faction o p)
    /\ let Fx := hsum (nb030_fix (i_acc s)) in
       let Fy := hsum (nb030_fiy (i_acc s)) in
       let Fz := hsum (nb030_fiz (i_acc s)) in
       let g := ld32 (a_gid a) esi in
       outer_entry rsqrt_approx fuel a k esi ninner x o =
       Some (add32 N ninner, x',
             Outputs (add_force (i_faction s) (nb030_ii3 e) Fx Fy Fz)
                     (add_force (o_fshift o) (nb030_is3 e) Fx Fy Fz)
                     (o_Vc o)
                     (store (o_Vvdw o) g
                            (hsum (nb030_Vvdwtot (i_acc s)) + o_Vvdw o g))).
Proof.
  intros N e HN Hfuel.
  destruct (@inner_result_spec rsqrt_approx a nt (a_tabscale a) half_bits two three
              fuel esi x (o_faction o) HN Hfuel) as (s & Hin & Hframe).
  exists s. eexists. split; [exact Hin|]. split; [exact Hframe|].
  cbv zeta. subst k inner_of nt.
  rewrite prologue_consts, outer_entry_unfold, Hin.
  unfold entry_of. cbv zeta. rewrite updateouterdata_spec. reflexivity.
Qed.


End Entries.

End NB030.

(** ** [nb_kernel312_x86_64_sse2]: tabulated Coulomb and Lennard-Jones,
    water-water, double precision *)

Module NB312.
Import W32 SSE Kernel.
Local Open Scope Z_scope.

(** Stack slots written once before the thread loop. *)
Record consts : Type := Consts {
  nb312_facel : real;
  nb312_tsc : v2;
  nb312_half : v2;
  nb312_two : v2;
  nb312_three : v2;
  nb312_six : v2;
  nb312_twelve : v2;
  nb312_qqOO : v2;
  nb312_qqOH : v2;
  nb312_qqHH : v2;
  nb312_c6 : v2;
  nb312_c12 : v2
}.

(** Lines 207-277: the table scale, the constants, and the charge products
    and Lennard-Jones parameters of the first water molecule. *)
Definition setup (a : args) : consts :=
  let xmm0 := movsd_v (a_facel a) in                (* movsd xmm0, [rsi] *)
  let nb312_facel := d0 xmm0 in
  let xmm3 := movsd_v (a_tabscale a) in
  let xmm3 := shufpd xmm3 xmm3 0 in
  let nb312_tsc := xmm3 in
  let xmm1 := movsd_v half_bits in
  let xmm1 := shufpd xmm1 xmm1 0 in
  let xmm3 := xmm1 in
  let xmm3 := addpd xmm3 xmm3 in                    (* one *)
  let xmm2 := xmm3 in
  let xmm2 := addpd xmm2 xmm2 in                    (* two *)
  let xmm3 := addpd xmm3 xmm2 in                    (* three *)
  let xmm4 := xmm3 in
  let xmm4 := addpd xmm4 xmm4 in                    (* six *)
  let xmm5 := xmm4 in
  let xmm5 := addpd xmm5 xmm5 in                    (* twelve *)
  let nb312_half := xmm1 in
  let nb312_two := xmm2 in
  let nb312_three := xmm3 in
  let nb312_six := xmm4 in
  let nb312_twelve := xmm5 in
  (* assume we have at least one i particle - start directly *)
  let ebx := ld32 (a_iinr a) 0 in                   (* ebx = ii *)
  let xmm3 := movsd (a_charge a) ebx in
  let xmm4 := movsd_rr xmm4 xmm3 in
  let xmm5 := movsd (a_charge a) (ebx + 1) in
  let xmm0 := movsd_v (a_facel a) in
  let xmm6 := movsd_v nb312_facel in
  let xmm3 := mulsd xmm3 xmm3 in
  let xmm4 := mulsd xmm4 xmm5 in
  let xmm5 := mulsd xmm5 xmm5 in
  let xmm3 := mulsd xmm3 xmm6 in
  let xmm4 := mulsd xmm4 xmm6 in
  let xmm5 := mulsd xmm5 xmm6 in
  let xmm3 := shufpd xmm3 xmm3 0 in
  let xmm4 := shufpd xmm4 xmm4 0 in
  let xmm5 := shufpd xmm5 xmm5 0 in
  let nb312_qqOO := xmm3 in
  let nb312_qqOH := xmm4 in
  let nb312_qqHH := xmm5 in
  let xmm0 := xorpd_self in
  let ecx := ld32 (a_type a) ebx in
  let ecx := shl32 ecx 1 in
  let edx := ecx in
  let ecx := mul32 ecx (wrap (a_ntype a)) in        (* imul ecx, [rdi] *)
  let edx := add32 edx ecx in
  let xmm0 := movlpd xmm0 (a_vdwparam a) edx in
  let xmm1 := movlpd xmm1 (a_vdwparam a) (edx + 1) in
  let xmm0 := shufpd xmm0 xmm0 0 in
  let xmm1 := shufpd xmm1 xmm1 0 in
  let nb312_c6 := xmm0 in
  let nb312_c12 := xmm1 in
  Consts nb312_facel nb312_tsc nb312_half nb312_two nb312_three nb312_six
         nb312_twelve nb312_qqOO nb312_qqOH nb312_qqHH nb312_c6 nb312_c12.

(** Lines 767-783: the scaled O-O distance split into table index and
    offset.  [rax], [rbx] hold [3*j] of the two j molecules and move to
    [mm0], [mm1].  Returns [xmm0] (rinv), [xmm1] (eps), [xmm2] (eps2),
    [xmm6], [mm0], [mm1] and the indices [eax], [ebx]. *)
Definition oo_split (k : consts) (nb312_rinvOO nb312_rsqOO : v2) (rax rbx : Z)
    : v2 * v2 * v2 * v2 * (Z * Z) * (Z * Z) :=
  let xmm0 := nb312_rinvOO in
  let xmm1 := xmm0 in
  let xmm1 := mulpd xmm1 nb312_rsqOO in             (* xmm1=r *)
  let xmm1 := mulpd xmm1 (nb312_tsc k) in
  let mm6 := cvttpd2pi xmm1 in                      (* mm6 = lu idx *)
  let xmm6 := cvtpi2pd mm6 in
  let xmm1 := subpd xmm1 xmm6 in                    (* xmm1=eps *)
  let xmm2 := xmm1 in
  let xmm2 := mulpd xmm2 xmm2 in                    (* xmm2=eps2 *)
  let mm6 := pslld mm6 2 in                         (* idx *= 4 *)
  let mm0 := wrap rax in                            (* movd mm0, eax *)
  let mm1 := wrap rbx in
  let eax := movd mm6 in
  let mm6 := psrlq32 mm6 in
  let ebx := movd mm6 in                            (* indices in eax/ebx *)
  (xmm0, xmm1, xmm2, xmm6, (mm0, mm1), (eax, ebx)).

(** Lines 785-796: the four table numbers of each lane, transposed into
    [xmm4] (Y), [xmm5] (F), [xmm6] (G), [xmm7] (H). *)
Definition oo_table (VFtab : fmem) (eax ebx : Z) : v2 * v2 * v2 * v2 :=
  let xmm4 := movapd_ld VFtab eax in                (* Y1 F1 *)
  let xmm3 := movapd_ld VFtab ebx in                (* Y2 F2 *)
  let xmm5 := xmm4 in
  let xmm4 := unpcklpd xmm4 xmm3 in                 (* Y1 Y2 *)
  let xmm5 := unpckhpd xmm5 xmm3 in                 (* F1 F2 *)
  let xmm6 := movapd_ld VFtab (eax + 2) in          (* G1 H1 *)
  let xmm3 := movapd_ld VFtab (ebx + 2) in          (* G2 H2 *)
  let xmm7 := xmm6 in
  let xmm6 := unpcklpd xmm6 xmm3 in                 (* G1 G2 *)
  let xmm7 := unpckhpd xmm7 xmm3 in                 (* H1 H2 *)
  (xmm4, xmm5, xmm6, xmm7).

(** Lines 797-816: the spline, the Coulomb energy and the table force.
    Returns the slot [nb312_vctot] and [xmm3] (fijC times tabscale). *)
Definition oo_coulomb (k : consts) (nb312_vctot : v2)
    (xmm1 xmm2 xmm4 xmm5 xmm6 xmm7 : v2) : v2 * v2 :=
  let xmm6 := mulpd xmm6 xmm1 in                    (* xmm6=Geps *)
  let xmm7 := mulpd xmm7 xmm2 in                    (* xmm7=Heps2 *)
  let xmm5 := addpd xmm5 xmm6 in
  let xmm5 := addpd xmm5 xmm7 in                    (* xmm5=Fp *)
  let xmm7 := mulpd xmm7 (nb312_two k) in           (* two*Heps2 *)
  let xmm3 := nb312_qqOO k in
  let xmm7 := addpd xmm7 xmm6 in
  let xmm7 := addpd xmm7 xmm5 in                    (* xmm7=FF *)
  let xmm5 := mulpd xmm5 xmm1 in                    (* xmm5=eps*Fp *)
  let xmm5 := addpd xmm5 xmm4 in                    (* xmm5=VV *)
  let xmm5 := mulpd xmm5 xmm3 in                    (* vcoul=qq*VV *)
  let xmm3 := mulpd xmm3 xmm7 in                    (* fijC=FF*qq *)
  let xmm5 := addpd xmm5 nb312_vctot in
  let xmm2 := xorpd_self in
  let nb312_vctot := xmm5 in
  let xmm3 := mulpd xmm3 (nb312_tsc k) in
  (nb312_vctot, xmm3).

(** Lines 818-838: Lennard-Jones from [xmm0] (rinv), and the scalar force
    with the table force [xmm3] taken off.  Returns the slot
    [nb312_Vvdwtot] and [xmm0] (fscal). *)
Definition oo_lj (k : consts) (nb312_Vvdwtot : v2) (xmm0 xmm3 : v2) : v2 * v2 :=
  let xmm2 := xmm0 in
  let xmm2 := mulpd xmm2 xmm2 in
  let xmm1 := xmm2 in
  let xmm1 := mulpd xmm1 xmm2 in
  let xmm1 := mulpd xmm1 xmm2 in                    (* xmm1=rinvsix *)
  let xmm2 := xmm1 in
  let xmm2 := mulpd xmm2 xmm2 in                    (* xmm2=rinvtwelve *)
  let xmm1 := mulpd xmm1 (nb312_c6 k) in
  let xmm2 := mulpd xmm2 (nb312_c12 k) in
  let xmm4 := xmm2 in
  let xmm4 := subpd xmm4 xmm1 in
  let xmm4 := addpd xmm4 nb312_Vvdwtot in
  let xmm1 := mulpd xmm1 (nb312_six k) in
  let xmm2 := mulpd xmm2 (nb312_twelve k) in
  let nb312_Vvdwtot := xmm4 in
  let xmm2 := subpd xmm2 xmm1 in
  let xmm2 := mulpd xmm2 xmm0 in
  let xmm2 := subpd xmm2 xmm3 in
  let xmm0 := mulpd xmm0 xmm2 in
  (nb312_Vvdwtot, xmm0).

(** The force slots of the O site of the i molecule and of the O site of
    the two j molecules. *)
Record oforce : Type := OForce {
  fixO : v2; fiyO : v2; fizO : v2;
  fjxO : v2; fjyO : v2; fjzO : v2
}.

(** Lines 840-860: the O-O force; [xmm0] holds the scalar force. *)
Definition oo_force (nb312_dxOO nb312_dyOO nb312_dzOO : v2)
    (nb312_fixO nb312_fiyO nb312_fizO : v2) (xmm0 : v2) : oforce :=
  let xmm1 := xmm0 in
  let xmm2 := xmm0 in
  let xmm3 := xorpd_self in
  let xmm4 := xmm3 in
  let xmm5 := xmm3 in
  let xmm0 := mulpd xmm0 nb312_dxOO in
  let xmm1 := mulpd xmm1 nb312_dyOO in
  let xmm2 := mulpd xmm2 nb312_dzOO in
  let xmm3 := subpd xmm3 xmm0 in
  let xmm4 := subpd xmm4 xmm1 in
  let xmm5 := subpd xmm5 xmm2 in
  let xmm0 := addpd xmm0 nb312_fixO in
  let xmm1 := addpd xmm1 nb312_fiyO in
  let xmm2 := addpd xmm2 nb312_fizO in
  let nb312_fjxO := xmm3 in
  let nb312_fjyO := xmm4 in
  let nb312_fjzO := xmm5 in
  let nb312_fixO := xmm0 in
  let nb312_fiyO := xmm1 in
  let nb312_fizO := xmm2 in
  OForce nb312_fixO nb312_fiyO nb312_fizO nb312_fjxO nb312_fjyO nb312_fjzO.

(** Lines 767-860: the whole O-O interaction of the unrolled loop.  The
    xmm registers are dead at its end. *)
Definition interaction_OO (VFtab : fmem) (k : consts)
    (nb312_rinvOO nb312_rsqOO nb312_dxOO nb312_dyOO nb312_dzOO : v2)
    (nb312_vctot nb312_Vvdwtot nb312_fixO nb312_fiyO nb312_fizO : v2)
    (rax rbx : Z) : v2 * v2 * oforce * (Z * Z) :=
  let '(xmm0, xmm1, xmm2, xmm6, (mm0, mm1), (eax, ebx)) :=
    oo_split k nb312_rinvOO nb312_rsqOO rax rbx in
  let '(xmm4, xmm5, xmm6, xmm7) := oo_table VFtab eax ebx in
  let '(nb312_vctot, xmm3) :=
    oo_coulomb k nb312_vctot xmm1 xmm2 xmm4 xmm5 xmm6 xmm7 in
  let '(nb312_Vvdwtot, xmm0) := oo_lj k nb312_Vvdwtot xmm0 xmm3 in
  (nb312_vctot, nb312_Vvdwtot,
   oo_force nb312_dxOO nb312_dyOO nb312_dzOO nb312_fixO nb312_fiyO nb312_fizO xmm0,
   (mm0, mm1)).


Local Open Scope Qc_scope.

(** *** Block specifications *)

Ltac block_red :=
  cbv beta iota zeta delta
    [setup oo_split oo_table oo_coulomb oo_lj oo_force interaction_OO reg2
     nb312_facel nb312_tsc nb312_half nb312_two nb312_three nb312_six
     nb312_twelve nb312_qqOO nb312_qqOH nb312_qqHH nb312_c6 nb312_c12
     fixO fiyO fizO fjxO fjyO fjzO
     d0 d1 splat2 xorpd_self addpd subpd mulpd addsd subsd mulsd
     unpcklpd unpckhpd shufpd movsd movsd_v movsd_rr movlpd movhpd movapd_ld
     cvttpd2pi cvtpi2pd pslld psrlq32 movd fst snd lane2
     Z.land Z.shiftr Z.shiftl Pos.land Z.of_N Pos.div2 Z.div2 Pos.iter Z.opp Z.pos_sub
     Pos.pred_double Pos.succ Pos.Nsucc_double Pos.Ndouble].

(** Lines 207-277 leave these values on the stack. *)
Lemma nb312_setup_spec (a : args) :
  let ii := first_particle a in
  let qO := a_charge a ii in
  let qH := a_charge a (ii + 1)%Z in
  setup a =
  Consts (a_facel a) (splat2 (a_tabscale a)) (splat2 half_bits) (splat2 two)
         (splat2 three) (splat2 (three + three))
         (splat2 (three + three + (three + three)))
         (splat2 (qO * qO * a_facel a)) (splat2 (qO * qH * a_facel a))
         (splat2 (qH * qH * a_facel a))
         (splat2 (a_vdwparam a (vdw_index a)))
         (splat2 (a_vdwparam a (vdw_index a + 1)%Z)).
Proof. reflexivity. Qed.

(** Lines 767-783: lane [i] of [r*tabscale] is split into the truncated
    integer and the remainder; the index register holds the integer times
    four (the table has four numbers per point). *)
Lemma oo_split_lane k rinv rsq rax rbx tsc (i : Z) :
  nb312_tsc k = splat2 tsc -> (0 <= i < 2)%Z ->
  let rt := lane2 rinv i * lane2 rsq i * tsc in
  let '(xmm0, eps, eps2, _, _, idx) := oo_split k rinv rsq rax rbx in
  xmm0 = rinv
  /\ reg2 idx i = shl32 (cvtt rt) 2
  /\ lane2 eps i = rt - of_int (cvtt rt)
  /\ lane2 eps2 i = lane2 eps i * lane2 eps i.
Proof.
  intros Hk Hi. destruct k. simpl in Hk. subst.
  destruct rinv, rsq.
  destruct (lane2_cases Hi) as [-> | ->]; block_red; repeat split; reflexivity.
Qed.

Lemma oo_split_index k rinv rsq rax rbx tsc (i : Z) :
  nb312_tsc k = splat2 tsc -> (0 <= i < 2)%Z ->
  let rt := lane2 rinv i * lane2 rsq i * tsc in
  0 <= rt -> (trunc rt < 2 ^ 28)%Z ->
  let '(_, eps, eps2, _, _, idx) := oo_split k rinv rsq rax rbx in
  reg2 idx i = (4 * trunc rt)%Z
  /\ lane2 eps i = rt - Q2Qc (inject_Z (trunc rt))
  /\ 0 <= lane2 eps i /\ lane2 eps i < 1
  /\ lane2 eps2 i = lane2 eps i * lane2 eps i.
Proof.
  intros Hk Hi rt H0 H1.
  generalize (oo_split_lane k rinv rsq rax rbx Hk Hi).
  destruct (oo_split k rinv rsq rax rbx) as [[[[[? eps] eps2] ?] ?] idx].
  cbv beta iota zeta. fold rt. intros (_ & Hidx & Heps & Heps2).
  destruct (@split_index rt 2 H0 H1) as (Hs & He & He0 & He1); [lia|].
  split; [rewrite Hidx; exact Hs|].
  split; [rewrite Heps; exact He|].
  split; [rewrite Heps; exact He0|].
  split; [rewrite Heps; exact He1|exact Heps2].
Qed.

(** Lines 785-796: lane [i] of [xmm4]-[xmm7] holds the four numbers at
    lane [i]'s index. *)
Lemma oo_table_lane T eax ebx (i : Z) :
  (0 <= i < 2)%Z ->
  let n := reg2 (eax, ebx) i in
  let '(Y, F, G, H) := oo_table T eax ebx in
  lane2 Y i = T n /\ lane2 F i = T (n + 1)%Z
  /\ lane2 G i = T (n + 2)%Z /\ lane2 H i = T (n + 3)%Z.
Proof.
  intros Hi.
  destruct (lane2_cases Hi) as [-> | ->]; block_red;
    match goal with
    | |- context [(?n + 2 + 1)%Z] => replace (n + 2 + 1)%Z with (n + 3)%Z by lia
    end; repeat split; reflexivity.
Qed.

(** Lines 797-816: the energy gains [qq * VV]; [xmm3] receives
    [qq * FF * tabscale]. *)
Lemma oo_coulomb_lane k vctot eps eps2 Y F G H tsc qq (i : Z) :
  nb312_tsc k = splat2 tsc -> nb312_two k = splat2 two ->
  nb312_qqOO k = splat2 qq -> (0 <= i < 2)%Z ->
  lane2 eps2 i = lane2 eps i * lane2 eps i ->
  let '(vctot', fijC) := oo_coulomb k vctot eps eps2 Y F G H in
  lane2 vctot' i = lane2 vctot i +
      qq * Formula.spline_V (lane2 Y i) (lane2 F i) (lane2 G i) (lane2 H i) (lane2 eps i)
  /\ lane2 fijC i =
      qq * Formula.spline_F (lane2 F i) (lane2 G i) (lane2 H i) (lane2 eps i) * tsc.
Proof.
  intros Ht Hw Hq Hi. destruct k. simpl in Ht, Hw, Hq. subst.
  destruct vctot, eps, eps2, Y, F, G, H.
  destruct (lane2_cases Hi) as [-> | ->]; block_red; intros ->;
    unfold Formula.spline_V, Formula.spline_F; rewrite two_eq; split; ring.
Qed.

(** Lines 818-838: Lennard-Jones by repeated multiplication. *)
Lemma oo_lj_lane k Vvdwtot rinv fijC c6 c12 (i : Z) :
  nb312_c6 k = splat2 c6 -> nb312_c12 k = splat2 c12 ->
  nb312_six k = splat2 (three + three) ->
  nb312_twelve k = splat2 (three + three + (three + three)) ->
  (0 <= i < 2)%Z ->
  let '(Vvdwtot', fscal) := oo_lj k Vvdwtot rinv fijC in
  lane2 Vvdwtot' i = lane2 Vvdwtot i + Formula.lj_V c6 c12 (lane2 rinv i)
  /\ lane2 fscal i =
     Formula.lj_F c6 c12 (lane2 rinv i) - lane2 fijC i * lane2 rinv i.
Proof.
  intros H6 H12 Hs Ht Hi. destruct k. simpl in H6, H12, Hs, Ht. subst.
  destruct Vvdwtot, rinv, fijC.
  destruct (lane2_cases Hi) as [-> | ->]; block_red;
    unfold Formula.lj_V, Formula.lj_F; cbn [Qcpower]; rewrite <- Formula.six_eq, <- Formula.twelve_eq;
    split; ring.
Qed.




End NB312.

(** ** [nb_kernel232_x86_64_sse2]: reaction-field Coulomb and tabulated
    Lennard-Jones, water-water, double precision *)

Module NB232.
Import W32 SSE Kernel.
Local Open Scope Z_scope.

(** Stack slots written once before the thread loop. *)
Record consts : Type := Consts {
  nb232_facel : real;
  nb232_tsc : v2;
  nb232_krf : v2;
  nb232_crf : v2;
  nb232_half : v2;
  nb232_two : v2;
  nb232_three : v2;
  nb232_qqOO : v2;
  nb232_qqOH : v2;
  nb232_qqHH : v2;
  nb232_c6 : v2;
  nb232_c12 : v2
}.

(** Lines 207-278: the table scale, the reaction-field constants, the
    numeric constants, and the charge products and Lennard-Jones parameters
    of the first water molecule.  [xmm4] is read ([movsd xmm4, xmm3] keeps
    its upper lane) before the kernel has written it. *)
Definition setup (a : args) (xmm4 : v2) : consts :=
  let xmm0 := movsd_v (a_facel a) in                (* movsd xmm0, [rsi] *)
  let nb232_facel := d0 xmm0 in
  let xmm3 := movsd_v (a_tabscale a) in
  let xmm3 := shufpd xmm3 xmm3 0 in
  let nb232_tsc := xmm3 in
  let xmm1 := movsd_v (a_krf a) in
  let xmm2 := movsd_v (a_crf a) in
  let xmm1 := shufpd xmm1 xmm1 0 in
  let xmm2 := shufpd xmm2 xmm2 0 in
  let nb232_krf := xmm1 in
  let nb232_crf := xmm2 in
  let xmm1 := movsd_v half_bits in
  let xmm1 := shufpd xmm1 xmm1 0 in
  let xmm3 := xmm1 in
  let xmm3 := addpd xmm3 xmm3 in                    (* one *)
  let xmm2 := xmm3 in
  let xmm2 := addpd xmm2 xmm2 in                    (* two *)
  let xmm3 := addpd xmm3 xmm2 in                    (* three *)
  let nb232_half := xmm1 in
  let nb232_two := xmm2 in
  let nb232_three := xmm3 in
  (* assume we have at least one i particle - start directly *)
  let ebx := ld32 (a_iinr a) 0 in                   (* ebx = ii *)
  let xmm3 := movsd (a_charge a) ebx in
  let xmm4 := movsd_rr xmm4 xmm3 in
  let xmm5 := movsd (a_charge a) (ebx + 1) in
  let xmm6 := movsd_v nb232_facel in
  let xmm3 := mulsd xmm3 xmm3 in
  let xmm4 := mulsd xmm4 xmm5 in
  let xmm5 := mulsd xmm5 xmm5 in
  let xmm3 := mulsd xmm3 xmm6 in
  let xmm4 := mulsd xmm4 xmm6 in
  let xmm5 := mulsd xmm5 xmm6 in
  let xmm3 := shufpd xmm3 xmm3 0 in
  let xmm4 := shufpd xmm4 xmm4 0 in
  let xmm5 := shufpd xmm5 xmm5 0 in
  let nb232_qqOO := xmm3 in
  let nb232_qqOH := xmm4 in
  let nb232_qqHH := xmm5 in
  let xmm0 := xorpd_self in
  let ecx := ld32 (a_type a) ebx in
  let ecx := shl32 ecx 1 in
  let edx := ecx in
  let ecx := mul32 ecx (wrap (a_ntype a)) in        (* imul ecx, [rdi] *)
  let edx := add32 edx ecx in
  let xmm0 := movlpd xmm0 (a_vdwparam a) edx in
  let xmm1 := movlpd xmm1 (a_vdwparam a) (edx + 1) in
  let xmm0 := shufpd xmm0 xmm0 0 in
  let xmm1 := shufpd xmm1 xmm1 0 in
  let nb232_c6 := xmm0 in
  let nb232_c12 := xmm1 in
  Consts nb232_facel nb232_tsc nb232_krf nb232_crf nb232_half nb232_two
         nb232_three nb232_qqOO nb232_qqOH nb232_qqHH nb232_c6 nb232_c12.

Section Code.

(** The hardware approximation behind [rsqrtps] and the rounding of
    [cvtpd2ps]. *)
Variable rsqrt_approx : real -> real.
Variable to_single : real -> real.

Definition rsqrtps (s : v4) : v4 :=
  V4 (rsqrt_approx (l0 s)) (rsqrt_approx (l1 s))
     (rsqrt_approx (l2 s)) (rsqrt_approx (l3 s)).

(** Lines 583-618: the reciprocal square roots of [xmm0] and [xmm4]
    (the H2-H2 and H2-H1 squared distances).  Returns [xmm1] and [xmm5]. *)
Definition calc_rinv (k : consts) (xmm0 xmm4 : v2) : v2 * v2 :=
  let xmm1 := cvtpd2ps to_single xmm0 in
  let xmm5 := cvtpd2ps to_single xmm4 in
  let xmm1 := rsqrtps xmm1 in
  let xmm5 := rsqrtps xmm5 in
  let xmm1 := cvtps2pd xmm1 in
  let xmm5 := cvtps2pd xmm5 in
  let xmm2 := xmm1 in                               (* copy of luA *)
  let xmm6 := xmm5 in                               (* copy of luB *)
  let xmm1 := mulpd xmm1 xmm1 in                    (* luA*luA *)
  let xmm5 := mulpd xmm5 xmm5 in                    (* luB*luB *)
  let xmm3 := nb232_three k in
  let xmm1 := mulpd xmm1 xmm0 in                    (* rsqA*luA*luA *)
  let xmm5 := mulpd xmm5 xmm4 in                    (* rsqB*luB*luB *)
  let xmm7 := xmm3 in
  let xmm3 := subpd xmm3 xmm1 in                    (* 3-rsqA*luA*luA *)
  let xmm7 := subpd xmm7 xmm5 in                    (* 3-rsqB*luB*luB *)
  let xmm3 := mulpd xmm3 xmm2 in                    (* luA*(3-rsqA*luA*luA) *)
  let xmm7 := mulpd xmm7 xmm6 in                    (* luB*(3-rsqB*luB*luB) *)
  let xmm3 := mulpd xmm3 (nb232_half k) in          (* iter1 *)
  let xmm7 := mulpd xmm7 (nb232_half k) in          (* iter1 *)
  let xmm2 := xmm3 in                               (* copy of luA *)
  let xmm6 := xmm7 in                               (* copy of luB *)
  let xmm3 := mulpd xmm3 xmm3 in                    (* luA*luA *)
  let xmm7 := mulpd xmm7 xmm7 in                    (* luB*luB *)
  let xmm1 := nb232_three k in
  let xmm3 := mulpd xmm3 xmm0 in                    (* rsqA*luA*luA *)
  let xmm7 := mulpd xmm7 xmm4 in                    (* rsqB*luB*luB *)
  let xmm5 := xmm1 in
  let xmm1 := subpd xmm1 xmm3 in                    (* 3-rsqA*luA*luA *)
  let xmm5 := subpd xmm5 xmm7 in                    (* 3-rsqB*luB*luB *)
  let xmm1 := mulpd xmm1 xmm2 in                    (* luA*(3-rsqA*luA*luA) *)
  let xmm5 := mulpd xmm5 xmm6 in                    (* luB*(3-rsqB*luB*luB) *)
  let xmm1 := mulpd xmm1 (nb232_half k) in          (* rinv *)
  let xmm5 := mulpd xmm5 (nb232_half k) in          (* rinv *)
  (xmm1, xmm5).

End Code.

(** Lines 768-783: reaction-field energy and force of the O-O pair.
    Returns the slots [nb232_vctot], [nb232_fstmp] and [xmm0] (rinv). *)
Definition oo_rf (k : consts) (nb232_rinvOO nb232_rsqOO nb232_vctot : v2)
    : v2 * v2 * v2 :=
  let xmm0 := nb232_rinvOO in
  let xmm7 := xmm0 in                               (* xmm7=rinv *)
  let xmm5 := nb232_krf k in
  let xmm5 := mulpd xmm5 nb232_rsqOO in             (* xmm5=krsq *)
  let xmm6 := xmm5 in
  let xmm6 := addpd xmm6 xmm7 in                    (* xmm6=rinv+ krsq *)
  let xmm6 := subpd xmm6 (nb232_crf k) in           (* rinv+krsq-crf *)
  let xmm6 := mulpd xmm6 (nb232_qqOO k) in          (* voul=qq*(rinv+ krsq-crf) *)
  let xmm5 := mulpd xmm5 (nb232_two k) in           (* 2*krsq *)
  let xmm7 := subpd xmm7 xmm5 in                    (* xmm7=rinv-2*krsq *)
  let xmm7 := mulpd xmm7 (nb232_qqOO k) in          (* xmm7 = qq*(rinv-2*krsq) *)
  let xmm7 := mulpd xmm7 xmm0 in
  let xmm6 := addpd xmm6 nb232_vctot in
  let nb232_vctot := xmm6 in
  let nb232_fstmp := xmm7 in
  (nb232_vctot, nb232_fstmp, xmm0).

(** Lines 825-833 (and 867-875): the cubic spline from the coefficients
    Y, F, G, H in [xmm4]-[xmm7], eps in [xmm1] and eps2 in [xmm2].  Returns
    [xmm5] (VV), [xmm6] (Geps), [xmm7] (FF). *)
Definition spline (k : consts) (xmm1 xmm2 xmm4 xmm5 xmm6 xmm7 : v2)
    : v2 * v2 * v2 :=
  let xmm6 := mulpd xmm6 xmm1 in                    (* xmm6=Geps *)
  let xmm7 := mulpd xmm7 xmm2 in                    (* xmm7=Heps2 *)
  let xmm5 := addpd xmm5 xmm6 in
  let xmm5 := addpd xmm5 xmm7 in                    (* xmm5=Fp *)
  let xmm7 := mulpd xmm7 (nb232_two k) in           (* two*Heps2 *)
  let xmm7 := addpd xmm7 xmm6 in
  let xmm7 := addpd xmm7 xmm5 in                    (* xmm7=FF *)
  let xmm5 := mulpd xmm5 xmm1 in                    (* xmm5=eps*Fp *)
  let xmm5 := addpd xmm5 xmm4 in                    (* xmm5=VV *)
  (xmm5, xmm6, xmm7).

(** Lines 786-889: the tabulated Lennard-Jones of the O-O pair and the
    scalar force.  [xmm0] holds rinv; stale contents of [xmm3], [xmm4] and
    [xmm6] reach the upper lanes of partial loads and are overwritten
    before use.  Returns [nb232_Vvdwtot], [xmm0] (fscal), [mm0], [mm1]. *)
Definition oo_ljtable (VFtab : fmem) (k : consts)
    (nb232_rsqOO nb232_fstmp nb232_Vvdwtot : v2) (rax rbx : Z)
    (xmm0 xmm3 xmm6 : v2) : v2 * v2 * (Z * Z) :=
  let xmm4 := nb232_rsqOO in
  let xmm4 := mulpd xmm4 xmm0 in                    (* xmm4=r *)
  let xmm4 := mulpd xmm4 (nb232_tsc k) in
  let mm6 := cvttpd2pi xmm4 in                      (* mm6 = lu idx *)
  let xmm5 := cvtpi2pd mm6 in
  let xmm4 := subpd xmm4 xmm5 in
  let xmm1 := xmm4 in                               (* xmm1=eps *)
  let xmm2 := xmm1 in
  let xmm2 := mulpd xmm2 xmm2 in                    (* xmm2=eps2 *)
  let mm6 := pslld mm6 3 in                         (* idx *= 8 *)
  let mm0 := wrap rax in                            (* movd mm0, eax *)
  let mm1 := wrap rbx in
  let eax := movd mm6 in
  let mm6 := psrlq32 mm6 in
  let ebx := movd mm6 in
  (* dispersion *)
  let xmm4 := movlpd xmm4 VFtab eax in              (* Y1 *)
  let xmm3 := movlpd xmm3 VFtab ebx in              (* Y2 *)
  let xmm4 := movhpd xmm4 VFtab (eax + 1) in        (* Y1 F1 *)
  let xmm3 := movhpd xmm3 VFtab (ebx + 1) in        (* Y2 F2 *)
  let xmm5 := xmm4 in
  let xmm4 := unpcklpd xmm4 xmm3 in                 (* Y1 Y2 *)
  let xmm5 := unpckhpd xmm5 xmm3 in                 (* F1 F2 *)
  let xmm6 := movlpd xmm6 VFtab (eax + 2) in        (* G1 *)
  let xmm3 := movlpd xmm3 VFtab (ebx + 2) in        (* G2 *)
  let xmm6 := movhpd xmm6 VFtab (eax + 3) in        (* G1 H1 *)
  let xmm3 := movhpd xmm3 VFtab (ebx + 3) in        (* G2 H2 *)
  let xmm7 := xmm6 in
  let xmm6 := unpcklpd xmm6 xmm3 in                 (* G1 G2 *)
  let xmm7 := unpckhpd xmm7 xmm3 in                 (* H1 H2 *)
  let '(xmm5, xmm6, xmm7) := spline k xmm1 xmm2 xmm4 xmm5 xmm6 xmm7 in
  let xmm4 := nb232_c6 k in
  let xmm7 := mulpd xmm7 xmm4 in                    (* fijD *)
  let xmm5 := mulpd xmm5 xmm4 in                    (* Vvdw6 *)
  let xmm5 := addpd xmm5 nb232_Vvdwtot in
  let xmm3 := nb232_fstmp in
  let xmm7 := mulpd xmm7 (nb232_tsc k) in
  let xmm3 := subpd xmm3 xmm7 in
  let nb232_fstmp := xmm3 in
  let nb232_Vvdwtot := xmm5 in
  (* repulsion *)
  let xmm4 := movlpd xmm4 VFtab (eax + 4) in        (* Y1 *)
  let xmm3 := movlpd xmm3 VFtab (ebx + 4) in        (* Y2 *)
  let xmm4 := movhpd xmm4 VFtab (eax + 5) in        (* Y1 F1 *)
  let xmm3 := movhpd xmm3 VFtab (ebx + 5) in        (* Y2 F2 *)
  let xmm5 := xmm4 in
  let xmm4 := unpcklpd xmm4 xmm3 in                 (* Y1 Y2 *)
  let xmm5 := unpckhpd xmm5 xmm3 in                 (* F1 F2 *)
  let xmm6 := movlpd xmm6 VFtab (eax + 6) in        (* G1 *)
  let xmm3 := movlpd xmm3 VFtab (ebx + 6) in        (* G2 *)
  let xmm6 := movhpd xmm6 VFtab (eax + 7) in        (* G1 H1 *)
  let xmm3 := movhpd xmm3 VFtab (ebx + 7) in        (* G2 H2 *)
  let xmm7 := xmm6 in
  let xmm6 := unpcklpd xmm6 xmm3 in                 (* G1 G2 *)
  let xmm7 := unpckhpd xmm7 xmm3 in                 (* H1 H2 *)
  let '(xmm5, xmm6, xmm7) := spline k xmm1 xmm2 xmm4 xmm5 xmm6 xmm7 in
  let xmm4 := nb232_c12 k in
  let xmm7 := mulpd xmm7 xmm4 in
  let xmm5 := mulpd xmm5 xmm4 in
  let xmm5 := addpd xmm5 nb232_Vvdwtot in
  let xmm3 := nb232_fstmp in
  let xmm7 := mulpd xmm7 (nb232_tsc k) in
  let xmm3 := subpd xmm3 xmm7 in
  let nb232_Vvdwtot := xmm5 in
  let xmm0 := mulpd xmm0 xmm3 in
  (nb232_Vvdwtot, xmm0, (mm0, mm1)).

(** The force slots an interaction of the O site of the i molecule
    updates: the i accumulator and the j site's slot. *)
Record pforce : Type := PForce {
  fix_ : v2; fiy_ : v2; fiz_ : v2;
  fjx_ : v2; fjy_ : v2; fjz_ : v2
}.

(** Lines 897-914 (and 936-953): the force of one site pair; [xmm0]
    holds the scalar force. *)
Definition pair_force (nb232_dx nb232_dy nb232_dz : v2)
    (nb232_fixO nb232_fiyO nb232_fizO : v2) (xmm0 : v2) : pforce :=
  let xmm1 := xmm0 in
  let xmm2 := xmm0 in
  let xmm3 := xorpd_self in
  let xmm4 := xmm3 in
  let xmm5 := xmm3 in
  let xmm0 := mulpd xmm0 nb232_dx in
  let xmm1 := mulpd xmm1 nb232_dy in
  let xmm2 := mulpd xmm2 nb232_dz in
  let xmm3 := subpd xmm3 xmm0 in
  let xmm4 := subpd xmm4 xmm1 in
  let xmm5 := subpd xmm5 xmm2 in
  let xmm0 := addpd xmm0 nb232_fixO in
  let xmm1 := addpd xmm1 nb232_fiyO in
  let xmm2 := addpd xmm2 nb232_fizO in
  PForce xmm0 xmm1 xmm2 xmm3 xmm4 xmm5.

(** Lines 768-914: the whole O-O interaction. *)
Definition interaction_OO (VFtab : fmem) (k : consts)
    (nb232_rinvOO nb232_rsqOO nb232_dxOO nb232_dyOO nb232_dzOO : v2)
    (nb232_vctot nb232_Vvdwtot nb232_fixO nb232_fiyO nb232_fizO : v2)
    (rax rbx : Z) (xmm3 xmm6 : v2) : v2 * v2 * pforce * (Z * Z) :=
  let '(nb232_vctot, nb232_fstmp, xmm0) :=
    oo_rf k nb232_rinvOO nb232_rsqOO nb232_vctot in
  let xmm6 := nb232_vctot in                        (* left in xmm6 by line 781 *)
  let '(nb232_Vvdwtot, xmm0, mm) :=
    oo_ljtable VFtab k nb232_rsqOO nb232_fstmp nb232_Vvdwtot rax rbx
               xmm0 xmm3 xmm6 in
  (nb232_vctot, nb232_Vvdwtot,
   pair_force nb232_dxOO nb232_dyOO nb232_dzOO nb232_fixO nb232_fiyO nb232_fizO xmm0,
   mm).

(** Lines 917-934: reaction field of the O-H1 pair.  Returns [xmm6] (the
    running Coulomb total, stored later) and [xmm0] (the scalar force). *)
Definition oh1_rf (k : consts) (nb232_rinvOH1 nb232_rsqOH1 nb232_vctot : v2)
    : v2 * v2 :=
  let xmm0 := nb232_rinvOH1 in
  let xmm7 := xmm0 in                               (* xmm7=rinv *)
  let xmm5 := nb232_krf k in
  let xmm1 := xmm0 in
  let xmm5 := mulpd xmm5 nb232_rsqOH1 in            (* xmm5=krsq *)
  let xmm4 := xmm5 in
  let xmm4 := addpd xmm4 xmm7 in                    (* xmm4=rinv+ krsq *)
  let xmm0 := mulpd xmm0 xmm0 in
  let xmm4 := subpd xmm4 (nb232_crf k) in
  let xmm4 := mulpd xmm4 (nb232_qqOH k) in          (* xmm4=voul=qq*(rinv+ krsq) *)
  let xmm5 := mulpd xmm5 (nb232_two k) in
  let xmm7 := subpd xmm7 xmm5 in                    (* xmm7=rinv-2*krsq *)
  let xmm7 := mulpd xmm7 (nb232_qqOH k) in          (* xmm7 = coul part of fscal *)
  let xmm6 := nb232_vctot in
  let xmm6 := addpd xmm6 xmm4 in                    (* add to local vctot *)
  let xmm0 := mulpd xmm0 xmm7 in                    (* fsOH1 *)
  (xmm6, xmm0).

(** Lines 917-953: the whole O-H1 interaction. *)
Definition interaction_OH1 (k : consts)
    (nb232_rinvOH1 nb232_rsqOH1 nb232_dxOH1 nb232_dyOH1 nb232_dzOH1 : v2)
    (nb232_vctot nb232_fixO nb232_fiyO nb232_fizO : v2) : v2 * pforce :=
  let '(xmm6, xmm0) := oh1_rf k nb232_rinvOH1 nb232_rsqOH1 nb232_vctot in
  (xmm6,
   pair_force nb232_dxOH1 nb232_dyOH1 nb232_dzOH1 nb232_fixO nb232_fiyO nb232_fizO xmm0).

Local Open Scope Qc_scope.

(** *** Block specifications *)

Ltac block_red :=
  cbv beta iota zeta delta
    [setup calc_rinv rsqrtps oo_rf spline oo_ljtable pair_force interaction_OO
     oh1_rf interaction_OH1 reg2
     nb232_facel nb232_tsc nb232_krf nb232_crf nb232_half nb232_two nb232_three
     nb232_qqOO nb232_qqOH nb232_qqHH nb232_c6 nb232_c12
     fix_ fiy_ fiz_ fjx_ fjy_ fjz_
     d0 d1 l0 l1 l2 l3 splat2 xorpd_self addpd subpd mulpd addsd subsd mulsd
     unpcklpd unpckhpd shufpd movsd movsd_v movsd_rr movlpd movhpd movapd_ld
     cvtpd2ps cvtps2pd cvttpd2pi cvtpi2pd pslld psrlq32 movd fst snd lane2
     Z.land Z.shiftr Z.shiftl Pos.land Z.of_N Pos.div2 Z.div2 Pos.iter Z.opp Z.pos_sub
     Pos.pred_double Pos.succ Pos.Nsucc_double Pos.Ndouble].

(** Lines 207-278 leave these values on the stack, whatever [xmm4] held. *)
Lemma nb232_setup_spec (a : args) (xmm4 : v2) :
  let ii := first_particle a in
  let qO := a_charge a ii in
  let qH := a_charge a (ii + 1)%Z in
  setup a xmm4 =
  Consts (a_facel a) (splat2 (a_tabscale a)) (splat2 (a_krf a)) (splat2 (a_crf a))
         (splat2 half_bits) (splat2 two) (splat2 three)
         (splat2 (qO * qO * a_facel a)) (splat2 (qO * qH * a_facel a))
         (splat2 (qH * qH * a_facel a))
         (splat2 (a_vdwparam a (vdw_index a)))
         (splat2 (a_vdwparam a (vdw_index a + 1)%Z)).
Proof. destruct xmm4. reflexivity. Qed.

Section Blocks.
Variable rsqrt_approx : real -> real.
Variable to_single : real -> real.

(** The seed of the double-precision kernels: the single-precision
    approximation of the rounded argument. *)
Definition seed (x : real) : real := rsqrt_approx (to_single x).

(** Lines 583-618 apply two Newton-Raphson steps to the seed, in each lane
    of either register. *)
Lemma calc_rinv_two_steps k (u v : v2) (i : Z) :
  nb232_half k = splat2 half_bits -> nb232_three k = splat2 three ->
  (0 <= i < 2)%Z ->
  let step2 x := Formula.nr_step x (Formula.nr_step x (seed x)) in
  lane2 (fst (calc_rinv rsqrt_approx to_single k u v)) i = step2 (lane2 u i)
  /\ lane2 (snd (calc_rinv rsqrt_approx to_single k u v)) i = step2 (lane2 v i).
Proof.
  intros Hh Ht Hi. destruct k. simpl in Hh, Ht. subst. destruct u, v.
  destruct (lane2_cases Hi) as [-> | ->]; block_red;
    unfold Formula.nr_step, seed; split; ring.
Qed.

End Blocks.

(** Lines 768-783: the reaction-field energy goes to the running total;
    [nb232_fstmp] receives [qq*(rinv - 2*krf*rsq)*rinv]. *)
Lemma oo_rf_lane k rinv rsq vctot krf crf qq (i : Z) :
  nb232_krf k = splat2 krf -> nb232_crf k = splat2 crf ->
  nb232_two k = splat2 two -> nb232_qqOO k = splat2 qq -> (0 <= i < 2)%Z ->
  let '(vctot', fstmp, xmm0) := oo_rf k rinv rsq vctot in
  xmm0 = rinv
  /\ lane2 vctot' i = lane2 vctot i + Formula.rf_V qq krf crf (lane2 rsq i) (lane2 rinv i)
  /\ lane2 fstmp i * lane2 rinv i = Formula.rf_F qq krf (lane2 rsq i) (lane2 rinv i).
Proof.
  intros Hk Hc Hw Hq Hi. destruct k. simpl in Hk, Hc, Hw, Hq. subst.
  destruct rinv, rsq, vctot.
  destruct (lane2_cases Hi) as [-> | ->]; block_red;
    unfold Formula.rf_V, Formula.rf_F; rewrite two_eq;
    (split; [reflexivity | split; ring]).
Qed.

(** Lines 917-934: the same for the O-H1 pair, where the scalar force is
    the reaction-field force alone. *)
Lemma oh1_rf_lane k rinv rsq vctot krf crf qq (i : Z) :
  nb232_krf k = splat2 krf -> nb232_crf k = splat2 crf ->
  nb232_two k = splat2 two -> nb232_qqOH k = splat2 qq -> (0 <= i < 2)%Z ->
  let '(vctot', fscal) := oh1_rf k rinv rsq vctot in
  lane2 vctot' i = lane2 vctot i + Formula.rf_V qq krf crf (lane2 rsq i) (lane2 rinv i)
  /\ lane2 fscal i = Formula.rf_F qq krf (lane2 rsq i) (lane2 rinv i).
Proof.
  intros Hk Hc Hw Hq Hi. destruct k. simpl in Hk, Hc, Hw, Hq. subst.
  destruct rinv, rsq, vctot.
  destruct (lane2_cases Hi) as [-> | ->]; block_red;
    unfold Formula.rf_V, Formula.rf_F; rewrite two_eq; split; ring.
Qed.

(** Lines 786-889: the scalar force is [rinv] times what is left of
    [nb232_fstmp] after the two table forces have been taken off; the
    part taken off does not depend on [nb232_fstmp]. *)
Lemma oo_ljtable_fscal T k rsq fstmp fstmp' Vvdwtot rax rbx rinv x3 x6 (i : Z) :
  (0 <= i < 2)%Z ->
  let fscal s := snd (fst (oo_ljtable T k rsq s Vvdwtot rax rbx rinv x3 x6)) in
  lane2 (fscal fstmp) i - lane2 (fscal fstmp') i =
  (lane2 fstmp i - lane2 fstmp' i) * lane2 rinv i.
Proof.
  intros Hi. destruct k, rsq, fstmp, fstmp', Vvdwtot, rinv, x3, x6.
  destruct (lane2_cases Hi) as [-> | ->]; block_red; ring.
Qed.

(** Lines 897-914: the vector added to the i accumulator is the vector
    taken off zero for the j slot. *)
Lemma pair_force_lane dx dy dz fx fy fz fscal (i : Z) :
  (0 <= i < 2)%Z ->
  let r := pair_force dx dy dz fx fy fz fscal in
  let tx := lane2 fscal i * lane2 dx i in
  let ty := lane2 fscal i * lane2 dy i in
  let tz := lane2 fscal i * lane2 dz i in
  lane2 (fix_ r) i = lane2 fx i + tx /\ lane2 (fjx_ r) i = 0 - tx
  /\ lane2 (fiy_ r) i = lane2 fy i + ty /\ lane2 (fjy_ r) i = 0 - ty
  /\ lane2 (fiz_ r) i = lane2 fz i + tz /\ lane2 (fjz_ r) i = 0 - tz.
Proof.
  intros Hi. destruct dx, dy, dz, fx, fy, fz, fscal.
  destruct (lane2_cases Hi) as [-> | ->]; block_red; repeat split; ring.
Qed.


End NB232.

(** ** Properties that span the kernels *)

Module Shared.
Import W32 SSE Kernel.
Local Open Scope Z_scope.
Local Open Scope Qc_scope.

(** C6. Reciprocal square root: the single-precision kernel computes, in
    every lane, one Newton-Raphson step [y' = 0.5*(3 - x*y*y)*y] applied to
    the hardware seed; the double-precision kernel computes two such steps
    applied to the seed obtained in single precision; the constants are the
    stack slots half and three the prologue built.  The step is the
    textbook [y*(1.5 - 0.5*x*y^2)]. *)
Theorem rsqrt_newton_steps (rsqrt_approx to_single : real -> real) (a : args) :
  (forall x v,
     let step1 x := Formula.nr_step x (rsqrt_approx x) in
     fst (fst (fst (NB030.calc_rinv rsqrt_approx (fst (NB030.prologue a x)) v))) =
     V4 (step1 (l0 v)) (step1 (l1 v)) (step1 (l2 v)) (step1 (l3 v)))
  /\ (forall x4 u v,
        let step2 x :=
          Formula.nr_step x (Formula.nr_step x (NB232.seed rsqrt_approx to_single x)) in
        NB232.calc_rinv rsqrt_approx to_single (NB232.setup a x4) u v =
        (V2 (step2 (d0 u)) (step2 (d1 u)), V2 (step2 (d0 v)) (step2 (d1 v))))
  /\ (forall x y, Formula.nr_step x y = half_bits * (three - x * y * y) * y)
  /\ (forall x y,
        Formula.nr_step x y = y * ((1 + half_bits) - half_bits * x * (y * y))).
Proof.
  split; [|split; [|split]].
  - intros x v step1. apply v4_ext.
    + exact (@NB030.calc_rinv_one_step rsqrt_approx a x v 0 ltac:(lia)).
    + exact (@NB030.calc_rinv_one_step rsqrt_approx a x v 1 ltac:(lia)).
    + exact (@NB030.calc_rinv_one_step rsqrt_approx a x v 2 ltac:(lia)).
    + exact (@NB030.calc_rinv_one_step rsqrt_approx a x v 3 ltac:(lia)).
  - intros x4 u v step2. rewrite NB232.nb232_setup_spec. cbv zeta.
    match goal with
    | |- NB232.calc_rinv _ _ ?k _ _ = _ =>
        pose proof (@NB232.calc_rinv_two_steps rsqrt_approx to_single k u v 0
                      eq_refl eq_refl ltac:(lia)) as [H0 H0'];
        pose proof (@NB232.calc_rinv_two_steps rsqrt_approx to_single k u v 1
                      eq_refl eq_refl ltac:(lia)) as [H1 H1'];
        rewrite (surjective_pairing (NB232.calc_rinv rsqrt_approx to_single k u v))
    end.
    f_equal; apply v2_ext; assumption.
  - reflexivity.
  - apply Formula.nr_step_alt.
Qed.

(** C3. Reaction-field Coulomb: with [qq] the charge product the setup left
    on the stack, the O-O and O-H1 blocks add [qq*(rinv + krf*rsq - crf)] to
    the running Coulomb energy; the Coulomb part of the scalar force is
    [qq*(rinv - 2*krf*rsq)*rinv*rinv] (in the O-O block it is what
    [nb232_fstmp] contributes after the final multiplication by rinv, in the
    O-H1 block it is the whole scalar force), which is
    [qq*(rinv^3 - 2*krf)] when rinv is the exact reciprocal distance. *)
Theorem reaction_field_coulomb (a : args) (x4 : v2) :
  let k := NB232.setup a x4 in
  let qO := a_charge a (first_particle a) in
  let qH := a_charge a (first_particle a + 1)%Z in
  let qqOO := qO * qO * a_facel a in
  let qqOH := qO * qH * a_facel a in
  (forall rinv rsq vctot i, (0 <= i < 2)%Z ->
     let '(vctot', fstmp, xmm0) := NB232.oo_rf k rinv rsq vctot in
     xmm0 = rinv
     /\ lane2 vctot' i = lane2 vctot i +
          Formula.rf_V qqOO (a_krf a) (a_crf a) (lane2 rsq i) (lane2 rinv i)
     /\ lane2 fstmp i * lane2 rinv i =
          Formula.rf_F qqOO (a_krf a) (lane2 rsq i) (lane2 rinv i))
  /\ (forall T rsq fstmp Vvdwtot rax rbx rinv x3 x6 i, (0 <= i < 2)%Z ->
        let fscal s :=
          snd (fst (NB232.oo_ljtable T k rsq s Vvdwtot rax rbx rinv x3 x6)) in
        lane2 (fscal fstmp) i =
        lane2 fstmp i * lane2 rinv i + lane2 (fscal xorpd_self) i)
  /\ (forall rinv rsq vctot i, (0 <= i < 2)%Z ->
        let '(vctot', fscal) := NB232.oh1_rf k rinv rsq vctot in
        lane2 vctot' i = lane2 vctot i +
          Formula.rf_V qqOH (a_krf a) (a_crf a) (lane2 rsq i) (lane2 rinv i)
        /\ lane2 fscal i =
          Formula.rf_F qqOH (a_krf a) (lane2 rsq i) (lane2 rinv i))
  /\ (forall qq krf rsq rinv,
        Formula.rf_F qq krf rsq rinv = qq * (rinv - (1 + 1) * krf * rsq) * rinv * rinv)
  /\ (forall qq krf rsq rinv, rsq * rinv * rinv = 1 ->
        Formula.rf_F qq krf rsq rinv = qq * (rinv ^ 3 - (1 + 1) * krf)).
Proof.
  intros k qO qH qqOO qqOH. subst k. rewrite NB232.nb232_setup_spec. cbv zeta.
  fold qO qH. fold qqOO qqOH.
  split; [|split; [|split; [|split]]].
  - intros rinv rsq vctot i Hi.
    apply NB232.oo_rf_lane; try reflexivity. exact Hi.
  - intros T rsq fstmp Vvdwtot rax rbx rinv x3 x6 i Hi.
    match goal with
    | |- context [NB232.oo_ljtable T ?k] =>
        pose proof (@NB232.oo_ljtable_fscal T k rsq fstmp xorpd_self Vvdwtot rax rbx
                      rinv x3 x6 i Hi) as H
    end.
    cbv zeta in H.
    match goal with
    | H : ?x - ?y = (?f - ?z) * ?r |- _ =>
        assert (Hz : z = 0) by (destruct (lane2_cases Hi) as [-> | ->]; reflexivity);
        rewrite Hz in H;
        transitivity ((x - y) + y); [ring | rewrite H; ring]
    end.
  - intros rinv rsq vctot i Hi.
    apply NB232.oh1_rf_lane; try reflexivity. exact Hi.
  - reflexivity.
  - apply Formula.rf_F_closed.
Qed.

(** C5. Lennard-Jones by successive squaring: with the (C6, C12) pair the
    setup left on the stack, the O-O block adds [C12*rinv^12 - C6*rinv^6] to
    the van-der-Waals energy and its scalar force is
    [(12*C12*rinv^12 - 6*C6*rinv^6)*rinv^2] less the tabulated Coulomb force;
    the block reaches the powers by multiplications only:
    [rinv^2 = rinv*rinv], [rinv^6 = rinv^2*rinv^2*rinv^2],
    [rinv^12 = rinv^6*rinv^6]. *)
Theorem lennard_jones_by_squaring (a : args) :
  let k := NB312.setup a in
  let c6 := a_vdwparam a (vdw_index a) in
  let c12 := a_vdwparam a (vdw_index a + 1)%Z in
  (forall Vvdwtot rinv fijC i, (0 <= i < 2)%Z ->
     let '(Vvdwtot', fscal) := NB312.oo_lj k Vvdwtot rinv fijC in
     lane2 Vvdwtot' i = lane2 Vvdwtot i + Formula.lj_V c6 c12 (lane2 rinv i)
     /\ lane2 fscal i =
        Formula.lj_F c6 c12 (lane2 rinv i) - lane2 fijC i * lane2 rinv i)
  /\ (forall rinv : real,
        let rinvsq := rinv * rinv in
        let rinvsix := rinvsq * rinvsq * rinvsq in
        rinvsq = rinv ^ 2 /\ rinvsix = rinv ^ 6 /\ rinvsix * rinvsix = rinv ^ 12)
  /\ (forall c6 c12 rinv,
        Formula.lj_V c6 c12 rinv = c12 * rinv ^ 12 - c6 * rinv ^ 6
        /\ Formula.lj_F c6 c12 rinv =
           (Formula.twelve * c12 * rinv ^ 12 - Formula.six * c6 * rinv ^ 6) * rinv ^ 2).
Proof.
  intros k c6 c12. subst k. rewrite NB312.nb312_setup_spec. cbv zeta.
  fold c6 c12.
  split; [|split].
  - intros Vvdwtot rinv fijC i Hi.
    apply NB312.oo_lj_lane; try reflexivity. exact Hi.
  - intros rinv. cbn [Qcpower].
    repeat split; ring.
  - intros. split; reflexivity.
Qed.

(** C4. Tabulated interactions: in both kernels lane [i] of the scaled
    distance [r*tabscale] (non-negative and inside the table) is split into
    its truncation [n] and the offset [eps = r*tabscale - n] with
    [0 <= eps < 1]; the index register addresses the numbers Y, F, G, H of
    point [n] (eight numbers per point in the Lennard-Jones table, four in
    the Coulomb table); the energy gains the coupling coefficient times
    [VV = Y + eps*(F + eps*(G + eps*H))] and the force factor is the coupling
    coefficient times [FF = F + 2*eps*G + 3*eps^2*H], which the Coulomb block
    multiplies by the table scale. *)
Theorem table_spline_evaluation (a : args) :
  let T := a_VFtab a in
  (forall x0 rax rbx rcx rdx rinv rsq x5 x6 i, (0 <= i < 4)%Z ->
     let k := fst (NB030.prologue a x0) in
     let rt := lane4 rsq i * lane4 rinv i * a_tabscale a in
     0 <= rt -> (trunc rt < 2 ^ 28)%Z ->
     let '(eps, eps2, _, _, _, _, idx) :=
       NB030.table_split4 k rax rbx rcx rdx rinv rsq x5 x6 in
     NB030.reg4 idx i = (8 * trunc rt)%Z
     /\ lane4 eps i = rt - Q2Qc (inject_Z (trunc rt))
     /\ 0 <= lane4 eps i /\ lane4 eps i < 1
     /\ lane4 eps2 i = lane4 eps i * lane4 eps i)
  /\ (forall x0 c6 V eax ebx ecx edx eps eps2 x3 x5 x7 i, (0 <= i < 4)%Z ->
        lane4 eps2 i = lane4 eps i * lane4 eps i ->
        let k := fst (NB030.prologue a x0) in
        let n := NB030.reg4 (eax, ebx, ecx, edx) i in
        let '(fscal, V', _) :=
          NB030.dispersion4 a k c6 V eax ebx ecx edx eps eps2 x3 x5 x7 in
        lane4 V' i = lane4 V i + lane4 c6 i *
          Formula.spline_V (T n) (T (n + 1)%Z) (T (n + 2)%Z) (T (n + 3)%Z) (lane4 eps i)
        /\ lane4 fscal i = lane4 c6 i *
          Formula.spline_F (T (n + 1)%Z) (T (n + 2)%Z) (T (n + 3)%Z) (lane4 eps i))
  /\ (forall rinv rsq rax rbx i, (0 <= i < 2)%Z ->
        let k := NB312.setup a in
        let rt := lane2 rinv i * lane2 rsq i * a_tabscale a in
        0 <= rt -> (trunc rt < 2 ^ 28)%Z ->
        let '(_, eps, eps2, _, _, idx) := NB312.oo_split k rinv rsq rax rbx in
        reg2 idx i = (4 * trunc rt)%Z
        /\ lane2 eps i = rt - Q2Qc (inject_Z (trunc rt))
        /\ 0 <= lane2 eps i /\ lane2 eps i < 1
        /\ lane2 eps2 i = lane2 eps i * lane2 eps i)
  /\ (forall eax ebx i, (0 <= i < 2)%Z ->
        let n := reg2 (eax, ebx) i in
        let '(Y, F, G, H) := NB312.oo_table T eax ebx in
        lane2 Y i = T n /\ lane2 F i = T (n + 1)%Z
        /\ lane2 G i = T (n + 2)%Z /\ lane2 H i = T (n + 3)%Z)
  /\ (forall vctot eps eps2 Y F G H i, (0 <= i < 2)%Z ->
        lane2 eps2 i = lane2 eps i * lane2 eps i ->
        let k := NB312.setup a in
        let qO := a_charge a (first_particle a) in
        let qq := qO * qO * a_facel a in
        let '(vctot', fijC) := NB312.oo_coulomb k vctot eps eps2 Y F G H in
        lane2 vctot' i = lane2 vctot i + qq *
          Formula.spline_V (lane2 Y i) (lane2 F i) (lane2 G i) (lane2 H i) (lane2 eps i)
        /\ lane2 fijC i = qq *
          Formula.spline_F (lane2 F i) (lane2 G i) (lane2 H i) (lane2 eps i)
          * a_tabscale a)
  /\ (forall Y F G H eps,
        let Geps := G * eps in
        let Heps2 := H * (eps * eps) in
        let Fp := F + Geps + Heps2 in
        Formula.spline_V Y F G H eps = Y + eps * (F + eps * (G + eps * H))
        /\ Formula.spline_F F G H eps = F + (1 + 1) * eps * G + (1 + 1 + 1) * (eps * eps) * H
        /\ Formula.spline_F F G H eps = Fp + Geps + (1 + 1) * Heps2).
Proof.
  intros T.
  split; [|split; [|split; [|split; [|split]]]].
  - intros x0 rax rbx rcx rdx rinv rsq x5 x6 i Hi k rt H0 H1.
    apply NB030.table_split4_index; try assumption. reflexivity.
  - intros x0 c6 V eax ebx ecx edx eps eps2 x3 x5 x7 i Hi He k n.
    apply NB030.dispersion4_lane; try assumption. reflexivity.
  - intros rinv rsq rax rbx i Hi k rt H0 H1.
    apply NB312.oo_split_index; try assumption. reflexivity.
  - intros eax ebx i Hi. apply NB312.oo_table_lane. exact Hi.
  - intros vctot eps eps2 Y F G H i Hi He k qO qq.
    apply NB312.oo_coulomb_lane; try assumption; reflexivity.
  - intros Y F G H eps. cbv zeta. unfold Formula.spline_F.
    repeat split; ring.
Qed.



End Shared.

(** ** A small system on which the statements can be run

    Two particles, particle 0 at the origin and particle 1 at (1, 1, 1); the
    only outer entry is particle 0, and its j list is the first [n]
    elements of [jjnr], all of them particle 1. *)

Module Sample.
Import W32 SSE Kernel.
Local Open Scope Z_scope.
Local Open Scope Qc_scope.

Definition sample_args (n : Z) : args :=
  Args 1 (fun _ => 0%Z) (fun i => (i * n)%Z) (fun _ => 1%Z) (fun _ => 0%Z)
       (fun _ => 0) (fun _ => 0%Z)
       (fun i => if (i <? 3)%Z then 0 else 1)
       (fun _ => 1) 1 1 1 (fun _ => 0%Z) 1 (fun _ => 1) 1 (fun _ => 1).


Definition sample_seed (x : real) : real := half_bits.
Definition sample_xmm : xmms :=
  Xmm (splat 1) (splat 1) (splat 1) (splat 1) (splat 1) (splat 1) (splat 1) (splat 1).
Definition sample_out : outputs :=
  Outputs (fun _ => 0) (fun _ => 0) (fun _ => 0) (fun _ => 0).


Lemma tail_equivalence_witness :
  let a := sample_args 2 in
  let s := NB030.Inner NB030.zero_acc 0 (wrap (2 - 4)) sample_xmm (fun _ => 0) in
  ((1 <= 2 <= 3)%Z /\ NB030.nb030_innerk s = wrap (2 - 4))
  /\ NB030.totals_of
       (NB030.finish_inner sample_seed a (fst (NB030.prologue a sample_xmm))
          (NB030.Entry 0 0 0 (splat 0) (splat 0) (splat 0)) s) =
     NB030.ref_eval sample_seed a 0 0 0 0
       (NB030.j_list a (NB030.nb030_innerjjnr s) 2) (NB030.totals_of s).
Proof.
  intros a s. split; [split; [lia | reflexivity]|].
  apply (@NB030.tail_equivalence sample_seed a 0 0 0 0 0 0 sample_xmm s 2);
    [lia | reflexivity].
Defined.

Lemma empty_entry_witness :
  let a := sample_args 0 in
  ld32 (a_jindex a) (0 + 1) = ld32 (a_jindex a) 0
  /\ exists x' o',
       NB030.outer_entry sample_seed 0 a (fst (NB030.prologue a sample_xmm))
                         0 0 sample_xmm sample_out = Some (wrap 0, x', o')
       /\ forall p, o_faction o' p = o_faction sample_out p.
Proof.
  intros a. split; [reflexivity|].
  destruct (@NB030.empty_entry sample_seed a sample_xmm 0%nat 0 0 sample_xmm
              sample_out eq_refl)
    as (x' & o' & Hrun & _ & _ & _ & _ & Hf & _).
  exists x', o'. split; [exact Hrun | exact Hf].
Defined.

Lemma iforce_flush_witness :
  let a := sample_args 1 in
  ((NB030.ninner_of a 0 < 2 ^ 31)%Z /\ (NB030.ninner_of a 0 <= 4 * Z.of_nat 1)%Z)
  /\ exists s,
       NB030.inner_result sample_seed a (wrap (a_ntype a)) (a_tabscale a)
         half_bits two three 1 0 sample_xmm (o_faction sample_out) = Some s.
Proof.
  intros a.
  assert (H1 : (NB030.ninner_of a 0 < 2 ^ 31)%Z) by reflexivity.
  assert (H2 : (NB030.ninner_of a 0 <= 4 * Z.of_nat 1)%Z)
    by (vm_compute; discriminate).
  split; [split; assumption|].
  destruct (@NB030.iforce_flush sample_seed a sample_xmm 1%nat 0 0 sample_xmm
              sample_out H1 H2)
    as (s & x' & Hin & _).
  exists s. exact Hin.
Defined.


Lemma reaction_field_coulomb_witness :
  let rsq := Q2Qc 4 in
  let rinv := half_bits in
  rsq * rinv * rinv = 1
  /\ Formula.rf_F 1 1 rsq rinv = 1 * (rinv ^ 3 - (1 + 1) * 1).
Proof.
  intros rsq rinv.
  assert (H : rsq * rinv * rinv = 1) by (apply Qc_is_canon; reflexivity).
  split; [exact H|].
  exact (proj2 (proj2 (proj2 (proj2
           (Shared.reaction_field_coulomb (sample_args 1) xorpd_self))))
           1 1 rsq rinv H).
Defined.

Lemma table_spline_evaluation_witness :
  let a := sample_args 1 in
  let rt := lane2 (splat2 1) 0 * lane2 (splat2 1) 0 * a_tabscale a in
  (0 <= rt /\ (trunc rt < 2 ^ 28)%Z)
  /\ reg2 (snd (NB312.oo_split (NB312.setup a) (splat2 1) (splat2 1) 0 0)) 0
     = (4 * trunc rt)%Z.
Proof.
  intros a rt.
  assert (H0 : 0 <= rt) by (vm_compute; discriminate).
  assert (H1 : (trunc rt < 2 ^ 28)%Z) by reflexivity.
  split; [split; assumption|].
  generalize (proj1 (proj2 (proj2 (Shared.table_spline_evaluation a)))
                (splat2 1) (splat2 1) 0%Z 0%Z 0%Z ltac:(lia) H0 H1).
  destruct (NB312.oo_split (NB312.setup a) (splat2 1) (splat2 1) 0 0)
    as [[[[[? eps] eps2] ?] ?] idx].
  intros (Hidx & _). exact Hidx.
Defined.

Lemma lennard_jones_by_squaring_witness :
  let a := sample_args 1 in
  (0 <= 0 < 2)%Z
  /\ lane2 (fst (NB312.oo_lj (NB312.setup a) (splat2 0) (splat2 1) (splat2 0))) 0
     = lane2 (splat2 0) 0 +
       Formula.lj_V (a_vdwparam a (vdw_index a)) (a_vdwparam a (vdw_index a + 1)%Z)
                    (lane2 (splat2 1) 0).
Proof.
  intros a. split; [lia|].
  generalize (proj1 (Shared.lennard_jones_by_squaring a)
                (splat2 0) (splat2 1) (splat2 0) 0%Z ltac:(lia)).
  destruct (NB312.oo_lj (NB312.setup a) (splat2 0) (splat2 1) (splat2 0)) as [V' f].
  intros (HV & _). exact HV.
Defined.


End Sample.

(** * Kernel 030: whole entries against the reference *)

Module Entry030.
Import W32 SSE Kernel NB030.
Local Open Scope Z_scope.
Local Open Scope Qc_scope.


Lemma j_list_4 a p :
  j_list a p 4 = [ld32 (a_jjnr a) p; ld32 (a_jjnr a) (p + 1);
                  ld32 (a_jjnr a) (p + 2); ld32 (a_jjnr a) (p + 3)].
Proof. unfold j_list. simpl. rewrite Z.add_0_r. reflexivity. Qed.

Lemma map_seq_from (A : Type) (m : nat) : forall (f : nat -> A) (k : nat),
  map f (seq k m) = map (fun q => f (k + q)%nat) (seq 0 m).
Proof.
  induction m as [|m IH]; intros f k; [reflexivity|].
  cbn [seq map]. f_equal; [f_equal; lia|].
  rewrite (IH f (S k)), (IH (fun q => f (k + q)%nat) 1%nat).
  apply map_ext. intros q. f_equal. lia.
Qed.

Lemma j_list_app a p n m :
  (0 <= n)%Z -> (0 <= m)%Z ->
  j_list a p (n + m) = j_list a p n ++ j_list a (p + n) m.
Proof.
  intros Hn Hm. unfold j_list.
  rewrite Z2Nat.inj_add by assumption.
  rewrite seq_app, map_app. f_equal.
  rewrite map_seq_from. apply map_ext. intros q. f_equal. lia.
Qed.

Lemma ref_eval_app rs a ntia ix iy iz l1 l2 t :
  ref_eval rs a ntia ix iy iz (l1 ++ l2) t =
  ref_eval rs a ntia ix iy iz l2 (ref_eval rs a ntia ix iy iz l1 t).
Proof. unfold ref_eval. apply fold_left_app. Qed.

(** The particles of positions [lo .. hi-1] of [jjnr] are pairwise
    different and their force slots lie below [2^32]. *)
Definition distinct_js (a : args) (lo hi : Z) : Prop :=
  (forall q, (lo <= q < hi)%Z -> (3 * ld32 (a_jjnr a) q + 2 < 2 ^ 32)%Z)
  /\ (forall q q', (lo <= q < hi)%Z -> (lo <= q' < hi)%Z -> q <> q' ->
        ld32 (a_jjnr a) q <> ld32 (a_jjnr a) q').

Lemma distinct_js_sub a lo hi lo' hi' :
  (lo <= lo')%Z -> (hi' <= hi)%Z -> distinct_js a lo hi -> distinct_js a lo' hi'.
Proof.
  intros H1 H2 [Hb Hd]. split.
  - intros q Hq. apply Hb. lia.
  - intros q q' Hq Hq'. apply Hd; lia.
Qed.

Lemma ld32_range m i : (0 <= ld32 m i < 2 ^ 32)%Z.
Proof. apply wrap_range. Qed.

Section Passes.
Variable rsqrt_approx : real -> real.
Variable a : args.
Variables is3 ii3 ntia : Z.
Variables ix iy iz : real.
Variable x0 : xmms.

Let k := fst (prologue a x0).
Let e := Entry is3 ii3 ntia (splat ix) (splat iy) (splat iz).
Let ref := ref_eval rsqrt_approx a ntia ix iy iz.

Ltac forget_xmm :=
  match goal with
  | |- context [i_xmm ?t] => generalize (i_xmm t); intro
  end.

Ltac use_lane j :=
  let HV := fresh "HV" in
  let Hx := fresh "Hx" in
  let Hy := fresh "Hy" in
  let Hz := fresh "Hz" in
  destruct (lane_ref rsqrt_approx a ntia ix iy iz j) as (HV & Hx & Hy & Hz);
  cbv zeta in HV, Hx, Hy, Hz;
  rewrite ?HV, ?Hx, ?Hy, ?Hz; clear HV Hx Hy Hz.

Lemma unroll_body_totals s :
  distinct_js a (nb030_innerjjnr s) (nb030_innerjjnr s + 4) ->
  totals_of (unroll_body rsqrt_approx a k e s) =
  ref (j_list a (nb030_innerjjnr s) 4) (totals_of s).
Proof.
  intros [Hb Hd]. subst k e ref. rewrite prologue_consts.
  rewrite unroll_body_spec. cbv zeta. forget_xmm.
  destruct s as [[[V0 V1 V2 V3] [fx0 fx1 fx2 fx3] [fy0 fy1 fy2 fy3] [fz0 fz1 fz2 fz3]]
                   jp ik xs f].
  cbn [nb030_innerjjnr i_acc i_xmm i_faction nb030_Vvdwtot nb030_fix nb030_fiy
       nb030_fiz] in *.
  rewrite j_list_4.
  set (j0 := ld32 (a_jjnr a) jp) in *.
  set (j1 := ld32 (a_jjnr a) (jp + 1)) in *.
  set (j2 := ld32 (a_jjnr a) (jp + 2)) in *.
  set (j3 := ld32 (a_jjnr a) (jp + 3)) in *.
  assert (B0 : (0 <= j0 /\ 3 * j0 + 2 < 2 ^ 32)%Z)
    by (split; [apply ld32_range | apply Hb; lia]).
  assert (B1 : (0 <= j1 /\ 3 * j1 + 2 < 2 ^ 32)%Z)
    by (split; [apply ld32_range | apply Hb; lia]).
  assert (B2 : (0 <= j2 /\ 3 * j2 + 2 < 2 ^ 32)%Z)
    by (split; [apply ld32_range | apply Hb; lia]).
  assert (B3 : (0 <= j3 /\ 3 * j3 + 2 < 2 ^ 32)%Z)
    by (split; [apply ld32_range | apply Hb; lia]).
  assert (D01 : j0 <> j1) by (apply Hd; lia).
  assert (D02 : j0 <> j2) by (apply Hd; lia).
  assert (D03 : j0 <> j3) by (apply Hd; lia).
  assert (D12 : j1 <> j2) by (apply Hd; lia).
  assert (D13 : j1 <> j3) by (apply Hd; lia).
  assert (D23 : j2 <> j3) by (apply Hd; lia).
  rewrite !(wrap_small (z := _ + _ * 2)) by lia.
  unfold ref_eval, ref_step, totals_of.
  cbn [fold_left t_V t_fx t_fy t_fz t_faction i_acc i_faction nb030_Vvdwtot
       nb030_fix nb030_fiy nb030_fiz].
  apply totals_ext; cbn [t_V t_fx t_fy t_fz t_faction].
  - unfold hsum. cbn [l0 l1 l2 l3]. use_lane j0. use_lane j1. use_lane j2. use_lane j3. ring.
  - unfold hsum, addps. cbn [l0 l1 l2 l3]. use_lane j0. use_lane j1. use_lane j2. use_lane j3. ring.
  - unfold hsum, addps. cbn [l0 l1 l2 l3]. use_lane j0. use_lane j1. use_lane j2. use_lane j3. ring.
  - unfold hsum, addps. cbn [l0 l1 l2 l3]. use_lane j0. use_lane j1. use_lane j2. use_lane j3. ring.
  - apply functional_extensionality. intros p.
    rewrite update_forces4_faction by (unfold disjoint_slots; lia).
    cbn [l0 l1 l2 l3].
    destruct (lane_ref rsqrt_approx a ntia ix iy iz j0) as (_ & Hx0 & Hy0 & Hz0).
    destruct (lane_ref rsqrt_approx a ntia ix iy iz j1) as (_ & Hx1 & Hy1 & Hz1).
    destruct (lane_ref rsqrt_approx a ntia ix iy iz j2) as (_ & Hx2 & Hy2 & Hz2).
    destruct (lane_ref rsqrt_approx a ntia ix iy iz j3) as (_ & Hx3 & Hy3 & Hz3).
    unfold ln_tx in *. unfold ln_ty in *. unfold ln_tz in *.
    rewrite Hx0, Hy0, Hz0, Hx1, Hy1, Hz1, Hx2, Hy2, Hz2, Hx3, Hy3, Hz3.
    replace (j0 + j0 * 2)%Z with (3 * j0)%Z by lia.
    replace (j1 + j1 * 2)%Z with (3 * j1)%Z by lia.
    replace (j2 + j2 * 2)%Z with (3 * j2)%Z by lia.
    replace (j3 + j3 * 2)%Z with (3 * j3)%Z by lia.
    reflexivity.
Qed.

(** One pass of the unrolled loop over four pairwise different particles
    does what four reference evaluations do, one after the other: the same
    energy, the same force on the i particle and the same force array. *)
Theorem pass_reference s :
  distinct_js a (nb030_innerjjnr s) (nb030_innerjjnr s + 4) ->
  totals_of (unroll_body rsqrt_approx a k e s) =
  ref (j_list a (nb030_innerjjnr s) 4) (totals_of s).
Proof. apply unroll_body_totals. Qed.

End Passes.

(** The back edge again, now carrying what the body does to a view [proj]
    of the state that does not look at the counter. *)
Section LoopTotals.
Variable T : Type.
Variable proj : inner -> T.
Variable body : inner -> inner.
Variable ok : Z -> Prop.
Variable ev : Z -> T -> T.

Hypothesis proj_innerk : forall s k',
  proj (Inner (i_acc s) (nb030_innerjjnr s) k' (i_xmm s) (i_faction s)) = proj s.
Hypothesis body_innerk : forall s, nb030_innerk (body s) = nb030_innerk s.
Hypothesis body_innerjjnr :
  forall s, nb030_innerjjnr (body s) = (nb030_innerjjnr s + 4)%Z.
Hypothesis body_totals : forall s,
  ok (nb030_innerjjnr s) -> proj (body s) = ev (nb030_innerjjnr s) (proj s).

Fixpoint iter_ev (m : nat) (p : Z) (t : T) : T :=
  match m with
  | O => t
  | S m' => iter_ev m' (p + 4)%Z (ev p t)
  end.

Lemma loop4_totals fuel : forall s,
  in_range (nb030_innerk s) ->
  (0 <= signed (nb030_innerk s) < 4 * Z.of_nat fuel)%Z ->
  (forall i, (0 <= i)%Z -> (4 * i <= signed (nb030_innerk s))%Z ->
             ok (nb030_innerjjnr s + 4 * i)) ->
  exists s' m r,
    loop4 body fuel s = Some s'
    /\ (0 <= r < 4)%Z
    /\ signed (nb030_innerk s) = (4 * Z.of_nat m + r)%Z
    /\ nb030_innerk s' = wrap (r - 4)
    /\ nb030_innerjjnr s' = (nb030_innerjjnr s + 4 * Z.of_nat (S m))%Z
    /\ proj s' = iter_ev (S m) (nb030_innerjjnr s) (proj s).
Proof.
  induction fuel as [|fuel IH]; intros s Hr HK Hok; [lia|].
  cbn [loop4]. rewrite body_innerk, body_innerjjnr.
  assert (H4 : in_range 4) by (unfold in_range, modulus; lia).
  rewrite cond_l_sub by assumption.
  destruct (signed_nonneg Hr (proj1 HK)) as [Hs Hlt31].
  rewrite (signed_small (z := 4)) by lia.
  assert (Hok0 : ok (nb030_innerjjnr s)).
  { replace (nb030_innerjjnr s) with (nb030_innerjjnr s + 4 * 0)%Z by lia.
    apply Hok; lia. }
  pose proof (proj_innerk (body s) (sub32 (nb030_innerk s) 4)) as Ht2.
  rewrite body_innerjjnr in Ht2.
  destruct (Z.ltb_spec (signed (nb030_innerk s)) 4) as [Hlt|Hge].
  - eexists. exists 0%nat, (signed (nb030_innerk s)).
    split; [reflexivity|]. cbn [nb030_innerk nb030_innerjjnr iter_ev].
    repeat split; try lia.
    + unfold sub32. rewrite Hs. reflexivity.
    + rewrite Ht2. apply (body_totals s Hok0).
  - set (s2 := Inner _ _ _ _ _) in *.
    assert (Hk2 : nb030_innerk s2 = (nb030_innerk s - 4)%Z).
    { subst s2. cbn [nb030_innerk]. unfold sub32. apply wrap_small.
      unfold in_range, modulus in Hr. lia. }
    assert (Hj2 : nb030_innerjjnr s2 = (nb030_innerjjnr s + 4)%Z) by reflexivity.
    assert (Hs2 : signed (nb030_innerk s2) = (signed (nb030_innerk s) - 4)%Z).
    { rewrite Hk2, Hs. apply signed_small. lia. }
    destruct (IH s2) as (s' & m & r & Hrun & Hr' & HKr & Hk' & Hj' & Ht').
    + rewrite Hk2. unfold in_range, modulus in *. lia.
    + rewrite Hs2. lia.
    + intros i Hi Hi'. rewrite Hj2.
      replace (nb030_innerjjnr s + 4 + 4 * i)%Z
        with (nb030_innerjjnr s + 4 * (i + 1))%Z by lia.
      apply Hok; lia.
    + exists s', (S m), r. split; [exact Hrun|].
      rewrite Hj2 in Hj', Ht'. rewrite Ht2, (body_totals s Hok0) in Ht'.
      repeat split; try lia. exact Ht'.
Qed.

End LoopTotals.

(** The unrolled loop followed by the tail, for any view of the state that
    one pass and the tail advance like a fold over the list. *)
Section InnerLoop.
Variable rsqrt_approx : real -> real.
Variable a : args.
Variables nt is3 ii3 ntia : Z.
Variables tsc hf tw th : real.
Variables ix iy iz : real.
Variable T : Type.
Variable proj : inner -> T.
Variable st : T -> Z -> T.
Variable ok : Z -> Prop.

Let k := Consts nt (splat tsc) (splat hf) (splat tw) (splat th).
Let e := Entry is3 ii3 ntia (splat ix) (splat iy) (splat iz).

Hypothesis proj_innerk : forall s k',
  proj (Inner (i_acc s) (nb030_innerjjnr s) k' (i_xmm s) (i_faction s)) = proj s.
Hypothesis pass : forall s,
  ok (nb030_innerjjnr s) ->
  proj (unroll_body rsqrt_approx a k e s) =
  fold_left st (j_list a (nb030_innerjjnr s) 4) (proj s).
Hypothesis tail : forall s r,
  (0 <= r <= 3)%Z -> nb030_innerk s = wrap (r - 4) ->
  proj (finish_inner rsqrt_approx a k e s) =
  fold_left st (j_list a (nb030_innerjjnr s) r) (proj s).

Lemma iter_ev_fold m : forall p t,
  iter_ev (fun p t => fold_left st (j_list a p 4) t) m p t =
  fold_left st (j_list a p (4 * Z.of_nat m)) t.
Proof.
  induction m as [|m IH]; intros p t; [reflexivity|].
  cbn [iter_ev]. rewrite IH.
  replace (4 * Z.of_nat (S m))%Z with (4 + 4 * Z.of_nat m)%Z by lia.
  rewrite j_list_app by lia. rewrite fold_left_app. reflexivity.
Qed.

Lemma inner_loop_fold (fuel : nat) (s : inner) (N : Z) :
  (0 <= N < 2 ^ 31)%Z -> (N <= 4 * Z.of_nat fuel)%Z ->
  nb030_innerk s = sub32 N 4 ->
  (forall i, (0 <= i)%Z -> (4 * i + 4 <= N)%Z -> ok (nb030_innerjjnr s + 4 * i)) ->
  exists s',
    (if cond_ge (add_flags (sub32 N 4) 0)
     then unroll_loop rsqrt_approx fuel a k e s else Some s) = Some s'
    /\ proj (finish_inner rsqrt_approx a k e s') =
       fold_left st (j_list a (nb030_innerjjnr s) N) (proj s).
Proof.
  intros HN Hfuel Hk Hd.
  assert (H4 : in_range (sub32 N 4)) by apply wrap_range.
  rewrite cond_ge_add0 by exact H4.
  destruct (Z_lt_le_dec N 4) as [Hlt|Hge].
  - assert (Hs : signed (sub32 N 4) = (N - 4)%Z).
    { unfold sub32. apply signed_wrap_neg. lia. }
    rewrite Hs. destruct (Z.leb_spec 0 (N - 4)); [lia|].
    exists s. split; [reflexivity|].
    apply tail; [lia | exact Hk].
  - assert (Hk4 : sub32 N 4 = (N - 4)%Z).
    { unfold sub32. apply wrap_small. lia. }
    assert (Hs : signed (sub32 N 4) = (N - 4)%Z).
    { rewrite Hk4. apply signed_small. lia. }
    rewrite Hs. destruct (Z.leb_spec 0 (N - 4)); [|lia].
    unfold k, e. rewrite unroll_loop_eq.
    destruct (@loop4_totals T proj
                (unroll_body rsqrt_approx a
                   (Consts nt (splat tsc) (splat hf) (splat tw) (splat th))
                   (Entry is3 ii3 ntia (splat ix) (splat iy) (splat iz)))
                ok
                (fun p t => fold_left st (j_list a p 4) t)
                proj_innerk
                (@unroll_body_innerk rsqrt_approx a nt is3 ii3 ntia tsc hf tw th ix iy iz)
                (@unroll_body_innerjjnr rsqrt_approx a nt is3 ii3 ntia tsc hf tw th
                   ix iy iz)
                pass)
      with (fuel := fuel) (s := s)
      as (s' & m & r & Hrun & Hr & HK & Hk' & Hj' & Ht').
    + rewrite Hk. exact H4.
    + rewrite Hk, Hs. lia.
    + intros i Hi Hi'. rewrite Hk, Hs in Hi'. apply Hd; lia.
    + exists s'. split; [exact Hrun|].
      rewrite Hk, Hs in HK.
      pose proof (@tail s' r ltac:(lia) Hk') as Hfin.
      unfold k, e in Hfin.
      rewrite Hfin, Hj', Ht'. rewrite iter_ev_fold.
      replace (j_list a (nb030_innerjjnr s) N)
        with (j_list a (nb030_innerjjnr s) (4 * Z.of_nat (S m) + r)) by (f_equal; lia).
      rewrite j_list_app by lia. rewrite fold_left_app. reflexivity.
Qed.

End InnerLoop.

(** The scalar sums of an entry: the energy and the force on the i
    particle.  They do not depend on the force array. *)
Record sums : Type := Sums { s_V : real; s_fx : real; s_fy : real; s_fz : real }.

Definition sums_of_totals (t : totals) : sums :=
  Sums (t_V t) (t_fx t) (t_fy t) (t_fz t).

Definition sums_of (s : inner) : sums := sums_of_totals (totals_of s).

Lemma sums_of_zero j k x f : sums_of (Inner zero_acc j k x f) = Sums 0 0 0 0.
Proof.
  unfold sums_of, sums_of_totals, totals_of.
  cbn [i_acc zero_acc nb030_Vvdwtot nb030_fix nb030_fiy nb030_fiz t_V t_fx t_fy t_fz].
  rewrite hsum_zero. reflexivity.
Qed.

Section RefSums.
Variable rsqrt_approx : real -> real.
Variable a : args.
Variable ntia : Z.
Variables ix iy iz : real.

Definition sum_step (t : sums) (j : Z) : sums :=
  let p := ref_pair rsqrt_approx a ntia ix iy iz j in
  Sums (s_V t + p_V p) (s_fx t + p_tx p) (s_fy t + p_ty p) (s_fz t + p_tz p).

Definition ref_sums (js : list Z) (t : sums) : sums := fold_left sum_step js t.

Lemma sums_ref_eval js : forall t,
  sums_of_totals (ref_eval rsqrt_approx a ntia ix iy iz js t) =
  ref_sums js (sums_of_totals t).
Proof.
  induction js as [|j js IH]; intros t; [reflexivity|].
  unfold ref_eval, ref_sums in *. cbn [fold_left]. rewrite IH. reflexivity.
Qed.

End RefSums.

Section EntryReference.
Variable rsqrt_approx : real -> real.
Variable a : args.
Variables is3 ii3 ntia : Z.
Variables ix iy iz : real.
Variable x0 : xmms.

Let k := fst (prologue a x0).
Let e := Entry is3 ii3 ntia (splat ix) (splat iy) (splat iz).
Let ref := ref_eval rsqrt_approx a ntia ix iy iz.

Ltac forget_xmm :=
  match goal with
  | |- context [i_xmm ?t] => generalize (i_xmm t); intro
  end.

Ltac use_lane j :=
  let HV := fresh "HV" in
  let Hx := fresh "Hx" in
  let Hy := fresh "Hy" in
  let Hz := fresh "Hz" in
  destruct (lane_ref rsqrt_approx a ntia ix iy iz j) as (HV & Hx & Hy & Hz);
  cbv zeta in HV, Hx, Hy, Hz;
  rewrite ?HV, ?Hx, ?Hy, ?Hz; clear HV Hx Hy Hz.

(** The tail for any remainder, zero included. *)
Lemma finish_inner_totals (s : inner) (r : Z) :
  (0 <= r <= 3)%Z -> nb030_innerk s = wrap (r - 4) ->
  totals_of (finish_inner rsqrt_approx a k e s) =
  ref (j_list a (nb030_innerjjnr s) r) (totals_of s).
Proof.
  intros HN Hk. subst k e ref. rewrite prologue_consts.
  rewrite finish_inner_spec with (r := r); [| exact Hk | lia].
  cbv zeta.
  assert (Hc : (r = 0 \/ r = 1 \/ r = 2 \/ r = 3)%Z) by lia.
  destruct s as [[[V0 V1 V2 V3] [fx0 fx1 fx2 fx3] [fy0 fy1 fy2 fy3] [fz0 fz1 fz2 fz3]]
                   jp ik xs f].
  cbn [nb030_innerjjnr i_acc i_xmm i_faction].
  destruct Hc as [-> | [-> | [-> | ->]]].
  - reflexivity.
  - rewrite dosingle_spec. cbv zeta. forget_xmm.
    rewrite j_list_1. cbn [nb030_innerjjnr i_acc i_faction nb030_Vvdwtot
                           nb030_fix nb030_fiy nb030_fiz].
    set (j := ld32 (a_jjnr a) jp).
    unfold ref_eval, ref_step, totals_of, hsum, addss.
    cbn [fold_left t_V t_fx t_fy t_fz t_faction i_acc i_faction nb030_Vvdwtot
         nb030_fix nb030_fiy nb030_fiz l0 l1 l2 l3].
    use_lane j. replace (j + j * 2)%Z with (3 * j)%Z by lia.
    apply totals_ext; cbn [t_V t_fx t_fy t_fz t_faction]; try ring. reflexivity.
  - rewrite dopair_spec. cbv zeta. forget_xmm.
    rewrite j_list_2. cbn [nb030_innerjjnr i_acc i_faction nb030_Vvdwtot
                           nb030_fix nb030_fiy nb030_fiz].
    set (j := ld32 (a_jjnr a) jp). set (j' := ld32 (a_jjnr a) (jp + 1)).
    unfold ref_eval, ref_step, totals_of, hsum, addps.
    cbn [fold_left t_V t_fx t_fy t_fz t_faction i_acc i_faction nb030_Vvdwtot
         nb030_fix nb030_fiy nb030_fiz l0 l1 l2 l3].
    use_lane j. use_lane j'.
    replace (j + j * 2)%Z with (3 * j)%Z by lia.
    replace (j' + j' * 2)%Z with (3 * j')%Z by lia.
    apply totals_ext; cbn [t_V t_fx t_fy t_fz t_faction]; try ring. reflexivity.
  - rewrite dosingle_spec. cbv zeta. forget_xmm.
    rewrite dopair_spec. cbv zeta. forget_xmm.
    rewrite j_list_3. cbn [nb030_innerjjnr i_acc i_faction nb030_Vvdwtot
                           nb030_fix nb030_fiy nb030_fiz].
    set (j := ld32 (a_jjnr a) jp). set (j' := ld32 (a_jjnr a) (jp + 1)).
    set (j'' := ld32 (a_jjnr a) (jp + 2)).
    unfold ref_eval, ref_step, totals_of, hsum, addps, addss.
    cbn [fold_left t_V t_fx t_fy t_fz t_faction i_acc i_faction nb030_Vvdwtot
         nb030_fix nb030_fiy nb030_fiz l0 l1 l2 l3].
    use_lane j. use_lane j'. use_lane j''.
    replace (j + j * 2)%Z with (3 * j)%Z by lia.
    replace (j' + j' * 2)%Z with (3 * j')%Z by lia.
    replace (j'' + j'' * 2)%Z with (3 * j'')%Z by lia.
    apply totals_ext; cbn [t_V t_fx t_fy t_fz t_faction]; try ring. reflexivity.
Qed.

(** One pass and the scalar sums: no condition on the particles. *)
Lemma unroll_body_sums s :
  sums_of (unroll_body rsqrt_approx a k e s) =
  ref_sums rsqrt_approx a ntia ix iy iz (j_list a (nb030_innerjjnr s) 4) (sums_of s).
Proof.
  subst k e ref. rewrite prologue_consts.
  rewrite unroll_body_spec. cbv zeta. forget_xmm.
  destruct s as [[[V0 V1 V2 V3] [fx0 fx1 fx2 fx3] [fy0 fy1 fy2 fy3] [fz0 fz1 fz2 fz3]]
                   jp ik xs f].
  cbn [nb030_innerjjnr i_acc i_xmm i_faction nb030_Vvdwtot nb030_fix nb030_fiy
       nb030_fiz] in *.
  rewrite j_list_4.
  set (j0 := ld32 (a_jjnr a) jp) in *.
  set (j1 := ld32 (a_jjnr a) (jp + 1)) in *.
  set (j2 := ld32 (a_jjnr a) (jp + 2)) in *.
  set (j3 := ld32 (a_jjnr a) (jp + 3)) in *.
  unfold ref_sums, sum_step, sums_of, sums_of_totals, totals_of, hsum, addps.
  cbn [fold_left s_V s_fx s_fy s_fz t_V t_fx t_fy t_fz i_acc nb030_Vvdwtot
       nb030_fix nb030_fiy nb030_fiz l0 l1 l2 l3].
  use_lane j0. use_lane j1. use_lane j2. use_lane j3.
  f_equal; ring.
Qed.

(** The unrolled loop followed by the tail, from a state whose counter
    holds [N - 4]: the [N] particles are evaluated once each, in order. *)
Lemma inner_loop_totals (fuel : nat) (s : inner) (N : Z) :
  (0 <= N < 2 ^ 31)%Z -> (N <= 4 * Z.of_nat fuel)%Z ->
  nb030_innerk s = sub32 N 4 ->
  distinct_js a (nb030_innerjjnr s) (nb030_innerjjnr s + 4 * (N / 4)) ->
  exists s',
    (if cond_ge (add_flags (sub32 N 4) 0)
     then unroll_loop rsqrt_approx fuel a k e s else Some s) = Some s'
    /\ totals_of (finish_inner rsqrt_approx a k e s') =
       ref (j_list a (nb030_innerjjnr s) N) (totals_of s).
Proof.
  intros HN Hfuel Hk Hd. unfold k, e. rewrite prologue_consts.
  apply (@inner_loop_fold rsqrt_approx a (wrap (a_ntype a)) is3 ii3 ntia
           (a_tabscale a) half_bits two three ix iy iz totals totals_of
           (ref_step rsqrt_approx a ntia ix iy iz)
           (fun p => distinct_js a p (p + 4))); try assumption.
  - intros s1 k'. reflexivity.
  - intros s1 Hok. rewrite <- (prologue_consts a x0).
    apply (@unroll_body_totals rsqrt_approx a is3 ii3 ntia ix iy iz x0 s1 Hok).
  - intros s1 r Hr Hk1. rewrite <- (prologue_consts a x0).
    apply (@finish_inner_totals s1 r Hr Hk1).
  - intros i Hi Hi'.
    eapply distinct_js_sub; [| |exact Hd]; [lia|].
    assert (i + 1 <= N / 4)%Z by (apply Z.div_le_lower_bound; lia). lia.
Qed.

(** The same for the scalar sums, whatever the list holds. *)
Lemma inner_loop_sums (fuel : nat) (s : inner) (N : Z) :
  (0 <= N < 2 ^ 31)%Z -> (N <= 4 * Z.of_nat fuel)%Z ->
  nb030_innerk s = sub32 N 4 ->
  exists s',
    (if cond_ge (add_flags (sub32 N 4) 0)
     then unroll_loop rsqrt_approx fuel a k e s else Some s) = Some s'
    /\ sums_of (finish_inner rsqrt_approx a k e s') =
       ref_sums rsqrt_approx a ntia ix iy iz (j_list a (nb030_innerjjnr s) N)
                (sums_of s).
Proof.
  intros HN Hfuel Hk. unfold k, e. rewrite prologue_consts.
  apply (@inner_loop_fold rsqrt_approx a (wrap (a_ntype a)) is3 ii3 ntia
           (a_tabscale a) half_bits two three ix iy iz sums sums_of
           (sum_step rsqrt_approx a ntia ix iy iz)
           (fun _ => True)); try assumption.
  - intros s1 k'. reflexivity.
  - intros s1 _. rewrite <- (prologue_consts a x0). apply unroll_body_sums.
  - intros s1 r Hr Hk1. rewrite <- (prologue_consts a x0).
    pose proof (@finish_inner_totals s1 r Hr Hk1) as Hfin. unfold k, e in Hfin.
    unfold sums_of. rewrite Hfin. apply sums_ref_eval.
  - intros; exact I.
Qed.

End EntryReference.

(** When one particle sits in lanes 0 and 1 of a pass, both lanes read its
    slot before either writes it, and the later store wins: the slot loses
    the vector of lane 1 only, although the i accumulators gained both. *)
Theorem update_forces4_duplicate dx dy dz acc V i0 i2 i3 fs x6 f :
  disjoint_slots i0 i2 -> disjoint_slots i0 i3 -> disjoint_slots i2 i3 ->
  let f' := snd (update_forces4 dx dy dz acc V i0 i0 i2 i3 fs x6 f) in
  f' i0 = f i0 - l1 dx * l1 fs
  /\ f' (i0 + 1)%Z = f (i0 + 1)%Z - l1 dy * l1 fs
  /\ f' (i0 + 2)%Z = f (i0 + 2)%Z - l1 dz * l1 fs.
Proof.
  unfold disjoint_slots. intros H02 H03 H23.
  destruct dx, dy, dz, fs, x6.
  cbv beta iota zeta delta
    [update_forces4 snd fst l0 l1 l2 l3 nb030_fix nb030_fiy nb030_fiz
     addps subps mulps subss shufps unpcklps unpckhps movss movlps movhps
     movss_st movlps_st movhps_st lane4
     Z.land Z.shiftr Z.shiftl Pos.land Z.of_N Pos.div2 Z.div2 Pos.iter Z.opp Z.pos_sub
     Pos.pred_double Pos.succ Pos.Nsucc_double Pos.Ndouble].
  repeat split; store_cases.
Qed.

Section EntryTheorems.
Variable rsqrt_approx : real -> real.
Variable a : args.
Variable x0 : xmms.

Let k := fst (prologue a x0).
Let nt := wrap (a_ntype a).

Lemma outer_entry_reference (fuel : nat) (esi ninner : Z) (x : xmms) (o : outputs) :
  let N := ninner_of a esi in
  let e := entry_of a nt esi in
  let p := nj0 a esi in
  let g := ld32 (a_gid a) esi in
  let R := ref_eval rsqrt_approx a (nb030_ntia e) (l0 (nb030_ix e))
             (l0 (nb030_iy e)) (l0 (nb030_iz e)) (j_list a p N)
             (Totals 0 0 0 0 (o_faction o)) in
  (N < 2 ^ 31)%Z -> (N <= 4 * Z.of_nat fuel)%Z ->
  distinct_js a p (p + 4 * (N / 4)) ->
  exists x',
    outer_entry rsqrt_approx fuel a k esi ninner x o =
    Some (add32 N ninner, x',
          Outputs (add_force (t_faction R) (nb030_ii3 e) (t_fx R) (t_fy R) (t_fz R))
                  (add_force (o_fshift o) (nb030_is3 e) (t_fx R) (t_fy R) (t_fz R))
                  (o_Vc o)
                  (store (o_Vvdw o) g (t_V R + o_Vvdw o g))).
Proof.
  intros N e p g R HN Hfuel Hd.
  assert (HNr : in_range N) by apply wrap_range.
  unfold k. rewrite prologue_consts, outer_entry_unfold.
  unfold inner_result. cbv zeta.
  rewrite (outer_setup_spec a _ esi 0 x (o_faction o)). cbn [fst snd].
  set (x1 := i_xmm _).
  rewrite add32_0_sub32. fold N.
  unfold entry_of. cbv zeta.
  rewrite <- (prologue_consts a x0).
  match goal with
  | |- context [unroll_loop _ _ _ _
                  (Entry ?i1 ?i2 ?i3 (splat ?px) (splat ?py) (splat ?pz)) ?s] =>
      destruct (@inner_loop_totals rsqrt_approx a i1 i2 i3 px py pz x0 fuel s N)
        as (s' & Hrun & Htot)
  end.
  - unfold in_range in HNr. lia.
  - exact Hfuel.
  - reflexivity.
  - exact Hd.
  - rewrite Hrun. rewrite updateouterdata_spec. cbv zeta.
    unfold totals_of in Htot at 2.
    cbn [i_acc i_faction zero_acc nb030_Vvdwtot nb030_fix nb030_fiy nb030_fiz
         nb030_innerjjnr] in Htot.
    rewrite hsum_zero in Htot. fold p in Htot.
    match type of Htot with
    | ?L = _ => assert (HR : R = L) by (rewrite Htot; reflexivity)
    end.
    rewrite HR. unfold totals_of. cbn [t_V t_fx t_fy t_fz t_faction].
    eexists. reflexivity.
Qed.

Lemma outer_entry_sums (fuel : nat) (esi ninner : Z) (x : xmms) (o : outputs) :
  let N := ninner_of a esi in
  let e := entry_of a nt esi in
  let p := nj0 a esi in
  let g := ld32 (a_gid a) esi in
  let R := ref_sums rsqrt_approx a (nb030_ntia e) (l0 (nb030_ix e))
             (l0 (nb030_iy e)) (l0 (nb030_iz e)) (j_list a p N) (Sums 0 0 0 0) in
  (N < 2 ^ 31)%Z -> (N <= 4 * Z.of_nat fuel)%Z ->
  exists x' o',
    outer_entry rsqrt_approx fuel a k esi ninner x o = Some (add32 N ninner, x', o')
    /\ o_Vvdw o' = store (o_Vvdw o) g (s_V R + o_Vvdw o g)
    /\ o_fshift o' = add_force (o_fshift o) (nb030_is3 e) (s_fx R) (s_fy R) (s_fz R).
Proof.
  intros N e p g R HN Hfuel.
  assert (HNr : in_range N) by apply wrap_range.
  unfold k. rewrite prologue_consts, outer_entry_unfold.
  unfold inner_result. cbv zeta.
  rewrite (outer_setup_spec a _ esi 0 x (o_faction o)). cbn [fst snd].
  set (x1 := i_xmm _).
  rewrite add32_0_sub32. fold N.
  unfold entry_of. cbv zeta.
  rewrite <- (prologue_consts a x0).
  match goal with
  | |- context [unroll_loop _ _ _ _
                  (Entry ?i1 ?i2 ?i3 (splat ?px) (splat ?py) (splat ?pz)) ?s] =>
      destruct (@inner_loop_sums rsqrt_approx a i1 i2 i3 px py pz x0 fuel s N)
        as (s' & Hrun & Htot)
  end.
  - unfold in_range in HNr. lia.
  - exact Hfuel.
  - reflexivity.
  - rewrite Hrun.
    rewrite sums_of_zero in Htot. cbn [nb030_innerjjnr] in Htot. fold p in Htot.
    match type of Htot with
    | ?L = _ => assert (HR : R = L) by (rewrite Htot; reflexivity)
    end.
    eexists. eexists. split; [reflexivity|].
    rewrite updateouterdata_spec. cbv zeta. cbn [o_Vvdw o_fshift].
    rewrite HR. unfold sums_of, sums_of_totals, totals_of.
    cbn [s_V s_fx s_fy s_fz t_V t_fx t_fy t_fz]. split; reflexivity.
Qed.

Lemma outer_entry_frame (fuel : nat) (esi ninner : Z) (x : xmms) (o : outputs) :
  let N := ninner_of a esi in
  let e := entry_of a nt esi in
  let p := nj0 a esi in
  (N < 2 ^ 31)%Z -> (N <= 4 * Z.of_nat fuel)%Z ->
  exists r o',
    outer_entry rsqrt_approx fuel a k esi ninner x o = Some (r, o')
    /\ o_Vc o' = o_Vc o
    /\ (forall q, q <> ld32 (a_gid a) esi -> o_Vvdw o' q = o_Vvdw o q)
    /\ (forall q, (q < nb030_is3 e \/ nb030_is3 e + 2 < q)%Z ->
                  o_fshift o' q = o_fshift o q)
    /\ (forall q, (q < nb030_ii3 e \/ nb030_ii3 e + 2 < q)%Z ->
                  untouched a p (p + N) q -> o_faction o' q = o_faction o q).
Proof.
  intros N e p HN Hfuel.
  destruct (@inner_result_spec rsqrt_approx a nt (a_tabscale a) half_bits two three
              fuel esi x (o_faction o) HN Hfuel) as (s & Hin & Hframe).
  unfold k. rewrite prologue_consts, outer_entry_unfold. fold nt. rewrite Hin.
  unfold entry_of. cbv zeta. rewrite updateouterdata_spec. cbv zeta.
  eexists. eexists. split; [reflexivity|].
  cbn [o_faction o_fshift o_Vc o_Vvdw].
  split; [reflexivity|]. split; [|split].
  - intros q Hq. apply store_other. exact Hq.
  - intros q Hq. apply add_force_frame. exact Hq.
  - intros q Hq Hu. rewrite add_force_frame by exact Hq. apply Hframe. exact Hu.
Qed.

(** Kernel 030 against the reference: an outer entry whose list holds [N]
    particles, those of the unrolled passes pairwise different, adds to the
    energy slot of its group the sum of the reference energies, takes each
    reference force off its j particle, and adds the sum of the reference
    forces to the i particle and to the shift force. *)
Theorem entry_reference (fuel : nat) (esi ninner : Z) (x : xmms) (o : outputs) :
  let N := ninner_of a esi in
  let e := entry_of a nt esi in
  let p := nj0 a esi in
  let g := ld32 (a_gid a) esi in
  let R := ref_eval rsqrt_approx a (nb030_ntia e) (l0 (nb030_ix e))
             (l0 (nb030_iy e)) (l0 (nb030_iz e)) (j_list a p N)
             (Totals 0 0 0 0 (o_faction o)) in
  (N < 2 ^ 31)%Z -> (N <= 4 * Z.of_nat fuel)%Z ->
  distinct_js a p (p + 4 * (N / 4)) ->
  exists x',
    outer_entry rsqrt_approx fuel a k esi ninner x o =
    Some (add32 N ninner, x',
          Outputs (add_force (t_faction R) (nb030_ii3 e) (t_fx R) (t_fy R) (t_fz R))
                  (add_force (o_fshift o) (nb030_is3 e) (t_fx R) (t_fy R) (t_fz R))
                  (o_Vc o)
                  (store (o_Vvdw o) g (t_V R + o_Vvdw o g))).
Proof. apply outer_entry_reference. Qed.

(** What an entry leaves alone: the Coulomb energies, every energy slot but
    its group's, every shift-force element outside its shift vector, and
    every force element that belongs neither to the i particle nor to a
    particle of its list. *)
Theorem entry_frame (fuel : nat) (esi ninner : Z) (x : xmms) (o : outputs) :
  let N := ninner_of a esi in
  let e := entry_of a nt esi in
  let p := nj0 a esi in
  (N < 2 ^ 31)%Z -> (N <= 4 * Z.of_nat fuel)%Z ->
  exists r o',
    outer_entry rsqrt_approx fuel a k esi ninner x o = Some (r, o')
    /\ o_Vc o' = o_Vc o
    /\ (forall q, q <> ld32 (a_gid a) esi -> o_Vvdw o' q = o_Vvdw o q)
    /\ (forall q, (q < nb030_is3 e \/ nb030_is3 e + 2 < q)%Z ->
                  o_fshift o' q = o_fshift o q)
    /\ (forall q, (q < nb030_ii3 e \/ nb030_ii3 e + 2 < q)%Z ->
                  untouched a p (p + N) q -> o_faction o' q = o_faction o q).
Proof. apply outer_entry_frame. Qed.

(** Whatever the list of an entry holds - repeated particles included - the
    energy slot of its group gains the sum of the reference energies and
    the shift force gains the sum of the reference forces. *)
Theorem entry_sums (fuel : nat) (esi ninner : Z) (x : xmms) (o : outputs) :
  let N := ninner_of a esi in
  let e := entry_of a nt esi in
  let p := nj0 a esi in
  let g := ld32 (a_gid a) esi in
  let R := ref_sums rsqrt_approx a (nb030_ntia e) (l0 (nb030_ix e))
             (l0 (nb030_iy e)) (l0 (nb030_iz e)) (j_list a p N) (Sums 0 0 0 0) in
  (N < 2 ^ 31)%Z -> (N <= 4 * Z.of_nat fuel)%Z ->
  exists x' o',
    outer_entry rsqrt_approx fuel a k esi ninner x o = Some (add32 N ninner, x', o')
    /\ o_Vvdw o' = store (o_Vvdw o) g (s_V R + o_Vvdw o g)
    /\ o_fshift o' = add_force (o_fshift o) (nb030_is3 e) (s_fx R) (s_fy R) (s_fz R).
Proof. apply outer_entry_sums. Qed.

End EntryTheorems.

End Entry030.

(** * The thread loop around the outer entries

    Every kernel of the directory wraps its outer entries in the same code
    (kernel 030: lines 156-186 and 1002-1033; its energy-only variant:
    lines 1139-1169 and 1733-1762), up to the prefix of the labels.  Here
    it is run by one thread: nothing writes the counter between
    [mov eax, [rsi]] and [lock cmpxchg [rsi], ebx], so the exchange stores
    [ebx] and [jnz .nb030_spinlock] falls through. *)

Module Threads.
Import W32 SSE Kernel.
Local Open Scope Z_scope.

(** What the caller finds after the kernel has returned; [Regs] is the register file of
    the kernel, [Out] what it writes of the output arrays. *)
Record kernel_result (Regs Out : Type) : Type := Run {
  k_count : Z;                    (* the cell behind [count] *)
  k_outeriter : Z;                (* the cell behind [outeriter] *)
  k_inneriter : Z;                (* the cell behind [inneriter] *)
  k_xmm : Regs;
  k_out : Out
}.

Section Loop.
Variables Regs Out : Type.

(** One outer entry of the kernel at hand, from [.nb030_outer] to the end
    of [.nb030_updateouterdata]: the entry, the inner-iteration count, the
    registers and the output arrays. *)
Variable outer_entry : Z -> Z -> Regs -> Out -> option (Z * Regs * Out).

(** [.nb030_outer] ... [jmp .nb030_outer]: the entries from [esi] on until
    [esi] reaches [nn1]. *)
Fixpoint outer_loop (fuel : nat) (nn1 esi : Z) (ninner : Z) (x : Regs) (o : Out)
    : option (Z * Z * Regs * Out) :=
  match fuel with
  | O => None
  | S fuel =>
      match outer_entry esi ninner x o with
      | None => None
      | Some (ninner, x, o) =>
          let ecx := nn1 in
          let esi := add32 esi 1 in                     (* inc esi *)
          let ecx := sub32 ecx esi in
          if ecx =? 0 then Some (esi, ninner, x, o)      (* jecxz .nb030_outerend *)
          else outer_loop fuel nn1 esi ninner x o
      end
  end.

(** [.nb030_threadloop] ... [.nb030_end]. *)
Fixpoint thread_loop (fuel ofuel : nat) (nri count nouter ninner : Z)
    (x : Regs) (o : Out) : option (kernel_result Regs Out) :=
  match fuel with
  | O => None
  | S fuel =>
      let eax := count in                               (* mov eax, [rsi] *)
      let ebx := eax in
      let ebx := add32 ebx 1 in
      let count := ebx in                               (* lock cmpxchg [rsi], ebx *)
      let ecx := nri in
      let edx := ecx in
      let fl := sub_flags ecx ebx in
      let ebx := if cond_le fl then edx else ebx in     (* cmovle ebx, edx *)
      let nn1 := ebx in
      let fl := sub_flags ebx eax in
      let ebx := sub32 ebx eax in
      let esi := eax in
      if cond_g fl then                                 (* jg .nb030_outerstart *)
        let ebx := add32 ebx nouter in
        let nouter := ebx in
        match outer_loop ofuel nn1 esi ninner x o with
        | None => None
        | Some (esi, ninner, x, o) =>
            let ecx := nri in
            let ecx := sub32 ecx esi in
            if ecx =? 0 then Some (Run count nouter ninner x o)   (* jecxz .nb030_end *)
            else thread_loop fuel ofuel nri count nouter ninner x o
        end
      else Some (Run count nouter ninner x o)           (* jmp .nb030_end *)
  end.

(** The entries [esi], [esi + 1], ... ([m] of them) one after the other. *)
Fixpoint entries (m : nat) (esi ninner : Z) (x : Regs) (o : Out)
    : option (Z * Regs * Out) :=
  match m with
  | O => Some (ninner, x, o)
  | S m =>
      match outer_entry esi ninner x o with
      | None => None
      | Some (ninner, x, o) => entries m (esi + 1) ninner x o
      end
  end.

(** A claim made when the counter holds [c]: the chunk is the one entry [c]
    if [c] lies below [nri] (as signed numbers), and empty otherwise. *)
Lemma claim_flags nri c :
  in_range nri -> (0 <= c < 2 ^ 31 - 1)%Z ->
  let ebx := add32 c 1 in
  let nn1 := if cond_le (sub_flags nri ebx) then nri else ebx in
  cond_g (sub_flags nn1 c) = (c <? signed nri)%Z
  /\ ((c < signed nri)%Z -> nn1 = (c + 1)%Z).
Proof.
  intros Hn Hc ebx nn1.
  assert (He : ebx = (c + 1)%Z) by (unfold ebx, add32; apply wrap_small; lia).
  assert (Hcr : in_range c) by (unfold in_range, modulus; lia).
  assert (Her : in_range ebx) by (unfold in_range, modulus; lia).
  assert (Hsc : signed c = c) by (apply signed_small; lia).
  assert (Hse : signed ebx = (c + 1)%Z) by (rewrite He; apply signed_small; lia).
  unfold nn1. rewrite cond_le_sub by assumption. rewrite Hse.
  destruct (Z.leb_spec (signed nri) (c + 1)) as [Hle | Hgt].
  - rewrite cond_g_sub by assumption. rewrite Hsc. split; [reflexivity|].
    intros Hlt. assert (Hs : signed nri = (c + 1)%Z) by lia.
    destruct (signed_nonneg Hn) as [Hs' _]; lia.
  - rewrite cond_g_sub by assumption. rewrite Hsc, Hse. split; [|intros; exact He].
    destruct (Z.ltb_spec c (c + 1)), (Z.ltb_spec c (signed nri)); lia.
Qed.

Lemma thread_loop_claims fuel ofuel nri c nouter ninner x o :
  in_range nri -> (0 <= c < nri)%Z -> (nri < 2 ^ 31)%Z ->
  thread_loop (S fuel) (S ofuel) nri c nouter ninner x o =
  match outer_entry c ninner x o with
  | None => None
  | Some (ninner, x, o) =>
      if (nri =? c + 1)%Z then Some (Run (c + 1) (add32 1 nouter) ninner x o)
      else thread_loop fuel (S ofuel) nri (c + 1) (add32 1 nouter) ninner x o
  end.
Proof.
  intros Hn Hc Hnri.
  assert (Hs : signed nri = nri) by (apply signed_small; lia).
  destruct (@claim_flags nri c Hn ltac:(lia)) as [Hg Hnn]. cbv zeta in Hg, Hnn.
  cbn [thread_loop]. cbv zeta. rewrite Hg, Hs.
  destruct (Z.ltb_spec c nri) as [_|]; [|lia].
  rewrite Hnn by lia.
  assert (He : add32 c 1 = (c + 1)%Z) by (unfold add32; apply wrap_small; lia).
  rewrite He.
  replace (sub32 (c + 1) c) with 1%Z
    by (unfold sub32; rewrite wrap_small by lia; lia).
  cbn [outer_loop].
  destruct (outer_entry c ninner x o) as [[[ni x'] o']|]; [|reflexivity].
  cbv zeta. rewrite He.
  replace (sub32 (c + 1) (c + 1)) with 0%Z
    by (unfold sub32; rewrite Z.sub_diag; reflexivity).
  cbn [Z.eqb].
  assert (Hz : (sub32 nri (c + 1) =? 0)%Z = (nri =? c + 1)%Z).
  { unfold sub32. rewrite wrap_small by lia.
    destruct (Z.eqb_spec (nri - (c + 1)) 0), (Z.eqb_spec nri (c + 1)); lia. }
  rewrite Hz. reflexivity.
Qed.

Lemma thread_loop_entries ofuel nri :
  in_range nri -> (nri < 2 ^ 31)%Z ->
  forall (m : nat) (fuel : nat) c nouter ninner x o ni x' o',
  (0 <= c)%Z -> (c + Z.of_nat (S m) = nri)%Z -> (S m <= fuel)%nat ->
  (0 <= nouter)%Z -> (nouter + Z.of_nat (S m) < 2 ^ 32)%Z ->
  entries (S m) c ninner x o = Some (ni, x', o') ->
  thread_loop fuel (S ofuel) nri c nouter ninner x o =
  Some (Run nri (nouter + Z.of_nat (S m)) ni x' o').
Proof.
  intros Hn Hnri. induction m as [|m IH];
    intros fuel c nouter ninner x o ni x' o' Hc Hm Hf Hno Hnob Hent.
  - destruct fuel as [|fuel]; [lia|].
    rewrite thread_loop_claims by (try assumption; lia).
    cbn [entries] in Hent.
    destruct (outer_entry c ninner x o) as [[[n1 x1] o1]|]; [|discriminate].
    injection Hent as -> -> ->.
    destruct (Z.eqb_spec nri (c + 1)); [|lia].
    unfold add32. rewrite wrap_small by lia.
    do 2 f_equal; lia.
  - destruct fuel as [|fuel]; [lia|].
    rewrite thread_loop_claims by (try assumption; lia).
    change (entries (S (S m)) c ninner x o) with
      (match outer_entry c ninner x o with
       | None => None
       | Some (ninner, x, o) => entries (S m) (c + 1) ninner x o
       end) in Hent.
    destruct (outer_entry c ninner x o) as [[[n1 x1] o1]|]; [|discriminate].
    destruct (Z.eqb_spec nri (c + 1)); [lia|].
    rewrite (IH fuel (c + 1)%Z (add32 1 nouter) n1 x1 o1 ni x' o');
      try assumption; unfold add32; rewrite ?wrap_small by lia; try lia.
    do 2 f_equal; lia.
Qed.

(** The thread loop from counter [c] below [nri]: the entries
    [c .. nri-1] in order. *)
Lemma thread_loop_run fuel ofuel nri c x o ni x' o' :
  in_range nri -> (0 <= c < nri)%Z -> (nri < 2 ^ 31)%Z ->
  (nri - c <= Z.of_nat fuel)%Z -> (0 < ofuel)%nat ->
  entries (Z.to_nat (nri - c)) c 0 x o = Some (ni, x', o') ->
  thread_loop fuel ofuel nri c 0 0 x o = Some (Run nri (nri - c) ni x' o').
Proof.
  intros Hr Hc Hnri Hf Hof Hent.
  destruct ofuel as [|ofuel]; [lia|].
  destruct (Z.to_nat (nri - c)) as [|m] eqn:Em; [lia|].
  rewrite (@thread_loop_entries ofuel nri Hr Hnri m fuel c 0%Z
             0%Z x o ni x' o'); try assumption; try lia.
  do 2 f_equal; lia.
Qed.

(** No entry left: the counter is raised all the same. *)
Lemma thread_loop_nothing fuel ofuel nri c nouter ninner x o :
  in_range nri -> (0 <= c < 2 ^ 31 - 1)%Z -> (signed nri <= c)%Z ->
  thread_loop (S fuel) ofuel nri c nouter ninner x o =
  Some (Run (c + 1) nouter ninner x o).
Proof.
  intros Hr Hc Hn.
  destruct (@claim_flags nri c Hr Hc) as [Hg _]. cbv zeta in Hg.
  cbn [thread_loop]. cbv zeta. rewrite Hg.
  destruct (Z.ltb_spec c (signed nri)); [lia|].
  unfold add32. rewrite wrap_small by lia. reflexivity.
Qed.

(** The entries as a fold: when every entry [n] that satisfies [P] adds
    [len n] to the inner-iteration count and maps the outputs by [step n],
    whatever the registers hold. *)
Section Fold.
Variable len : Z -> Z.
Variable step : Z -> Out -> Out.
Variable P : Z -> Prop.

Fixpoint sum_from (m : nat) (esi : Z) : Z :=
  match m with
  | O => 0
  | S m => len esi + sum_from m (esi + 1)
  end.

Fixpoint fold_from (m : nat) (esi : Z) (o : Out) : Out :=
  match m with
  | O => o
  | S m => fold_from m (esi + 1) (step esi o)
  end.

Hypothesis entry_step : forall esi ninner x o,
  P esi -> exists x', outer_entry esi ninner x o = Some (add32 (len esi) ninner, x', step esi o).

Lemma add32_wrap_r x y : add32 x (wrap y) = wrap (y + x).
Proof.
  unfold add32, wrap. rewrite Zplus_mod_idemp_r. f_equal. lia.
Qed.

Lemma entries_fold : forall (m : nat) c ninner x o,
  (forall n, c <= n < c + Z.of_nat m -> P n) ->
  exists x',
    entries m c (wrap ninner) x o =
      Some (wrap (ninner + sum_from m c), x', fold_from m c o).
Proof.
  induction m as [|m IH]; intros c ninner x o HP.
  - exists x. cbn [entries sum_from fold_from]. rewrite Z.add_0_r. reflexivity.
  - cbn [entries sum_from fold_from].
    destruct (@entry_step c (wrap ninner) x o (HP c ltac:(lia))) as (x1 & Hrun).
    rewrite Hrun. rewrite add32_wrap_r.
    destruct (IH (c + 1) (ninner + len c) x1 (step c o)) as (x' & Hent).
    { intros n Hn. apply HP. lia. }
    exists x'. rewrite Hent, Z.add_assoc. reflexivity.
Qed.

End Fold.

End Loop.

(** Two kernels whose entries agree on a view of the outputs, whatever the
    registers hold, agree on it after the whole thread loop. *)
Section Agree.
Variables X1 X2 O1 O2 : Type.
Variable f1 : Z -> Z -> X1 -> O1 -> option (Z * X1 * O1).
Variable f2 : Z -> Z -> X2 -> O2 -> option (Z * X2 * O2).
Variable R : O1 -> O2 -> Prop.

Definition agree_entry (r1 : option (Z * X1 * O1)) (r2 : option (Z * X2 * O2))
    : Prop :=
  match r1, r2 with
  | Some (n1, _, o1), Some (n2, _, o2) => n1 = n2 /\ R o1 o2
  | None, None => True
  | _, _ => False
  end.

Definition agree_loop (r1 : option (Z * Z * X1 * O1))
    (r2 : option (Z * Z * X2 * O2)) : Prop :=
  match r1, r2 with
  | Some (e1, n1, _, o1), Some (e2, n2, _, o2) => e1 = e2 /\ n1 = n2 /\ R o1 o2
  | None, None => True
  | _, _ => False
  end.

Definition agree_run (r1 : option (kernel_result X1 O1))
    (r2 : option (kernel_result X2 O2)) : Prop :=
  match r1, r2 with
  | Some r1, Some r2 =>
      k_count r1 = k_count r2 /\ k_outeriter r1 = k_outeriter r2
      /\ k_inneriter r1 = k_inneriter r2 /\ R (k_out r1) (k_out r2)
  | None, None => True
  | _, _ => False
  end.

Hypothesis entries_agree : forall esi ninner x1 x2 o1 o2,
  R o1 o2 -> agree_entry (f1 esi ninner x1 o1) (f2 esi ninner x2 o2).

Lemma outer_loop_agree nn1 : forall fuel esi ninner x1 x2 o1 o2,
  R o1 o2 ->
  agree_loop (outer_loop f1 fuel nn1 esi ninner x1 o1)
             (outer_loop f2 fuel nn1 esi ninner x2 o2).
Proof.
  induction fuel as [|fuel IH]; intros esi ninner x1 x2 o1 o2 HR; [exact I|].
  cbn [outer_loop].
  pose proof (entries_agree esi ninner x1 x2 HR) as H.
  destruct (f1 esi ninner x1 o1) as [[[n1 y1] p1]|],
           (f2 esi ninner x2 o2) as [[[n2 y2] p2]|]; cbn in H; try contradiction;
    [|exact I].
  destruct H as [<- HR']. cbv zeta.
  destruct (sub32 nn1 (add32 esi 1) =? 0).
  - cbn. auto.
  - apply IH. exact HR'.
Qed.

Lemma thread_loop_agree ofuel nri : forall fuel count nouter ninner x1 x2 o1 o2,
  R o1 o2 ->
  agree_run (thread_loop f1 fuel ofuel nri count nouter ninner x1 o1)
            (thread_loop f2 fuel ofuel nri count nouter ninner x2 o2).
Proof.
  induction fuel as [|fuel IH]; intros count nouter ninner x1 x2 o1 o2 HR; [exact I|].
  cbn [thread_loop]. cbv zeta.
  destruct (cond_g _); [|cbn; auto].
  match goal with
  | |- context [outer_loop f1 ofuel ?n ?e ninner x1 o1] =>
      pose proof (@outer_loop_agree n ofuel e ninner x1 x2 o1 o2 HR) as H;
      destruct (outer_loop f1 ofuel n e ninner x1 o1) as [[[[e1 n1] y1] p1]|],
               (outer_loop f2 ofuel n e ninner x2 o2) as [[[[e2 n2] y2] p2]|]
  end; cbn in H; try contradiction; [|exact I].
  destruct H as (<- & <- & HR').
  destruct (sub32 nri e1 =? 0).
  - cbn. auto.
  - apply IH. exact HR'.
Qed.

End Agree.

End Threads.

(** * Kernel 030: the whole kernel, run by one thread *)

Module Run030.
Import W32 SSE Kernel NB030 Threads.
Local Open Scope Z_scope.

Section Kernel030.
Variable rsqrt_approx : real -> real.

(** The kernel from its first instruction to [ret] (lines 108-1034);
    [count] is the value of the shared counter when it is called. *)
Definition nb_kernel030 (fuel ofuel ifuel : nat) (a : args) (count : Z)
    (x : xmms) (o : outputs) : option (kernel_result xmms outputs) :=
  let eax := 0 in
  let nb030_nouter := eax in
  let nb030_ninner := eax in
  let edi := wrap (a_nri a) in                          (* mov edi, [rdi] *)
  let nb030_nri := edi in
  let '(k, x) := prologue a x in
  thread_loop (outer_entry rsqrt_approx ifuel a k)
              fuel ofuel nb030_nri count nb030_nouter nb030_ninner x o.

(** The entries of kernel 030 one after the other. *)
Definition entries030 (ifuel : nat) (a : args) (k : consts) :=
  entries (outer_entry rsqrt_approx ifuel a k).

Lemma nb_kernel030_entries (fuel ofuel ifuel : nat) (a : args) (c : Z)
    (x : xmms) (o : outputs) (ni : Z) (x' : xmms) (o' : outputs) :
  let nri := wrap (a_nri a) in
  (0 <= c < nri)%Z -> (nri < 2 ^ 31)%Z ->
  (nri - c <= Z.of_nat fuel)%Z -> (0 < ofuel)%nat ->
  entries030 ifuel a (fst (prologue a x)) (Z.to_nat (nri - c)) c 0
             (snd (prologue a x)) o = Some (ni, x', o') ->
  nb_kernel030 fuel ofuel ifuel a c x o = Some (Run nri (nri - c) ni x' o').
Proof.
  intros nri Hc Hnri Hf Hof Hent.
  unfold nb_kernel030. cbv zeta. fold nri.
  destruct (prologue a x) as [k x1]. cbn [fst snd] in Hent.
  apply thread_loop_run; try assumption. apply wrap_range.
Qed.


(** What an entry does by the reference: the forces of its list taken off
    the j particles, their sum added to the i particle and to the shift
    force, the energies added to the slot of the entry's group. *)
Definition ref_entry (a : args) (esi : Z) (o : outputs) : outputs :=
  let e := entry_of a (wrap (a_ntype a)) esi in
  let R := ref_eval rsqrt_approx a (nb030_ntia e) (l0 (nb030_ix e))
             (l0 (nb030_iy e)) (l0 (nb030_iz e))
             (j_list a (nj0 a esi) (ninner_of a esi))
             (Totals 0 0 0 0 (o_faction o)) in
  let g := ld32 (a_gid a) esi in
  Outputs (add_force (t_faction R) (nb030_ii3 e) (t_fx R) (t_fy R) (t_fz R))
          (add_force (o_fshift o) (nb030_is3 e) (t_fx R) (t_fy R) (t_fz R))
          (o_Vc o)
          (store (o_Vvdw o) g (t_V R + o_Vvdw o g)%Qc).

Definition ref_entries (a : args) : nat -> Z -> outputs -> outputs :=
  fold_from (ref_entry a).

(** The lengths of the lists of [m] entries from [esi] on, added up. *)
Definition sum_ninner (a : args) : nat -> Z -> Z := sum_from (ninner_of a).

(** An entry the kernel can run: its list is not longer than [2^31 - 1]
    (and than the fuel allows). *)
Definition entry_fits (ifuel : nat) (a : args) (n : Z) : Prop :=
  ninner_of a n < 2 ^ 31 /\ ninner_of a n <= 4 * Z.of_nat ifuel.

Lemma entries_counted ifuel a x0 : forall (m : nat) c ninner x o,
  (forall n, c <= n < c + Z.of_nat m -> entry_fits ifuel a n) ->
  exists x' o',
    entries030 ifuel a (fst (prologue a x0)) m c (wrap ninner) x o =
      Some (wrap (ninner + sum_ninner a m c), x', o')
    /\ o_Vc o' = o_Vc o.
Proof.
  unfold entries030.
  induction m as [|m IH]; intros c ninner x o Hfit.
  - exists x, o. unfold sum_ninner. cbn [entries sum_from]. rewrite Z.add_0_r.
    split; reflexivity.
  - unfold sum_ninner in *. cbn [entries sum_from].
    destruct (Hfit c ltac:(lia)) as [H1 H2].
    destruct (@Entry030.outer_entry_frame rsqrt_approx a x0 ifuel c (wrap ninner) x o
                H1 H2)
      as (r & o1 & Hrun & HVc & _).
    assert (Hr : exists x1, r = (wrap (ninner + ninner_of a c), x1)).
    { revert Hrun. rewrite prologue_consts, outer_entry_unfold.
      destruct (inner_result _ _ _ _ _ _ _ _ _ _ _) as [s|]; [|discriminate].
      destruct (updateouterdata _ _ _ _ _) as [x1 o2].
      intros H. injection H as <- _. exists x1. rewrite add32_wrap_r. reflexivity. }
    destruct Hr as (x1 & ->). rewrite Hrun.
    destruct (IH (c + 1) (ninner + ninner_of a c) x1 o1) as (x' & o' & Hent & HVc').
    { intros n Hn. apply Hfit. lia. }
    exists x', o'. rewrite Hent, Z.add_assoc. split; [reflexivity | congruence].
Qed.

(** Whatever the lists hold, a single thread gets through the entries
    [c .. nri-1]: the kernel returns, with the counter at [nri], [nri - c]
    outer iterations and the sum of the list lengths (modulo [2^32]) as
    inner iterations, and it leaves the Coulomb energies alone. *)
Theorem kernel_counters (fuel ofuel ifuel : nat) (a : args) (c : Z)
    (x : xmms) (o : outputs) :
  let nri := wrap (a_nri a) in
  (0 <= c < nri)%Z -> (nri < 2 ^ 31)%Z ->
  (nri - c <= Z.of_nat fuel)%Z -> (0 < ofuel)%nat ->
  (forall n, c <= n < nri -> entry_fits ifuel a n) ->
  exists x' o',
    nb_kernel030 fuel ofuel ifuel a c x o =
      Some (Run nri (nri - c) (wrap (sum_ninner a (Z.to_nat (nri - c)) c)) x' o')
    /\ o_Vc o' = o_Vc o.
Proof.
  intros nri Hc Hnri Hf Hof Hfit.
  destruct (@entries_counted ifuel a x (Z.to_nat (nri - c)) c 0 (snd (prologue a x)) o)
    as (x' & o' & Hent & HVc).
  { intros n Hn. apply Hfit. lia. }
  exists x', o'. split; [|exact HVc].
  apply nb_kernel030_entries; try assumption.
Qed.

Lemma entries_reference ifuel a x0 : forall (m : nat) c ninner x o,
  (forall n, c <= n < c + Z.of_nat m ->
     entry_fits ifuel a n
     /\ Entry030.distinct_js a (nj0 a n) (nj0 a n + 4 * (ninner_of a n / 4))) ->
  exists x',
    entries030 ifuel a (fst (prologue a x0)) m c (wrap ninner) x o =
      Some (wrap (ninner + sum_ninner a m c), x', ref_entries a m c o).
Proof.
  intros m c ninner x o Hfit.
  apply (@entries_fold xmms outputs
           (outer_entry rsqrt_approx ifuel a (fst (prologue a x0)))
           (ninner_of a) (ref_entry a)
           (fun n => entry_fits ifuel a n
                     /\ Entry030.distinct_js a (nj0 a n)
                          (nj0 a n + 4 * (ninner_of a n / 4)))); [|exact Hfit].
  intros esi ni y p [[H1 H2] Hd].
  apply (@Entry030.outer_entry_reference rsqrt_approx a x0 ifuel esi ni y p H1 H2 Hd).
Qed.

(** Kernel 030 against the reference: when the particles of every unrolled
    pass are pairwise different, a single thread leaves in the output
    arrays what the reference leaves after the entries [c .. nri-1], taken
    in order. *)
Theorem kernel_reference (fuel ofuel ifuel : nat) (a : args) (c : Z)
    (x : xmms) (o : outputs) :
  let nri := wrap (a_nri a) in
  (0 <= c < nri)%Z -> (nri < 2 ^ 31)%Z ->
  (nri - c <= Z.of_nat fuel)%Z -> (0 < ofuel)%nat ->
  (forall n, c <= n < nri ->
     entry_fits ifuel a n
     /\ Entry030.distinct_js a (nj0 a n) (nj0 a n + 4 * (ninner_of a n / 4))) ->
  exists x',
    nb_kernel030 fuel ofuel ifuel a c x o =
      Some (Run nri (nri - c) (wrap (sum_ninner a (Z.to_nat (nri - c)) c)) x'
                (ref_entries a (Z.to_nat (nri - c)) c o)).
Proof.
  intros nri Hc Hnri Hf Hof Hfit.
  destruct (@entries_reference ifuel a x (Z.to_nat (nri - c)) c 0 (snd (prologue a x)) o)
    as (x' & Hent).
  { intros n Hn. apply Hfit. lia. }
  exists x'. apply nb_kernel030_entries; try assumption.
Qed.

(** When no entry is left (the counter is not below the signed [nri]; in
    particular when [nri] is zero or negative) the kernel still raises the
    counter by one, touches no output and reports zero iterations. *)
Theorem kernel_nothing_left (fuel ofuel ifuel : nat) (a : args) (c : Z)
    (x : xmms) (o : outputs) :
  (0 <= c < 2 ^ 31 - 1)%Z -> (signed (wrap (a_nri a)) <= c)%Z -> (0 < fuel)%nat ->
  exists x',
    nb_kernel030 fuel ofuel ifuel a c x o = Some (Run (c + 1) 0 0 x' o).
Proof.
  intros Hc Hn Hf. unfold nb_kernel030. cbv zeta.
  destruct (prologue a x) as [k x1].
  destruct fuel as [|fuel]; [lia|].
  exists x1. apply thread_loop_nothing; try assumption. apply wrap_range.
Qed.

End Kernel030.

End Run030.

(** * Kernel 030 without forces ([nb_kernel030nf_x86_64_sse], lines 1040-1763)

    The energy-only variant of kernel 030 in the same file: the same
    neighbour-list traversal and table lookup, the spline evaluated for the
    potential only, and nothing but the group's Vvdw slot written. *)

Module NB030nf.
Import W32 SSE Kernel.
Local Open Scope Z_scope.

(** Stack slots written once before the thread loop; no [two] here. *)
Record consts : Type := Consts {
  nb030nf_ntype : Z;
  nb030nf_tsc : v4;
  nb030nf_half : v4;
  nb030nf_three : v4
}.

(** Stack slots written at [.nb030nf_outer]. *)
Record entry : Type := Entry {
  nb030nf_is3 : Z;
  nb030nf_ii3 : Z;
  nb030nf_ntia : Z;
  nb030nf_ix : v4;
  nb030nf_iy : v4;
  nb030nf_iz : v4
}.

(** What the inner loop carries from block to block. *)
Record inner : Type := Inner {
  nb030nf_Vvdwtot : v4;
  nb030nf_innerjjnr : Z;
  nb030nf_innerk : Z;
  i_xmm : xmms
}.

Section Code.

Variable rsqrt_approx : real -> real.

Definition rsqrtps (s : v4) : v4 :=
  V4 (rsqrt_approx (l0 s)) (rsqrt_approx (l1 s))
     (rsqrt_approx (l2 s)) (rsqrt_approx (l3 s)).

(** Lines 1097-1138: argument spill and the constants half and three. *)
Definition prologue (a : args) (x : xmms) : consts * xmms :=
  let xmm3 := movss_v (a_tabscale a) in             (* movss xmm3, [rax] *)
  let xmm3 := shufps xmm3 xmm3 0 in
  let nb030nf_tsc := xmm3 in
  let xmm1 := movss_v half_bits in                  (* movss xmm1, [rsp + nb030nf_half] *)
  let xmm1 := shufps xmm1 xmm1 0 in
  let xmm2 := xmm1 in
  let xmm2 := addps xmm2 xmm2 in                    (* one *)
  let xmm3 := xmm2 in
  let xmm2 := addps xmm2 xmm2 in                    (* two *)
  let xmm3 := addps xmm3 xmm2 in                    (* three *)
  (Consts (wrap (a_ntype a)) nb030nf_tsc xmm1 xmm3,
   Xmm (r0 x) xmm1 xmm2 xmm3 (r4 x) (r5 x) (r6 x) (r7 x)).

(** Lines 1170-1229: [.nb030nf_outer] up to the store of [nb030nf_innerk].
    Returns the flags of [add edx, 0] for the [jge] that follows. *)
Definition outer_setup (a : args) (k : consts) (esi : Z) (ninner : Z)
    (x : xmms) : entry * inner * Z * flags :=
  let ebx := ld32 (a_shift a) esi in
  let rbx := ebx + ebx * 2 in                       (* lea rbx, [rbx + rbx*2] *)
  let nb030nf_is3 := wrap rbx in
  let xmm0 := movss (a_shiftvec a) rbx in
  let xmm1 := movss (a_shiftvec a) (rbx + 1) in
  let xmm2 := movss (a_shiftvec a) (rbx + 2) in
  let ebx := ld32 (a_iinr a) esi in
  let edx := ld32 (a_type a) ebx in
  let edx := mul32 edx (nb030nf_ntype k) in
  let edx := shl32 edx 1 in
  let nb030nf_ntia := edx in
  let rbx := ebx + ebx * 2 in
  let xmm0 := addss_m xmm0 (a_pos a) rbx in
  let xmm1 := addss_m xmm1 (a_pos a) (rbx + 1) in
  let xmm2 := addss_m xmm2 (a_pos a) (rbx + 2) in
  let xmm0 := shufps xmm0 xmm0 0 in
  let xmm1 := shufps xmm1 xmm1 0 in
  let xmm2 := shufps xmm2 xmm2 0 in
  let nb030nf_ix := xmm0 in
  let nb030nf_iy := xmm1 in
  let nb030nf_iz := xmm2 in
  let nb030nf_ii3 := wrap rbx in
  let xmm4 := xorps_self in
  let nb030nf_Vvdwtot := xmm4 in
  let ecx := ld32 (a_jindex a) esi in
  let edx := ld32 (a_jindex a) (esi + 1) in
  let edx := sub32 edx ecx in
  let ecx := shl32 ecx 2 in
  let nb030nf_innerjjnr := ecx / 4 in               (* jjnr + rcx bytes *)
  let ecx := edx in
  let edx := sub32 edx 4 in
  let ecx := add32 ecx ninner in
  let nb030nf_ninner := ecx in
  let fl := add_flags edx 0 in
  let edx := add32 edx 0 in
  let nb030nf_innerk := edx in
  (Entry nb030nf_is3 nb030nf_ii3 nb030nf_ntia nb030nf_ix nb030nf_iy nb030nf_iz,
   Inner nb030nf_Vvdwtot nb030nf_innerjjnr nb030nf_innerk
         (Xmm xmm0 xmm1 xmm2 (r3 x) xmm4 (r5 x) (r6 x) (r7 x)),
   nb030nf_ninner, fl).

(** Lines 1311-1325 (and again 1493-1507, 1622-1636): the squared distance
    of the i site from the j sites in [xmm0]-[xmm2].  Returns [xmm4] (rsq),
    [xmm5], [xmm6]; the differences are not kept. *)
Definition calc_rsq (e : entry) (xmm0 xmm1 xmm2 : v4) : v4 * v4 * v4 :=
  let xmm4 := nb030nf_ix e in
  let xmm5 := nb030nf_iy e in
  let xmm6 := nb030nf_iz e in
  let xmm4 := subps xmm4 xmm0 in
  let xmm5 := subps xmm5 xmm1 in
  let xmm6 := subps xmm6 xmm2 in
  let xmm4 := mulps xmm4 xmm4 in
  let xmm5 := mulps xmm5 xmm5 in
  let xmm6 := mulps xmm6 xmm6 in
  let xmm4 := addps xmm4 xmm5 in
  let xmm4 := addps xmm4 xmm6 in                    (* rsq *)
  (xmm4, xmm5, xmm6).

(** Lines 1328-1337 (and again 1510-1519, 1639-1648): the reciprocal square
    root of [xmm4].  Returns [xmm0] (rinv), [xmm1], [xmm2], [xmm5]. *)
Definition calc_rinv (k : consts) (xmm4 : v4) : v4 * v4 * v4 * v4 :=
  let xmm5 := rsqrtps xmm4 in                       (* lookup seed *)
  let xmm2 := xmm5 in
  let xmm5 := mulps xmm5 xmm5 in
  let xmm1 := nb030nf_three k in
  let xmm5 := mulps xmm5 xmm4 in                    (* rsq*lu*lu *)
  let xmm0 := nb030nf_half k in
  let xmm1 := subps xmm1 xmm5 in                    (* 3 - rsq*lu*lu *)
  let xmm1 := mulps xmm1 xmm2 in
  let xmm0 := mulps xmm0 xmm1 in                    (* rinv *)
  (xmm0, xmm1, xmm2, xmm5).

(** Lines 1384-1389 (and the five other table evaluations): the potential
    of the cubic spline from Y, F, G, H in [xmm4]-[xmm7], eps in [xmm1] and
    eps2 in [xmm2].  Returns [xmm5] (VV), [xmm6] (Geps), [xmm7] (Heps2). *)
Definition spline_VV (xmm1 xmm2 xmm4 xmm5 xmm6 xmm7 : v4) : v4 * v4 * v4 :=
  let xmm6 := mulps xmm6 xmm1 in                    (* Geps *)
  let xmm7 := mulps xmm7 xmm2 in                    (* Heps2 *)
  let xmm5 := addps xmm5 xmm6 in
  let xmm5 := addps xmm5 xmm7 in                    (* Fp *)
  let xmm5 := mulps xmm5 xmm1 in                    (* eps*Fp *)
  let xmm5 := addps xmm5 xmm4 in                    (* VV *)
  (xmm5, xmm6, xmm7).

(** Lines 1231-1431 without the back edge: one pass of
    [.nb030nf_unroll_loop], four j particles. *)
Definition unroll_body (a : args) (k : consts) (e : entry) (s : inner) : inner :=
  let xmm3 := r3 (i_xmm s) in
  let xmm5 := r5 (i_xmm s) in
  let xmm6 := r6 (i_xmm s) in
  let xmm7 := r7 (i_xmm s) in
  let nb030nf_Vvdwtot := nb030nf_Vvdwtot s in
  let rdx := nb030nf_innerjjnr s in
  let eax := ld32 (a_jjnr a) rdx in
  let ebx := ld32 (a_jjnr a) (rdx + 1) in
  let ecx := ld32 (a_jjnr a) (rdx + 2) in
  let edx := ld32 (a_jjnr a) (rdx + 3) in
  let nb030nf_innerjjnr := nb030nf_innerjjnr s + 4 in   (* add qword ptr [...], 16 *)
  let mm0 := eax in
  let mm1 := ebx in
  let mm2 := ecx in
  let mm3 := edx in
  let eax := ld32 (a_type a) eax in
  let ebx := ld32 (a_type a) ebx in
  let ecx := ld32 (a_type a) ecx in
  let edx := ld32 (a_type a) edx in
  let eax := shl32 eax 1 in
  let ebx := shl32 ebx 1 in
  let ecx := shl32 ecx 1 in
  let edx := shl32 edx 1 in
  let edi := nb030nf_ntia e in
  let eax := add32 eax edi in
  let ebx := add32 ebx edi in
  let ecx := add32 ecx edi in
  let edx := add32 edx edi in
  let xmm6 := movlps xmm6 (a_vdwparam a) eax in
  let xmm7 := movlps xmm7 (a_vdwparam a) ecx in
  let xmm6 := movhps xmm6 (a_vdwparam a) ebx in
  let xmm7 := movhps xmm7 (a_vdwparam a) edx in
  let xmm4 := xmm6 in
  let xmm4 := shufps xmm4 xmm7 136 in
  let xmm6 := shufps xmm6 xmm7 221 in
  let eax := mm0 in
  let ebx := mm1 in
  let ecx := mm2 in
  let edx := mm3 in
  let nb030nf_c6 := xmm4 in
  let nb030nf_c12 := xmm6 in
  let rax := eax + eax * 2 in                       (* lea rax, [rax + rax*2] *)
  let rbx := ebx + ebx * 2 in
  let rcx := ecx + ecx * 2 in
  let rdx := edx + edx * 2 in
  let xmm4 := movlps xmm4 (a_pos a) rax in
  let xmm5 := movlps xmm5 (a_pos a) rcx in
  let xmm2 := movss (a_pos a) (rax + 2) in
  let xmm6 := movss (a_pos a) (rcx + 2) in
  let xmm4 := movhps xmm4 (a_pos a) rbx in
  let xmm5 := movhps xmm5 (a_pos a) rdx in
  let xmm0 := movss (a_pos a) (rbx + 2) in
  let xmm1 := movss (a_pos a) (rdx + 2) in
  let xmm2 := shufps xmm2 xmm0 0 in
  let xmm6 := shufps xmm6 xmm1 0 in
  let xmm0 := xmm4 in
  let xmm1 := xmm4 in
  let xmm2 := shufps xmm2 xmm6 136 in
  let xmm0 := shufps xmm0 xmm5 136 in
  let xmm1 := shufps xmm1 xmm5 221 in
  let '(xmm4, xmm5, xmm6) := calc_rsq e xmm0 xmm1 xmm2 in
  let '(xmm0, xmm1, xmm2, xmm5) := calc_rinv k xmm4 in
  let xmm4 := mulps xmm4 xmm0 in                    (* r *)
  let xmm4 := mulps xmm4 (nb030nf_tsc k) in
  let xmm5 := movhlps xmm5 xmm4 in
  let mm6 := cvttps2pi xmm4 in
  let mm7 := cvttps2pi xmm5 in                      (* lu indices *)
  let xmm6 := cvtpi2ps xmm6 mm6 in
  let xmm5 := cvtpi2ps xmm5 mm7 in
  let xmm6 := movlhps xmm6 xmm5 in
  let xmm4 := subps xmm4 xmm6 in
  let xmm1 := xmm4 in                               (* eps *)
  let xmm2 := xmm1 in
  let xmm2 := mulps xmm2 xmm2 in                    (* eps2 *)
  let mm6 := pslld mm6 3 in
  let mm7 := pslld mm7 3 in
  let mm0 := wrap rax in                            (* movd mm0, eax *)
  let mm1 := wrap rbx in
  let mm2 := wrap rcx in
  let mm3 := wrap rdx in
  let eax := movd mm6 in
  let mm6 := psrlq32 mm6 in
  let ecx := movd mm7 in
  let mm7 := psrlq32 mm7 in
  let ebx := movd mm6 in
  let edx := movd mm7 in
  (* dispersion *)
  let xmm5 := movlps xmm5 (a_VFtab a) eax in
  let xmm7 := movlps xmm7 (a_VFtab a) ecx in
  let xmm5 := movhps xmm5 (a_VFtab a) ebx in
  let xmm7 := movhps xmm7 (a_VFtab a) edx in
  let xmm4 := xmm5 in
  let xmm4 := shufps xmm4 xmm7 136 in
  let xmm5 := shufps xmm5 xmm7 221 in
  let xmm7 := movlps xmm7 (a_VFtab a) (eax + 2) in
  let xmm3 := movlps xmm3 (a_VFtab a) (ecx + 2) in
  let xmm7 := movhps xmm7 (a_VFtab a) (ebx + 2) in
  let xmm3 := movhps xmm3 (a_VFtab a) (edx + 2) in
  let xmm6 := xmm7 in
  let xmm6 := shufps xmm6 xmm3 136 in
  let xmm7 := shufps xmm7 xmm3 221 in
  let '(xmm5, xmm6, xmm7) := spline_VV xmm1 xmm2 xmm4 xmm5 xmm6 xmm7 in
  let xmm4 := nb030nf_c6 in
  let xmm5 := mulps xmm5 xmm4 in                    (* Vvdw6 *)
  let xmm5 := addps xmm5 nb030nf_Vvdwtot in
  let nb030nf_Vvdwtot := xmm5 in
  (* repulsion *)
  let xmm5 := movlps xmm5 (a_VFtab a) (eax + 4) in
  let xmm7 := movlps xmm7 (a_VFtab a) (ecx + 4) in
  let xmm5 := movhps xmm5 (a_VFtab a) (ebx + 4) in
  let xmm7 := movhps xmm7 (a_VFtab a) (edx + 4) in
  let xmm4 := xmm5 in
  let xmm4 := shufps xmm4 xmm7 136 in
  let xmm5 := shufps xmm5 xmm7 221 in
  let xmm7 := movlps xmm7 (a_VFtab a) (eax + 6) in
  let xmm3 := movlps xmm3 (a_VFtab a) (ecx + 6) in
  let xmm7 := movhps xmm7 (a_VFtab a) (ebx + 6) in
  let xmm3 := movhps xmm3 (a_VFtab a) (edx + 6) in
  let xmm6 := xmm7 in
  let xmm6 := shufps xmm6 xmm3 136 in
  let xmm7 := shufps xmm7 xmm3 221 in
  let '(xmm5, xmm6, xmm7) := spline_VV xmm1 xmm2 xmm4 xmm5 xmm6 xmm7 in
  let xmm4 := nb030nf_c12 in
  let xmm5 := mulps xmm5 xmm4 in                    (* Vvdw12 *)
  let xmm5 := addps xmm5 nb030nf_Vvdwtot in
  let nb030nf_Vvdwtot := xmm5 in
  let xmm4 := xorps_self in
  Inner nb030nf_Vvdwtot nb030nf_innerjjnr (nb030nf_innerk s)
        (Xmm xmm0 xmm1 xmm2 xmm3 xmm4 xmm5 xmm6 xmm7).

(** Lines 1439-1588: [.nb030nf_dopair], two j particles in lanes 0 and 1.
    The upper lanes of the repulsion coefficients come from whatever [xmm7]
    (Heps2 of the dispersion) and [xmm3] hold. *)
Definition dopair (a : args) (k : consts) (e : entry) (s : inner) : inner :=
  let xmm1 := r1 (i_xmm s) in
  let xmm3 := r3 (i_xmm s) in
  let xmm6 := r6 (i_xmm s) in
  let nb030nf_Vvdwtot := nb030nf_Vvdwtot s in
  let rcx := nb030nf_innerjjnr s in
  let eax := ld32 (a_jjnr a) rcx in
  let ebx := ld32 (a_jjnr a) (rcx + 1) in
  let nb030nf_innerjjnr := nb030nf_innerjjnr s + 2 in   (* add qword ptr [...], 8 *)
  let xmm7 := xorps_self in
  let ecx := eax in
  let edx := ebx in
  let ecx := ld32 (a_type a) ecx in
  let edx := ld32 (a_type a) edx in
  let ecx := shl32 ecx 1 in
  let edx := shl32 edx 1 in
  let edi := nb030nf_ntia e in
  let ecx := add32 ecx edi in
  let edx := add32 edx edi in
  let xmm6 := movlps xmm6 (a_vdwparam a) ecx in
  let xmm6 := movhps xmm6 (a_vdwparam a) edx in
  let xmm4 := xmm6 in
  let xmm4 := shufps xmm4 xmm4 8 in
  let xmm6 := shufps xmm6 xmm6 13 in
  let xmm4 := movlhps xmm4 xmm7 in
  let xmm6 := movlhps xmm6 xmm7 in
  let nb030nf_c6 := xmm4 in
  let nb030nf_c12 := xmm6 in
  let rax := eax + eax * 2 in                       (* lea rax, [rax + rax*2] *)
  let rbx := ebx + ebx * 2 in
  let xmm1 := movlps xmm1 (a_pos a) rax in
  let xmm2 := movss (a_pos a) (rax + 2) in
  let xmm1 := movhps xmm1 (a_pos a) rbx in
  let xmm0 := movss (a_pos a) (rbx + 2) in
  let xmm3 := movlhps xmm3 xmm7 in
  let xmm2 := shufps xmm2 xmm0 0 in
  let xmm0 := xmm1 in
  let xmm2 := shufps xmm2 xmm2 136 in
  let xmm0 := shufps xmm0 xmm0 136 in
  let xmm1 := shufps xmm1 xmm1 221 in
  let xmm7 := xorps_self in
  let '(xmm4, xmm5, xmm6) := calc_rsq e xmm0 xmm1 xmm2 in
  let '(xmm0, xmm1, xmm2, xmm5) := calc_rinv k xmm4 in
  let xmm4 := mulps xmm4 xmm0 in                    (* r *)
  let xmm4 := mulps xmm4 (nb030nf_tsc k) in
  let mm6 := cvttps2pi xmm4 in
  let xmm6 := cvtpi2ps xmm6 mm6 in
  let xmm4 := subps xmm4 xmm6 in
  let xmm1 := xmm4 in                               (* eps *)
  let xmm2 := xmm1 in
  let xmm2 := mulps xmm2 xmm2 in                    (* eps2 *)
  let mm6 := pslld mm6 3 in
  let ecx := movd mm6 in
  let mm6 := psrlq32 mm6 in
  let edx := movd mm6 in
  (* dispersion *)
  let xmm5 := movlps xmm5 (a_VFtab a) ecx in
  let xmm5 := movhps xmm5 (a_VFtab a) edx in
  let xmm4 := xmm5 in
  let xmm4 := shufps xmm4 xmm4 136 in
  let xmm5 := shufps xmm5 xmm5 221 in
  let xmm7 := movlps xmm7 (a_VFtab a) (ecx + 2) in
  let xmm7 := movhps xmm7 (a_VFtab a) (edx + 2) in
  let xmm6 := xmm7 in
  let xmm6 := shufps xmm6 xmm6 136 in
  let xmm7 := shufps xmm7 xmm7 221 in
  let '(xmm5, xmm6, xmm7) := spline_VV xmm1 xmm2 xmm4 xmm5 xmm6 xmm7 in
  let xmm4 := nb030nf_c6 in
  let xmm5 := mulps xmm5 xmm4 in                    (* Vvdw6 *)
  let xmm5 := addps xmm5 nb030nf_Vvdwtot in
  let nb030nf_Vvdwtot := xmm5 in
  (* repulsion *)
  let xmm5 := movlps xmm5 (a_VFtab a) (ecx + 4) in
  let xmm5 := movhps xmm5 (a_VFtab a) (edx + 4) in
  let xmm4 := xmm5 in
  let xmm4 := shufps xmm4 xmm7 136 in
  let xmm5 := shufps xmm5 xmm7 221 in
  let xmm7 := movlps xmm7 (a_VFtab a) (ecx + 6) in
  let xmm7 := movhps xmm7 (a_VFtab a) (edx + 6) in
  let xmm6 := xmm7 in
  let xmm6 := shufps xmm6 xmm3 136 in
  let xmm7 := shufps xmm7 xmm3 221 in
  let '(xmm5, xmm6, xmm7) := spline_VV xmm1 xmm2 xmm4 xmm5 xmm6 xmm7 in
  let xmm4 := nb030nf_c12 in
  let xmm5 := mulps xmm5 xmm4 in                    (* Vvdw12 *)
  let xmm5 := addps xmm5 nb030nf_Vvdwtot in
  let nb030nf_Vvdwtot := xmm5 in
  Inner nb030nf_Vvdwtot nb030nf_innerjjnr (nb030nf_innerk s)
        (Xmm xmm0 xmm1 xmm2 xmm3 xmm4 xmm5 xmm6 xmm7).

(** Lines 1595-1708: [.nb030nf_dosingle], one j particle in lane 0. *)
Definition dosingle (a : args) (k : consts) (e : entry) (s : inner) : inner :=
  let xmm3 := r3 (i_xmm s) in
  let nb030nf_Vvdwtot := nb030nf_Vvdwtot s in
  let rcx := nb030nf_innerjjnr s in
  let eax := ld32 (a_jjnr a) rcx in
  let xmm6 := xorps_self in
  let ecx := eax in
  let ecx := ld32 (a_type a) ecx in
  let ecx := shl32 ecx 1 in
  let ecx := add32 ecx (nb030nf_ntia e) in
  let xmm6 := movlps xmm6 (a_vdwparam a) ecx in
  let xmm4 := xmm6 in
  let xmm4 := shufps xmm4 xmm4 252 in
  let xmm6 := shufps xmm6 xmm6 253 in
  let nb030nf_c6 := xmm4 in
  let nb030nf_c12 := xmm6 in
  let rax := eax + eax * 2 in                       (* lea rax, [rax + rax*2] *)
  let xmm0 := movss (a_pos a) rax in
  let xmm1 := movss (a_pos a) (rax + 1) in
  let xmm2 := movss (a_pos a) (rax + 2) in
  let '(xmm4, xmm5, xmm6) := calc_rsq e xmm0 xmm1 xmm2 in
  let '(xmm0, xmm1, xmm2, xmm5) := calc_rinv k xmm4 in
  let xmm4 := mulps xmm4 xmm0 in                    (* r *)
  let xmm4 := mulps xmm4 (nb030nf_tsc k) in
  let mm6 := cvttps2pi xmm4 in
  let xmm6 := cvtpi2ps xmm6 mm6 in
  let xmm4 := subps xmm4 xmm6 in
  let xmm1 := xmm4 in                               (* eps *)
  let xmm2 := xmm1 in
  let xmm2 := mulps xmm2 xmm2 in                    (* eps2 *)
  let mm6 := pslld mm6 3 in
  let ebx := movd mm6 in
  (* dispersion *)
  let xmm4 := movlps xmm4 (a_VFtab a) ebx in
  let xmm6 := movlps xmm6 (a_VFtab a) (ebx + 2) in
  let xmm5 := xmm4 in
  let xmm7 := xmm6 in
  let xmm5 := shufps xmm5 xmm5 1 in
  let xmm7 := shufps xmm7 xmm7 1 in
  let '(xmm5, xmm6, xmm7) := spline_VV xmm1 xmm2 xmm4 xmm5 xmm6 xmm7 in
  let xmm4 := nb030nf_c6 in
  let xmm5 := mulps xmm5 xmm4 in                    (* Vvdw6 *)
  let xmm5 := addss xmm5 nb030nf_Vvdwtot in
  let nb030nf_Vvdwtot :=                            (* movss [rsp + nb030nf_Vvdwtot], xmm5 *)
    V4 (l0 xmm5) (l1 nb030nf_Vvdwtot) (l2 nb030nf_Vvdwtot) (l3 nb030nf_Vvdwtot) in
  (* repulsion *)
  let xmm4 := movlps xmm4 (a_VFtab a) (ebx + 4) in
  let xmm6 := movlps xmm6 (a_VFtab a) (ebx + 6) in
  let xmm5 := xmm4 in
  let xmm7 := xmm6 in
  let xmm5 := shufps xmm5 xmm5 1 in
  let xmm7 := shufps xmm7 xmm7 1 in
  let '(xmm5, xmm6, xmm7) := spline_VV xmm1 xmm2 xmm4 xmm5 xmm6 xmm7 in
  let xmm4 := nb030nf_c12 in
  let xmm5 := mulps xmm5 xmm4 in                    (* Vvdw12 *)
  let xmm5 := addss xmm5 nb030nf_Vvdwtot in
  let nb030nf_Vvdwtot :=
    V4 (l0 xmm5) (l1 nb030nf_Vvdwtot) (l2 nb030nf_Vvdwtot) (l3 nb030nf_Vvdwtot) in
  Inner nb030nf_Vvdwtot (nb030nf_innerjjnr s) (nb030nf_innerk s)
        (Xmm xmm0 xmm1 xmm2 xmm3 xmm4 xmm5 xmm6 xmm7).

(** Lines 1710-1730: [.nb030nf_updateouterdata]; [n] is the entry just
    done.  Only the energy slot of the entry's group is written. *)
Definition updateouterdata (a : args) (n : Z) (s : inner) (Vvdw : fmem)
    : xmms * fmem :=
  let xmm6 := r6 (i_xmm s) in
  let esi := n in
  let edx := ld32 (a_gid a) esi in
  let xmm7 := nb030nf_Vvdwtot s in
  let xmm6 := movhlps xmm6 xmm7 in
  let xmm7 := addps xmm7 xmm6 in
  let xmm6 := xmm7 in
  let xmm6 := shufps xmm6 xmm6 1 in
  let xmm7 := addss xmm7 xmm6 in
  let xmm7 := addss_m xmm7 Vvdw edx in
  let Vvdw := movss_st Vvdw edx xmm7 in
  (Xmm (r0 (i_xmm s)) (r1 (i_xmm s)) (r2 (i_xmm s)) (r3 (i_xmm s)) (r4 (i_xmm s))
       (r5 (i_xmm s)) xmm6 xmm7,
   Vvdw).

(** [.nb030nf_unroll_loop] with its back edge
    ([sub dword ptr [rsp + nb030nf_innerk], 4; jl .nb030nf_finish_inner]). *)
Fixpoint unroll_loop (fuel : nat) (a : args) (k : consts) (e : entry)
    (s : inner) : option inner :=
  match fuel with
  | O => None
  | S fuel' =>
      let s := unroll_body a k e s in
      let fl := sub_flags (nb030nf_innerk s) 4 in
      let s := Inner (nb030nf_Vvdwtot s) (nb030nf_innerjjnr s)
                     (sub32 (nb030nf_innerk s) 4) (i_xmm s) in
      if cond_l fl then Some s else unroll_loop fuel' a k e s
  end.

(** [.nb030nf_finish_inner] ... [.nb030nf_checksingle]: the tail. *)
Definition finish_inner (a : args) (k : consts) (e : entry) (s : inner) : inner :=
  let s := Inner (nb030nf_Vvdwtot s) (nb030nf_innerjjnr s)
                 (add32 (nb030nf_innerk s) 4) (i_xmm s) in
  let edx := nb030nf_innerk s in
  let edx := and32 edx 2 in
  let s := if edx =? 0 then s else dopair a k e s in          (* jnz .nb030nf_dopair *)
  let edx := nb030nf_innerk s in
  let edx := and32 edx 1 in
  if edx =? 0 then s else dosingle a k e s.                   (* jnz .nb030nf_dosingle *)

(** One outer entry, from [.nb030nf_outer] to the store of the energy. *)
Definition outer_entry (fuel : nat) (a : args) (k : consts) (esi : Z)
    (ninner : Z) (x : xmms) (Vvdw : fmem) : option (Z * xmms * fmem) :=
  let '(e, s, ninner, fl) := outer_setup a k esi ninner x in
  match (if cond_ge fl then unroll_loop fuel a k e s else Some s) with
  | None => None
  | Some s =>
      let s := finish_inner a k e s in
      let '(x, Vvdw) := updateouterdata a esi s Vvdw in
      Some (ninner, x, Vvdw)
  end.

End Code.

(** *** The three loop bodies, lane by lane

    The energy of a lane is the one kernel 030 accumulates
    ([NB030.ln_V]). *)

Lemma nf_inner_ext (u v : inner) :
  nb030nf_Vvdwtot u = nb030nf_Vvdwtot v -> nb030nf_innerjjnr u = nb030nf_innerjjnr v ->
  nb030nf_innerk u = nb030nf_innerk v -> i_xmm u = i_xmm v -> u = v.
Proof. destruct u, v; simpl; intros; subst; reflexivity. Qed.

Section Lane.
Variable rsqrt_approx : real -> real.
Variable a : args.
Variables nt is3 ii3 ntia : Z.
Variables tsc hf th : real.
Variables ix iy iz : real.

Ltac nf_red :=
  cbv beta iota zeta delta
    [dosingle dopair unroll_body calc_rsq calc_rinv spline_VV
     i_xmm nb030nf_Vvdwtot nb030nf_innerjjnr nb030nf_innerk
     nb030nf_is3 nb030nf_ii3 nb030nf_ntia nb030nf_ix nb030nf_iy nb030nf_iz
     nb030nf_ntype nb030nf_tsc nb030nf_half nb030nf_three
     r0 r1 r2 r3 r4 r5 r6 r7 l0 l1 l2 l3 splat
     xorps_self addps subps mulps addss subss shufps movlhps movhlps
     unpcklps unpckhps movss movss_v movlps movhps addss_m movss_st
     rsqrtps cvttps2pi cvtpi2ps pslld psrlq32 movd fst snd lane4
     Z.land Z.shiftr Z.shiftl Pos.land Z.of_N Pos.div2 Z.div2 Pos.iter Z.opp Z.pos_sub
     Pos.pred_double Pos.succ Pos.Nsucc_double Pos.Ndouble
     NB030.ln_c6i NB030.ln_c6 NB030.ln_c12 NB030.ln_j3 NB030.ln_dx NB030.ln_dy
     NB030.ln_dz NB030.ln_rsq NB030.ln_lu NB030.ln_rinv NB030.ln_rt NB030.ln_n
     NB030.ln_eps NB030.ln_eps2 NB030.ln_idx NB030.sp_Fp NB030.sp_VV
     NB030.ln_VVd NB030.ln_VVr NB030.ln_V].

Ltac split_inner s :=
  destruct s as [[? ? ? ?] ? ? [? ? ? ? ? ? ? ?]].

Let k := Consts nt (splat tsc) (splat hf) (splat th).
Let e := Entry is3 ii3 ntia (splat ix) (splat iy) (splat iz).
Let V := NB030.ln_V rsqrt_approx a ntia tsc hf th ix iy iz.

Lemma nf_dosingle_spec s :
  let j := ld32 (a_jjnr a) (nb030nf_innerjjnr s) in
  let Vt := nb030nf_Vvdwtot s in
  dosingle rsqrt_approx a k e s =
  Inner (V4 (V j (l0 Vt)) (l1 Vt) (l2 Vt) (l3 Vt))
        (nb030nf_innerjjnr s) (nb030nf_innerk s)
        (i_xmm (dosingle rsqrt_approx a k e s)).
Proof.
  split_inner s. subst k e V. nf_red. reflexivity.
Qed.

Lemma nf_dopair_spec s :
  let j0 := ld32 (a_jjnr a) (nb030nf_innerjjnr s) in
  let j1 := ld32 (a_jjnr a) (nb030nf_innerjjnr s + 1) in
  let Vt := nb030nf_Vvdwtot s in
  dopair rsqrt_approx a k e s =
  Inner (V4 (V j0 (l0 Vt)) (V j1 (l1 Vt)) (l2 Vt) (l3 Vt))
        (nb030nf_innerjjnr s + 2) (nb030nf_innerk s)
        (i_xmm (dopair rsqrt_approx a k e s)).
Proof.
  split_inner s. subst k e V.
  (apply nf_inner_ext; [apply v4_ext | ..]).
  all: nf_red.
  1-2: reflexivity.
  1-2: zero_lane.
  all: reflexivity.
Qed.

Lemma nf_unroll_body_spec s :
  let j0 := ld32 (a_jjnr a) (nb030nf_innerjjnr s) in
  let j1 := ld32 (a_jjnr a) (nb030nf_innerjjnr s + 1) in
  let j2 := ld32 (a_jjnr a) (nb030nf_innerjjnr s + 2) in
  let j3 := ld32 (a_jjnr a) (nb030nf_innerjjnr s + 3) in
  let Vt := nb030nf_Vvdwtot s in
  unroll_body rsqrt_approx a k e s =
  Inner (V4 (V j0 (l0 Vt)) (V j1 (l1 Vt)) (V j2 (l2 Vt)) (V j3 (l3 Vt)))
        (nb030nf_innerjjnr s + 4) (nb030nf_innerk s)
        (i_xmm (unroll_body rsqrt_approx a k e s)).
Proof.
  split_inner s. subst k e V.
  (apply nf_inner_ext; [apply v4_ext | ..]).
  all: nf_red.
  all: reflexivity.
Qed.

End Lane.

(** *** The energy-only kernel follows kernel 030

    Step by step the two kernels hold the same energy accumulator, the same
    list pointer and the same counter. *)

Definition follows (s : NB030.inner) (s' : inner) : Prop :=
  nb030nf_Vvdwtot s' = NB030.nb030_Vvdwtot (NB030.i_acc s)
  /\ nb030nf_innerjjnr s' = NB030.nb030_innerjjnr s
  /\ nb030nf_innerk s' = NB030.nb030_innerk s.

Definition follows_opt (r : option NB030.inner) (r' : option inner) : Prop :=
  match r, r' with
  | Some s, Some s' => follows s s'
  | None, None => True
  | _, _ => False
  end.

(** The back edge of [.nb030nf_unroll_loop] around an arbitrary body. *)
Section LoopFollows.
Variable body : NB030.inner -> NB030.inner.
Variable body' : inner -> inner.

Hypothesis body_follows : forall s s', follows s s' -> follows (body s) (body' s').

Fixpoint loop4 (fuel : nat) (s : inner) : option inner :=
  match fuel with
  | O => None
  | S fuel' =>
      let s := body' s in
      let fl := sub_flags (nb030nf_innerk s) 4 in
      let s := Inner (nb030nf_Vvdwtot s) (nb030nf_innerjjnr s)
                     (sub32 (nb030nf_innerk s) 4) (i_xmm s) in
      if cond_l fl then Some s else loop4 fuel' s
  end.

Lemma loop4_follows fuel : forall s s',
  follows s s' -> follows_opt (NB030.loop4 body fuel s) (loop4 fuel s').
Proof.
  induction fuel as [|fuel IH]; intros s s' H; [exact I|].
  cbn [NB030.loop4 loop4].
  destruct (body_follows H) as (HV & Hj & Hk).
  rewrite Hk.
  destruct (cond_l _).
  - repeat split; cbn; assumption.
  - apply IH. repeat split; cbn; assumption.
Qed.

End LoopFollows.

Section Follows.
Variable rsqrt_approx : real -> real.
Variable a : args.
Variables nt is3 ii3 ntia : Z.
Variables tsc hf tw th : real.
Variables ix iy iz : real.

Let k := NB030.Consts nt (splat tsc) (splat hf) (splat tw) (splat th).
Let k' := Consts nt (splat tsc) (splat hf) (splat th).
Let e := NB030.Entry is3 ii3 ntia (splat ix) (splat iy) (splat iz).
Let e' := Entry is3 ii3 ntia (splat ix) (splat iy) (splat iz).

Lemma unroll_body_follows s s' :
  follows s s' ->
  follows (NB030.unroll_body rsqrt_approx a k e s) (unroll_body rsqrt_approx a k' e' s').
Proof.
  intros (HV & Hj & Hk). unfold k, e, k', e'.
  rewrite NB030.unroll_body_spec, nf_unroll_body_spec. cbv zeta.
  unfold follows.
  cbn [nb030nf_Vvdwtot nb030nf_innerjjnr nb030nf_innerk
       NB030.i_acc NB030.nb030_Vvdwtot NB030.nb030_innerjjnr NB030.nb030_innerk].
  rewrite HV, Hj, Hk. repeat split; reflexivity.
Qed.

Lemma dopair_follows s s' :
  follows s s' ->
  follows (NB030.dopair rsqrt_approx a k e s) (dopair rsqrt_approx a k' e' s').
Proof.
  intros (HV & Hj & Hk). unfold k, e, k', e'.
  rewrite NB030.dopair_spec, nf_dopair_spec. cbv zeta.
  unfold follows.
  cbn [nb030nf_Vvdwtot nb030nf_innerjjnr nb030nf_innerk
       NB030.i_acc NB030.nb030_Vvdwtot NB030.nb030_innerjjnr NB030.nb030_innerk].
  rewrite HV, Hj, Hk. repeat split; reflexivity.
Qed.

Lemma dosingle_follows s s' :
  follows s s' ->
  follows (NB030.dosingle rsqrt_approx a k e s) (dosingle rsqrt_approx a k' e' s').
Proof.
  intros (HV & Hj & Hk). unfold k, e, k', e'.
  rewrite NB030.dosingle_spec, nf_dosingle_spec. cbv zeta.
  unfold follows.
  cbn [nb030nf_Vvdwtot nb030nf_innerjjnr nb030nf_innerk
       NB030.i_acc NB030.nb030_Vvdwtot NB030.nb030_innerjjnr NB030.nb030_innerk].
  rewrite HV, Hj, Hk. repeat split; reflexivity.
Qed.

Lemma nf_unroll_loop_eq fuel : forall s,
  unroll_loop rsqrt_approx fuel a k' e' s =
  loop4 (unroll_body rsqrt_approx a k' e') fuel s.
Proof.
  induction fuel as [|fuel IH]; intros s; [reflexivity|].
  cbn [unroll_loop loop4]. rewrite IH. reflexivity.
Qed.

Lemma unroll_loop_follows fuel s s' :
  follows s s' ->
  follows_opt (NB030.unroll_loop rsqrt_approx fuel a k e s)
              (unroll_loop rsqrt_approx fuel a k' e' s').
Proof.
  intros H. unfold k, e. rewrite NB030.unroll_loop_eq, nf_unroll_loop_eq.
  apply loop4_follows; [|exact H].
  intros t t' Ht. apply unroll_body_follows. exact Ht.
Qed.

Lemma finish_inner_follows s s' :
  follows s s' ->
  follows (NB030.finish_inner rsqrt_approx a k e s)
          (finish_inner rsqrt_approx a k' e' s').
Proof.
  intros (HV & Hj & Hk).
  unfold NB030.finish_inner, finish_inner. cbv zeta.
  cbn [NB030.nb030_innerk nb030nf_innerk NB030.i_acc NB030.nb030_innerjjnr
       nb030nf_innerjjnr nb030nf_Vvdwtot NB030.i_xmm NB030.i_faction i_xmm].
  rewrite Hk.
  set (s1 := NB030.Inner _ _ _ _ _). set (s1' := Inner _ _ _ _).
  assert (H1 : follows s1 s1').
  { subst s1 s1'. repeat split; cbn; assumption. }
  clearbody s1 s1'.
  destruct (and32 _ 2 =? 0).
  - destruct H1 as (HV1 & Hj1 & Hk1). rewrite Hk1.
    destruct (and32 _ 1 =? 0).
    + repeat split; assumption.
    + apply dosingle_follows. repeat split; assumption.
  - pose proof (dopair_follows H1) as H2.
    destruct H2 as (HV2 & Hj2 & Hk2). rewrite Hk2.
    destruct (and32 _ 1 =? 0).
    + repeat split; assumption.
    + apply dosingle_follows. repeat split; assumption.
Qed.

End Follows.

Lemma nf_prologue_consts a x :
  fst (prologue a x) =
  Consts (wrap (a_ntype a)) (splat (a_tabscale a)) (splat half_bits) (splat three).
Proof. reflexivity. Qed.

Lemma nf_outer_setup_spec a k esi ninner x :
  outer_setup a k esi ninner x =
  (let e := NB030.entry_of a (nb030nf_ntype k) esi in
   Entry (NB030.nb030_is3 e) (NB030.nb030_ii3 e) (NB030.nb030_ntia e)
         (NB030.nb030_ix e) (NB030.nb030_iy e) (NB030.nb030_iz e),
   Inner xorps_self (NB030.nj0 a esi)
         (add32 (sub32 (NB030.ninner_of a esi) 4) 0)
         (i_xmm (snd (fst (fst (outer_setup a k esi ninner x))))),
   add32 (NB030.ninner_of a esi) ninner,
   add_flags (sub32 (NB030.ninner_of a esi) 4) 0).
Proof. reflexivity. Qed.

Lemma nf_updateouterdata_spec a n s Vvdw :
  snd (updateouterdata a n s Vvdw) =
  let g := ld32 (a_gid a) n in
  store Vvdw g (hsum (nb030nf_Vvdwtot s) + Vvdw g)%Qc.
Proof. destruct s as [[? ? ? ?] ? ? [? ? ? ? ? ? ? ?]]. reflexivity. Qed.

(** The view of the outputs the two kernels share. *)
Definition same_Vvdw (o : outputs) (Vvdw : fmem) : Prop := Vvdw = o_Vvdw o.

Section EntryFollows.
Variable rsqrt_approx : real -> real.
Variable a : args.

Lemma outer_entry_follows fuel x0 x0' esi ninner x x' o Vvdw :
  same_Vvdw o Vvdw ->
  Threads.agree_entry same_Vvdw
    (NB030.outer_entry rsqrt_approx fuel a (fst (NB030.prologue a x0)) esi ninner x o)
    (outer_entry rsqrt_approx fuel a (fst (prologue a x0')) esi ninner x' Vvdw).
Proof.
  unfold same_Vvdw. intros ->.
  rewrite NB030.prologue_consts, nf_prologue_consts.
  unfold NB030.outer_entry, outer_entry.
  rewrite (NB030.outer_setup_spec a _ esi ninner x (o_faction o)).
  rewrite (nf_outer_setup_spec a _ esi ninner x').
  cbv zeta. cbn [NB030.nb030_ntype nb030nf_ntype].
  unfold NB030.entry_of. cbv zeta.
  cbn [NB030.nb030_is3 NB030.nb030_ii3 NB030.nb030_ntia NB030.nb030_ix NB030.nb030_iy
       NB030.nb030_iz].
  set (s := NB030.Inner _ _ _ _ _). set (s' := Inner _ _ _ _).
  assert (H0 : follows s s') by (subst s s'; repeat split).
  clearbody s s'.
  match goal with
  | |- context [NB030.unroll_loop _ _ _ ?kk
                  (NB030.Entry ?i1 ?i2 ?i3 (splat ?px) (splat ?py) (splat ?pz)) _] =>
      pose proof (@unroll_loop_follows rsqrt_approx a (wrap (a_ntype a)) i1 i2 i3
                    (a_tabscale a) half_bits two three px py pz fuel s s' H0) as HL;
      pose proof (fun t t' => @finish_inner_follows rsqrt_approx a (wrap (a_ntype a))
                    i1 i2 i3 (a_tabscale a) half_bits two three px py pz t t') as HF
  end.
  destruct (cond_ge _).
  - destruct (NB030.unroll_loop _ _ _ _ _ _) as [t|],
             (unroll_loop _ _ _ _ _ _) as [t'|]; cbn in HL; try contradiction;
      [|exact I].
    specialize (HF t t' HL). destruct HF as (HV & _ & _).
    rewrite (surjective_pairing (NB030.updateouterdata _ _ _ _ _)).
    rewrite (surjective_pairing (updateouterdata _ _ _ _)).
    rewrite NB030.updateouterdata_spec, nf_updateouterdata_spec. cbv zeta.
    cbn [Threads.agree_entry o_Vvdw]. rewrite HV. split; reflexivity.
  - specialize (HF s s' H0). destruct HF as (HV & _ & _).
    rewrite (surjective_pairing (NB030.updateouterdata _ _ _ _ _)).
    rewrite (surjective_pairing (updateouterdata _ _ _ _)).
    rewrite NB030.updateouterdata_spec, nf_updateouterdata_spec. cbv zeta.
    cbn [Threads.agree_entry o_Vvdw]. rewrite HV. split; reflexivity.
Qed.

(** An outer entry of the energy-only kernel does to the energy array
    exactly what the same entry of kernel 030 does to it, and counts the
    same inner iterations; the one returns when the other does. *)
Theorem nf_entry_energy fuel x0 x0' esi ninner x x' (o : outputs) :
  match NB030.outer_entry rsqrt_approx fuel a (fst (NB030.prologue a x0))
          esi ninner x o,
        outer_entry rsqrt_approx fuel a (fst (prologue a x0')) esi ninner x' (o_Vvdw o)
  with
  | Some (n, _, o1), Some (n', _, Vvdw') => n' = n /\ Vvdw' = o_Vvdw o1
  | None, None => True
  | _, _ => False
  end.
Proof.
  pose proof (@outer_entry_follows fuel x0 x0' esi ninner x x' o (o_Vvdw o) eq_refl)
    as H.
  unfold Threads.agree_entry, same_Vvdw in H.
  destruct (NB030.outer_entry _ _ _ _ _ _ _ _) as [[[n y] o1]|],
           (outer_entry _ _ _ _ _ _ _ _) as [[[n' y'] V']|]; try exact H.
  destruct H as [-> ->]. split; reflexivity.
Qed.

(** The energy-only kernel against the reference: whatever the list of an
    entry holds, the energy slot of its group gains the sum of the
    reference energies of the list. *)
Theorem nf_entry_reference fuel x0 esi ninner x (Vvdw : fmem) :
  let N := NB030.ninner_of a esi in
  let e := NB030.entry_of a (wrap (a_ntype a)) esi in
  let g := ld32 (a_gid a) esi in
  let R := Entry030.ref_sums rsqrt_approx a (NB030.nb030_ntia e)
             (l0 (NB030.nb030_ix e)) (l0 (NB030.nb030_iy e)) (l0 (NB030.nb030_iz e))
             (NB030.j_list a (NB030.nj0 a esi) N) (Entry030.Sums 0 0 0 0) in
  (N < 2 ^ 31)%Z -> (N <= 4 * Z.of_nat fuel)%Z ->
  exists x',
    outer_entry rsqrt_approx fuel a (fst (prologue a x0)) esi ninner x Vvdw =
    Some (add32 N ninner, x', store Vvdw g (Entry030.s_V R + Vvdw g)%Qc).
Proof.
  intros N e g R HN Hfuel.
  set (o := Outputs Vvdw Vvdw Vvdw Vvdw).
  destruct (@Entry030.outer_entry_sums rsqrt_approx a x0 fuel esi ninner x o HN Hfuel)
    as (y & o' & Hrun & HV & _).
  pose proof (@outer_entry_follows fuel x0 x0 esi ninner x x o Vvdw eq_refl) as H.
  rewrite Hrun in H. unfold Threads.agree_entry, same_Vvdw in H.
  destruct (outer_entry _ _ _ _ _ _ _ _) as [[[n' y'] V']|]; [|contradiction].
  destruct H as [<- ->]. exists y'. rewrite HV. reflexivity.
Qed.

(** The whole energy-only kernel (lines 1040-1763), run by one thread. *)
Definition nb_kernel030nf (fuel ofuel ifuel : nat) (a' : args) (count : Z)
    (x : xmms) (Vvdw : fmem) : option (Threads.kernel_result xmms fmem) :=
  let eax := 0 in
  let nb030nf_nouter := eax in
  let nb030nf_ninner := eax in
  let edi := wrap (a_nri a') in                         (* mov edi, [rdi] *)
  let nb030nf_nri := edi in
  let '(k, x) := prologue a' x in
  Threads.thread_loop (outer_entry rsqrt_approx ifuel a' k)
    fuel ofuel nb030nf_nri count nb030nf_nouter nb030nf_ninner x Vvdw.

(** Run on the same lists, the energy-only kernel and kernel 030 return
    together, leave the same energy array and report the same counter and
    iteration counts. *)
Theorem nf_kernel_energy fuel ofuel ifuel count x x' (o : outputs) :
  match Run030.nb_kernel030 rsqrt_approx fuel ofuel ifuel a count x o,
        nb_kernel030nf fuel ofuel ifuel a count x' (o_Vvdw o)
  with
  | Some r, Some r' =>
      Threads.k_count r' = Threads.k_count r
      /\ Threads.k_outeriter r' = Threads.k_outeriter r
      /\ Threads.k_inneriter r' = Threads.k_inneriter r
      /\ Threads.k_out r' = o_Vvdw (Threads.k_out r)
  | None, None => True
  | _, _ => False
  end.
Proof.
  unfold Run030.nb_kernel030, nb_kernel030nf. cbv zeta.
  rewrite (surjective_pairing (NB030.prologue a x)).
  rewrite (surjective_pairing (prologue a x')).
  pose proof (@Threads.thread_loop_agree xmms xmms outputs fmem
                (NB030.outer_entry rsqrt_approx ifuel a (fst (NB030.prologue a x)))
                (outer_entry rsqrt_approx ifuel a (fst (prologue a x')))
                same_Vvdw
                (fun esi ninner x1 x2 o1 o2 H =>
                   @outer_entry_follows ifuel x x' esi ninner x1 x2 o1 o2 H)
                ofuel (wrap (a_nri a)) fuel count 0 0
                (snd (NB030.prologue a x)) (snd (prologue a x')) o (o_Vvdw o) eq_refl)
    as H.
  unfold Threads.agree_run, same_Vvdw in H.
  destruct (Threads.thread_loop _ _ _ _ _ _ _ _ _) as [r|],
           (Threads.thread_loop _ _ _ _ _ _ _ _ _) as [r'|]; try exact H.
  destruct H as (H1 & H2 & H3 & H4). repeat split; congruence.
Qed.

End EntryFollows.

End NB030nf.

(** * The shared counter after the threads have finished

    Every successful [lock cmpxchg] raises the counter by one.  A thread
    leaves either after an empty claim, or - one thread only - straight
    after the last entry ([jecxz .nb030_end] at [.nb030_outerend]). *)

Module SchedCount.
Import W32 Sched.
Local Open Scope Z_scope.

(** How often the last entry [nri - 1] has been processed. *)
Definition last_done (nri : Z) (s : sys) : Z :=
  Z.of_nat (count_occ Z.eq_dec (map snd (processed s)) (nri - 1)).

(** The counter is the number of entries handed out, plus one for every
    thread that left after an empty claim. *)
Definition counted (nri : Z) (s : sys) : Prop :=
  count s = Z.min (count s) nri + n_end (threads s) - last_done nri s.

Lemma n_end_repeat n : n_end (repeat ThreadLoop n) = 0.
Proof. unfold n_end. induction n as [|n IH]; [reflexivity | exact IH]. Qed.

Lemma count_occ_zrange_last nri :
  Z.of_nat (count_occ Z.eq_dec (zrange 0 nri) (nri - 1)) = if 0 <? nri then 1 else 0.
Proof.
  destruct (Z.ltb_spec 0 nri) as [Hpos|Hz].
  - assert (Hin : In (nri - 1) (zrange 0 nri)) by (apply in_zrange; lia).
    rewrite (proj1 (NoDup_count_occ' Z.eq_dec (zrange 0 nri))
               (NoDup_zrange 0 nri) (nri - 1) Hin).
    reflexivity.
  - rewrite zrange_nil by lia. reflexivity.
Qed.

Section Counter.
Variable nri : Z.
Variable N : nat.
Hypothesis nri_nonneg : 0 <= nri.
Hypothesis no_overflow : nri + Z.of_nat N < 2 ^ 31.

Lemma counted_init : counted nri (init N).
Proof.
  unfold counted, last_done, init. cbn [count threads processed map count_occ].
  rewrite n_end_repeat. lia.
Qed.

Lemma counted_step s s' :
  inv nri N s -> counted nri s -> step nri s s' -> counted nri s'.
Proof.
  intros [Hlen Hcnt Hpcs Hcl Hpr] HJ Hstep.
  destruct Hstep as [l1 p l2 c cl pr c' p' e Hts].
  unfold counted, last_done in *.
  cbn [count threads processed] in *.
  assert (HN : Z.of_nat (length l1) + 1 + Z.of_nat (length l2) = Z.of_nat N).
  { rewrite <- Hlen, length_app. cbn [length]. lia. }
  pose proof (n_end_le l1) as Hne1. pose proof (n_end_le l2) as Hne2.
  rewrite n_end_mid in *.
  apply Forall_app in Hpcs as [_ Hpc2].
  apply Forall_cons_iff in Hpc2 as [Hp _].
  destruct p as [|eax|esi nn1|]; cbn [thread_step] in Hts; cbn [is_end] in Hcnt, HJ.
  - injection Hts as <- <- <-. cbn [record_process is_end] in *. exact HJ.
  - simpl in Hp.
    destruct (Z.eqb_spec c eax) as [->|Hne'].
    + rewrite after_claim_spec in Hts by lia.
      destruct (Z.ltb_spec eax nri) as [Hlt|Hge]; injection Hts as <- <- <-;
        unfold add32, chunksize; rewrite wrap_small by lia;
        cbn [record_process is_end] in *; lia.
    + injection Hts as <- <- <-. cbn [record_process is_end] in *. exact HJ.
  - simpl in Hp. destruct Hp as (He0 & -> & Hn1 & Hn2).
    injection Hts as <- <- <-.
    rewrite after_entry_spec by lia.
    cbn [record_process map snd is_end] in *.
    destruct (Z.eqb_spec (esi + 1) nri) as [Heq|Hneq].
    + rewrite count_occ_cons_eq by lia. cbn [is_end]. lia.
    + rewrite count_occ_cons_neq by lia. cbn [is_end]. lia.
  - discriminate.
Qed.

Lemma counted_reachable s : reachable nri N s -> counted nri s.
Proof.
  unfold reachable. induction 1 as [|s2 s3 H12 IH H23].
  - apply counted_init.
  - eapply counted_step; [|exact IH|exact H23].
    apply (inv_reachable nri_nonneg no_overflow). exact H12.
Qed.

End Counter.

(** The counter never leaves [[0, nri + nthreads]], and once every thread
    has finished it holds [nri + nthreads - 1] (or [nthreads] when there
    was no entry at all): each thread but the one that ran the last entry
    has raised it once more on its way out. *)
Theorem counter_final (nri : Z) (nthreads : nat) :
  0 <= nri -> (1 <= nthreads)%nat -> nri + Z.of_nat nthreads < 2 ^ 31 ->
  forall s, reachable nri nthreads s ->
    0 <= count s <= nri + Z.of_nat nthreads
    /\ (all_done s ->
        count s = nri + Z.of_nat nthreads - (if 0 <? nri then 1 else 0)).
Proof.
  intros Hnri HN Hov s Hreach.
  pose proof (inv_reachable Hnri Hov Hreach) as [Hlen Hcnt Hpcs Hcl Hpr].
  pose proof (counted_reachable Hnri Hov Hreach) as HJ.
  pose proof (n_end_le (threads s)) as Hne. rewrite Hlen in Hne.
  split; [lia|].
  intros Hdone.
  assert (Hge : nri <= count s).
  { unfold all_done in Hdone.
    destruct (threads s) as [|p l]; [simpl in Hlen; lia|].
    apply Forall_cons_iff in Hdone as [-> _].
    apply Forall_cons_iff in Hpcs as [Hp _]. exact Hp. }
  assert (Hall : n_end (threads s) = Z.of_nat nthreads).
  { unfold n_end. rewrite <- Hlen. f_equal.
    unfold all_done in Hdone. clear - Hdone.
    induction Hdone as [|p l Hp _ IH]; [reflexivity|].
    subst p. cbn [filter is_end length]. rewrite IH. reflexivity. }
  replace (Z.min (count s) nri) with nri in Hcl by lia.
  rewrite (all_done_pending Hdone), app_nil_r in Hpr.
  assert (Hperm : Permutation (map snd (processed s)) (zrange 0 nri))
    by (etransitivity; eassumption).
  unfold counted, last_done in HJ.
  rewrite (proj1 (Permutation_count_occ Z.eq_dec _ _) Hperm (nri - 1)) in HJ.
  rewrite count_occ_zrange_last in HJ. lia.
Qed.

Lemma counter_final_witness :
  let s := run 3 [0; 1; 0; 1; 1; 0; 0; 1; 0; 1; 1; 0; 0; 1]%nat (init 2) in
  0 <= count s <= 3 + Z.of_nat 2
  /\ (all_done s -> count s = 3 + Z.of_nat 2 - (if 0 <? 3 then 1 else 0)).
Proof.
  apply (@counter_final 3 2); [lia | lia | lia | apply run_steps].
Defined.

End SchedCount.

(** * Kernel 030 in double precision ([nb_kernel030_x86_64_sse2])

    Lines 3771-4491 of [nb_kernel232_x86_64_sse2.s]: the same tabulated
    Lennard-Jones kernel with two j particles per pass, the seed of the
    reciprocal square root taken in single precision and refined by two
    Newton-Raphson steps, and a single-particle tail. *)

Module NB030d.
Import W32 SSE Kernel.
Local Open Scope Z_scope.

(** The eight xmm registers, seen as pairs of doubles. *)
Record xmmd : Type := Xmmd {
  q0 : v2; q1 : v2; q2 : v2; q3 : v2; q4 : v2; q5 : v2; q6 : v2; q7 : v2
}.

(** [movhlps] on a register that holds doubles: the high double of the
    source goes to the low double of the destination. *)
Definition movhlps_d (d s : v2) : v2 := V2 (d1 s) (d1 d).

(** [addsd xmm, m64] and [movsd m64, xmm]. *)
Definition addsd_m (d : v2) (m : fmem) (i : Z) : v2 := V2 (d0 d + m i)%Qc (d1 d).
Definition movsd_st (m : fmem) (i : Z) (s : v2) : fmem := store m i (d0 s).

(** [cvttsd2si r32, xmm] and [cvtsi2sd xmm, r32]. *)
Definition cvttsd2si (s : v2) : Z := cvtt (d0 s).
Definition cvtsi2sd (d : v2) (n : Z) : v2 := V2 (of_int n) (d1 d).

(** Stack slots written once before the thread loop. *)
Record consts : Type := Consts {
  nb030_ntype : Z;
  nb030_tsc : v2;
  nb030_half : v2;
  nb030_two : v2;
  nb030_three : v2
}.

(** Stack slots written at [.nb030_outer] and read by the inner loop. *)
Record entry : Type := Entry {
  nb030_is3 : Z;
  nb030_ii3 : Z;
  nb030_ntia : Z;
  nb030_ix : v2;
  nb030_iy : v2;
  nb030_iz : v2
}.

(** The per-entry accumulators. *)
Record accum : Type := Accum {
  nb030_Vvdwtot : v2;
  nb030_fix : v2;
  nb030_fiy : v2;
  nb030_fiz : v2
}.

(** What the inner loop carries from block to block. *)
Record inner : Type := Inner {
  i_acc : accum;
  nb030_innerjjnr : Z;
  nb030_innerk : Z;
  i_xmm : xmmd;
  i_faction : fmem
}.

Section Code.

(** The hardware approximation behind [rsqrtps]/[rsqrtss] and the rounding
    of [cvtpd2ps]/[cvtsd2ss]. *)
Variable rsqrt_approx : real -> real.
Variable to_single : real -> real.

Definition rsqrtps (s : v4) : v4 :=
  V4 (rsqrt_approx (l0 s)) (rsqrt_approx (l1 s))
     (rsqrt_approx (l2 s)) (rsqrt_approx (l3 s)).

(** [cvtsd2ss], [rsqrtss], [cvtss2sd]: the low single of the register in
    between; its other lanes are not read before the register is written
    again. *)
Definition cvtsd2ss (s : v2) : real := to_single (d0 s).
Definition rsqrtss (x : real) : real := rsqrt_approx x.
Definition cvtss2sd (d : v2) (x : real) : v2 := V2 x (d1 d).

(** Lines 3861-3880: the table scale and the constants half, two, three. *)
Definition prologue (a : args) (x : xmmd) : consts * xmmd :=
  let xmm3 := movsd_v (a_tabscale a) in             (* movsd xmm3, [rax] *)
  let xmm3 := shufpd xmm3 xmm3 0 in
  let nb030_tsc := xmm3 in
  let xmm1 := movsd_v half_bits in                  (* movsd xmm1, [rsp + nb030_half] *)
  let xmm1 := shufpd xmm1 xmm1 0 in
  let xmm3 := xmm1 in
  let xmm3 := addpd xmm3 xmm3 in                    (* one *)
  let xmm2 := xmm3 in
  let xmm2 := addpd xmm2 xmm2 in                    (* two *)
  let xmm3 := addpd xmm3 xmm2 in                    (* three *)
  (Consts (wrap (a_ntype a)) nb030_tsc xmm1 xmm2 xmm3,
   Xmmd (q0 x) xmm1 xmm2 xmm3 (q4 x) (q5 x) (q6 x) (q7 x)).

(** Lines 3913-3975: [.nb030_outer] up to the store of [nb030_innerk].
    Returns the flags of [add edx, 0] for the [jge] that follows. *)
Definition outer_setup (a : args) (k : consts) (esi : Z) (ninner : Z)
    (x : xmmd) (faction : fmem) : entry * inner * Z * flags :=
  let ebx := ld32 (a_shift a) esi in
  let rbx := ebx + ebx * 2 in                       (* lea rbx, [rbx + rbx*2] *)
  let nb030_is3 := wrap rbx in
  let xmm0 := movsd (a_shiftvec a) rbx in
  let xmm1 := movsd (a_shiftvec a) (rbx + 1) in
  let xmm2 := movsd (a_shiftvec a) (rbx + 2) in
  let ebx := ld32 (a_iinr a) esi in
  let edx := ld32 (a_type a) ebx in
  let edx := mul32 edx (nb030_ntype k) in
  let edx := shl32 edx 1 in
  let nb030_ntia := edx in
  let rbx := ebx + ebx * 2 in
  let xmm0 := addsd_m xmm0 (a_pos a) rbx in
  let xmm1 := addsd_m xmm1 (a_pos a) (rbx + 1) in
  let xmm2 := addsd_m xmm2 (a_pos a) (rbx + 2) in
  let xmm0 := shufpd xmm0 xmm0 0 in
  let xmm1 := shufpd xmm1 xmm1 0 in
  let xmm2 := shufpd xmm2 xmm2 0 in
  let nb030_ix := xmm0 in
  let nb030_iy := xmm1 in
  let nb030_iz := xmm2 in
  let nb030_ii3 := wrap rbx in
  let xmm4 := xorpd_self in
  let nb030_Vvdwtot := xmm4 in
  let nb030_fix := xmm4 in
  let nb030_fiy := xmm4 in
  let nb030_fiz := xmm4 in
  let ecx := ld32 (a_jindex a) esi in
  let edx := ld32 (a_jindex a) (esi + 1) in
  let edx := sub32 edx ecx in
  let ecx := shl32 ecx 2 in
  let nb030_innerjjnr := ecx / 4 in                 (* jjnr + rcx bytes *)
  let ecx := edx in
  let edx := sub32 edx 2 in
  let ecx := add32 ecx ninner in
  let nb030_ninner := ecx in
  let fl := add_flags edx 0 in
  let edx := add32 edx 0 in
  let nb030_innerk := edx in
  (Entry nb030_is3 nb030_ii3 nb030_ntia nb030_ix nb030_iy nb030_iz,
   Inner (Accum nb030_Vvdwtot nb030_fix nb030_fiy nb030_fiz)
         nb030_innerjjnr nb030_innerk
         (Xmmd xmm0 xmm1 xmm2 (q3 x) xmm4 (q5 x) (q6 x) (q7 x)) faction,
   nb030_ninner, fl).

(** Lines 4102-4110 (and 4135-4143): the cubic spline from Y, F, G, H in
    [xmm4]-[xmm7], eps in [xmm1] and eps2 in [xmm2].  Returns [xmm5] (VV),
    [xmm6] (Geps), [xmm7] (FF). *)
Definition spline (k : consts) (xmm1 xmm2 xmm4 xmm5 xmm6 xmm7 : v2)
    : v2 * v2 * v2 :=
  let xmm6 := mulpd xmm6 xmm1 in                    (* Geps *)
  let xmm7 := mulpd xmm7 xmm2 in                    (* Heps2 *)
  let xmm5 := addpd xmm5 xmm6 in
  let xmm5 := addpd xmm5 xmm7 in                    (* Fp *)
  let xmm7 := mulpd xmm7 (nb030_two k) in           (* two*Heps2 *)
  let xmm7 := addpd xmm7 xmm6 in
  let xmm7 := addpd xmm7 xmm5 in                    (* FF *)
  let xmm5 := mulpd xmm5 xmm1 in                    (* eps*Fp *)
  let xmm5 := addpd xmm5 xmm4 in                    (* VV *)
  (xmm5, xmm6, xmm7).

(** Lines 4158-4195: the partial force, the update of the i accumulators
    and the read-modify-write of the two j particles, whose [3*j] are in
    [eax] and [ebx]; [xmm4] holds the scalar force. *)
Definition update_forces2 (nb030_dx nb030_dy nb030_dz : v2) (acc : accum)
    (nb030_Vvdwtot : v2) (eax ebx : Z) (xmm4 xmm6 xmm7 : v2) (faction : fmem)
    : accum * xmmd * fmem :=
  let xmm0 := nb030_dx in
  let xmm1 := nb030_dy in
  let xmm2 := nb030_dz in
  let xmm0 := mulpd xmm0 xmm4 in
  let xmm1 := mulpd xmm1 xmm4 in
  let xmm2 := mulpd xmm2 xmm4 in                    (* tx, ty, tz *)
  let xmm3 := nb030_fix acc in
  let xmm4 := nb030_fiy acc in
  let xmm5 := nb030_fiz acc in
  let xmm3 := addpd xmm3 xmm0 in
  let xmm4 := addpd xmm4 xmm1 in
  let xmm5 := addpd xmm5 xmm2 in
  let nb030_fix := xmm3 in
  let nb030_fiy := xmm4 in
  let nb030_fiz := xmm5 in
  (* the fj's: both particles are read before either is written *)
  let xmm3 := movlpd xmm3 faction eax in
  let xmm4 := movlpd xmm4 faction (eax + 1) in
  let xmm5 := movlpd xmm5 faction (eax + 2) in
  let xmm3 := movhpd xmm3 faction ebx in
  let xmm4 := movhpd xmm4 faction (ebx + 1) in
  let xmm5 := movhpd xmm5 faction (ebx + 2) in
  let xmm3 := subpd xmm3 xmm0 in
  let xmm4 := subpd xmm4 xmm1 in
  let xmm5 := subpd xmm5 xmm2 in
  let faction := movlpd_st faction eax xmm3 in
  let faction := movlpd_st faction (eax + 1) xmm4 in
  let faction := movlpd_st faction (eax + 2) xmm5 in
  let faction := movhpd_st faction ebx xmm3 in
  let faction := movhpd_st faction (ebx + 1) xmm4 in
  let faction := movhpd_st faction (ebx + 2) xmm5 in
  (Accum nb030_Vvdwtot nb030_fix nb030_fiy nb030_fiz,
   Xmmd xmm0 xmm1 xmm2 xmm3 xmm4 xmm5 xmm6 xmm7, faction).

(** Lines 3978-4195: one pass of [.nb030_unroll_loop], two j particles. *)
Definition unroll_body (a : args) (k : consts) (e : entry) (s : inner) : inner :=
  let xmm6 := q6 (i_xmm s) in
  let xmm7 := q7 (i_xmm s) in
  let faction := i_faction s in
  let nb030_Vvdwtot := nb030_Vvdwtot (i_acc s) in
  let rdx := nb030_innerjjnr s in
  let eax := ld32 (a_jjnr a) rdx in
  let ebx := ld32 (a_jjnr a) (rdx + 1) in
  let nb030_innerjjnr := nb030_innerjjnr s + 2 in   (* add qword ptr [...], 8 *)
  let mm0 := eax in
  let mm1 := ebx in
  let eax := ld32 (a_type a) eax in
  let ebx := ld32 (a_type a) ebx in
  let eax := shl32 eax 1 in
  let ebx := shl32 ebx 1 in
  let edi := nb030_ntia e in
  let eax := add32 eax edi in
  let ebx := add32 ebx edi in
  let xmm6 := movlpd xmm6 (a_vdwparam a) eax in
  let xmm7 := movlpd xmm7 (a_vdwparam a) ebx in
  let xmm6 := movhpd xmm6 (a_vdwparam a) (eax + 1) in
  let xmm7 := movhpd xmm7 (a_vdwparam a) (ebx + 1) in
  let xmm4 := xmm6 in
  let xmm4 := unpcklpd xmm4 xmm7 in
  let xmm6 := unpckhpd xmm6 xmm7 in
  let eax := mm0 in
  let ebx := mm1 in
  let nb030_c6 := xmm4 in
  let nb030_c12 := xmm6 in
  let rax := eax + eax * 2 in                       (* lea rax, [rax + rax*2] *)
  let rbx := ebx + ebx * 2 in
  let xmm0 := q0 (i_xmm s) in
  let xmm1 := q1 (i_xmm s) in
  let xmm2 := q2 (i_xmm s) in
  let xmm0 := movlpd xmm0 (a_pos a) rax in
  let xmm1 := movlpd xmm1 (a_pos a) (rax + 1) in
  let xmm2 := movlpd xmm2 (a_pos a) (rax + 2) in
  let xmm0 := movhpd xmm0 (a_pos a) rbx in
  let xmm1 := movhpd xmm1 (a_pos a) (rbx + 1) in
  let xmm2 := movhpd xmm2 (a_pos a) (rbx + 2) in
  let xmm4 := nb030_ix e in
  let xmm5 := nb030_iy e in
  let xmm6 := nb030_iz e in
  let xmm4 := subpd xmm4 xmm0 in
  let xmm5 := subpd xmm5 xmm1 in
  let xmm6 := subpd xmm6 xmm2 in
  let nb030_dx := xmm4 in
  let nb030_dy := xmm5 in
  let nb030_dz := xmm6 in
  let xmm4 := mulpd xmm4 xmm4 in
  let xmm5 := mulpd xmm5 xmm5 in
  let xmm6 := mulpd xmm6 xmm6 in
  let xmm4 := addpd xmm4 xmm5 in
  let xmm4 := addpd xmm4 xmm6 in                    (* rsq *)
  let xmm5s := cvtpd2ps to_single xmm4 in           (* cvtpd2ps xmm5, xmm4 *)
  let xmm5s := rsqrtps xmm5s in
  let xmm2 := cvtps2pd xmm5s in                     (* lu in low and high *)
  let xmm5 := xmm2 in
  let xmm2 := mulpd xmm2 xmm2 in
  let xmm1 := nb030_three k in
  let xmm2 := mulpd xmm2 xmm4 in                    (* rsq*lu*lu *)
  let xmm0 := nb030_half k in
  let xmm1 := subpd xmm1 xmm2 in                    (* 3 - rsq*lu*lu *)
  let xmm1 := mulpd xmm1 xmm5 in
  let xmm1 := mulpd xmm1 xmm0 in
  let xmm5 := xmm1 in
  let xmm1 := mulpd xmm1 xmm1 in
  let xmm2 := nb030_three k in
  let xmm1 := mulpd xmm1 xmm4 in                    (* rsq*lu*lu *)
  let xmm0 := nb030_half k in
  let xmm2 := subpd xmm2 xmm1 in                    (* 3 - rsq*lu*lu *)
  let xmm2 := mulpd xmm2 xmm5 in
  let xmm0 := mulpd xmm0 xmm2 in                    (* rinv *)
  let xmm4 := mulpd xmm4 xmm0 in                    (* r *)
  let xmm4 := mulpd xmm4 (nb030_tsc k) in
  let mm6 := cvttpd2pi xmm4 in
  let xmm5 := cvtpi2pd mm6 in
  let xmm4 := subpd xmm4 xmm5 in
  let xmm1 := xmm4 in                               (* eps *)
  let xmm2 := xmm1 in
  let xmm2 := mulpd xmm2 xmm2 in                    (* eps2 *)
  let mm6 := pslld mm6 3 in
  let mm0 := wrap rax in                            (* movd mm0, eax *)
  let mm1 := wrap rbx in
  let eax := movd mm6 in
  let mm6 := psrlq32 mm6 in
  let ebx := movd mm6 in
  (* dispersion *)
  let xmm4 := movapd_ld (a_VFtab a) eax in          (* Y1 F1 *)
  let xmm3 := movapd_ld (a_VFtab a) ebx in          (* Y2 F2 *)
  let xmm5 := xmm4 in
  let xmm4 := unpcklpd xmm4 xmm3 in                 (* Y1 Y2 *)
  let xmm5 := unpckhpd xmm5 xmm3 in                 (* F1 F2 *)
  let xmm6 := movapd_ld (a_VFtab a) (eax + 2) in    (* G1 H1 *)
  let xmm3 := movapd_ld (a_VFtab a) (ebx + 2) in    (* G2 H2 *)
  let xmm7 := xmm6 in
  let xmm6 := unpcklpd xmm6 xmm3 in                 (* G1 G2 *)
  let xmm7 := unpckhpd xmm7 xmm3 in                 (* H1 H2 *)
  let '(xmm5, xmm6, xmm7) := spline k xmm1 xmm2 xmm4 xmm5 xmm6 xmm7 in
  let xmm4 := nb030_c6 in
  let xmm7 := mulpd xmm7 xmm4 in                    (* fijD *)
  let xmm5 := mulpd xmm5 xmm4 in                    (* Vvdw6 *)
  let xmm5 := addpd xmm5 nb030_Vvdwtot in
  let nb030_fscal := xmm7 in
  let nb030_Vvdwtot := xmm5 in
  (* repulsion *)
  let xmm4 := movapd_ld (a_VFtab a) (eax + 4) in
  let xmm3 := movapd_ld (a_VFtab a) (ebx + 4) in
  let xmm5 := xmm4 in
  let xmm4 := unpcklpd xmm4 xmm3 in
  let xmm5 := unpckhpd xmm5 xmm3 in
  let xmm6 := movapd_ld (a_VFtab a) (eax + 6) in
  let xmm3 := movapd_ld (a_VFtab a) (ebx + 6) in
  let xmm7 := xmm6 in
  let xmm6 := unpcklpd xmm6 xmm3 in
  let xmm7 := unpckhpd xmm7 xmm3 in
  let '(xmm5, xmm6, xmm7) := spline k xmm1 xmm2 xmm4 xmm5 xmm6 xmm7 in
  let xmm4 := nb030_c12 in
  let xmm7 := mulpd xmm7 xmm4 in                    (* fijR *)
  let xmm5 := mulpd xmm5 xmm4 in                    (* Vvdw12 *)
  let xmm7 := addpd xmm7 nb030_fscal in
  let xmm5 := addpd xmm5 nb030_Vvdwtot in
  let nb030_Vvdwtot := xmm5 in
  let xmm4 := xorpd_self in
  let xmm7 := mulpd xmm7 (nb030_tsc k) in
  let xmm7 := mulpd xmm7 xmm0 in
  let xmm4 := subpd xmm4 xmm7 in
  let eax := mm0 in
  let ebx := mm1 in
  let '(acc, x, faction) :=
    update_forces2 nb030_dx nb030_dy nb030_dz (i_acc s) nb030_Vvdwtot
                   eax ebx xmm4 xmm6 xmm7 faction in
  Inner acc nb030_innerjjnr (nb030_innerk s) x faction.

(** Lines 4207-4400: [.nb030_dosingle], one j particle in the low lane;
    the high lanes hold what the registers held. *)
Definition dosingle (a : args) (k : consts) (e : entry) (s : inner) : inner :=
  let xmm0 := q0 (i_xmm s) in
  let xmm1 := q1 (i_xmm s) in
  let xmm2 := q2 (i_xmm s) in
  let xmm6 := q6 (i_xmm s) in
  let faction := i_faction s in
  let nb030_Vvdwtot := nb030_Vvdwtot (i_acc s) in
  let rdx := nb030_innerjjnr s in
  let eax := ld32 (a_jjnr a) rdx in
  let mm0 := eax in
  let eax := ld32 (a_type a) eax in
  let eax := shl32 eax 1 in
  let edi := nb030_ntia e in
  let eax := add32 eax edi in
  let xmm6 := movlpd xmm6 (a_vdwparam a) eax in
  let xmm6 := movhpd xmm6 (a_vdwparam a) (eax + 1) in
  let xmm7 := xorpd_self in
  let xmm4 := xmm6 in
  let xmm4 := unpcklpd xmm4 xmm7 in
  let xmm6 := unpckhpd xmm6 xmm7 in
  let eax := mm0 in
  let nb030_c6 := xmm4 in
  let nb030_c12 := xmm6 in
  let rax := eax + eax * 2 in                       (* lea rax, [rax + rax*2] *)
  let xmm0 := movlpd xmm0 (a_pos a) rax in
  let xmm1 := movlpd xmm1 (a_pos a) (rax + 1) in
  let xmm2 := movlpd xmm2 (a_pos a) (rax + 2) in
  let xmm4 := nb030_ix e in
  let xmm5 := nb030_iy e in
  let xmm6 := nb030_iz e in
  let xmm4 := subsd xmm4 xmm0 in
  let xmm5 := subsd xmm5 xmm1 in
  let xmm6 := subsd xmm6 xmm2 in
  let nb030_dx := xmm4 in
  let nb030_dy := xmm5 in
  let nb030_dz := xmm6 in
  let xmm4 := mulsd xmm4 xmm4 in
  let xmm5 := mulsd xmm5 xmm5 in
  let xmm6 := mulsd xmm6 xmm6 in
  let xmm4 := addsd xmm4 xmm5 in
  let xmm4 := addsd xmm4 xmm6 in                    (* rsq *)
  let xmm5s := cvtsd2ss xmm4 in                     (* cvtsd2ss xmm5, xmm4 *)
  let xmm5s := rsqrtss xmm5s in
  let xmm2 := cvtss2sd xmm2 xmm5s in                (* lu *)
  let xmm5 := xmm2 in
  let xmm2 := mulsd xmm2 xmm2 in
  let xmm1 := nb030_three k in
  let xmm2 := mulsd xmm2 xmm4 in                    (* rsq*lu*lu *)
  let xmm0 := nb030_half k in
  let xmm1 := subsd xmm1 xmm2 in                    (* 3 - rsq*lu*lu *)
  let xmm1 := mulsd xmm1 xmm5 in
  let xmm1 := mulsd xmm1 xmm0 in
  let xmm5 := xmm1 in
  let xmm1 := mulsd xmm1 xmm1 in
  let xmm2 := nb030_three k in
  let xmm1 := mulsd xmm1 xmm4 in                    (* rsq*lu*lu *)
  let xmm0 := nb030_half k in
  let xmm2 := subsd xmm2 xmm1 in                    (* 3 - rsq*lu*lu *)
  let xmm2 := mulsd xmm2 xmm5 in
  let xmm0 := mulsd xmm0 xmm2 in                    (* rinv *)
  let xmm4 := mulsd xmm4 xmm0 in                    (* r *)
  let xmm4 := mulsd xmm4 (nb030_tsc k) in
  let mm0 := wrap rax in                            (* movd mm0, eax *)
  let eax := cvttsd2si xmm4 in
  let xmm5 := cvtsi2sd xmm5 eax in
  let xmm4 := subsd xmm4 xmm5 in
  let xmm1 := xmm4 in                               (* eps *)
  let xmm2 := xmm1 in
  let xmm2 := mulsd xmm2 xmm2 in                    (* eps2 *)
  let eax := shl32 eax 3 in
  (* dispersion *)
  let xmm4 := movapd_ld (a_VFtab a) eax in          (* Y1 F1 *)
  let xmm3 := xorpd_self in
  let xmm5 := xmm4 in
  let xmm4 := unpcklpd xmm4 xmm3 in                 (* Y1 *)
  let xmm5 := unpckhpd xmm5 xmm3 in                 (* F1 *)
  let xmm6 := movapd_ld (a_VFtab a) (eax + 2) in    (* G1 H1 *)
  let xmm3 := xorpd_self in
  let xmm7 := xmm6 in
  let xmm6 := unpcklpd xmm6 xmm3 in                 (* G1 *)
  let xmm7 := unpckhpd xmm7 xmm3 in                 (* H1 *)
  let xmm6 := mulsd xmm6 xmm1 in                    (* Geps *)
  let xmm7 := mulsd xmm7 xmm2 in                    (* Heps2 *)
  let xmm5 := addsd xmm5 xmm6 in
  let xmm5 := addsd xmm5 xmm7 in                    (* Fp *)
  let xmm7 := mulsd xmm7 (nb030_two k) in           (* two*Heps2 *)
  let xmm7 := addsd xmm7 xmm6 in
  let xmm7 := addsd xmm7 xmm5 in                    (* FF *)
  let xmm5 := mulsd xmm5 xmm1 in                    (* eps*Fp *)
  let xmm5 := addsd xmm5 xmm4 in                    (* VV *)
  let xmm4 := nb030_c6 in
  let xmm7 := mulsd xmm7 xmm4 in                    (* fijD *)
  let xmm5 := mulsd xmm5 xmm4 in                    (* Vvdw6 *)
  let xmm5 := addsd xmm5 nb030_Vvdwtot in
  let nb030_fscal := d0 xmm7 in                     (* movlpd [rsp + nb030_fscal], xmm7 *)
  let nb030_Vvdwtot := V2 (d0 xmm5) (d1 nb030_Vvdwtot) in
  (* repulsion *)
  let xmm4 := movapd_ld (a_VFtab a) (eax + 4) in
  let xmm3 := xorpd_self in
  let xmm5 := xmm4 in
  let xmm4 := unpcklpd xmm4 xmm3 in
  let xmm5 := unpckhpd xmm5 xmm3 in
  let xmm6 := movapd_ld (a_VFtab a) (eax + 6) in
  let xmm3 := xorpd_self in
  let xmm7 := xmm6 in
  let xmm6 := unpcklpd xmm6 xmm3 in
  let xmm7 := unpckhpd xmm7 xmm3 in
  let xmm6 := mulsd xmm6 xmm1 in                    (* Geps *)
  let xmm7 := mulsd xmm7 xmm2 in                    (* Heps2 *)
  let xmm5 := addsd xmm5 xmm6 in
  let xmm5 := addsd xmm5 xmm7 in                    (* Fp *)
  let xmm7 := mulsd xmm7 (nb030_two k) in           (* two*Heps2 *)
  let xmm7 := addsd xmm7 xmm6 in
  let xmm7 := addsd xmm7 xmm5 in                    (* FF *)
  let xmm5 := mulsd xmm5 xmm1 in                    (* eps*Fp *)
  let xmm5 := addsd xmm5 xmm4 in                    (* VV *)
  let xmm4 := nb030_c12 in
  let xmm7 := mulsd xmm7 xmm4 in                    (* fijR *)
  let xmm5 := mulsd xmm5 xmm4 in                    (* Vvdw12 *)
  let xmm7 := V2 (d0 xmm7 + nb030_fscal)%Qc (d1 xmm7) in  (* addsd xmm7, [rsp + nb030_fscal] *)
  let xmm5 := addsd xmm5 nb030_Vvdwtot in
  let nb030_Vvdwtot := V2 (d0 xmm5) (d1 nb030_Vvdwtot) in
  let xmm4 := xorpd_self in
  let xmm7 := mulsd xmm7 (nb030_tsc k) in
  let xmm7 := mulsd xmm7 xmm0 in
  let xmm4 := subsd xmm4 xmm7 in
  let xmm0 := nb030_dx in
  let xmm1 := nb030_dy in
  let xmm2 := nb030_dz in
  let eax := mm0 in
  let xmm0 := mulsd xmm0 xmm4 in
  let xmm1 := mulsd xmm1 xmm4 in
  let xmm2 := mulsd xmm2 xmm4 in                    (* tx, ty, tz *)
  let xmm3 := nb030_fix (i_acc s) in
  let xmm4 := nb030_fiy (i_acc s) in
  let xmm5 := nb030_fiz (i_acc s) in
  let xmm3 := addsd xmm3 xmm0 in
  let xmm4 := addsd xmm4 xmm1 in
  let xmm5 := addsd xmm5 xmm2 in
  let nb030_fix := V2 (d0 xmm3) (d1 (nb030_fix (i_acc s))) in   (* movlpd [rsp + nb030_fix], xmm3 *)
  let nb030_fiy := V2 (d0 xmm4) (d1 (nb030_fiy (i_acc s))) in
  let nb030_fiz := V2 (d0 xmm5) (d1 (nb030_fiz (i_acc s))) in
  (* update fj *)
  let xmm3 := movlpd xmm3 faction eax in
  let xmm4 := movlpd xmm4 faction (eax + 1) in
  let xmm5 := movlpd xmm5 faction (eax + 2) in
  let xmm3 := subsd xmm3 xmm0 in
  let xmm4 := subsd xmm4 xmm1 in
  let xmm5 := subsd xmm5 xmm2 in
  let faction := movlpd_st faction eax xmm3 in
  let faction := movlpd_st faction (eax + 1) xmm4 in
  let faction := movlpd_st faction (eax + 2) xmm5 in
  Inner (Accum nb030_Vvdwtot nb030_fix nb030_fiy nb030_fiz)
        (nb030_innerjjnr s) (nb030_innerk s)
        (Xmmd xmm0 xmm1 xmm2 xmm3 xmm4 xmm5 xmm6 xmm7) faction.

(** Lines 4401-4457: [.nb030_updateouterdata]; [n] is the entry just done
    ([mov esi, [rsp + nb030_n]]). *)
Definition updateouterdata (a : args) (e : entry) (n : Z) (s : inner)
    (o : outputs) : xmmd * outputs :=
  let xmm3 := q3 (i_xmm s) in
  let xmm4 := q4 (i_xmm s) in
  let xmm5 := q5 (i_xmm s) in
  let xmm6 := q6 (i_xmm s) in
  let faction := i_faction s in
  let fshift := o_fshift o in
  let ecx := nb030_ii3 e in
  let edx := nb030_is3 e in
  let xmm0 := nb030_fix (i_acc s) in
  let xmm1 := nb030_fiy (i_acc s) in
  let xmm2 := nb030_fiz (i_acc s) in
  let xmm3 := movhlps_d xmm3 xmm0 in
  let xmm4 := movhlps_d xmm4 xmm1 in
  let xmm5 := movhlps_d xmm5 xmm2 in
  let xmm0 := addsd xmm0 xmm3 in
  let xmm1 := addsd xmm1 xmm4 in
  let xmm2 := addsd xmm2 xmm5 in                    (* sum is in low xmm0-xmm2 *)
  (* increment i force *)
  let xmm3 := movsd faction ecx in
  let xmm4 := movsd faction (ecx + 1) in
  let xmm5 := movsd faction (ecx + 2) in
  let xmm3 := addsd xmm3 xmm0 in
  let xmm4 := addsd xmm4 xmm1 in
  let xmm5 := addsd xmm5 xmm2 in
  let faction := movsd_st faction ecx xmm3 in
  let faction := movsd_st faction (ecx + 1) xmm4 in
  let faction := movsd_st faction (ecx + 2) xmm5 in
  (* increment fshift force *)
  let xmm3 := movsd fshift edx in
  let xmm4 := movsd fshift (edx + 1) in
  let xmm5 := movsd fshift (edx + 2) in
  let xmm3 := addsd xmm3 xmm0 in
  let xmm4 := addsd xmm4 xmm1 in
  let xmm5 := addsd xmm5 xmm2 in
  let fshift := movsd_st fshift edx xmm3 in
  let fshift := movsd_st fshift (edx + 1) xmm4 in
  let fshift := movsd_st fshift (edx + 2) xmm5 in
  let esi := n in
  let edx := ld32 (a_gid a) esi in
  let xmm7 := nb030_Vvdwtot (i_acc s) in
  let xmm6 := movhlps_d xmm6 xmm7 in
  let xmm7 := addsd xmm7 xmm6 in                    (* low xmm7 has the sum *)
  let xmm7 := addsd_m xmm7 (o_Vvdw o) edx in
  let Vvdw := movsd_st (o_Vvdw o) edx xmm7 in
  (Xmmd xmm0 xmm1 xmm2 xmm3 xmm4 xmm5 xmm6 xmm7,
   Outputs faction fshift (o_Vc o) Vvdw).

(** [.nb030_unroll_loop] with its back edge
    ([sub dword ptr [rsp + nb030_innerk], 2; jl .nb030_checksingle]). *)
Fixpoint unroll_loop (fuel : nat) (a : args) (k : consts) (e : entry)
    (s : inner) : option inner :=
  match fuel with
  | O => None
  | S fuel' =>
      let s := unroll_body a k e s in
      let fl := sub_flags (nb030_innerk s) 2 in
      let s := Inner (i_acc s) (nb030_innerjjnr s) (sub32 (nb030_innerk s) 2)
                     (i_xmm s) (i_faction s) in
      if cond_l fl then Some s else unroll_loop fuel' a k e s
  end.

(** [.nb030_checksingle]: the counter is tested as it stands. *)
Definition checksingle (a : args) (k : consts) (e : entry) (s : inner) : inner :=
  let edx := nb030_innerk s in
  let edx := and32 edx 1 in
  if edx =? 0 then s else dosingle a k e s.         (* jnz .nb030_dosingle *)

(** One outer entry, from [.nb030_outer] to the end of
    [.nb030_updateouterdata]. *)
Definition outer_entry (fuel : nat) (a : args) (k : consts) (esi : Z)
    (ninner : Z) (x : xmmd) (o : outputs) : option (Z * xmmd * outputs) :=
  let '(e, s, ninner, fl) := outer_setup a k esi ninner x (o_faction o) in
  match (if cond_ge fl then unroll_loop fuel a k e s else Some s) with
  | None => None
  | Some s =>
      let s := checksingle a k e s in
      let '(x, o) := updateouterdata a e esi s o in
      Some (ninner, x, o)
  end.

End Code.

Lemma d_accum_ext (u v : accum) :
  nb030_Vvdwtot u = nb030_Vvdwtot v -> nb030_fix u = nb030_fix v ->
  nb030_fiy u = nb030_fiy v -> nb030_fiz u = nb030_fiz v -> u = v.
Proof. destruct u, v; simpl; intros; subst; reflexivity. Qed.

Lemma d_inner_ext (u v : inner) :
  i_acc u = i_acc v -> nb030_innerjjnr u = nb030_innerjjnr v ->
  nb030_innerk u = nb030_innerk v -> i_xmm u = i_xmm v ->
  i_faction u = i_faction v -> u = v.
Proof. destruct u, v; simpl; intros; subst; reflexivity. Qed.

(** *** The force update of the unrolled loop (lines 4158-4195) *)

Local Open Scope Qc_scope.

Lemma update_forces2_faction dx dy dz acc V i0 i1 fs x6 x7 f p :
  NB030.disjoint_slots i0 i1 ->
  snd (update_forces2 dx dy dz acc V i0 i1 fs x6 x7 f) p =
  sub_force
    (sub_force f i0 (d0 dx * d0 fs) (d0 dy * d0 fs) (d0 dz * d0 fs))
    i1 (d1 dx * d1 fs) (d1 dy * d1 fs) (d1 dz * d1 fs) p.
Proof.
  unfold NB030.disjoint_slots. intros H01.
  destruct dx, dy, dz, fs.
  cbv beta iota zeta delta
    [update_forces2 snd fst d0 d1 nb030_fix nb030_fiy nb030_fiz
     addpd subpd mulpd movlpd movhpd movlpd_st movhpd_st].
  NB030.store_cases.
Qed.

Lemma update_forces2_frame dx dy dz acc V i0 i1 fs x6 x7 f p :
  (p < i0 \/ i0 + 2 < p)%Z -> (p < i1 \/ i1 + 2 < p)%Z ->
  snd (update_forces2 dx dy dz acc V i0 i1 fs x6 x7 f) p = f p.
Proof.
  intros H0 H1.
  cbv beta iota zeta delta [update_forces2 snd fst movlpd_st movhpd_st].
  rewrite !store_other by lia. reflexivity.
Qed.

(** When both lanes of a pass name the same particle, the store of the
    second lane overwrites that of the first. *)
Lemma update_forces2_same dx dy dz acc V i0 fs x6 x7 f :
  let f' := snd (update_forces2 dx dy dz acc V i0 i0 fs x6 x7 f) in
  f' i0 = f i0 - d1 dx * d1 fs
  /\ f' (i0 + 1)%Z = f (i0 + 1)%Z - d1 dy * d1 fs
  /\ f' (i0 + 2)%Z = f (i0 + 2)%Z - d1 dz * d1 fs.
Proof.
  destruct dx, dy, dz, fs.
  cbv beta iota zeta delta
    [update_forces2 snd fst d0 d1 nb030_fix nb030_fiy nb030_fiz
     addpd subpd mulpd movlpd movhpd movlpd_st movhpd_st].
  repeat split; NB030.store_cases.
Qed.

(** *** The two loop bodies, lane by lane *)

Section Lane.
Variable rsqrt_approx : real -> real.
Variable to_single : real -> real.
Variable a : args.
Variables nt is3 ii3 ntia : Z.
Variables tsc hf tw th : real.
Variables ix iy iz : real.

(** The seed after the first of the two Newton-Raphson steps, computed as
    lines 4051-4058 do. *)
Definition first_step (r : real) : real :=
  (th - rsqrt_approx (to_single r) * rsqrt_approx (to_single r) * r)
  * rsqrt_approx (to_single r) * hf.

Ltac d_red :=
  cbv beta iota zeta delta
    [dosingle unroll_body updateouterdata spline update_forces2
     i_acc i_xmm i_faction nb030_innerjjnr nb030_innerk
     nb030_Vvdwtot nb030_fix nb030_fiy nb030_fiz
     nb030_is3 nb030_ii3 nb030_ntia nb030_ix nb030_iy nb030_iz
     nb030_ntype nb030_tsc nb030_half nb030_two nb030_three
     q0 q1 q2 q3 q4 q5 q6 q7 d0 d1 l0 l1 l2 l3 splat2
     xorpd_self addpd subpd mulpd addsd subsd mulsd shufpd unpcklpd unpckhpd
     movsd movsd_v movlpd movhpd movapd_ld addsd_m movsd_st movlpd_st movhpd_st
     movhlps_d cvttsd2si cvtsi2sd cvtsd2ss rsqrtss cvtss2sd
     rsqrtps cvtpd2ps cvtps2pd cvttpd2pi cvtpi2pd pslld psrlq32 movd fst snd lane2
     Z.land Z.shiftr Z.shiftl Pos.land Z.of_N Pos.div2 Z.div2 Pos.iter Z.opp Z.pos_sub
     Pos.pred_double Pos.succ Pos.Nsucc_double Pos.Ndouble
     first_step
     NB030.ln_c6i NB030.ln_c6 NB030.ln_c12 NB030.ln_j3 NB030.ln_dx NB030.ln_dy
     NB030.ln_dz NB030.ln_rsq NB030.ln_lu NB030.ln_rinv NB030.ln_rt NB030.ln_n
     NB030.ln_eps NB030.ln_eps2 NB030.ln_idx NB030.sp_Fp NB030.sp_FF NB030.sp_VV
     NB030.ln_VVd NB030.ln_FFd NB030.ln_VVr NB030.ln_FFr NB030.ln_V NB030.ln_fscal
     NB030.ln_tx NB030.ln_ty NB030.ln_tz sub_force].

Ltac split_inner s :=
  destruct s as [[[? ?] [? ?] [? ?] [? ?]] ? ? [[? ?] [? ?] [? ?] [? ?] [? ?] [? ?] [? ?] [? ?]] ?].

Let k := Consts nt (splat2 tsc) (splat2 hf) (splat2 tw) (splat2 th).
Let e := Entry is3 ii3 ntia (splat2 ix) (splat2 iy) (splat2 iz).
Let V := NB030.ln_V first_step a ntia tsc hf th ix iy iz.
Let tx := NB030.ln_tx first_step a ntia tsc hf tw th ix iy iz.
Let ty := NB030.ln_ty first_step a ntia tsc hf tw th ix iy iz.
Let tz := NB030.ln_tz first_step a ntia tsc hf tw th ix iy iz.

(** [.nb030_dosingle]: the low lane of every accumulator receives the one
    particle's contribution, the high lanes keep their value. *)
Lemma d_dosingle_spec s :
  let j := ld32 (a_jjnr a) (nb030_innerjjnr s) in
  let acc := i_acc s in
  dosingle rsqrt_approx to_single a k e s =
  Inner (Accum (V2 (V j (d0 (nb030_Vvdwtot acc))) (d1 (nb030_Vvdwtot acc)))
               (V2 (d0 (nb030_fix acc) + tx j) (d1 (nb030_fix acc)))
               (V2 (d0 (nb030_fiy acc) + ty j) (d1 (nb030_fiy acc)))
               (V2 (d0 (nb030_fiz acc) + tz j) (d1 (nb030_fiz acc))))
        (nb030_innerjjnr s) (nb030_innerk s)
        (i_xmm (dosingle rsqrt_approx to_single a k e s))
        (sub_force (i_faction s) (wrap (j + j * 2)) (tx j) (ty j) (tz j)).
Proof.
  split_inner s. subst k e V tx ty tz. d_red. reflexivity.
Qed.

(** One pass of [.nb030_unroll_loop]: two lanes. *)
Lemma d_unroll_body_spec s :
  let j0 := ld32 (a_jjnr a) (nb030_innerjjnr s) in
  let j1 := ld32 (a_jjnr a) (nb030_innerjjnr s + 1) in
  let acc := i_acc s in
  let fs := V2 (NB030.ln_fscal first_step a ntia tsc hf tw th ix iy iz j0)
               (NB030.ln_fscal first_step a ntia tsc hf tw th ix iy iz j1) in
  let dx := V2 (NB030.ln_dx a ix j0) (NB030.ln_dx a ix j1) in
  let dy := V2 (NB030.ln_dy a iy j0) (NB030.ln_dy a iy j1) in
  let dz := V2 (NB030.ln_dz a iz j0) (NB030.ln_dz a iz j1) in
  unroll_body rsqrt_approx to_single a k e s =
  Inner (Accum (V2 (V j0 (d0 (nb030_Vvdwtot acc))) (V j1 (d1 (nb030_Vvdwtot acc))))
               (addpd (nb030_fix acc) (V2 (tx j0) (tx j1)))
               (addpd (nb030_fiy acc) (V2 (ty j0) (ty j1)))
               (addpd (nb030_fiz acc) (V2 (tz j0) (tz j1))))
        (nb030_innerjjnr s + 2) (nb030_innerk s)
        (i_xmm (unroll_body rsqrt_approx to_single a k e s))
        (snd (update_forces2 dx dy dz acc (nb030_Vvdwtot acc)
                (wrap (j0 + j0 * 2)) (wrap (j1 + j1 * 2))
                fs xorpd_self xorpd_self (i_faction s))).
Proof.
  split_inner s. subst k e V tx ty tz.
  (apply d_inner_ext; [apply d_accum_ext; apply v2_ext | ..]).
  all: d_red.
  all: reflexivity.
Qed.

End Lane.

(** *** The inner loop *)

(** The back edge of [.nb030_unroll_loop] around an arbitrary body that
    advances the [jjnr] pointer by two and keeps the counter, with what the
    body does to a view [proj] of the state. *)
Section Loop2.
Variable T : Type.
Variable proj : inner -> T.
Variable body : inner -> inner.
Variable ok : Z -> Prop.
Variable ev : Z -> T -> T.

Fixpoint loop2 (fuel : nat) (s : inner) : option inner :=
  match fuel with
  | O => None
  | S fuel' =>
      let s := body s in
      let fl := sub_flags (nb030_innerk s) 2 in
      let s := Inner (i_acc s) (nb030_innerjjnr s) (sub32 (nb030_innerk s) 2)
                     (i_xmm s) (i_faction s) in
      if cond_l fl then Some s else loop2 fuel' s
  end.

Hypothesis proj_innerk : forall s k',
  proj (Inner (i_acc s) (nb030_innerjjnr s) k' (i_xmm s) (i_faction s)) = proj s.
Hypothesis body_innerk : forall s, nb030_innerk (body s) = nb030_innerk s.
Hypothesis body_innerjjnr :
  forall s, nb030_innerjjnr (body s) = (nb030_innerjjnr s + 2)%Z.
Hypothesis body_totals : forall s,
  ok (nb030_innerjjnr s) -> proj (body s) = ev (nb030_innerjjnr s) (proj s).

Fixpoint iter_ev2 (m : nat) (p : Z) (t : T) : T :=
  match m with
  | O => t
  | S m' => iter_ev2 m' (p + 2)%Z (ev p t)
  end.

Lemma loop2_totals fuel : forall s,
  in_range (nb030_innerk s) ->
  (0 <= signed (nb030_innerk s) < 2 * Z.of_nat fuel)%Z ->
  (forall i, (0 <= i)%Z -> (2 * i <= signed (nb030_innerk s))%Z ->
             ok (nb030_innerjjnr s + 2 * i)) ->
  exists s' m r,
    loop2 fuel s = Some s'
    /\ (0 <= r < 2)%Z
    /\ signed (nb030_innerk s) = (2 * Z.of_nat m + r)%Z
    /\ nb030_innerk s' = wrap (r - 2)
    /\ nb030_innerjjnr s' = (nb030_innerjjnr s + 2 * Z.of_nat (S m))%Z
    /\ proj s' = iter_ev2 (S m) (nb030_innerjjnr s) (proj s).
Proof.
  induction fuel as [|fuel IH]; intros s Hr HK Hok; [lia|].
  cbn [loop2]. rewrite body_innerk, body_innerjjnr.
  assert (H2 : in_range 2) by (unfold in_range, modulus; lia).
  rewrite cond_l_sub by assumption.
  destruct (signed_nonneg Hr (proj1 HK)) as [Hs Hlt31].
  rewrite (signed_small (z := 2)) by lia.
  assert (Hok0 : ok (nb030_innerjjnr s)).
  { replace (nb030_innerjjnr s) with (nb030_innerjjnr s + 2 * 0)%Z by lia.
    apply Hok; lia. }
  pose proof (proj_innerk (body s) (sub32 (nb030_innerk s) 2)) as Ht2.
  rewrite body_innerjjnr in Ht2.
  destruct (Z.ltb_spec (signed (nb030_innerk s)) 2) as [Hlt|Hge].
  - eexists. exists 0%nat, (signed (nb030_innerk s)).
    split; [reflexivity|]. cbn [nb030_innerk nb030_innerjjnr iter_ev2].
    repeat split; try lia.
    + unfold sub32. rewrite Hs. reflexivity.
    + rewrite Ht2. apply (body_totals s Hok0).
  - set (s2 := Inner _ _ _ _ _) in *.
    assert (Hk2 : nb030_innerk s2 = (nb030_innerk s - 2)%Z).
    { subst s2. cbn [nb030_innerk]. unfold sub32. apply wrap_small.
      unfold in_range, modulus in Hr. lia. }
    assert (Hj2 : nb030_innerjjnr s2 = (nb030_innerjjnr s + 2)%Z) by reflexivity.
    assert (Hs2 : signed (nb030_innerk s2) = (signed (nb030_innerk s) - 2)%Z).
    { rewrite Hk2, Hs. apply signed_small. lia. }
    destruct (IH s2) as (s' & m & r & Hrun & Hr' & HKr & Hk' & Hj' & Ht').
    + rewrite Hk2. unfold in_range, modulus in *. lia.
    + rewrite Hs2. lia.
    + intros i Hi Hi'. rewrite Hj2.
      replace (nb030_innerjjnr s + 2 + 2 * i)%Z
        with (nb030_innerjjnr s + 2 * (i + 1))%Z by lia.
      apply Hok; lia.
    + exists s', (S m), r. split; [exact Hrun|].
      rewrite Hj2 in Hj', Ht'. rewrite Ht2, (body_totals s Hok0) in Ht'.
      repeat split; try lia. exact Ht'.
Qed.

End Loop2.

Lemma d_unroll_loop_eq rsqrt_approx to_single a k e fuel : forall s,
  unroll_loop rsqrt_approx to_single fuel a k e s =
  loop2 (unroll_body rsqrt_approx to_single a k e) fuel s.
Proof.
  induction fuel as [|fuel IH]; intros s; [reflexivity|].
  cbn [unroll_loop loop2]. rewrite IH. reflexivity.
Qed.

(** The scalar totals of one outer entry and the force array, as the flush
    will see them. *)
Definition totals_of (s : inner) : NB030.totals :=
  NB030.Totals (d0 (nb030_Vvdwtot (i_acc s)) + d1 (nb030_Vvdwtot (i_acc s)))
               (d0 (nb030_fix (i_acc s)) + d1 (nb030_fix (i_acc s)))
               (d0 (nb030_fiy (i_acc s)) + d1 (nb030_fiy (i_acc s)))
               (d0 (nb030_fiz (i_acc s)) + d1 (nb030_fiz (i_acc s)))
               (i_faction s).

Section EntryReference.
Variable rsqrt_approx : real -> real.
Variable to_single : real -> real.
Variable a : args.
Variables is3 ii3 ntia : Z.
Variables ix iy iz : real.

(** The seed of the reference: the hardware approximation of the rounded
    argument, refined once. *)
Definition seed (r : real) : real :=
  Formula.nr_step r (rsqrt_approx (to_single r)).

Lemma first_step_seed :
  first_step rsqrt_approx to_single half_bits three = seed.
Proof.
  apply functional_extensionality. intros r.
  unfold first_step, seed, Formula.nr_step. ring.
Qed.

Let k := Consts (wrap (a_ntype a)) (splat2 (a_tabscale a)) (splat2 half_bits)
                (splat2 two) (splat2 three).
Let e := Entry is3 ii3 ntia (splat2 ix) (splat2 iy) (splat2 iz).
Let ref := NB030.ref_eval seed a ntia ix iy iz.

Ltac forget_xmm :=
  match goal with
  | |- context [i_xmm ?t] => generalize (i_xmm t); intro
  end.

Ltac use_lane j :=
  let HV := fresh "HV" in
  let Hx := fresh "Hx" in
  let Hy := fresh "Hy" in
  let Hz := fresh "Hz" in
  destruct (NB030.lane_ref seed a ntia ix iy iz j) as (HV & Hx & Hy & Hz);
  cbv zeta in HV, Hx, Hy, Hz;
  rewrite ?HV, ?Hx, ?Hy, ?Hz; clear HV Hx Hy Hz.

Lemma d_unroll_body_innerk s :
  nb030_innerk (unroll_body rsqrt_approx to_single a k e s) = nb030_innerk s.
Proof. unfold k, e. rewrite d_unroll_body_spec. reflexivity. Qed.

Lemma d_unroll_body_innerjjnr s :
  nb030_innerjjnr (unroll_body rsqrt_approx to_single a k e s) =
  (nb030_innerjjnr s + 2)%Z.
Proof. unfold k, e. rewrite d_unroll_body_spec. reflexivity. Qed.

(** One pass over two different particles does what two reference
    evaluations do. *)
Lemma d_unroll_body_totals s :
  Entry030.distinct_js a (nb030_innerjjnr s) (nb030_innerjjnr s + 2) ->
  totals_of (unroll_body rsqrt_approx to_single a k e s) =
  ref (NB030.j_list a (nb030_innerjjnr s) 2) (totals_of s).
Proof.
  intros [Hb Hd]. unfold k, e, ref.
  rewrite d_unroll_body_spec. cbv zeta. forget_xmm.
  rewrite first_step_seed.
  destruct s as [[[V0 V1] [fx0 fx1] [fy0 fy1] [fz0 fz1]] jp ik xs f].
  cbn [nb030_innerjjnr i_acc i_xmm i_faction nb030_Vvdwtot nb030_fix nb030_fiy
       nb030_fiz] in *.
  rewrite NB030.j_list_2.
  set (j0 := ld32 (a_jjnr a) jp) in *.
  set (j1 := ld32 (a_jjnr a) (jp + 1)) in *.
  assert (B0 : (0 <= j0 /\ 3 * j0 + 2 < 2 ^ 32)%Z)
    by (split; [apply Entry030.ld32_range | apply Hb; lia]).
  assert (B1 : (0 <= j1 /\ 3 * j1 + 2 < 2 ^ 32)%Z)
    by (split; [apply Entry030.ld32_range | apply Hb; lia]).
  assert (D01 : j0 <> j1) by (apply Hd; lia).
  rewrite !(wrap_small (z := _ + _ * 2)) by lia.
  unfold NB030.ref_eval, NB030.ref_step, totals_of.
  cbn [fold_left NB030.t_V NB030.t_fx NB030.t_fy NB030.t_fz NB030.t_faction
       i_acc i_faction nb030_Vvdwtot nb030_fix nb030_fiy nb030_fiz].
  apply NB030.totals_ext;
    cbn [NB030.t_V NB030.t_fx NB030.t_fy NB030.t_fz NB030.t_faction].
  - cbn [d0 d1]. use_lane j0. use_lane j1. ring.
  - unfold addpd. cbn [d0 d1]. use_lane j0. use_lane j1. ring.
  - unfold addpd. cbn [d0 d1]. use_lane j0. use_lane j1. ring.
  - unfold addpd. cbn [d0 d1]. use_lane j0. use_lane j1. ring.
  - apply functional_extensionality. intros p.
    rewrite update_forces2_faction by (unfold NB030.disjoint_slots; lia).
    cbn [d0 d1].
    destruct (NB030.lane_ref seed a ntia ix iy iz j0) as (_ & Hx0 & Hy0 & Hz0).
    destruct (NB030.lane_ref seed a ntia ix iy iz j1) as (_ & Hx1 & Hy1 & Hz1).
    unfold NB030.ln_tx in *. unfold NB030.ln_ty in *. unfold NB030.ln_tz in *.
    rewrite Hx0, Hy0, Hz0, Hx1, Hy1, Hz1.
    replace (j0 + j0 * 2)%Z with (3 * j0)%Z by lia.
    replace (j1 + j1 * 2)%Z with (3 * j1)%Z by lia.
    reflexivity.
Qed.

(** [.nb030_checksingle] with the remainder [r] of the list: the counter
    holds [r - 2], and bit 0 of that word is [r]. *)
Lemma checksingle_spec s r :
  (0 <= r <= 1)%Z -> nb030_innerk s = wrap (r - 2) ->
  checksingle rsqrt_approx to_single a k e s =
  if (r =? 0)%Z then s else dosingle rsqrt_approx to_single a k e s.
Proof.
  intros Hr Hk. unfold checksingle. rewrite Hk.
  assert (Hc : (r = 0 \/ r = 1)%Z) by lia.
  destruct Hc as [-> | ->]; reflexivity.
Qed.

Lemma checksingle_totals s r :
  (0 <= r <= 1)%Z -> nb030_innerk s = wrap (r - 2) ->
  (r = 1%Z -> (3 * ld32 (a_jjnr a) (nb030_innerjjnr s) + 2 < 2 ^ 32)%Z) ->
  totals_of (checksingle rsqrt_approx to_single a k e s) =
  ref (NB030.j_list a (nb030_innerjjnr s) r) (totals_of s).
Proof.
  intros Hr Hk Hb. rewrite (checksingle_spec s Hr Hk).
  assert (Hc : (r = 0 \/ r = 1)%Z) by lia.
  destruct Hc as [-> | ->]; cbn [Z.eqb]; [reflexivity|].
  specialize (Hb eq_refl).
  unfold k, e, ref. rewrite d_dosingle_spec. cbv zeta. forget_xmm.
  rewrite first_step_seed.
  destruct s as [[[V0 V1] [fx0 fx1] [fy0 fy1] [fz0 fz1]] jp ik xs f].
  cbn [nb030_innerjjnr i_acc i_xmm i_faction nb030_Vvdwtot nb030_fix nb030_fiy
       nb030_fiz] in *.
  rewrite NB030.j_list_1.
  set (j := ld32 (a_jjnr a) jp) in *.
  assert (B0 : (0 <= j)%Z) by apply Entry030.ld32_range.
  rewrite !(wrap_small (z := _ + _ * 2)) by lia.
  unfold NB030.ref_eval, NB030.ref_step, totals_of.
  cbn [fold_left NB030.t_V NB030.t_fx NB030.t_fy NB030.t_fz NB030.t_faction
       i_acc i_faction nb030_Vvdwtot nb030_fix nb030_fiy nb030_fiz d0 d1].
  use_lane j. replace (j + j * 2)%Z with (3 * j)%Z by lia.
  apply NB030.totals_ext;
    cbn [NB030.t_V NB030.t_fx NB030.t_fy NB030.t_fz NB030.t_faction];
    try ring. reflexivity.
Qed.

Lemma iter_ev2_ref m : forall p t,
  iter_ev2 (fun p t => ref (NB030.j_list a p 2) t) m p t =
  ref (NB030.j_list a p (2 * Z.of_nat m)) t.
Proof.
  induction m as [|m IH]; intros p t; [reflexivity|].
  cbn [iter_ev2]. rewrite IH.
  replace (2 * Z.of_nat (S m))%Z with (2 + 2 * Z.of_nat m)%Z by lia.
  rewrite Entry030.j_list_app by lia. unfold ref.
  rewrite Entry030.ref_eval_app. reflexivity.
Qed.

(** The unrolled loop followed by the single-particle tail, from a state
    whose counter holds [N - 2]: the [N] particles are evaluated once
    each, in order. *)
Lemma d_inner_loop_totals (fuel : nat) (s : inner) (N : Z) :
  (0 <= N < 2 ^ 31)%Z -> (N <= 2 * Z.of_nat fuel)%Z ->
  nb030_innerk s = sub32 N 2 ->
  Entry030.distinct_js a (nb030_innerjjnr s) (nb030_innerjjnr s + N) ->
  exists s',
    (if cond_ge (add_flags (sub32 N 2) 0)
     then unroll_loop rsqrt_approx to_single fuel a k e s else Some s) = Some s'
    /\ totals_of (checksingle rsqrt_approx to_single a k e s') =
       ref (NB030.j_list a (nb030_innerjjnr s) N) (totals_of s).
Proof.
  intros HN Hfuel Hk Hd.
  assert (H2 : in_range (sub32 N 2)) by apply wrap_range.
  rewrite cond_ge_add0 by exact H2.
  destruct (Z_lt_le_dec N 2) as [Hlt|Hge].
  - assert (Hs : signed (sub32 N 2) = (N - 2)%Z).
    { unfold sub32. apply signed_wrap_neg. lia. }
    rewrite Hs. destruct (Z.leb_spec 0 (N - 2)); [lia|].
    exists s. split; [reflexivity|].
    apply checksingle_totals; [lia | exact Hk |].
    intros ->. apply (proj1 Hd). lia.
  - assert (Hk2 : sub32 N 2 = (N - 2)%Z).
    { unfold sub32. apply wrap_small. lia. }
    assert (Hs : signed (sub32 N 2) = (N - 2)%Z).
    { rewrite Hk2. apply signed_small. lia. }
    rewrite Hs. destruct (Z.leb_spec 0 (N - 2)); [|lia].
    rewrite d_unroll_loop_eq.
    destruct (@loop2_totals NB030.totals totals_of
                (unroll_body rsqrt_approx to_single a k e)
                (fun p => Entry030.distinct_js a p (p + 2))
                (fun p t => ref (NB030.j_list a p 2) t)
                (fun s1 k' => eq_refl)
                d_unroll_body_innerk d_unroll_body_innerjjnr d_unroll_body_totals)
      with (fuel := fuel) (s := s)
      as (s' & m & r & Hrun & Hr & HK & Hk' & Hj' & Ht').
    + rewrite Hk. exact H2.
    + rewrite Hk, Hs. lia.
    + intros i Hi Hi'. rewrite Hk, Hs in Hi'.
      eapply Entry030.distinct_js_sub; [| |exact Hd]; lia.
    + exists s'. split; [exact Hrun|].
      rewrite Hk, Hs in HK.
      rewrite (@checksingle_totals s' r ltac:(lia) Hk').
      * rewrite Hj', Ht'. rewrite iter_ev2_ref.
        replace (NB030.j_list a (nb030_innerjjnr s) N)
          with (NB030.j_list a (nb030_innerjjnr s) (2 * Z.of_nat (S m) + r))
          by (f_equal; lia).
        rewrite Entry030.j_list_app by lia. unfold ref.
        rewrite Entry030.ref_eval_app. reflexivity.
      * intros ->. rewrite Hj'. apply (proj1 Hd). lia.
Qed.

End EntryReference.

(** *** One outer entry *)

(** What [.nb030_outer] computes for entry [esi]. *)
Definition entry_of (a : args) (ntype esi : Z) : entry :=
  let sh := ld32 (a_shift a) esi in
  let ii := ld32 (a_iinr a) esi in
  let sh3 := (sh + sh * 2)%Z in
  let ii3 := (ii + ii * 2)%Z in
  Entry (wrap sh3) (wrap ii3) (shl32 (mul32 (ld32 (a_type a) ii) ntype) 1)
        (splat2 (a_shiftvec a sh3 + a_pos a ii3))
        (splat2 (a_shiftvec a (sh3 + 1)%Z + a_pos a (ii3 + 1)%Z))
        (splat2 (a_shiftvec a (sh3 + 2)%Z + a_pos a (ii3 + 2)%Z)).

Definition zero_acc : accum := Accum xorpd_self xorpd_self xorpd_self xorpd_self.

Lemma totals_of_zero j k x f :
  totals_of (Inner zero_acc j k x f) = NB030.Totals 0 0 0 0 f.
Proof.
  unfold totals_of.
  cbn [i_acc zero_acc nb030_Vvdwtot nb030_fix nb030_fiy nb030_fiz i_faction
       xorpd_self d0 d1].
  rewrite Qcplus_0_l. reflexivity.
Qed.

Lemma d_prologue_consts a x :
  fst (prologue a x) =
  Consts (wrap (a_ntype a)) (splat2 (a_tabscale a)) (splat2 half_bits)
         (splat2 two) (splat2 three).
Proof. reflexivity. Qed.

Lemma d_outer_setup_spec a k esi ninner x f :
  outer_setup a k esi ninner x f =
  (entry_of a (nb030_ntype k) esi,
   Inner zero_acc (NB030.nj0 a esi) (add32 (sub32 (NB030.ninner_of a esi) 2) 0)
         (i_xmm (snd (fst (fst (outer_setup a k esi ninner x f))))) f,
   add32 (NB030.ninner_of a esi) ninner,
   add_flags (sub32 (NB030.ninner_of a esi) 2) 0).
Proof. reflexivity. Qed.

Lemma d_updateouterdata_spec a e n s o :
  snd (updateouterdata a e n s o) =
  let t := totals_of s in
  let g := ld32 (a_gid a) n in
  Outputs (add_force (NB030.t_faction t) (nb030_ii3 e)
             (NB030.t_fx t) (NB030.t_fy t) (NB030.t_fz t))
          (add_force (o_fshift o) (nb030_is3 e)
             (NB030.t_fx t) (NB030.t_fy t) (NB030.t_fz t))
          (o_Vc o)
          (store (o_Vvdw o) g (NB030.t_V t + o_Vvdw o g)).
Proof.
  destruct s as [[[? ?] [? ?] [? ?] [? ?]] ? ?
                   [[? ?] [? ?] [? ?] [? ?] [? ?] [? ?] [? ?] [? ?]] ?].
  destruct o, e. reflexivity.
Qed.

Section EntryTheorems.
Variable rsqrt_approx : real -> real.
Variable to_single : real -> real.
Variable a : args.
Variable x0 : xmmd.

Let k := fst (prologue a x0).
Let nt := wrap (a_ntype a).

Lemma d_outer_entry_reference (fuel : nat) (esi ninner : Z) (x : xmmd) (o : outputs) :
  let N := NB030.ninner_of a esi in
  let e := entry_of a nt esi in
  let p := NB030.nj0 a esi in
  let g := ld32 (a_gid a) esi in
  let R := NB030.ref_eval (seed rsqrt_approx to_single) a (nb030_ntia e)
             (d0 (nb030_ix e)) (d0 (nb030_iy e)) (d0 (nb030_iz e))
             (NB030.j_list a p N) (NB030.Totals 0 0 0 0 (o_faction o)) in
  (N < 2 ^ 31)%Z -> (N <= 2 * Z.of_nat fuel)%Z ->
  Entry030.distinct_js a p (p + N) ->
  exists x',
    outer_entry rsqrt_approx to_single fuel a k esi ninner x o =
    Some (add32 N ninner, x',
          Outputs (add_force (NB030.t_faction R) (nb030_ii3 e)
                     (NB030.t_fx R) (NB030.t_fy R) (NB030.t_fz R))
                  (add_force (o_fshift o) (nb030_is3 e)
                     (NB030.t_fx R) (NB030.t_fy R) (NB030.t_fz R))
                  (o_Vc o)
                  (store (o_Vvdw o) g (NB030.t_V R + o_Vvdw o g))).
Proof.
  intros N e p g R HN Hfuel Hd.
  assert (HNr : in_range N) by apply wrap_range.
  unfold k. rewrite d_prologue_consts. unfold outer_entry.
  rewrite (d_outer_setup_spec a _ esi ninner x (o_faction o)).
  set (x1 := i_xmm _).
  rewrite NB030.add32_0_sub32. fold N. cbn [nb030_ntype]. unfold nt.
  unfold entry_of. cbv zeta.
  match goal with
  | |- context [unroll_loop _ _ _ _ _
                  (Entry ?i1 ?i2 ?i3 (splat2 ?px) (splat2 ?py) (splat2 ?pz)) ?s] =>
      destruct (@d_inner_loop_totals rsqrt_approx to_single a i1 i2 i3 px py pz
                  fuel s N)
        as (s' & Hrun & Htot)
  end.
  - unfold in_range in HNr. lia.
  - exact Hfuel.
  - reflexivity.
  - exact Hd.
  - rewrite Hrun.
    rewrite totals_of_zero in Htot. cbn [nb030_innerjjnr] in Htot.
    rewrite (surjective_pairing (updateouterdata _ _ _ _ _)).
    rewrite d_updateouterdata_spec. cbv zeta. rewrite Htot.
    eexists. reflexivity.
Qed.

(** Kernel 030 in double precision against the reference: an outer entry
    whose list holds [N] pairwise different particles does what the scalar
    reference of kernel 030 does with the seed refined once more, that is
    with two Newton-Raphson steps on the single-precision seed. *)
Theorem d_entry_reference (fuel : nat) (esi ninner : Z) (x : xmmd) (o : outputs) :
  let N := NB030.ninner_of a esi in
  let e := entry_of a nt esi in
  let p := NB030.nj0 a esi in
  let g := ld32 (a_gid a) esi in
  let R := NB030.ref_eval (seed rsqrt_approx to_single) a (nb030_ntia e)
             (d0 (nb030_ix e)) (d0 (nb030_iy e)) (d0 (nb030_iz e))
             (NB030.j_list a p N) (NB030.Totals 0 0 0 0 (o_faction o)) in
  (N < 2 ^ 31)%Z -> (N <= 2 * Z.of_nat fuel)%Z ->
  Entry030.distinct_js a p (p + N) ->
  exists x',
    outer_entry rsqrt_approx to_single fuel a k esi ninner x o =
    Some (add32 N ninner, x',
          Outputs (add_force (NB030.t_faction R) (nb030_ii3 e)
                     (NB030.t_fx R) (NB030.t_fy R) (NB030.t_fz R))
                  (add_force (o_fshift o) (nb030_is3 e)
                     (NB030.t_fx R) (NB030.t_fy R) (NB030.t_fz R))
                  (o_Vc o)
                  (store (o_Vvdw o) g (NB030.t_V R + o_Vvdw o g))).
Proof. apply d_outer_entry_reference. Qed.

End EntryTheorems.

(** *** The whole kernel, run by one thread *)

Section Kernel030d.
Variable rsqrt_approx : real -> real.
Variable to_single : real -> real.

(** The kernel from its first instruction to [ret] (lines 3835-4491);
    [count] is the value of the shared counter when it is called. *)
Definition nb_kernel030_sse2 (fuel ofuel ifuel : nat) (a : args) (count : Z)
    (x : xmmd) (o : outputs) : option (Threads.kernel_result xmmd outputs) :=
  let eax := 0%Z in
  let nb030_nouter := eax in
  let nb030_ninner := eax in
  let edi := wrap (a_nri a) in                          (* mov edi, [rdi] *)
  let nb030_nri := edi in
  let '(k, x) := prologue a x in
  Threads.thread_loop (outer_entry rsqrt_approx to_single ifuel a k)
    fuel ofuel nb030_nri count nb030_nouter nb030_ninner x o.

(** An entry the kernel can run: its list is not longer than [2^31 - 1]
    (and than the fuel allows), and names different particles whose force
    slots lie below [2^32]. *)
Definition entry_ok (ifuel : nat) (a : args) (n : Z) : Prop :=
  ((NB030.ninner_of a n < 2 ^ 31)%Z /\ (NB030.ninner_of a n <= 2 * Z.of_nat ifuel)%Z)
  /\ Entry030.distinct_js a (NB030.nj0 a n) (NB030.nj0 a n + NB030.ninner_of a n).

(** Kernel 030 in double precision against the reference of the
    single-precision kernel: a single thread leaves in the output arrays
    what that reference leaves after the entries [c .. nri-1] when its seed
    is refined by one more Newton-Raphson step. *)
Theorem d_kernel_reference (fuel ofuel ifuel : nat) (a : args) (c : Z)
    (x : xmmd) (o : outputs) :
  let nri := wrap (a_nri a) in
  (0 <= c < nri)%Z -> (nri < 2 ^ 31)%Z ->
  (nri - c <= Z.of_nat fuel)%Z -> (0 < ofuel)%nat ->
  (forall n, (c <= n < nri)%Z -> entry_ok ifuel a n) ->
  exists x',
    nb_kernel030_sse2 fuel ofuel ifuel a c x o =
      Some (Threads.Run nri (nri - c)
              (wrap (Run030.sum_ninner a (Z.to_nat (nri - c)) c)) x'
              (Run030.ref_entries (seed rsqrt_approx to_single) a
                 (Z.to_nat (nri - c)) c o)).
Proof.
  intros nri Hc Hnri Hf Hof Hfit.
  unfold nb_kernel030_sse2. cbv zeta. fold nri.
  rewrite (surjective_pairing (prologue a x)).
  destruct (@Threads.entries_fold xmmd outputs
              (outer_entry rsqrt_approx to_single ifuel a (fst (prologue a x)))
              (NB030.ninner_of a) (Run030.ref_entry (seed rsqrt_approx to_single) a)
              (entry_ok ifuel a))
    with (m := Z.to_nat (nri - c)) (c := c) (ninner := 0%Z)
         (x := snd (prologue a x)) (o := o)
    as (x' & Hent).
  - intros esi ni y p [[H1 H2] Hd].
    apply (@d_outer_entry_reference rsqrt_approx to_single a x ifuel esi ni y p
             H1 H2 Hd).
  - intros n Hn. apply Hfit. lia.
  - exists x'. apply Threads.thread_loop_run; try assumption. apply wrap_range.
Qed.

End Kernel030d.

End NB030d.


(** * The back edge of the twice-unrolled inner loops *)

Module PassLoop.
Import W32.
Local Open Scope Z_scope.

(** [sub dword ptr [rsp + innerk], 2; jl .checksingle] around an arbitrary
    body that advances the [jjnr] pointer by two and keeps the counter,
    with what the body does to a view [proj] of the state. *)
Section Loop.
Variables St T : Type.
Variables innerk innerjjnr : St -> Z.
Variable set_innerk : St -> Z -> St.
Variable proj : St -> T.
Variable body : St -> St.
Variable ok : Z -> Prop.
Variable ev : Z -> T -> T.

Fixpoint pass_loop (fuel : nat) (s : St) : option St :=
  match fuel with
  | O => None
  | S fuel' =>
      let s := body s in
      let fl := sub_flags (innerk s) 2 in
      let s := set_innerk s (sub32 (innerk s) 2) in
      if cond_l fl then Some s else pass_loop fuel' s
  end.

Hypothesis innerk_set : forall s k', innerk (set_innerk s k') = k'.
Hypothesis innerjjnr_set : forall s k', innerjjnr (set_innerk s k') = innerjjnr s.
Hypothesis proj_set : forall s k', proj (set_innerk s k') = proj s.
Hypothesis body_innerk : forall s, innerk (body s) = innerk s.
Hypothesis body_innerjjnr : forall s, innerjjnr (body s) = innerjjnr s + 2.
Hypothesis body_totals : forall s,
  ok (innerjjnr s) -> proj (body s) = ev (innerjjnr s) (proj s).

Fixpoint iter_pass (m : nat) (p : Z) (t : T) : T :=
  match m with
  | O => t
  | S m' => iter_pass m' (p + 2) (ev p t)
  end.

Lemma pass_loop_totals fuel : forall s,
  in_range (innerk s) ->
  0 <= signed (innerk s) < 2 * Z.of_nat fuel ->
  (forall i, 0 <= i -> 2 * i <= signed (innerk s) -> ok (innerjjnr s + 2 * i)) ->
  exists s' m r,
    pass_loop fuel s = Some s'
    /\ 0 <= r < 2
    /\ signed (innerk s) = 2 * Z.of_nat m + r
    /\ innerk s' = wrap (r - 2)
    /\ innerjjnr s' = innerjjnr s + 2 * Z.of_nat (S m)
    /\ proj s' = iter_pass (S m) (innerjjnr s) (proj s).
Proof.
  induction fuel as [|fuel IH]; intros s Hr HK Hok; [lia|].
  cbn [pass_loop]. rewrite body_innerk.
  assert (H2 : in_range 2) by (unfold in_range, modulus; lia).
  rewrite cond_l_sub by assumption.
  destruct (signed_nonneg Hr (proj1 HK)) as [Hs Hlt31].
  rewrite (signed_small (z := 2)) by lia.
  assert (Hok0 : ok (innerjjnr s)).
  { replace (innerjjnr s) with (innerjjnr s + 2 * 0) by lia. apply Hok; lia. }
  set (s2 := set_innerk (body s) (sub32 (innerk s) 2)).
  assert (Hj2 : innerjjnr s2 = innerjjnr s + 2).
  { unfold s2. rewrite innerjjnr_set. apply body_innerjjnr. }
  assert (Ht2 : proj s2 = ev (innerjjnr s) (proj s)).
  { unfold s2. rewrite proj_set. apply body_totals. exact Hok0. }
  destruct (Z.ltb_spec (signed (innerk s)) 2) as [Hlt|Hge].
  - exists s2, 0%nat, (signed (innerk s)).
    split; [reflexivity|]. cbn [iter_pass].
    repeat split; try lia.
    + unfold s2. rewrite innerk_set. unfold sub32. rewrite Hs. reflexivity.
    + exact Ht2.
  - assert (Hk2 : innerk s2 = innerk s - 2).
    { unfold s2. rewrite innerk_set. unfold sub32. apply wrap_small.
      unfold in_range, modulus in Hr. lia. }
    assert (Hs2 : signed (innerk s2) = signed (innerk s) - 2).
    { rewrite Hk2, Hs. apply signed_small. lia. }
    destruct (IH s2) as (s' & m & r & Hrun & Hr' & HKr & Hk' & Hj' & Ht').
    + rewrite Hk2. unfold in_range, modulus in *. lia.
    + rewrite Hs2. lia.
    + intros i Hi Hi'. rewrite Hj2.
      replace (innerjjnr s + 2 + 2 * i) with (innerjjnr s + 2 * (i + 1)) by lia.
      apply Hok; lia.
    + exists s', (S m), r. split; [exact Hrun|].
      rewrite Hj2 in Hj', Ht'. rewrite Ht2 in Ht'.
      repeat split; try lia. exact Ht'.
Qed.

End Loop.

End PassLoop.


(** ** The whole [nb_kernel232_x86_64_sse2]: water-water interactions with
    reaction-field Coulomb and tabulated Lennard-Jones *)

Module Water232.
Import W32 SSE Kernel NB232.
Local Open Scope Z_scope.

Abbreviation xmmd := NB030d.xmmd.
Abbreviation Xmmd := NB030d.Xmmd.
Abbreviation q0 := NB030d.q0.
Abbreviation q1 := NB030d.q1.
Abbreviation q2 := NB030d.q2.
Abbreviation q3 := NB030d.q3.
Abbreviation q4 := NB030d.q4.
Abbreviation q5 := NB030d.q5.
Abbreviation q6 := NB030d.q6.
Abbreviation q7 := NB030d.q7.
Abbreviation movhlps_d := NB030d.movhlps_d.
Abbreviation addsd_m := NB030d.addsd_m.
Abbreviation movsd_st := NB030d.movsd_st.
Abbreviation cvttsd2si := NB030d.cvttsd2si.
Abbreviation cvtsi2sd := NB030d.cvtsi2sd.

(** Stack slots written at the start of an outer entry: the indices of the
    shift vector and of the i molecule, and the shifted coordinates of its
    three atoms. *)
Record entry : Type := Entry {
  nb232_is3 : Z;
  nb232_ii3 : Z;
  nb232_ixO : v2; nb232_iyO : v2; nb232_izO : v2;
  nb232_ixH1 : v2; nb232_iyH1 : v2; nb232_izH1 : v2;
  nb232_ixH2 : v2; nb232_iyH2 : v2; nb232_izH2 : v2
}.

(** The two energies and the forces on the three i atoms. *)
Record accum : Type := Accum {
  nb232_vctot : v2;
  nb232_Vvdwtot : v2;
  nb232_fixO : v2; nb232_fiyO : v2; nb232_fizO : v2;
  nb232_fixH1 : v2; nb232_fiyH1 : v2; nb232_fizH1 : v2;
  nb232_fixH2 : v2; nb232_fiyH2 : v2; nb232_fizH2 : v2
}.

(** Slots that an inner pass writes and the single-molecule pass writes in
    their lower halves only. *)
Record scratch : Type := Scratch {
  nb232_fstmp : v2;
  nb232_fjxO : v2; nb232_fjyO : v2; nb232_fjzO : v2;
  nb232_fjxH1 : v2; nb232_fjyH1 : v2; nb232_fjzH1 : v2;
  nb232_fjxH2 : v2; nb232_fjyH2 : v2; nb232_fjzH2 : v2
}.

(** Displacements, squared distances and inverse distances of the nine
    atom pairs; the stack holds a pair of doubles in each slot. *)
Record geom_of {A : Type} : Type := Geom {
  nb232_dxOO : A; nb232_dyOO : A; nb232_dzOO : A;
  nb232_dxOH1 : A; nb232_dyOH1 : A; nb232_dzOH1 : A;
  nb232_dxOH2 : A; nb232_dyOH2 : A; nb232_dzOH2 : A;
  nb232_dxH1O : A; nb232_dyH1O : A; nb232_dzH1O : A;
  nb232_dxH1H1 : A; nb232_dyH1H1 : A; nb232_dzH1H1 : A;
  nb232_dxH1H2 : A; nb232_dyH1H2 : A; nb232_dzH1H2 : A;
  nb232_dxH2O : A; nb232_dyH2O : A; nb232_dzH2O : A;
  nb232_dxH2H1 : A; nb232_dyH2H1 : A; nb232_dzH2H1 : A;
  nb232_dxH2H2 : A; nb232_dyH2H2 : A; nb232_dzH2H2 : A;
  nb232_rsqOO : A; nb232_rsqOH1 : A; nb232_rsqOH2 : A;
  nb232_rsqH1O : A; nb232_rsqH1H1 : A; nb232_rsqH1H2 : A;
  nb232_rsqH2O : A; nb232_rsqH2H1 : A; nb232_rsqH2H2 : A;
  nb232_rinvOO : A; nb232_rinvOH1 : A; nb232_rinvOH2 : A;
  nb232_rinvH1O : A; nb232_rinvH1H1 : A; nb232_rinvH1H2 : A;
  nb232_rinvH2O : A; nb232_rinvH2H1 : A; nb232_rinvH2H2 : A
}.

Abbreviation geom := (@geom_of v2).

(** What the inner loop carries from pass to pass. *)
Record inner : Type := Inner {
  i_acc : accum;
  i_scr : scratch;
  nb232_innerjjnr : Z;      (* index into jjnr of the next entry *)
  nb232_innerk : Z;
  i_xmm : xmmd;
  i_faction : fmem
}.

Section Code.

(** The hardware approximation behind [rsqrtps] and [rsqrtss], and the
    rounding of a double to single precision. *)
Variable rsqrt_approx : real -> real.
Variable to_single : real -> real.

Definition rsqrtps (s : v4) : v4 :=
  V4 (rsqrt_approx (l0 s)) (rsqrt_approx (l1 s))
     (rsqrt_approx (l2 s)) (rsqrt_approx (l3 s)).

(** The scalar conversions read and write the lowest single of a
    register; the upper double is kept. *)
Definition cvtsd2ss (s : v2) : real := to_single (d0 s).
Definition rsqrtss (x : real) : real := rsqrt_approx x.
Definition cvtss2sd (d : v2) (x : real) : v2 := V2 x (d1 d).

(** Lines 402-765: the nine coordinates of the two j molecules, the nine
    displacements and squared distances, and their inverse square roots. *)
Definition calc_geom (a : args) (k : consts) (e : entry) (x : xmmd)
    (nb232_innerjjnr : Z) : geom * xmmd * Z * Z * Z :=
  let rdx := nb232_innerjjnr in
  let eax := ld32 (a_jjnr a) rdx in
  let ebx := ld32 (a_jjnr a) (rdx + 1) in
  let nb232_innerjjnr := nb232_innerjjnr + 2 in
  let rax := eax + eax * 2 in
  let rbx := ebx + ebx * 2 in
  let xmm2 := movlpd (q2 x) (a_pos a) rax in
  let xmm3 := movlpd (q3 x) (a_pos a) (rax + 1) in
  let xmm4 := movlpd (q4 x) (a_pos a) (rax + 2) in
  let xmm5 := movlpd (q5 x) (a_pos a) (rax + 3) in
  let xmm6 := movlpd (q6 x) (a_pos a) (rax + 4) in
  let xmm7 := movlpd (q7 x) (a_pos a) (rax + 5) in
  let xmm2 := movhpd xmm2 (a_pos a) rbx in
  let xmm3 := movhpd xmm3 (a_pos a) (rbx + 1) in
  let xmm4 := movhpd xmm4 (a_pos a) (rbx + 2) in
  let xmm5 := movhpd xmm5 (a_pos a) (rbx + 3) in
  let xmm6 := movhpd xmm6 (a_pos a) (rbx + 4) in
  let xmm7 := movhpd xmm7 (a_pos a) (rbx + 5) in
  let nb232_jxO := xmm2 in
  let nb232_jyO := xmm3 in
  let nb232_jzO := xmm4 in
  let nb232_jxH1 := xmm5 in
  let nb232_jyH1 := xmm6 in
  let nb232_jzH1 := xmm7 in
  let xmm2 := movlpd xmm2 (a_pos a) (rax + 6) in
  let xmm3 := movlpd xmm3 (a_pos a) (rax + 7) in
  let xmm4 := movlpd xmm4 (a_pos a) (rax + 8) in
  let xmm2 := movhpd xmm2 (a_pos a) (rbx + 6) in
  let xmm3 := movhpd xmm3 (a_pos a) (rbx + 7) in
  let xmm4 := movhpd xmm4 (a_pos a) (rbx + 8) in
  let nb232_jxH2 := xmm2 in
  let nb232_jyH2 := xmm3 in
  let nb232_jzH2 := xmm4 in
  let xmm0 := nb232_ixO e in
  let xmm1 := nb232_iyO e in
  let xmm2 := nb232_izO e in
  let xmm3 := nb232_ixO e in
  let xmm4 := nb232_iyO e in
  let xmm5 := nb232_izO e in
  let xmm0 := subpd xmm0 nb232_jxO in
  let xmm1 := subpd xmm1 nb232_jyO in
  let xmm2 := subpd xmm2 nb232_jzO in
  let xmm3 := subpd xmm3 nb232_jxH1 in
  let xmm4 := subpd xmm4 nb232_jyH1 in
  let xmm5 := subpd xmm5 nb232_jzH1 in
  let nb232_dxOO := xmm0 in
  let nb232_dyOO := xmm1 in
  let nb232_dzOO := xmm2 in
  let xmm0 := mulpd xmm0 xmm0 in
  let xmm1 := mulpd xmm1 xmm1 in
  let xmm2 := mulpd xmm2 xmm2 in
  let nb232_dxOH1 := xmm3 in
  let nb232_dyOH1 := xmm4 in
  let nb232_dzOH1 := xmm5 in
  let xmm3 := mulpd xmm3 xmm3 in
  let xmm4 := mulpd xmm4 xmm4 in
  let xmm5 := mulpd xmm5 xmm5 in
  let xmm0 := addpd xmm0 xmm1 in
  let xmm0 := addpd xmm0 xmm2 in
  let xmm3 := addpd xmm3 xmm4 in
  let xmm3 := addpd xmm3 xmm5 in
  let nb232_rsqOO := xmm0 in
  let nb232_rsqOH1 := xmm3 in
  let xmm0 := nb232_ixO e in
  let xmm1 := nb232_iyO e in
  let xmm2 := nb232_izO e in
  let xmm3 := nb232_ixH1 e in
  let xmm4 := nb232_iyH1 e in
  let xmm5 := nb232_izH1 e in
  let xmm0 := subpd xmm0 nb232_jxH2 in
  let xmm1 := subpd xmm1 nb232_jyH2 in
  let xmm2 := subpd xmm2 nb232_jzH2 in
  let xmm3 := subpd xmm3 nb232_jxO in
  let xmm4 := subpd xmm4 nb232_jyO in
  let xmm5 := subpd xmm5 nb232_jzO in
  let nb232_dxOH2 := xmm0 in
  let nb232_dyOH2 := xmm1 in
  let nb232_dzOH2 := xmm2 in
  let xmm0 := mulpd xmm0 xmm0 in
  let xmm1 := mulpd xmm1 xmm1 in
  let xmm2 := mulpd xmm2 xmm2 in
  let nb232_dxH1O := xmm3 in
  let nb232_dyH1O := xmm4 in
  let nb232_dzH1O := xmm5 in
  let xmm3 := mulpd xmm3 xmm3 in
  let xmm4 := mulpd xmm4 xmm4 in
  let xmm5 := mulpd xmm5 xmm5 in
  let xmm0 := addpd xmm0 xmm1 in
  let xmm0 := addpd xmm0 xmm2 in
  let xmm3 := addpd xmm3 xmm4 in
  let xmm3 := addpd xmm3 xmm5 in
  let nb232_rsqOH2 := xmm0 in
  let nb232_rsqH1O := xmm3 in
  let xmm0 := nb232_ixH1 e in
  let xmm1 := nb232_iyH1 e in
  let xmm2 := nb232_izH1 e in
  let xmm3 := nb232_ixH1 e in
  let xmm4 := nb232_iyH1 e in
  let xmm5 := nb232_izH1 e in
  let xmm0 := subpd xmm0 nb232_jxH1 in
  let xmm1 := subpd xmm1 nb232_jyH1 in
  let xmm2 := subpd xmm2 nb232_jzH1 in
  let xmm3 := subpd xmm3 nb232_jxH2 in
  let xmm4 := subpd xmm4 nb232_jyH2 in
  let xmm5 := subpd xmm5 nb232_jzH2 in
  let nb232_dxH1H1 := xmm0 in
  let nb232_dyH1H1 := xmm1 in
  let nb232_dzH1H1 := xmm2 in
  let xmm0 := mulpd xmm0 xmm0 in
  let xmm1 := mulpd xmm1 xmm1 in
  let xmm2 := mulpd xmm2 xmm2 in
  let nb232_dxH1H2 := xmm3 in
  let nb232_dyH1H2 := xmm4 in
  let nb232_dzH1H2 := xmm5 in
  let xmm3 := mulpd xmm3 xmm3 in
  let xmm4 := mulpd xmm4 xmm4 in
  let xmm5 := mulpd xmm5 xmm5 in
  let xmm0 := addpd xmm0 xmm1 in
  let xmm0 := addpd xmm0 xmm2 in
  let xmm3 := addpd xmm3 xmm4 in
  let xmm3 := addpd xmm3 xmm5 in
  let nb232_rsqH1H1 := xmm0 in
  let nb232_rsqH1H2 := xmm3 in
  let xmm0 := nb232_ixH2 e in
  let xmm1 := nb232_iyH2 e in
  let xmm2 := nb232_izH2 e in
  let xmm3 := nb232_ixH2 e in
  let xmm4 := nb232_iyH2 e in
  let xmm5 := nb232_izH2 e in
  let xmm0 := subpd xmm0 nb232_jxO in
  let xmm1 := subpd xmm1 nb232_jyO in
  let xmm2 := subpd xmm2 nb232_jzO in
  let xmm3 := subpd xmm3 nb232_jxH1 in
  let xmm4 := subpd xmm4 nb232_jyH1 in
  let xmm5 := subpd xmm5 nb232_jzH1 in
  let nb232_dxH2O := xmm0 in
  let nb232_dyH2O := xmm1 in
  let nb232_dzH2O := xmm2 in
  let xmm0 := mulpd xmm0 xmm0 in
  let xmm1 := mulpd xmm1 xmm1 in
  let xmm2 := mulpd xmm2 xmm2 in
  let nb232_dxH2H1 := xmm3 in
  let nb232_dyH2H1 := xmm4 in
  let nb232_dzH2H1 := xmm5 in
  let xmm3 := mulpd xmm3 xmm3 in
  let xmm4 := mulpd xmm4 xmm4 in
  let xmm5 := mulpd xmm5 xmm5 in
  let xmm0 := addpd xmm0 xmm1 in
  let xmm0 := addpd xmm0 xmm2 in
  let xmm4 := addpd xmm4 xmm3 in
  let xmm4 := addpd xmm4 xmm5 in
  let nb232_rsqH2O := xmm0 in
  let nb232_rsqH2H1 := xmm4 in
  let xmm0 := nb232_ixH2 e in
  let xmm1 := nb232_iyH2 e in
  let xmm2 := nb232_izH2 e in
  let xmm0 := subpd xmm0 nb232_jxH2 in
  let xmm1 := subpd xmm1 nb232_jyH2 in
  let xmm2 := subpd xmm2 nb232_jzH2 in
  let nb232_dxH2H2 := xmm0 in
  let nb232_dyH2H2 := xmm1 in
  let nb232_dzH2H2 := xmm2 in
  let xmm0 := mulpd xmm0 xmm0 in
  let xmm1 := mulpd xmm1 xmm1 in
  let xmm2 := mulpd xmm2 xmm2 in
  let xmm0 := addpd xmm0 xmm1 in
  let xmm0 := addpd xmm0 xmm2 in
  let nb232_rsqH2H2 := xmm0 in
  let xmm1s := cvtpd2ps to_single xmm0 in
  let xmm5s := cvtpd2ps to_single xmm4 in
  let xmm1s := rsqrtps xmm1s in
  let xmm5s := rsqrtps xmm5s in
  let xmm1 := cvtps2pd xmm1s in
  let xmm5 := cvtps2pd xmm5s in
  let xmm2 := xmm1 in
  let xmm6 := xmm5 in
  let xmm1 := mulpd xmm1 xmm1 in
  let xmm5 := mulpd xmm5 xmm5 in
  let xmm3 := nb232_three k in
  let xmm1 := mulpd xmm1 xmm0 in
  let xmm5 := mulpd xmm5 xmm4 in
  let xmm7 := xmm3 in
  let xmm3 := subpd xmm3 xmm1 in
  let xmm7 := subpd xmm7 xmm5 in
  let xmm3 := mulpd xmm3 xmm2 in
  let xmm7 := mulpd xmm7 xmm6 in
  let xmm3 := mulpd xmm3 (nb232_half k) in
  let xmm7 := mulpd xmm7 (nb232_half k) in
  let xmm2 := xmm3 in
  let xmm6 := xmm7 in
  let xmm3 := mulpd xmm3 xmm3 in
  let xmm7 := mulpd xmm7 xmm7 in
  let xmm1 := nb232_three k in
  let xmm3 := mulpd xmm3 xmm0 in
  let xmm7 := mulpd xmm7 xmm4 in
  let xmm5 := xmm1 in
  let xmm1 := subpd xmm1 xmm3 in
  let xmm5 := subpd xmm5 xmm7 in
  let xmm1 := mulpd xmm1 xmm2 in
  let xmm5 := mulpd xmm5 xmm6 in
  let xmm1 := mulpd xmm1 (nb232_half k) in
  let xmm5 := mulpd xmm5 (nb232_half k) in
  let nb232_rinvH2H2 := xmm1 in
  let nb232_rinvH2H1 := xmm5 in
  let xmm0 := nb232_rsqOO in
  let xmm4 := nb232_rsqOH1 in
  let xmm1s := cvtpd2ps to_single xmm0 in
  let xmm5s := cvtpd2ps to_single xmm4 in
  let xmm1s := rsqrtps xmm1s in
  let xmm5s := rsqrtps xmm5s in
  let xmm1 := cvtps2pd xmm1s in
  let xmm5 := cvtps2pd xmm5s in
  let xmm2 := xmm1 in
  let xmm6 := xmm5 in
  let xmm1 := mulpd xmm1 xmm1 in
  let xmm5 := mulpd xmm5 xmm5 in
  let xmm3 := nb232_three k in
  let xmm1 := mulpd xmm1 xmm0 in
  let xmm5 := mulpd xmm5 xmm4 in
  let xmm7 := xmm3 in
  let xmm3 := subpd xmm3 xmm1 in
  let xmm7 := subpd xmm7 xmm5 in
  let xmm3 := mulpd xmm3 xmm2 in
  let xmm7 := mulpd xmm7 xmm6 in
  let xmm3 := mulpd xmm3 (nb232_half k) in
  let xmm7 := mulpd xmm7 (nb232_half k) in
  let xmm2 := xmm3 in
  let xmm6 := xmm7 in
  let xmm3 := mulpd xmm3 xmm3 in
  let xmm7 := mulpd xmm7 xmm7 in
  let xmm1 := nb232_three k in
  let xmm3 := mulpd xmm3 xmm0 in
  let xmm7 := mulpd xmm7 xmm4 in
  let xmm5 := xmm1 in
  let xmm1 := subpd xmm1 xmm3 in
  let xmm5 := subpd xmm5 xmm7 in
  let xmm1 := mulpd xmm1 xmm2 in
  let xmm5 := mulpd xmm5 xmm6 in
  let xmm1 := mulpd xmm1 (nb232_half k) in
  let xmm5 := mulpd xmm5 (nb232_half k) in
  let nb232_rinvOO := xmm1 in
  let nb232_rinvOH1 := xmm5 in
  let xmm0 := nb232_rsqOH2 in
  let xmm4 := nb232_rsqH1O in
  let xmm1s := cvtpd2ps to_single xmm0 in
  let xmm5s := cvtpd2ps to_single xmm4 in
  let xmm1s := rsqrtps xmm1s in
  let xmm5s := rsqrtps xmm5s in
  let xmm1 := cvtps2pd xmm1s in
  let xmm5 := cvtps2pd xmm5s in
  let xmm2 := xmm1 in
  let xmm6 := xmm5 in
  let xmm1 := mulpd xmm1 xmm1 in
  let xmm5 := mulpd xmm5 xmm5 in
  let xmm3 := nb232_three k in
  let xmm1 := mulpd xmm1 xmm0 in
  let xmm5 := mulpd xmm5 xmm4 in
  let xmm7 := xmm3 in
  let xmm3 := subpd xmm3 xmm1 in
  let xmm7 := subpd xmm7 xmm5 in
  let xmm3 := mulpd xmm3 xmm2 in
  let xmm7 := mulpd xmm7 xmm6 in
  let xmm3 := mulpd xmm3 (nb232_half k) in
  let xmm7 := mulpd xmm7 (nb232_half k) in
  let xmm2 := xmm3 in
  let xmm6 := xmm7 in
  let xmm3 := mulpd xmm3 xmm3 in
  let xmm7 := mulpd xmm7 xmm7 in
  let xmm1 := nb232_three k in
  let xmm3 := mulpd xmm3 xmm0 in
  let xmm7 := mulpd xmm7 xmm4 in
  let xmm5 := xmm1 in
  let xmm1 := subpd xmm1 xmm3 in
  let xmm5 := subpd xmm5 xmm7 in
  let xmm1 := mulpd xmm1 xmm2 in
  let xmm5 := mulpd xmm5 xmm6 in
  let xmm1 := mulpd xmm1 (nb232_half k) in
  let xmm5 := mulpd xmm5 (nb232_half k) in
  let nb232_rinvOH2 := xmm1 in
  let nb232_rinvH1O := xmm5 in
  let xmm0 := nb232_rsqH1H1 in
  let xmm4 := nb232_rsqH1H2 in
  let xmm1s := cvtpd2ps to_single xmm0 in
  let xmm5s := cvtpd2ps to_single xmm4 in
  let xmm1s := rsqrtps xmm1s in
  let xmm5s := rsqrtps xmm5s in
  let xmm1 := cvtps2pd xmm1s in
  let xmm5 := cvtps2pd xmm5s in
  let xmm2 := xmm1 in
  let xmm6 := xmm5 in
  let xmm1 := mulpd xmm1 xmm1 in
  let xmm5 := mulpd xmm5 xmm5 in
  let xmm3 := nb232_three k in
  let xmm1 := mulpd xmm1 xmm0 in
  let xmm5 := mulpd xmm5 xmm4 in
  let xmm7 := xmm3 in
  let xmm3 := subpd xmm3 xmm1 in
  let xmm7 := subpd xmm7 xmm5 in
  let xmm3 := mulpd xmm3 xmm2 in
  let xmm7 := mulpd xmm7 xmm6 in
  let xmm3 := mulpd xmm3 (nb232_half k) in
  let xmm7 := mulpd xmm7 (nb232_half k) in
  let xmm2 := xmm3 in
  let xmm6 := xmm7 in
  let xmm3 := mulpd xmm3 xmm3 in
  let xmm7 := mulpd xmm7 xmm7 in
  let xmm1 := nb232_three k in
  let xmm3 := mulpd xmm3 xmm0 in
  let xmm7 := mulpd xmm7 xmm4 in
  let xmm5 := xmm1 in
  let xmm1 := subpd xmm1 xmm3 in
  let xmm5 := subpd xmm5 xmm7 in
  let xmm1 := mulpd xmm1 xmm2 in
  let xmm5 := mulpd xmm5 xmm6 in
  let xmm1 := mulpd xmm1 (nb232_half k) in
  let xmm5 := mulpd xmm5 (nb232_half k) in
  let nb232_rinvH1H1 := xmm1 in
  let nb232_rinvH1H2 := xmm5 in
  let xmm0 := nb232_rsqH2O in
  let xmm1s := cvtpd2ps to_single xmm0 in
  let xmm1s := rsqrtps xmm1s in
  let xmm1 := cvtps2pd xmm1s in
  let xmm2 := xmm1 in
  let xmm1 := mulpd xmm1 xmm1 in
  let xmm3 := nb232_three k in
  let xmm1 := mulpd xmm1 xmm0 in
  let xmm3 := subpd xmm3 xmm1 in
  let xmm3 := mulpd xmm3 xmm2 in
  let xmm3 := mulpd xmm3 (nb232_half k) in
  let xmm2 := xmm3 in
  let xmm3 := mulpd xmm3 xmm3 in
  let xmm1 := nb232_three k in
  let xmm3 := mulpd xmm3 xmm0 in
  let xmm1 := subpd xmm1 xmm3 in
  let xmm1 := mulpd xmm1 xmm2 in
  let xmm1 := mulpd xmm1 (nb232_half k) in
  let nb232_rinvH2O := xmm1 in
  (Geom nb232_dxOO nb232_dyOO nb232_dzOO nb232_dxOH1 nb232_dyOH1 nb232_dzOH1
    nb232_dxOH2 nb232_dyOH2 nb232_dzOH2 nb232_dxH1O nb232_dyH1O nb232_dzH1O
    nb232_dxH1H1 nb232_dyH1H1 nb232_dzH1H1 nb232_dxH1H2 nb232_dyH1H2
    nb232_dzH1H2 nb232_dxH2O nb232_dyH2O nb232_dzH2O nb232_dxH2H1
    nb232_dyH2H1 nb232_dzH2H1 nb232_dxH2H2 nb232_dyH2H2 nb232_dzH2H2
    nb232_rsqOO nb232_rsqOH1 nb232_rsqOH2 nb232_rsqH1O nb232_rsqH1H1
    nb232_rsqH1H2 nb232_rsqH2O nb232_rsqH2H1 nb232_rsqH2H2 nb232_rinvOO
    nb232_rinvOH1 nb232_rinvOH2 nb232_rinvH1O nb232_rinvH1H1 nb232_rinvH1H2
    nb232_rinvH2O nb232_rinvH2H1 nb232_rinvH2H2,
   Xmmd xmm0 xmm1 xmm2 xmm3 xmm4 xmm5 xmm6 xmm7,
   rax, rbx, nb232_innerjjnr).

(** Lines 766-1224: the nine interactions. *)
Definition interactions (a : args) (k : consts) (g : geom) (acc : accum)
    (scr : scratch) (x : xmmd) (rax rbx : Z)
    : accum * scratch * xmmd * Z * Z :=
  let xmm0 := nb232_rinvOO g in
  let xmm7 := xmm0 in
  let xmm5 := nb232_krf k in
  let xmm5 := mulpd xmm5 (nb232_rsqOO g) in
  let xmm6 := xmm5 in
  let xmm6 := addpd xmm6 xmm7 in
  let xmm6 := subpd xmm6 (nb232_crf k) in
  let xmm6 := mulpd xmm6 (nb232_qqOO k) in
  let xmm5 := mulpd xmm5 (nb232_two k) in
  let xmm7 := subpd xmm7 xmm5 in
  let xmm7 := mulpd xmm7 (nb232_qqOO k) in
  let xmm7 := mulpd xmm7 xmm0 in
  let xmm6 := addpd xmm6 (nb232_vctot acc) in
  let nb232_vctot := xmm6 in
  let nb232_fstmp := xmm7 in
  let xmm4 := nb232_rsqOO g in
  let xmm4 := mulpd xmm4 xmm0 in
  let xmm4 := mulpd xmm4 (nb232_tsc k) in
  let mm6 := cvttpd2pi xmm4 in
  let xmm5 := cvtpi2pd mm6 in
  let xmm4 := subpd xmm4 xmm5 in
  let xmm1 := xmm4 in
  let xmm2 := xmm1 in
  let xmm2 := mulpd xmm2 xmm2 in
  let mm6 := pslld mm6 3 in
  let mm0 := wrap rax in
  let mm1 := wrap rbx in
  let eax := movd mm6 in
  let mm6 := psrlq32 mm6 in
  let ebx := movd mm6 in
  let xmm4 := movlpd xmm4 (a_VFtab a) eax in
  let xmm3 := movlpd (q3 x) (a_VFtab a) ebx in
  let xmm4 := movhpd xmm4 (a_VFtab a) (eax + 1) in
  let xmm3 := movhpd xmm3 (a_VFtab a) (ebx + 1) in
  let xmm5 := xmm4 in
  let xmm4 := unpcklpd xmm4 xmm3 in
  let xmm5 := unpckhpd xmm5 xmm3 in
  let xmm6 := movlpd xmm6 (a_VFtab a) (eax + 2) in
  let xmm3 := movlpd xmm3 (a_VFtab a) (ebx + 2) in
  let xmm6 := movhpd xmm6 (a_VFtab a) (eax + 3) in
  let xmm3 := movhpd xmm3 (a_VFtab a) (ebx + 3) in
  let xmm7 := xmm6 in
  let xmm6 := unpcklpd xmm6 xmm3 in
  let xmm7 := unpckhpd xmm7 xmm3 in
  let xmm6 := mulpd xmm6 xmm1 in
  let xmm7 := mulpd xmm7 xmm2 in
  let xmm5 := addpd xmm5 xmm6 in
  let xmm5 := addpd xmm5 xmm7 in
  let xmm7 := mulpd xmm7 (nb232_two k) in
  let xmm7 := addpd xmm7 xmm6 in
  let xmm7 := addpd xmm7 xmm5 in
  let xmm5 := mulpd xmm5 xmm1 in
  let xmm5 := addpd xmm5 xmm4 in
  let xmm4 := nb232_c6 k in
  let xmm7 := mulpd xmm7 xmm4 in
  let xmm5 := mulpd xmm5 xmm4 in
  let xmm5 := addpd xmm5 (nb232_Vvdwtot acc) in
  let xmm3 := nb232_fstmp in
  let xmm7 := mulpd xmm7 (nb232_tsc k) in
  let xmm3 := subpd xmm3 xmm7 in
  let nb232_fstmp := xmm3 in
  let nb232_Vvdwtot := xmm5 in
  let xmm4 := movlpd xmm4 (a_VFtab a) (eax + 4) in
  let xmm3 := movlpd xmm3 (a_VFtab a) (ebx + 4) in
  let xmm4 := movhpd xmm4 (a_VFtab a) (eax + 5) in
  let xmm3 := movhpd xmm3 (a_VFtab a) (ebx + 5) in
  let xmm5 := xmm4 in
  let xmm4 := unpcklpd xmm4 xmm3 in
  let xmm5 := unpckhpd xmm5 xmm3 in
  let xmm6 := movlpd xmm6 (a_VFtab a) (eax + 6) in
  let xmm3 := movlpd xmm3 (a_VFtab a) (ebx + 6) in
  let xmm6 := movhpd xmm6 (a_VFtab a) (eax + 7) in
  let xmm3 := movhpd xmm3 (a_VFtab a) (ebx + 7) in
  let xmm7 := xmm6 in
  let xmm6 := unpcklpd xmm6 xmm3 in
  let xmm7 := unpckhpd xmm7 xmm3 in
  let xmm6 := mulpd xmm6 xmm1 in
  let xmm7 := mulpd xmm7 xmm2 in
  let xmm5 := addpd xmm5 xmm6 in
  let xmm5 := addpd xmm5 xmm7 in
  let xmm7 := mulpd xmm7 (nb232_two k) in
  let xmm7 := addpd xmm7 xmm6 in
  let xmm7 := addpd xmm7 xmm5 in
  let xmm5 := mulpd xmm5 xmm1 in
  let xmm5 := addpd xmm5 xmm4 in
  let xmm4 := nb232_c12 k in
  let xmm7 := mulpd xmm7 xmm4 in
  let xmm5 := mulpd xmm5 xmm4 in
  let xmm5 := addpd xmm5 nb232_Vvdwtot in
  let xmm3 := nb232_fstmp in
  let xmm7 := mulpd xmm7 (nb232_tsc k) in
  let xmm3 := subpd xmm3 xmm7 in
  let nb232_Vvdwtot := xmm5 in
  let xmm0 := mulpd xmm0 xmm3 in
  let xmm1 := xmm0 in
  let xmm2 := xmm0 in
  let eax := mm0 in
  let ebx := mm1 in
  let xmm3 := xorpd_self in
  let xmm4 := xmm3 in
  let xmm5 := xmm3 in
  let xmm0 := mulpd xmm0 (nb232_dxOO g) in
  let xmm1 := mulpd xmm1 (nb232_dyOO g) in
  let xmm2 := mulpd xmm2 (nb232_dzOO g) in
  let xmm3 := subpd xmm3 xmm0 in
  let xmm4 := subpd xmm4 xmm1 in
  let xmm5 := subpd xmm5 xmm2 in
  let xmm0 := addpd xmm0 (nb232_fixO acc) in
  let xmm1 := addpd xmm1 (nb232_fiyO acc) in
  let xmm2 := addpd xmm2 (nb232_fizO acc) in
  let nb232_fjxO := xmm3 in
  let nb232_fjyO := xmm4 in
  let nb232_fjzO := xmm5 in
  let nb232_fixO := xmm0 in
  let nb232_fiyO := xmm1 in
  let nb232_fizO := xmm2 in
  let xmm0 := nb232_rinvOH1 g in
  let xmm7 := xmm0 in
  let xmm5 := nb232_krf k in
  let xmm1 := xmm0 in
  let xmm5 := mulpd xmm5 (nb232_rsqOH1 g) in
  let xmm4 := xmm5 in
  let xmm4 := addpd xmm4 xmm7 in
  let xmm0 := mulpd xmm0 xmm0 in
  let xmm4 := subpd xmm4 (nb232_crf k) in
  let xmm4 := mulpd xmm4 (nb232_qqOH k) in
  let xmm5 := mulpd xmm5 (nb232_two k) in
  let xmm7 := subpd xmm7 xmm5 in
  let xmm7 := mulpd xmm7 (nb232_qqOH k) in
  let xmm6 := nb232_vctot in
  let xmm6 := addpd xmm6 xmm4 in
  let xmm0 := mulpd xmm0 xmm7 in
  let xmm1 := xmm0 in
  let xmm2 := xmm0 in
  let xmm3 := xorpd_self in
  let xmm4 := xmm3 in
  let xmm5 := xmm3 in
  let xmm0 := mulpd xmm0 (nb232_dxOH1 g) in
  let xmm1 := mulpd xmm1 (nb232_dyOH1 g) in
  let xmm2 := mulpd xmm2 (nb232_dzOH1 g) in
  let xmm3 := subpd xmm3 xmm0 in
  let xmm4 := subpd xmm4 xmm1 in
  let xmm5 := subpd xmm5 xmm2 in
  let xmm0 := addpd xmm0 nb232_fixO in
  let xmm1 := addpd xmm1 nb232_fiyO in
  let xmm2 := addpd xmm2 nb232_fizO in
  let nb232_fjxH1 := xmm3 in
  let nb232_fjyH1 := xmm4 in
  let nb232_fjzH1 := xmm5 in
  let nb232_fixO := xmm0 in
  let nb232_fiyO := xmm1 in
  let nb232_fizO := xmm2 in
  let xmm0 := nb232_rinvOH2 g in
  let xmm7 := xmm0 in
  let xmm5 := nb232_krf k in
  let xmm1 := xmm0 in
  let xmm5 := mulpd xmm5 (nb232_rsqOH2 g) in
  let xmm4 := xmm5 in
  let xmm4 := addpd xmm4 xmm7 in
  let xmm0 := mulpd xmm0 xmm0 in
  let xmm4 := subpd xmm4 (nb232_crf k) in
  let xmm4 := mulpd xmm4 (nb232_qqOH k) in
  let xmm5 := mulpd xmm5 (nb232_two k) in
  let xmm7 := subpd xmm7 xmm5 in
  let xmm7 := mulpd xmm7 (nb232_qqOH k) in
  let xmm6 := addpd xmm6 xmm4 in
  let xmm0 := mulpd xmm0 xmm7 in
  let xmm1 := xmm0 in
  let xmm2 := xmm0 in
  let xmm3 := xorpd_self in
  let xmm4 := xmm3 in
  let xmm5 := xmm3 in
  let xmm0 := mulpd xmm0 (nb232_dxOH2 g) in
  let xmm1 := mulpd xmm1 (nb232_dyOH2 g) in
  let xmm2 := mulpd xmm2 (nb232_dzOH2 g) in
  let xmm3 := subpd xmm3 xmm0 in
  let xmm4 := subpd xmm4 xmm1 in
  let xmm5 := subpd xmm5 xmm2 in
  let xmm0 := addpd xmm0 nb232_fixO in
  let xmm1 := addpd xmm1 nb232_fiyO in
  let xmm2 := addpd xmm2 nb232_fizO in
  let nb232_fjxH2 := xmm3 in
  let nb232_fjyH2 := xmm4 in
  let nb232_fjzH2 := xmm5 in
  let nb232_fixO := xmm0 in
  let nb232_fiyO := xmm1 in
  let nb232_fizO := xmm2 in
  let xmm0 := nb232_rinvH1O g in
  let xmm7 := xmm0 in
  let xmm5 := nb232_krf k in
  let xmm1 := xmm0 in
  let xmm5 := mulpd xmm5 (nb232_rsqH1O g) in
  let xmm4 := xmm5 in
  let xmm4 := addpd xmm4 xmm7 in
  let xmm0 := mulpd xmm0 xmm0 in
  let xmm4 := subpd xmm4 (nb232_crf k) in
  let xmm4 := mulpd xmm4 (nb232_qqOH k) in
  let xmm5 := mulpd xmm5 (nb232_two k) in
  let xmm7 := subpd xmm7 xmm5 in
  let xmm7 := mulpd xmm7 (nb232_qqOH k) in
  let xmm6 := addpd xmm6 xmm4 in
  let xmm0 := mulpd xmm0 xmm7 in
  let xmm1 := xmm0 in
  let xmm2 := xmm0 in
  let xmm3 := nb232_fjxO in
  let xmm4 := nb232_fjyO in
  let xmm5 := nb232_fjzO in
  let xmm0 := mulpd xmm0 (nb232_dxH1O g) in
  let xmm1 := mulpd xmm1 (nb232_dyH1O g) in
  let xmm2 := mulpd xmm2 (nb232_dzH1O g) in
  let xmm3 := subpd xmm3 xmm0 in
  let xmm4 := subpd xmm4 xmm1 in
  let xmm5 := subpd xmm5 xmm2 in
  let xmm0 := addpd xmm0 (nb232_fixH1 acc) in
  let xmm1 := addpd xmm1 (nb232_fiyH1 acc) in
  let xmm2 := addpd xmm2 (nb232_fizH1 acc) in
  let nb232_fjxO := xmm3 in
  let nb232_fjyO := xmm4 in
  let nb232_fjzO := xmm5 in
  let nb232_fixH1 := xmm0 in
  let nb232_fiyH1 := xmm1 in
  let nb232_fizH1 := xmm2 in
  let xmm0 := nb232_rinvH1H1 g in
  let xmm7 := xmm0 in
  let xmm5 := nb232_krf k in
  let xmm1 := xmm0 in
  let xmm5 := mulpd xmm5 (nb232_rsqH1H1 g) in
  let xmm4 := xmm5 in
  let xmm4 := addpd xmm4 xmm7 in
  let xmm4 := subpd xmm4 (nb232_crf k) in
  let xmm0 := mulpd xmm0 xmm0 in
  let xmm4 := mulpd xmm4 (nb232_qqHH k) in
  let xmm5 := mulpd xmm5 (nb232_two k) in
  let xmm7 := subpd xmm7 xmm5 in
  let xmm7 := mulpd xmm7 (nb232_qqHH k) in
  let xmm6 := addpd xmm6 xmm4 in
  let xmm0 := mulpd xmm0 xmm7 in
  let xmm1 := xmm0 in
  let xmm2 := xmm0 in
  let xmm3 := nb232_fjxH1 in
  let xmm4 := nb232_fjyH1 in
  let xmm5 := nb232_fjzH1 in
  let xmm0 := mulpd xmm0 (nb232_dxH1H1 g) in
  let xmm1 := mulpd xmm1 (nb232_dyH1H1 g) in
  let xmm2 := mulpd xmm2 (nb232_dzH1H1 g) in
  let xmm3 := subpd xmm3 xmm0 in
  let xmm4 := subpd xmm4 xmm1 in
  let xmm5 := subpd xmm5 xmm2 in
  let xmm0 := addpd xmm0 nb232_fixH1 in
  let xmm1 := addpd xmm1 nb232_fiyH1 in
  let xmm2 := addpd xmm2 nb232_fizH1 in
  let nb232_fjxH1 := xmm3 in
  let nb232_fjyH1 := xmm4 in
  let nb232_fjzH1 := xmm5 in
  let nb232_fixH1 := xmm0 in
  let nb232_fiyH1 := xmm1 in
  let nb232_fizH1 := xmm2 in
  let xmm0 := nb232_rinvH1H2 g in
  let xmm7 := xmm0 in
  let xmm5 := nb232_krf k in
  let xmm1 := xmm0 in
  let xmm5 := mulpd xmm5 (nb232_rsqH1H2 g) in
  let xmm4 := xmm5 in
  let xmm4 := addpd xmm4 xmm7 in
  let xmm0 := mulpd xmm0 xmm0 in
  let xmm4 := subpd xmm4 (nb232_crf k) in
  let xmm4 := mulpd xmm4 (nb232_qqHH k) in
  let xmm5 := mulpd xmm5 (nb232_two k) in
  let xmm7 := subpd xmm7 xmm5 in
  let xmm7 := mulpd xmm7 (nb232_qqHH k) in
  let xmm6 := addpd xmm6 xmm4 in
  let xmm0 := mulpd xmm0 xmm7 in
  let xmm1 := xmm0 in
  let xmm2 := xmm0 in
  let xmm3 := nb232_fjxH2 in
  let xmm4 := nb232_fjyH2 in
  let xmm5 := nb232_fjzH2 in
  let xmm0 := mulpd xmm0 (nb232_dxH1H2 g) in
  let xmm1 := mulpd xmm1 (nb232_dyH1H2 g) in
  let xmm2 := mulpd xmm2 (nb232_dzH1H2 g) in
  let xmm3 := subpd xmm3 xmm0 in
  let xmm4 := subpd xmm4 xmm1 in
  let xmm5 := subpd xmm5 xmm2 in
  let xmm0 := addpd xmm0 nb232_fixH1 in
  let xmm1 := addpd xmm1 nb232_fiyH1 in
  let xmm2 := addpd xmm2 nb232_fizH1 in
  let nb232_fjxH2 := xmm3 in
  let nb232_fjyH2 := xmm4 in
  let nb232_fjzH2 := xmm5 in
  let nb232_fixH1 := xmm0 in
  let nb232_fiyH1 := xmm1 in
  let nb232_fizH1 := xmm2 in
  let xmm0 := nb232_rinvH2O g in
  let xmm7 := xmm0 in
  let xmm5 := nb232_krf k in
  let xmm1 := xmm0 in
  let xmm5 := mulpd xmm5 (nb232_rsqH2O g) in
  let xmm4 := xmm5 in
  let xmm4 := addpd xmm4 xmm7 in
  let xmm4 := subpd xmm4 (nb232_crf k) in
  let xmm0 := mulpd xmm0 xmm0 in
  let xmm4 := mulpd xmm4 (nb232_qqOH k) in
  let xmm5 := mulpd xmm5 (nb232_two k) in
  let xmm7 := subpd xmm7 xmm5 in
  let xmm7 := mulpd xmm7 (nb232_qqOH k) in
  let xmm6 := addpd xmm6 xmm4 in
  let xmm0 := mulpd xmm0 xmm7 in
  let xmm1 := xmm0 in
  let xmm2 := xmm0 in
  let xmm3 := nb232_fjxO in
  let xmm4 := nb232_fjyO in
  let xmm5 := nb232_fjzO in
  let xmm0 := mulpd xmm0 (nb232_dxH2O g) in
  let xmm1 := mulpd xmm1 (nb232_dyH2O g) in
  let xmm2 := mulpd xmm2 (nb232_dzH2O g) in
  let xmm3 := subpd xmm3 xmm0 in
  let xmm4 := subpd xmm4 xmm1 in
  let xmm5 := subpd xmm5 xmm2 in
  let xmm0 := addpd xmm0 (nb232_fixH2 acc) in
  let xmm1 := addpd xmm1 (nb232_fiyH2 acc) in
  let xmm2 := addpd xmm2 (nb232_fizH2 acc) in
  let nb232_fjxO := xmm3 in
  let nb232_fjyO := xmm4 in
  let nb232_fjzO := xmm5 in
  let nb232_fixH2 := xmm0 in
  let nb232_fiyH2 := xmm1 in
  let nb232_fizH2 := xmm2 in
  let xmm0 := nb232_rinvH2H1 g in
  let xmm7 := xmm0 in
  let xmm5 := nb232_krf k in
  let xmm1 := xmm0 in
  let xmm5 := mulpd xmm5 (nb232_rsqH2H1 g) in
  let xmm4 := xmm5 in
  let xmm4 := addpd xmm4 xmm7 in
  let xmm4 := subpd xmm4 (nb232_crf k) in
  let xmm0 := mulpd xmm0 xmm0 in
  let xmm4 := mulpd xmm4 (nb232_qqHH k) in
  let xmm5 := mulpd xmm5 (nb232_two k) in
  let xmm7 := subpd xmm7 xmm5 in
  let xmm7 := mulpd xmm7 (nb232_qqHH k) in
  let xmm6 := addpd xmm6 xmm4 in
  let xmm0 := mulpd xmm0 xmm7 in
  let xmm1 := xmm0 in
  let xmm2 := xmm0 in
  let xmm3 := nb232_fjxH1 in
  let xmm4 := nb232_fjyH1 in
  let xmm5 := nb232_fjzH1 in
  let xmm0 := mulpd xmm0 (nb232_dxH2H1 g) in
  let xmm1 := mulpd xmm1 (nb232_dyH2H1 g) in
  let xmm2 := mulpd xmm2 (nb232_dzH2H1 g) in
  let xmm3 := subpd xmm3 xmm0 in
  let xmm4 := subpd xmm4 xmm1 in
  let xmm5 := subpd xmm5 xmm2 in
  let xmm0 := addpd xmm0 nb232_fixH2 in
  let xmm1 := addpd xmm1 nb232_fiyH2 in
  let xmm2 := addpd xmm2 nb232_fizH2 in
  let nb232_fjxH1 := xmm3 in
  let nb232_fjyH1 := xmm4 in
  let nb232_fjzH1 := xmm5 in
  let nb232_fixH2 := xmm0 in
  let nb232_fiyH2 := xmm1 in
  let nb232_fizH2 := xmm2 in
  let xmm0 := nb232_rinvH2H2 g in
  let xmm7 := xmm0 in
  let xmm5 := nb232_krf k in
  let xmm1 := xmm0 in
  let xmm5 := mulpd xmm5 (nb232_rsqH2H2 g) in
  let xmm4 := xmm5 in
  let xmm4 := addpd xmm4 xmm7 in
  let xmm4 := subpd xmm4 (nb232_crf k) in
  let xmm0 := mulpd xmm0 xmm0 in
  let xmm4 := mulpd xmm4 (nb232_qqHH k) in
  let xmm5 := mulpd xmm5 (nb232_two k) in
  let xmm7 := subpd xmm7 xmm5 in
  let xmm7 := mulpd xmm7 (nb232_qqHH k) in
  let xmm6 := addpd xmm6 xmm4 in
  let xmm0 := mulpd xmm0 xmm7 in
  let xmm1 := xmm0 in
  let xmm2 := xmm0 in
  let xmm1 := xmm0 in
  let nb232_vctot := xmm6 in
  let xmm2 := xmm0 in
  let xmm3 := nb232_fjxH2 in
  let xmm4 := nb232_fjyH2 in
  let xmm5 := nb232_fjzH2 in
  let xmm0 := mulpd xmm0 (nb232_dxH2H2 g) in
  let xmm1 := mulpd xmm1 (nb232_dyH2H2 g) in
  let xmm2 := mulpd xmm2 (nb232_dzH2H2 g) in
  let xmm3 := subpd xmm3 xmm0 in
  let xmm4 := subpd xmm4 xmm1 in
  let xmm5 := subpd xmm5 xmm2 in
  let xmm0 := addpd xmm0 nb232_fixH2 in
  let xmm1 := addpd xmm1 nb232_fiyH2 in
  let xmm2 := addpd xmm2 nb232_fizH2 in
  let nb232_fjxH2 := xmm3 in
  let nb232_fjyH2 := xmm4 in
  let nb232_fjzH2 := xmm5 in
  let nb232_fixH2 := xmm0 in
  let nb232_fiyH2 := xmm1 in
  let nb232_fizH2 := xmm2 in
  (Accum nb232_vctot nb232_Vvdwtot nb232_fixO nb232_fiyO nb232_fizO
    nb232_fixH1 nb232_fiyH1 nb232_fizH1 nb232_fixH2 nb232_fiyH2 nb232_fizH2,
   Scratch nb232_fstmp nb232_fjxO nb232_fjyO nb232_fjzO nb232_fjxH1
    nb232_fjyH1 nb232_fjzH1 nb232_fjxH2 nb232_fjyH2 nb232_fjzH2,
   Xmmd xmm0 xmm1 xmm2 xmm3 xmm4 xmm5 xmm6 xmm7,
   eax, ebx).

(** Lines 1225-1273: the forces on the atoms of the two j molecules are
    decremented, eight elements of each molecule first and the ninth
    after them. *)
Definition update_jforces (scr : scratch) (x : xmmd) (eax ebx : Z)
    (faction : fmem) : xmmd * fmem :=
  let xmm0 := movlpd (q0 x) faction eax in
  let xmm1 := movlpd (q1 x) faction (eax + 1) in
  let xmm2 := movlpd (q2 x) faction (eax + 2) in
  let xmm3 := movlpd (q3 x) faction (eax + 3) in
  let xmm4 := movlpd (q4 x) faction (eax + 4) in
  let xmm5 := movlpd (q5 x) faction (eax + 5) in
  let xmm6 := movlpd (q6 x) faction (eax + 6) in
  let xmm7 := movlpd (q7 x) faction (eax + 7) in
  let xmm0 := movhpd xmm0 faction ebx in
  let xmm1 := movhpd xmm1 faction (ebx + 1) in
  let xmm2 := movhpd xmm2 faction (ebx + 2) in
  let xmm3 := movhpd xmm3 faction (ebx + 3) in
  let xmm4 := movhpd xmm4 faction (ebx + 4) in
  let xmm5 := movhpd xmm5 faction (ebx + 5) in
  let xmm6 := movhpd xmm6 faction (ebx + 6) in
  let xmm7 := movhpd xmm7 faction (ebx + 7) in
  let xmm0 := addpd xmm0 (nb232_fjxO scr) in
  let xmm1 := addpd xmm1 (nb232_fjyO scr) in
  let xmm2 := addpd xmm2 (nb232_fjzO scr) in
  let xmm3 := addpd xmm3 (nb232_fjxH1 scr) in
  let xmm4 := addpd xmm4 (nb232_fjyH1 scr) in
  let xmm5 := addpd xmm5 (nb232_fjzH1 scr) in
  let xmm6 := addpd xmm6 (nb232_fjxH2 scr) in
  let xmm7 := addpd xmm7 (nb232_fjyH2 scr) in
  let faction := movlpd_st faction eax xmm0 in
  let faction := movlpd_st faction (eax + 1) xmm1 in
  let faction := movlpd_st faction (eax + 2) xmm2 in
  let faction := movlpd_st faction (eax + 3) xmm3 in
  let faction := movlpd_st faction (eax + 4) xmm4 in
  let faction := movlpd_st faction (eax + 5) xmm5 in
  let faction := movlpd_st faction (eax + 6) xmm6 in
  let faction := movlpd_st faction (eax + 7) xmm7 in
  let faction := movhpd_st faction ebx xmm0 in
  let faction := movhpd_st faction (ebx + 1) xmm1 in
  let faction := movhpd_st faction (ebx + 2) xmm2 in
  let faction := movhpd_st faction (ebx + 3) xmm3 in
  let faction := movhpd_st faction (ebx + 4) xmm4 in
  let faction := movhpd_st faction (ebx + 5) xmm5 in
  let faction := movhpd_st faction (ebx + 6) xmm6 in
  let faction := movhpd_st faction (ebx + 7) xmm7 in
  let xmm0 := movlpd xmm0 faction (eax + 8) in
  let xmm0 := movhpd xmm0 faction (ebx + 8) in
  let xmm0 := addpd xmm0 (nb232_fjzH2 scr) in
  let faction := movlpd_st faction (eax + 8) xmm0 in
  let faction := movhpd_st faction (ebx + 8) xmm0 in
  (Xmmd xmm0 xmm1 xmm2 xmm3 xmm4 xmm5 xmm6 xmm7,
   faction).

(** Lines 1285-1635: the same for one j molecule, in the lower lanes. *)
Definition calc_geom1 (a : args) (k : consts) (e : entry) (x : xmmd)
    (nb232_innerjjnr : Z) : geom * xmmd * Z :=
  let rdx := nb232_innerjjnr in
  let eax := ld32 (a_jjnr a) rdx in
  let rax := eax + eax * 2 in
  let xmm2 := movlpd (q2 x) (a_pos a) rax in
  let xmm3 := movlpd (q3 x) (a_pos a) (rax + 1) in
  let xmm4 := movlpd (q4 x) (a_pos a) (rax + 2) in
  let xmm5 := movlpd (q5 x) (a_pos a) (rax + 3) in
  let xmm6 := movlpd (q6 x) (a_pos a) (rax + 4) in
  let xmm7 := movlpd (q7 x) (a_pos a) (rax + 5) in
  let nb232_jxO := xmm2 in
  let nb232_jyO := xmm3 in
  let nb232_jzO := xmm4 in
  let nb232_jxH1 := xmm5 in
  let nb232_jyH1 := xmm6 in
  let nb232_jzH1 := xmm7 in
  let xmm2 := movlpd xmm2 (a_pos a) (rax + 6) in
  let xmm3 := movlpd xmm3 (a_pos a) (rax + 7) in
  let xmm4 := movlpd xmm4 (a_pos a) (rax + 8) in
  let nb232_jxH2 := xmm2 in
  let nb232_jyH2 := xmm3 in
  let nb232_jzH2 := xmm4 in
  let xmm0 := nb232_ixO e in
  let xmm1 := nb232_iyO e in
  let xmm2 := nb232_izO e in
  let xmm3 := nb232_ixO e in
  let xmm4 := nb232_iyO e in
  let xmm5 := nb232_izO e in
  let xmm0 := subsd xmm0 nb232_jxO in
  let xmm1 := subsd xmm1 nb232_jyO in
  let xmm2 := subsd xmm2 nb232_jzO in
  let xmm3 := subsd xmm3 nb232_jxH1 in
  let xmm4 := subsd xmm4 nb232_jyH1 in
  let xmm5 := subsd xmm5 nb232_jzH1 in
  let nb232_dxOO := xmm0 in
  let nb232_dyOO := xmm1 in
  let nb232_dzOO := xmm2 in
  let xmm0 := mulsd xmm0 xmm0 in
  let xmm1 := mulsd xmm1 xmm1 in
  let xmm2 := mulsd xmm2 xmm2 in
  let nb232_dxOH1 := xmm3 in
  let nb232_dyOH1 := xmm4 in
  let nb232_dzOH1 := xmm5 in
  let xmm3 := mulsd xmm3 xmm3 in
  let xmm4 := mulsd xmm4 xmm4 in
  let xmm5 := mulsd xmm5 xmm5 in
  let xmm0 := addsd xmm0 xmm1 in
  let xmm0 := addsd xmm0 xmm2 in
  let xmm3 := addsd xmm3 xmm4 in
  let xmm3 := addsd xmm3 xmm5 in
  let nb232_rsqOO := xmm0 in
  let nb232_rsqOH1 := xmm3 in
  let xmm0 := nb232_ixO e in
  let xmm1 := nb232_iyO e in
  let xmm2 := nb232_izO e in
  let xmm3 := nb232_ixH1 e in
  let xmm4 := nb232_iyH1 e in
  let xmm5 := nb232_izH1 e in
  let xmm0 := subsd xmm0 nb232_jxH2 in
  let xmm1 := subsd xmm1 nb232_jyH2 in
  let xmm2 := subsd xmm2 nb232_jzH2 in
  let xmm3 := subsd xmm3 nb232_jxO in
  let xmm4 := subsd xmm4 nb232_jyO in
  let xmm5 := subsd xmm5 nb232_jzO in
  let nb232_dxOH2 := xmm0 in
  let nb232_dyOH2 := xmm1 in
  let nb232_dzOH2 := xmm2 in
  let xmm0 := mulsd xmm0 xmm0 in
  let xmm1 := mulsd xmm1 xmm1 in
  let xmm2 := mulsd xmm2 xmm2 in
  let nb232_dxH1O := xmm3 in
  let nb232_dyH1O := xmm4 in
  let nb232_dzH1O := xmm5 in
  let xmm3 := mulsd xmm3 xmm3 in
  let xmm4 := mulsd xmm4 xmm4 in
  let xmm5 := mulsd xmm5 xmm5 in
  let xmm0 := addsd xmm0 xmm1 in
  let xmm0 := addsd xmm0 xmm2 in
  let xmm3 := addsd xmm3 xmm4 in
  let xmm3 := addsd xmm3 xmm5 in
  let nb232_rsqOH2 := xmm0 in
  let nb232_rsqH1O := xmm3 in
  let xmm0 := nb232_ixH1 e in
  let xmm1 := nb232_iyH1 e in
  let xmm2 := nb232_izH1 e in
  let xmm3 := nb232_ixH1 e in
  let xmm4 := nb232_iyH1 e in
  let xmm5 := nb232_izH1 e in
  let xmm0 := subsd xmm0 nb232_jxH1 in
  let xmm1 := subsd xmm1 nb232_jyH1 in
  let xmm2 := subsd xmm2 nb232_jzH1 in
  let xmm3 := subsd xmm3 nb232_jxH2 in
  let xmm4 := subsd xmm4 nb232_jyH2 in
  let xmm5 := subsd xmm5 nb232_jzH2 in
  let nb232_dxH1H1 := xmm0 in
  let nb232_dyH1H1 := xmm1 in
  let nb232_dzH1H1 := xmm2 in
  let xmm0 := mulsd xmm0 xmm0 in
  let xmm1 := mulsd xmm1 xmm1 in
  let xmm2 := mulsd xmm2 xmm2 in
  let nb232_dxH1H2 := xmm3 in
  let nb232_dyH1H2 := xmm4 in
  let nb232_dzH1H2 := xmm5 in
  let xmm3 := mulsd xmm3 xmm3 in
  let xmm4 := mulsd xmm4 xmm4 in
  let xmm5 := mulsd xmm5 xmm5 in
  let xmm0 := addsd xmm0 xmm1 in
  let xmm0 := addsd xmm0 xmm2 in
  let xmm3 := addsd xmm3 xmm4 in
  let xmm3 := addsd xmm3 xmm5 in
  let nb232_rsqH1H1 := xmm0 in
  let nb232_rsqH1H2 := xmm3 in
  let xmm0 := nb232_ixH2 e in
  let xmm1 := nb232_iyH2 e in
  let xmm2 := nb232_izH2 e in
  let xmm3 := nb232_ixH2 e in
  let xmm4 := nb232_iyH2 e in
  let xmm5 := nb232_izH2 e in
  let xmm0 := subsd xmm0 nb232_jxO in
  let xmm1 := subsd xmm1 nb232_jyO in
  let xmm2 := subsd xmm2 nb232_jzO in
  let xmm3 := subsd xmm3 nb232_jxH1 in
  let xmm4 := subsd xmm4 nb232_jyH1 in
  let xmm5 := subsd xmm5 nb232_jzH1 in
  let nb232_dxH2O := xmm0 in
  let nb232_dyH2O := xmm1 in
  let nb232_dzH2O := xmm2 in
  let xmm0 := mulsd xmm0 xmm0 in
  let xmm1 := mulsd xmm1 xmm1 in
  let xmm2 := mulsd xmm2 xmm2 in
  let nb232_dxH2H1 := xmm3 in
  let nb232_dyH2H1 := xmm4 in
  let nb232_dzH2H1 := xmm5 in
  let xmm3 := mulsd xmm3 xmm3 in
  let xmm4 := mulsd xmm4 xmm4 in
  let xmm5 := mulsd xmm5 xmm5 in
  let xmm0 := addsd xmm0 xmm1 in
  let xmm0 := addsd xmm0 xmm2 in
  let xmm4 := addsd xmm4 xmm3 in
  let xmm4 := addsd xmm4 xmm5 in
  let nb232_rsqH2O := xmm0 in
  let nb232_rsqH2H1 := xmm4 in
  let xmm0 := nb232_ixH2 e in
  let xmm1 := nb232_iyH2 e in
  let xmm2 := nb232_izH2 e in
  let xmm0 := subsd xmm0 nb232_jxH2 in
  let xmm1 := subsd xmm1 nb232_jyH2 in
  let xmm2 := subsd xmm2 nb232_jzH2 in
  let nb232_dxH2H2 := xmm0 in
  let nb232_dyH2H2 := xmm1 in
  let nb232_dzH2H2 := xmm2 in
  let xmm0 := mulsd xmm0 xmm0 in
  let xmm1 := mulsd xmm1 xmm1 in
  let xmm2 := mulsd xmm2 xmm2 in
  let xmm0 := addsd xmm0 xmm1 in
  let xmm0 := addsd xmm0 xmm2 in
  let nb232_rsqH2H2 := xmm0 in
  let xmm1s := cvtsd2ss xmm0 in
  let xmm5s := cvtsd2ss xmm4 in
  let xmm1s := rsqrtss xmm1s in
  let xmm5s := rsqrtss xmm5s in
  let xmm1 := cvtss2sd xmm1 xmm1s in
  let xmm5 := cvtss2sd xmm5 xmm5s in
  let xmm2 := xmm1 in
  let xmm6 := xmm5 in
  let xmm1 := mulsd xmm1 xmm1 in
  let xmm5 := mulsd xmm5 xmm5 in
  let xmm3 := nb232_three k in
  let xmm1 := mulsd xmm1 xmm0 in
  let xmm5 := mulsd xmm5 xmm4 in
  let xmm7 := xmm3 in
  let xmm3 := subsd xmm3 xmm1 in
  let xmm7 := subsd xmm7 xmm5 in
  let xmm3 := mulsd xmm3 xmm2 in
  let xmm7 := mulsd xmm7 xmm6 in
  let xmm3 := mulsd xmm3 (nb232_half k) in
  let xmm7 := mulsd xmm7 (nb232_half k) in
  let xmm2 := xmm3 in
  let xmm6 := xmm7 in
  let xmm3 := mulsd xmm3 xmm3 in
  let xmm7 := mulsd xmm7 xmm7 in
  let xmm1 := nb232_three k in
  let xmm3 := mulsd xmm3 xmm0 in
  let xmm7 := mulsd xmm7 xmm4 in
  let xmm5 := xmm1 in
  let xmm1 := subsd xmm1 xmm3 in
  let xmm5 := subsd xmm5 xmm7 in
  let xmm1 := mulsd xmm1 xmm2 in
  let xmm5 := mulsd xmm5 xmm6 in
  let xmm1 := mulsd xmm1 (nb232_half k) in
  let xmm5 := mulsd xmm5 (nb232_half k) in
  let nb232_rinvH2H2 := xmm1 in
  let nb232_rinvH2H1 := xmm5 in
  let xmm0 := nb232_rsqOO in
  let xmm4 := nb232_rsqOH1 in
  let xmm1s := cvtsd2ss xmm0 in
  let xmm5s := cvtsd2ss xmm4 in
  let xmm1s := rsqrtss xmm1s in
  let xmm5s := rsqrtss xmm5s in
  let xmm1 := cvtss2sd xmm1 xmm1s in
  let xmm5 := cvtss2sd xmm5 xmm5s in
  let xmm2 := xmm1 in
  let xmm6 := xmm5 in
  let xmm1 := mulsd xmm1 xmm1 in
  let xmm5 := mulsd xmm5 xmm5 in
  let xmm3 := nb232_three k in
  let xmm1 := mulsd xmm1 xmm0 in
  let xmm5 := mulsd xmm5 xmm4 in
  let xmm7 := xmm3 in
  let xmm3 := subsd xmm3 xmm1 in
  let xmm7 := subsd xmm7 xmm5 in
  let xmm3 := mulsd xmm3 xmm2 in
  let xmm7 := mulsd xmm7 xmm6 in
  let xmm3 := mulsd xmm3 (nb232_half k) in
  let xmm7 := mulsd xmm7 (nb232_half k) in
  let xmm2 := xmm3 in
  let xmm6 := xmm7 in
  let xmm3 := mulsd xmm3 xmm3 in
  let xmm7 := mulsd xmm7 xmm7 in
  let xmm1 := nb232_three k in
  let xmm3 := mulsd xmm3 xmm0 in
  let xmm7 := mulsd xmm7 xmm4 in
  let xmm5 := xmm1 in
  let xmm1 := subsd xmm1 xmm3 in
  let xmm5 := subsd xmm5 xmm7 in
  let xmm1 := mulsd xmm1 xmm2 in
  let xmm5 := mulsd xmm5 xmm6 in
  let xmm1 := mulsd xmm1 (nb232_half k) in
  let xmm5 := mulsd xmm5 (nb232_half k) in
  let nb232_rinvOO := xmm1 in
  let nb232_rinvOH1 := xmm5 in
  let xmm0 := nb232_rsqOH2 in
  let xmm4 := nb232_rsqH1O in
  let xmm1s := cvtsd2ss xmm0 in
  let xmm5s := cvtsd2ss xmm4 in
  let xmm1s := rsqrtss xmm1s in
  let xmm5s := rsqrtss xmm5s in
  let xmm1 := cvtss2sd xmm1 xmm1s in
  let xmm5 := cvtss2sd xmm5 xmm5s in
  let xmm2 := xmm1 in
  let xmm6 := xmm5 in
  let xmm1 := mulsd xmm1 xmm1 in
  let xmm5 := mulsd xmm5 xmm5 in
  let xmm3 := nb232_three k in
  let xmm1 := mulsd xmm1 xmm0 in
  let xmm5 := mulsd xmm5 xmm4 in
  let xmm7 := xmm3 in
  let xmm3 := subsd xmm3 xmm1 in
  let xmm7 := subsd xmm7 xmm5 in
  let xmm3 := mulsd xmm3 xmm2 in
  let xmm7 := mulsd xmm7 xmm6 in
  let xmm3 := mulsd xmm3 (nb232_half k) in
  let xmm7 := mulsd xmm7 (nb232_half k) in
  let xmm2 := xmm3 in
  let xmm6 := xmm7 in
  let xmm3 := mulsd xmm3 xmm3 in
  let xmm7 := mulsd xmm7 xmm7 in
  let xmm1 := nb232_three k in
  let xmm3 := mulsd xmm3 xmm0 in
  let xmm7 := mulsd xmm7 xmm4 in
  let xmm5 := xmm1 in
  let xmm1 := subsd xmm1 xmm3 in
  let xmm5 := subsd xmm5 xmm7 in
  let xmm1 := mulsd xmm1 xmm2 in
  let xmm5 := mulsd xmm5 xmm6 in
  let xmm1 := mulsd xmm1 (nb232_half k) in
  let xmm5 := mulsd xmm5 (nb232_half k) in
  let nb232_rinvOH2 := xmm1 in
  let nb232_rinvH1O := xmm5 in
  let xmm0 := nb232_rsqH1H1 in
  let xmm4 := nb232_rsqH1H2 in
  let xmm1s := cvtsd2ss xmm0 in
  let xmm5s := cvtsd2ss xmm4 in
  let xmm1s := rsqrtss xmm1s in
  let xmm5s := rsqrtss xmm5s in
  let xmm1 := cvtss2sd xmm1 xmm1s in
  let xmm5 := cvtss2sd xmm5 xmm5s in
  let xmm2 := xmm1 in
  let xmm6 := xmm5 in
  let xmm1 := mulsd xmm1 xmm1 in
  let xmm5 := mulsd xmm5 xmm5 in
  let xmm3 := nb232_three k in
  let xmm1 := mulsd xmm1 xmm0 in
  let xmm5 := mulsd xmm5 xmm4 in
  let xmm7 := xmm3 in
  let xmm3 := subsd xmm3 xmm1 in
  let xmm7 := subsd xmm7 xmm5 in
  let xmm3 := mulsd xmm3 xmm2 in
  let xmm7 := mulsd xmm7 xmm6 in
  let xmm3 := mulsd xmm3 (nb232_half k) in
  let xmm7 := mulsd xmm7 (nb232_half k) in
  let xmm2 := xmm3 in
  let xmm6 := xmm7 in
  let xmm3 := mulsd xmm3 xmm3 in
  let xmm7 := mulsd xmm7 xmm7 in
  let xmm1 := nb232_three k in
  let xmm3 := mulsd xmm3 xmm0 in
  let xmm7 := mulsd xmm7 xmm4 in
  let xmm5 := xmm1 in
  let xmm1 := subsd xmm1 xmm3 in
  let xmm5 := subsd xmm5 xmm7 in
  let xmm1 := mulsd xmm1 xmm2 in
  let xmm5 := mulsd xmm5 xmm6 in
  let xmm1 := mulsd xmm1 (nb232_half k) in
  let xmm5 := mulsd xmm5 (nb232_half k) in
  let nb232_rinvH1H1 := xmm1 in
  let nb232_rinvH1H2 := xmm5 in
  let xmm0 := nb232_rsqH2O in
  let xmm1s := cvtsd2ss xmm0 in
  let xmm1s := rsqrtss xmm1s in
  let xmm1 := cvtss2sd xmm1 xmm1s in
  let xmm2 := xmm1 in
  let xmm1 := mulsd xmm1 xmm1 in
  let xmm3 := nb232_three k in
  let xmm1 := mulsd xmm1 xmm0 in
  let xmm3 := subsd xmm3 xmm1 in
  let xmm3 := mulsd xmm3 xmm2 in
  let xmm3 := mulsd xmm3 (nb232_half k) in
  let xmm2 := xmm3 in
  let xmm3 := mulsd xmm3 xmm3 in
  let xmm1 := nb232_three k in
  let xmm3 := mulsd xmm3 xmm0 in
  let xmm1 := subsd xmm1 xmm3 in
  let xmm1 := mulsd xmm1 xmm2 in
  let xmm1 := mulsd xmm1 (nb232_half k) in
  let nb232_rinvH2O := xmm1 in
  (Geom nb232_dxOO nb232_dyOO nb232_dzOO nb232_dxOH1 nb232_dyOH1 nb232_dzOH1
    nb232_dxOH2 nb232_dyOH2 nb232_dzOH2 nb232_dxH1O nb232_dyH1O nb232_dzH1O
    nb232_dxH1H1 nb232_dyH1H1 nb232_dzH1H1 nb232_dxH1H2 nb232_dyH1H2
    nb232_dzH1H2 nb232_dxH2O nb232_dyH2O nb232_dzH2O nb232_dxH2H1
    nb232_dyH2H1 nb232_dzH2H1 nb232_dxH2H2 nb232_dyH2H2 nb232_dzH2H2
    nb232_rsqOO nb232_rsqOH1 nb232_rsqOH2 nb232_rsqH1O nb232_rsqH1H1
    nb232_rsqH1H2 nb232_rsqH2O nb232_rsqH2H1 nb232_rsqH2H2 nb232_rinvOO
    nb232_rinvOH1 nb232_rinvOH2 nb232_rinvH1O nb232_rinvH1H1 nb232_rinvH1H2
    nb232_rinvH2O nb232_rinvH2H1 nb232_rinvH2H2,
   Xmmd xmm0 xmm1 xmm2 xmm3 xmm4 xmm5 xmm6 xmm7,
   rax).

(** Lines 1636-2078: the nine interactions of the single molecule. *)
Definition interactions1 (a : args) (k : consts) (g : geom) (acc : accum)
    (scr : scratch) (x : xmmd) (rax : Z)
    : accum * scratch * xmmd * Z :=
  let xmm0 := movsd_v (d0 (nb232_rinvOO g)) in
  let xmm7 := movsd_rr (q7 x) xmm0 in
  let xmm5 := movsd_v (d0 (nb232_krf k)) in
  let xmm5 := mulsd xmm5 (nb232_rsqOO g) in
  let xmm6 := movsd_rr (q6 x) xmm5 in
  let xmm6 := addsd xmm6 xmm7 in
  let xmm6 := subsd xmm6 (nb232_crf k) in
  let xmm6 := mulsd xmm6 (nb232_qqOO k) in
  let xmm5 := mulsd xmm5 (nb232_two k) in
  let xmm7 := subsd xmm7 xmm5 in
  let xmm7 := mulsd xmm7 (nb232_qqOO k) in
  let xmm7 := mulsd xmm7 xmm0 in
  let xmm6 := addsd xmm6 (nb232_vctot acc) in
  let nb232_vctot := V2 (d0 xmm6) (d1 (nb232_vctot acc)) in
  let nb232_fstmp := V2 (d0 xmm7) (d1 (nb232_fstmp scr)) in
  let xmm7 := mulsd xmm7 xmm0 in
  let xmm4 := movsd_v (d0 (nb232_rsqOO g)) in
  let xmm4 := mulsd xmm4 xmm0 in
  let xmm4 := mulsd xmm4 (nb232_tsc k) in
  let ebx := cvttsd2si xmm4 in
  let xmm5 := cvtsi2sd xmm5 ebx in
  let xmm4 := subsd xmm4 xmm5 in
  let xmm1 := movsd_rr (q1 x) xmm4 in
  let xmm2 := movsd_rr (q2 x) xmm1 in
  let xmm2 := mulsd xmm2 xmm2 in
  let ebx := shl32 ebx 3 in
  let xmm4 := movlpd xmm4 (a_VFtab a) ebx in
  let xmm4 := movhpd xmm4 (a_VFtab a) (ebx + 1) in
  let xmm5 := xmm4 in
  let xmm4 := unpcklpd xmm4 (q3 x) in
  let xmm5 := unpckhpd xmm5 (q3 x) in
  let xmm6 := movlpd xmm6 (a_VFtab a) (ebx + 2) in
  let xmm6 := movhpd xmm6 (a_VFtab a) (ebx + 3) in
  let xmm7 := xmm6 in
  let xmm6 := unpcklpd xmm6 (q3 x) in
  let xmm7 := unpckhpd xmm7 (q3 x) in
  let xmm6 := mulsd xmm6 xmm1 in
  let xmm7 := mulsd xmm7 xmm2 in
  let xmm5 := addsd xmm5 xmm6 in
  let xmm5 := addsd xmm5 xmm7 in
  let xmm7 := mulsd xmm7 (nb232_two k) in
  let xmm7 := addsd xmm7 xmm6 in
  let xmm7 := addsd xmm7 xmm5 in
  let xmm5 := mulsd xmm5 xmm1 in
  let xmm5 := addsd xmm5 xmm4 in
  let xmm4 := movsd_v (d0 (nb232_c6 k)) in
  let xmm7 := mulsd xmm7 xmm4 in
  let xmm5 := mulsd xmm5 xmm4 in
  let xmm5 := addsd xmm5 (nb232_Vvdwtot acc) in
  let xmm3 := movsd_v (d0 nb232_fstmp) in
  let xmm7 := mulsd xmm7 (nb232_tsc k) in
  let xmm3 := subsd xmm3 xmm7 in
  let nb232_fstmp := V2 (d0 xmm3) (d1 nb232_fstmp) in
  let nb232_Vvdwtot := V2 (d0 xmm5) (d1 (nb232_Vvdwtot acc)) in
  let xmm4 := movlpd xmm4 (a_VFtab a) (ebx + 4) in
  let xmm4 := movhpd xmm4 (a_VFtab a) (ebx + 5) in
  let xmm5 := xmm4 in
  let xmm4 := unpcklpd xmm4 xmm3 in
  let xmm5 := unpckhpd xmm5 xmm3 in
  let xmm6 := movlpd xmm6 (a_VFtab a) (ebx + 6) in
  let xmm6 := movhpd xmm6 (a_VFtab a) (ebx + 7) in
  let xmm7 := xmm6 in
  let xmm6 := unpcklpd xmm6 xmm3 in
  let xmm7 := unpckhpd xmm7 xmm3 in
  let xmm6 := mulsd xmm6 xmm1 in
  let xmm7 := mulsd xmm7 xmm2 in
  let xmm5 := addsd xmm5 xmm6 in
  let xmm5 := addsd xmm5 xmm7 in
  let xmm7 := mulsd xmm7 (nb232_two k) in
  let xmm7 := addsd xmm7 xmm6 in
  let xmm7 := addsd xmm7 xmm5 in
  let xmm5 := mulsd xmm5 xmm1 in
  let xmm5 := addsd xmm5 xmm4 in
  let xmm4 := movsd_v (d0 (nb232_c12 k)) in
  let xmm7 := mulsd xmm7 xmm4 in
  let xmm5 := mulsd xmm5 xmm4 in
  let xmm5 := addsd xmm5 nb232_Vvdwtot in
  let xmm3 := movsd_v (d0 nb232_fstmp) in
  let xmm7 := mulsd xmm7 (nb232_tsc k) in
  let xmm3 := subsd xmm3 xmm7 in
  let nb232_Vvdwtot := V2 (d0 xmm5) (d1 nb232_Vvdwtot) in
  let xmm0 := mulsd xmm0 xmm3 in
  let xmm1 := xmm0 in
  let xmm2 := xmm0 in
  let xmm3 := xorpd_self in
  let xmm4 := xmm3 in
  let xmm5 := xmm3 in
  let xmm0 := mulsd xmm0 (nb232_dxOO g) in
  let xmm1 := mulsd xmm1 (nb232_dyOO g) in
  let xmm2 := mulsd xmm2 (nb232_dzOO g) in
  let xmm3 := subsd xmm3 xmm0 in
  let xmm4 := subsd xmm4 xmm1 in
  let xmm5 := subsd xmm5 xmm2 in
  let xmm0 := addsd xmm0 (nb232_fixO acc) in
  let xmm1 := addsd xmm1 (nb232_fiyO acc) in
  let xmm2 := addsd xmm2 (nb232_fizO acc) in
  let nb232_fjxO := V2 (d0 xmm3) (d1 (nb232_fjxO scr)) in
  let nb232_fjyO := V2 (d0 xmm4) (d1 (nb232_fjyO scr)) in
  let nb232_fjzO := V2 (d0 xmm5) (d1 (nb232_fjzO scr)) in
  let nb232_fixO := V2 (d0 xmm0) (d1 (nb232_fixO acc)) in
  let nb232_fiyO := V2 (d0 xmm1) (d1 (nb232_fiyO acc)) in
  let nb232_fizO := V2 (d0 xmm2) (d1 (nb232_fizO acc)) in
  let xmm0 := nb232_rinvOH1 g in
  let xmm7 := xmm0 in
  let xmm5 := nb232_krf k in
  let xmm1 := xmm0 in
  let xmm5 := mulsd xmm5 (nb232_rsqOH1 g) in
  let xmm4 := xmm5 in
  let xmm4 := addsd xmm4 xmm7 in
  let xmm0 := mulsd xmm0 xmm0 in
  let xmm4 := subsd xmm4 (nb232_crf k) in
  let xmm4 := mulsd xmm4 (nb232_qqOH k) in
  let xmm5 := mulsd xmm5 (nb232_two k) in
  let xmm7 := subsd xmm7 xmm5 in
  let xmm7 := mulsd xmm7 (nb232_qqOH k) in
  let xmm6 := movsd_v (d0 nb232_vctot) in
  let xmm6 := addsd xmm6 xmm4 in
  let xmm0 := mulsd xmm0 xmm7 in
  let xmm1 := xmm0 in
  let xmm2 := xmm0 in
  let xmm3 := xorpd_self in
  let xmm4 := xmm3 in
  let xmm5 := xmm3 in
  let xmm0 := mulsd xmm0 (nb232_dxOH1 g) in
  let xmm1 := mulsd xmm1 (nb232_dyOH1 g) in
  let xmm2 := mulsd xmm2 (nb232_dzOH1 g) in
  let xmm3 := subsd xmm3 xmm0 in
  let xmm4 := subsd xmm4 xmm1 in
  let xmm5 := subsd xmm5 xmm2 in
  let xmm0 := addsd xmm0 nb232_fixO in
  let xmm1 := addsd xmm1 nb232_fiyO in
  let xmm2 := addsd xmm2 nb232_fizO in
  let nb232_fjxH1 := V2 (d0 xmm3) (d1 (nb232_fjxH1 scr)) in
  let nb232_fjyH1 := V2 (d0 xmm4) (d1 (nb232_fjyH1 scr)) in
  let nb232_fjzH1 := V2 (d0 xmm5) (d1 (nb232_fjzH1 scr)) in
  let nb232_fixO := V2 (d0 xmm0) (d1 nb232_fixO) in
  let nb232_fiyO := V2 (d0 xmm1) (d1 nb232_fiyO) in
  let nb232_fizO := V2 (d0 xmm2) (d1 nb232_fizO) in
  let xmm0 := nb232_rinvOH2 g in
  let xmm7 := xmm0 in
  let xmm5 := nb232_krf k in
  let xmm1 := xmm0 in
  let xmm5 := mulsd xmm5 (nb232_rsqOH2 g) in
  let xmm4 := xmm5 in
  let xmm4 := addsd xmm4 xmm7 in
  let xmm0 := mulsd xmm0 xmm0 in
  let xmm4 := subsd xmm4 (nb232_crf k) in
  let xmm4 := mulsd xmm4 (nb232_qqOH k) in
  let xmm5 := mulsd xmm5 (nb232_two k) in
  let xmm7 := subsd xmm7 xmm5 in
  let xmm7 := mulsd xmm7 (nb232_qqOH k) in
  let xmm6 := addsd xmm6 xmm4 in
  let xmm0 := mulsd xmm0 xmm7 in
  let xmm1 := xmm0 in
  let xmm2 := xmm0 in
  let xmm3 := xorpd_self in
  let xmm4 := xmm3 in
  let xmm5 := xmm3 in
  let xmm0 := mulsd xmm0 (nb232_dxOH2 g) in
  let xmm1 := mulsd xmm1 (nb232_dyOH2 g) in
  let xmm2 := mulsd xmm2 (nb232_dzOH2 g) in
  let xmm3 := subsd xmm3 xmm0 in
  let xmm4 := subsd xmm4 xmm1 in
  let xmm5 := subsd xmm5 xmm2 in
  let xmm0 := addsd xmm0 nb232_fixO in
  let xmm1 := addsd xmm1 nb232_fiyO in
  let xmm2 := addsd xmm2 nb232_fizO in
  let nb232_fjxH2 := V2 (d0 xmm3) (d1 (nb232_fjxH2 scr)) in
  let nb232_fjyH2 := V2 (d0 xmm4) (d1 (nb232_fjyH2 scr)) in
  let nb232_fjzH2 := V2 (d0 xmm5) (d1 (nb232_fjzH2 scr)) in
  let nb232_fixO := V2 (d0 xmm0) (d1 nb232_fixO) in
  let nb232_fiyO := V2 (d0 xmm1) (d1 nb232_fiyO) in
  let nb232_fizO := V2 (d0 xmm2) (d1 nb232_fizO) in
  let xmm0 := nb232_rinvH1O g in
  let xmm7 := xmm0 in
  let xmm5 := nb232_krf k in
  let xmm1 := xmm0 in
  let xmm5 := mulsd xmm5 (nb232_rsqH1O g) in
  let xmm4 := xmm5 in
  let xmm4 := addsd xmm4 xmm7 in
  let xmm0 := mulsd xmm0 xmm0 in
  let xmm4 := subsd xmm4 (nb232_crf k) in
  let xmm4 := mulsd xmm4 (nb232_qqOH k) in
  let xmm5 := mulsd xmm5 (nb232_two k) in
  let xmm7 := subsd xmm7 xmm5 in
  let xmm7 := mulsd xmm7 (nb232_qqOH k) in
  let xmm6 := addsd xmm6 xmm4 in
  let xmm0 := mulsd xmm0 xmm7 in
  let xmm1 := xmm0 in
  let xmm2 := xmm0 in
  let xmm3 := nb232_fjxO in
  let xmm4 := nb232_fjyO in
  let xmm5 := nb232_fjzO in
  let xmm0 := mulsd xmm0 (nb232_dxH1O g) in
  let xmm1 := mulsd xmm1 (nb232_dyH1O g) in
  let xmm2 := mulsd xmm2 (nb232_dzH1O g) in
  let xmm3 := subsd xmm3 xmm0 in
  let xmm4 := subsd xmm4 xmm1 in
  let xmm5 := subsd xmm5 xmm2 in
  let xmm0 := addsd xmm0 (nb232_fixH1 acc) in
  let xmm1 := addsd xmm1 (nb232_fiyH1 acc) in
  let xmm2 := addsd xmm2 (nb232_fizH1 acc) in
  let nb232_fjxO := V2 (d0 xmm3) (d1 nb232_fjxO) in
  let nb232_fjyO := V2 (d0 xmm4) (d1 nb232_fjyO) in
  let nb232_fjzO := V2 (d0 xmm5) (d1 nb232_fjzO) in
  let nb232_fixH1 := V2 (d0 xmm0) (d1 (nb232_fixH1 acc)) in
  let nb232_fiyH1 := V2 (d0 xmm1) (d1 (nb232_fiyH1 acc)) in
  let nb232_fizH1 := V2 (d0 xmm2) (d1 (nb232_fizH1 acc)) in
  let xmm0 := nb232_rinvH1H1 g in
  let xmm7 := xmm0 in
  let xmm5 := nb232_krf k in
  let xmm1 := xmm0 in
  let xmm5 := mulsd xmm5 (nb232_rsqH1H1 g) in
  let xmm4 := xmm5 in
  let xmm4 := addsd xmm4 xmm7 in
  let xmm4 := subsd xmm4 (nb232_crf k) in
  let xmm0 := mulsd xmm0 xmm0 in
  let xmm4 := mulsd xmm4 (nb232_qqHH k) in
  let xmm5 := mulsd xmm5 (nb232_two k) in
  let xmm7 := subsd xmm7 xmm5 in
  let xmm7 := mulsd xmm7 (nb232_qqHH k) in
  let xmm6 := addsd xmm6 xmm4 in
  let xmm0 := mulsd xmm0 xmm7 in
  let xmm1 := xmm0 in
  let xmm2 := xmm0 in
  let xmm3 := nb232_fjxH1 in
  let xmm4 := nb232_fjyH1 in
  let xmm5 := nb232_fjzH1 in
  let xmm0 := mulsd xmm0 (nb232_dxH1H1 g) in
  let xmm1 := mulsd xmm1 (nb232_dyH1H1 g) in
  let xmm2 := mulsd xmm2 (nb232_dzH1H1 g) in
  let xmm3 := subsd xmm3 xmm0 in
  let xmm4 := subsd xmm4 xmm1 in
  let xmm5 := subsd xmm5 xmm2 in
  let xmm0 := addsd xmm0 nb232_fixH1 in
  let xmm1 := addsd xmm1 nb232_fiyH1 in
  let xmm2 := addsd xmm2 nb232_fizH1 in
  let nb232_fjxH1 := V2 (d0 xmm3) (d1 nb232_fjxH1) in
  let nb232_fjyH1 := V2 (d0 xmm4) (d1 nb232_fjyH1) in
  let nb232_fjzH1 := V2 (d0 xmm5) (d1 nb232_fjzH1) in
  let nb232_fixH1 := V2 (d0 xmm0) (d1 nb232_fixH1) in
  let nb232_fiyH1 := V2 (d0 xmm1) (d1 nb232_fiyH1) in
  let nb232_fizH1 := V2 (d0 xmm2) (d1 nb232_fizH1) in
  let xmm0 := nb232_rinvH1H2 g in
  let xmm7 := xmm0 in
  let xmm5 := nb232_krf k in
  let xmm1 := xmm0 in
  let xmm5 := mulsd xmm5 (nb232_rsqH1H2 g) in
  let xmm4 := xmm5 in
  let xmm4 := addsd xmm4 xmm7 in
  let xmm0 := mulsd xmm0 xmm0 in
  let xmm4 := subsd xmm4 (nb232_crf k) in
  let xmm4 := mulsd xmm4 (nb232_qqHH k) in
  let xmm5 := mulsd xmm5 (nb232_two k) in
  let xmm7 := subsd xmm7 xmm5 in
  let xmm7 := mulsd xmm7 (nb232_qqHH k) in
  let xmm6 := addsd xmm6 xmm4 in
  let xmm0 := mulsd xmm0 xmm7 in
  let xmm1 := xmm0 in
  let xmm2 := xmm0 in
  let xmm3 := nb232_fjxH2 in
  let xmm4 := nb232_fjyH2 in
  let xmm5 := nb232_fjzH2 in
  let xmm0 := mulsd xmm0 (nb232_dxH1H2 g) in
  let xmm1 := mulsd xmm1 (nb232_dyH1H2 g) in
  let xmm2 := mulsd xmm2 (nb232_dzH1H2 g) in
  let xmm3 := subsd xmm3 xmm0 in
  let xmm4 := subsd xmm4 xmm1 in
  let xmm5 := subsd xmm5 xmm2 in
  let xmm0 := addsd xmm0 nb232_fixH1 in
  let xmm1 := addsd xmm1 nb232_fiyH1 in
  let xmm2 := addsd xmm2 nb232_fizH1 in
  let nb232_fjxH2 := V2 (d0 xmm3) (d1 nb232_fjxH2) in
  let nb232_fjyH2 := V2 (d0 xmm4) (d1 nb232_fjyH2) in
  let nb232_fjzH2 := V2 (d0 xmm5) (d1 nb232_fjzH2) in
  let nb232_fixH1 := V2 (d0 xmm0) (d1 nb232_fixH1) in
  let nb232_fiyH1 := V2 (d0 xmm1) (d1 nb232_fiyH1) in
  let nb232_fizH1 := V2 (d0 xmm2) (d1 nb232_fizH1) in
  let xmm0 := nb232_rinvH2O g in
  let xmm7 := xmm0 in
  let xmm5 := nb232_krf k in
  let xmm1 := xmm0 in
  let xmm5 := mulsd xmm5 (nb232_rsqH2O g) in
  let xmm4 := xmm5 in
  let xmm4 := addsd xmm4 xmm7 in
  let xmm4 := subsd xmm4 (nb232_crf k) in
  let xmm0 := mulsd xmm0 xmm0 in
  let xmm4 := mulsd xmm4 (nb232_qqOH k) in
  let xmm5 := mulsd xmm5 (nb232_two k) in
  let xmm7 := subsd xmm7 xmm5 in
  let xmm7 := mulsd xmm7 (nb232_qqOH k) in
  let xmm6 := addsd xmm6 xmm4 in
  let xmm0 := mulsd xmm0 xmm7 in
  let xmm1 := xmm0 in
  let xmm2 := xmm0 in
  let xmm3 := nb232_fjxO in
  let xmm4 := nb232_fjyO in
  let xmm5 := nb232_fjzO in
  let xmm0 := mulsd xmm0 (nb232_dxH2O g) in
  let xmm1 := mulsd xmm1 (nb232_dyH2O g) in
  let xmm2 := mulsd xmm2 (nb232_dzH2O g) in
  let xmm3 := subsd xmm3 xmm0 in
  let xmm4 := subsd xmm4 xmm1 in
  let xmm5 := subsd xmm5 xmm2 in
  let xmm0 := addsd xmm0 (nb232_fixH2 acc) in
  let xmm1 := addsd xmm1 (nb232_fiyH2 acc) in
  let xmm2 := addsd xmm2 (nb232_fizH2 acc) in
  let nb232_fjxO := V2 (d0 xmm3) (d1 nb232_fjxO) in
  let nb232_fjyO := V2 (d0 xmm4) (d1 nb232_fjyO) in
  let nb232_fjzO := V2 (d0 xmm5) (d1 nb232_fjzO) in
  let nb232_fixH2 := V2 (d0 xmm0) (d1 (nb232_fixH2 acc)) in
  let nb232_fiyH2 := V2 (d0 xmm1) (d1 (nb232_fiyH2 acc)) in
  let nb232_fizH2 := V2 (d0 xmm2) (d1 (nb232_fizH2 acc)) in
  let xmm0 := nb232_rinvH2H1 g in
  let xmm7 := xmm0 in
  let xmm5 := nb232_krf k in
  let xmm1 := xmm0 in
  let xmm5 := mulsd xmm5 (nb232_rsqH2H1 g) in
  let xmm4 := xmm5 in
  let xmm4 := addsd xmm4 xmm7 in
  let xmm4 := subsd xmm4 (nb232_crf k) in
  let xmm0 := mulsd xmm0 xmm0 in
  let xmm4 := mulsd xmm4 (nb232_qqHH k) in
  let xmm5 := mulsd xmm5 (nb232_two k) in
  let xmm7 := subsd xmm7 xmm5 in
  let xmm7 := mulsd xmm7 (nb232_qqHH k) in
  let xmm6 := addsd xmm6 xmm4 in
  let xmm0 := mulsd xmm0 xmm7 in
  let xmm1 := xmm0 in
  let xmm2 := xmm0 in
  let xmm3 := nb232_fjxH1 in
  let xmm4 := nb232_fjyH1 in
  let xmm5 := nb232_fjzH1 in
  let xmm0 := mulsd xmm0 (nb232_dxH2H1 g) in
  let xmm1 := mulsd xmm1 (nb232_dyH2H1 g) in
  let xmm2 := mulsd xmm2 (nb232_dzH2H1 g) in
  let xmm3 := subsd xmm3 xmm0 in
  let xmm4 := subsd xmm4 xmm1 in
  let xmm5 := subsd xmm5 xmm2 in
  let xmm0 := addsd xmm0 nb232_fixH2 in
  let xmm1 := addsd xmm1 nb232_fiyH2 in
  let xmm2 := addsd xmm2 nb232_fizH2 in
  let nb232_fjxH1 := V2 (d0 xmm3) (d1 nb232_fjxH1) in
  let nb232_fjyH1 := V2 (d0 xmm4) (d1 nb232_fjyH1) in
  let nb232_fjzH1 := V2 (d0 xmm5) (d1 nb232_fjzH1) in
  let nb232_fixH2 := V2 (d0 xmm0) (d1 nb232_fixH2) in
  let nb232_fiyH2 := V2 (d0 xmm1) (d1 nb232_fiyH2) in
  let nb232_fizH2 := V2 (d0 xmm2) (d1 nb232_fizH2) in
  let xmm0 := nb232_rinvH2H2 g in
  let xmm7 := xmm0 in
  let xmm5 := nb232_krf k in
  let xmm1 := xmm0 in
  let xmm5 := mulsd xmm5 (nb232_rsqH2H2 g) in
  let xmm4 := xmm5 in
  let xmm4 := addsd xmm4 xmm7 in
  let xmm4 := subsd xmm4 (nb232_crf k) in
  let xmm0 := mulsd xmm0 xmm0 in
  let xmm4 := mulsd xmm4 (nb232_qqHH k) in
  let xmm5 := mulsd xmm5 (nb232_two k) in
  let xmm7 := subsd xmm7 xmm5 in
  let xmm7 := mulsd xmm7 (nb232_qqHH k) in
  let xmm6 := addsd xmm6 xmm4 in
  let xmm0 := mulsd xmm0 xmm7 in
  let xmm1 := xmm0 in
  let xmm2 := xmm0 in
  let xmm1 := xmm0 in
  let nb232_vctot := V2 (d0 xmm6) (d1 nb232_vctot) in
  let xmm2 := xmm0 in
  let xmm3 := nb232_fjxH2 in
  let xmm4 := nb232_fjyH2 in
  let xmm5 := nb232_fjzH2 in
  let xmm0 := mulsd xmm0 (nb232_dxH2H2 g) in
  let xmm1 := mulsd xmm1 (nb232_dyH2H2 g) in
  let xmm2 := mulsd xmm2 (nb232_dzH2H2 g) in
  let xmm3 := subsd xmm3 xmm0 in
  let xmm4 := subsd xmm4 xmm1 in
  let xmm5 := subsd xmm5 xmm2 in
  let xmm0 := addsd xmm0 nb232_fixH2 in
  let xmm1 := addsd xmm1 nb232_fiyH2 in
  let xmm2 := addsd xmm2 nb232_fizH2 in
  let nb232_fjxH2 := V2 (d0 xmm3) (d1 nb232_fjxH2) in
  let nb232_fjyH2 := V2 (d0 xmm4) (d1 nb232_fjyH2) in
  let nb232_fjzH2 := V2 (d0 xmm5) (d1 nb232_fjzH2) in
  let nb232_fixH2 := V2 (d0 xmm0) (d1 nb232_fixH2) in
  let nb232_fiyH2 := V2 (d0 xmm1) (d1 nb232_fiyH2) in
  let nb232_fizH2 := V2 (d0 xmm2) (d1 nb232_fizH2) in
  (Accum nb232_vctot nb232_Vvdwtot nb232_fixO nb232_fiyO nb232_fizO
    nb232_fixH1 nb232_fiyH1 nb232_fizH1 nb232_fixH2 nb232_fiyH2 nb232_fizH2,
   Scratch nb232_fstmp nb232_fjxO nb232_fjyO nb232_fjzO nb232_fjxH1
    nb232_fjyH1 nb232_fjzH1 nb232_fjxH2 nb232_fjyH2 nb232_fjzH2,
   Xmmd xmm0 xmm1 xmm2 xmm3 xmm4 xmm5 xmm6 xmm7,
   rax).

(** Lines 2079-2109: the forces on the atoms of the single j molecule. *)
Definition update_jforces1 (scr : scratch) (x : xmmd) (rax : Z)
    (faction : fmem) : xmmd * fmem :=
  let xmm0 := movlpd (q0 x) faction rax in
  let xmm1 := movlpd (q1 x) faction (rax + 1) in
  let xmm2 := movlpd (q2 x) faction (rax + 2) in
  let xmm3 := movlpd (q3 x) faction (rax + 3) in
  let xmm4 := movlpd (q4 x) faction (rax + 4) in
  let xmm5 := movlpd (q5 x) faction (rax + 5) in
  let xmm6 := movlpd (q6 x) faction (rax + 6) in
  let xmm7 := movlpd (q7 x) faction (rax + 7) in
  let xmm0 := addsd xmm0 (nb232_fjxO scr) in
  let xmm1 := addsd xmm1 (nb232_fjyO scr) in
  let xmm2 := addsd xmm2 (nb232_fjzO scr) in
  let xmm3 := addsd xmm3 (nb232_fjxH1 scr) in
  let xmm4 := addsd xmm4 (nb232_fjyH1 scr) in
  let xmm5 := addsd xmm5 (nb232_fjzH1 scr) in
  let xmm6 := addsd xmm6 (nb232_fjxH2 scr) in
  let xmm7 := addsd xmm7 (nb232_fjyH2 scr) in
  let faction := movlpd_st faction rax xmm0 in
  let faction := movlpd_st faction (rax + 1) xmm1 in
  let faction := movlpd_st faction (rax + 2) xmm2 in
  let faction := movlpd_st faction (rax + 3) xmm3 in
  let faction := movlpd_st faction (rax + 4) xmm4 in
  let faction := movlpd_st faction (rax + 5) xmm5 in
  let faction := movlpd_st faction (rax + 6) xmm6 in
  let faction := movlpd_st faction (rax + 7) xmm7 in
  let xmm0 := movlpd xmm0 faction (rax + 8) in
  let xmm0 := addsd xmm0 (nb232_fjzH2 scr) in
  let faction := movlpd_st faction (rax + 8) xmm0 in
  (Xmmd xmm0 xmm1 xmm2 xmm3 xmm4 xmm5 xmm6 xmm7,
   faction).

(** Lines 312-397: the shifted coordinates of the three i atoms, the
    cleared accumulators and the bounds of the inner list. *)
Definition outer_setup (a : args) (esi : Z) (ninner : Z) (x : xmmd)
    (scr : scratch) (faction : fmem) : entry * inner * Z * flags :=
  let ebx := ld32 (a_shift a) esi in
  let rbx := ebx + ebx * 2 in
  let nb232_is3 := wrap rbx in
  let xmm0 := movlpd (q0 x) (a_shiftvec a) rbx in
  let xmm1 := movlpd (q1 x) (a_shiftvec a) (rbx + 1) in
  let xmm2 := movlpd (q2 x) (a_shiftvec a) (rbx + 2) in
  let ebx := ld32 (a_iinr a) esi in
  let rbx := ebx + ebx * 2 in
  let nb232_ii3 := wrap rbx in
  let xmm3 := xmm0 in
  let xmm4 := xmm1 in
  let xmm5 := xmm2 in
  let xmm3 := addsd_m xmm3 (a_pos a) rbx in
  let xmm4 := addsd_m xmm4 (a_pos a) (rbx + 1) in
  let xmm5 := addsd_m xmm5 (a_pos a) (rbx + 2) in
  let xmm3 := shufpd xmm3 xmm3 0 in
  let xmm4 := shufpd xmm4 xmm4 0 in
  let xmm5 := shufpd xmm5 xmm5 0 in
  let nb232_ixO := xmm3 in
  let nb232_iyO := xmm4 in
  let nb232_izO := xmm5 in
  let xmm3 := movsd_rr xmm3 xmm0 in
  let xmm4 := movsd_rr xmm4 xmm1 in
  let xmm5 := movsd_rr xmm5 xmm2 in
  let xmm0 := addsd_m xmm0 (a_pos a) (rbx + 3) in
  let xmm1 := addsd_m xmm1 (a_pos a) (rbx + 4) in
  let xmm2 := addsd_m xmm2 (a_pos a) (rbx + 5) in
  let xmm3 := addsd_m xmm3 (a_pos a) (rbx + 6) in
  let xmm4 := addsd_m xmm4 (a_pos a) (rbx + 7) in
  let xmm5 := addsd_m xmm5 (a_pos a) (rbx + 8) in
  let xmm0 := shufpd xmm0 xmm0 0 in
  let xmm1 := shufpd xmm1 xmm1 0 in
  let xmm2 := shufpd xmm2 xmm2 0 in
  let xmm3 := shufpd xmm3 xmm3 0 in
  let xmm4 := shufpd xmm4 xmm4 0 in
  let xmm5 := shufpd xmm5 xmm5 0 in
  let nb232_ixH1 := xmm0 in
  let nb232_iyH1 := xmm1 in
  let nb232_izH1 := xmm2 in
  let nb232_ixH2 := xmm3 in
  let nb232_iyH2 := xmm4 in
  let nb232_izH2 := xmm5 in
  let xmm4 := xorpd_self in
  let nb232_vctot := xmm4 in
  let nb232_Vvdwtot := xmm4 in
  let nb232_fixO := xmm4 in
  let nb232_fiyO := xmm4 in
  let nb232_fizO := xmm4 in
  let nb232_fixH1 := xmm4 in
  let nb232_fiyH1 := xmm4 in
  let nb232_fizH1 := xmm4 in
  let nb232_fixH2 := xmm4 in
  let nb232_fiyH2 := xmm4 in
  let nb232_fizH2 := xmm4 in
  let ecx := ld32 (a_jindex a) esi in
  let edx := ld32 (a_jindex a) (esi + 1) in
  let edx := sub32 edx ecx in
  let ecx := shl32 ecx 2 in
  let nb232_innerjjnr := ecx / 4 in                 (* jjnr + rcx bytes *)
  let ecx := edx in
  let edx := sub32 edx 2 in
  let ecx := add32 ecx ninner in
  let nb232_ninner := ecx in
  let fl := add_flags edx 0 in
  let edx := add32 edx 0 in
  let nb232_innerk := edx in
  (Entry nb232_is3 nb232_ii3 nb232_ixO nb232_iyO nb232_izO nb232_ixH1
    nb232_iyH1 nb232_izH1 nb232_ixH2 nb232_iyH2 nb232_izH2,
   Inner (Accum nb232_vctot nb232_Vvdwtot nb232_fixO nb232_fiyO nb232_fizO
         nb232_fixH1 nb232_fiyH1 nb232_fizH1 nb232_fixH2 nb232_fiyH2
         nb232_fizH2) scr
         nb232_innerjjnr nb232_innerk
         (Xmmd xmm0 xmm1 xmm2 xmm3 xmm4 xmm5 (q6 x) (q7 x)) faction,
   nb232_ninner, fl).

(** Lines 2111-2247: the forces on the three i atoms and the shift force
    are incremented, and the two energies are added to their group. *)
Definition updateouterdata (a : args) (e : entry) (n : Z) (acc : accum)
    (x : xmmd) (faction : fmem) (o : outputs) : xmmd * outputs :=
  let fshift := o_fshift o in
  let Vc := o_Vc o in
  let Vvdw := o_Vvdw o in
  let ecx := nb232_ii3 e in
  let edx := nb232_is3 e in
  let xmm0 := nb232_fixO acc in
  let xmm1 := nb232_fiyO acc in
  let xmm2 := nb232_fizO acc in
  let xmm3 := movhlps_d (q3 x) xmm0 in
  let xmm4 := movhlps_d (q4 x) xmm1 in
  let xmm5 := movhlps_d (q5 x) xmm2 in
  let xmm0 := addsd xmm0 xmm3 in
  let xmm1 := addsd xmm1 xmm4 in
  let xmm2 := addsd xmm2 xmm5 in
  let xmm3 := xmm0 in
  let xmm4 := xmm1 in
  let xmm5 := xmm2 in
  let xmm3 := movsd faction ecx in
  let xmm4 := movsd faction (ecx + 1) in
  let xmm5 := movsd faction (ecx + 2) in
  let xmm3 := addsd xmm3 xmm0 in
  let xmm4 := addsd xmm4 xmm1 in
  let xmm5 := addsd xmm5 xmm2 in
  let faction := movsd_st faction ecx xmm3 in
  let faction := movsd_st faction (ecx + 1) xmm4 in
  let faction := movsd_st faction (ecx + 2) xmm5 in
  let xmm6 := xmm0 in
  let xmm7 := movsd_rr (q7 x) xmm2 in
  let xmm6 := unpcklpd xmm6 xmm1 in
  let xmm0 := nb232_fixH1 acc in
  let xmm1 := nb232_fiyH1 acc in
  let xmm2 := nb232_fizH1 acc in
  let xmm3 := movhlps_d xmm3 xmm0 in
  let xmm4 := movhlps_d xmm4 xmm1 in
  let xmm5 := movhlps_d xmm5 xmm2 in
  let xmm0 := addsd xmm0 xmm3 in
  let xmm1 := addsd xmm1 xmm4 in
  let xmm2 := addsd xmm2 xmm5 in
  let xmm3 := movsd faction (ecx + 3) in
  let xmm4 := movsd faction (ecx + 4) in
  let xmm5 := movsd faction (ecx + 5) in
  let xmm3 := addsd xmm3 xmm0 in
  let xmm4 := addsd xmm4 xmm1 in
  let xmm5 := addsd xmm5 xmm2 in
  let faction := movsd_st faction (ecx + 3) xmm3 in
  let faction := movsd_st faction (ecx + 4) xmm4 in
  let faction := movsd_st faction (ecx + 5) xmm5 in
  let xmm7 := addsd xmm7 xmm2 in
  let xmm0 := unpcklpd xmm0 xmm1 in
  let xmm6 := addpd xmm6 xmm0 in
  let xmm0 := nb232_fixH2 acc in
  let xmm1 := nb232_fiyH2 acc in
  let xmm2 := nb232_fizH2 acc in
  let xmm3 := movhlps_d xmm3 xmm0 in
  let xmm4 := movhlps_d xmm4 xmm1 in
  let xmm5 := movhlps_d xmm5 xmm2 in
  let xmm0 := addsd xmm0 xmm3 in
  let xmm1 := addsd xmm1 xmm4 in
  let xmm2 := addsd xmm2 xmm5 in
  let xmm3 := xmm0 in
  let xmm4 := xmm1 in
  let xmm5 := xmm2 in
  let xmm3 := movsd faction (ecx + 6) in
  let xmm4 := movsd faction (ecx + 7) in
  let xmm5 := movsd faction (ecx + 8) in
  let xmm3 := addsd xmm3 xmm0 in
  let xmm4 := addsd xmm4 xmm1 in
  let xmm5 := addsd xmm5 xmm2 in
  let faction := movsd_st faction (ecx + 6) xmm3 in
  let faction := movsd_st faction (ecx + 7) xmm4 in
  let faction := movsd_st faction (ecx + 8) xmm5 in
  let xmm7 := addsd xmm7 xmm2 in
  let xmm0 := unpcklpd xmm0 xmm1 in
  let xmm6 := addpd xmm6 xmm0 in
  let xmm3 := movlpd xmm3 fshift edx in
  let xmm3 := movhpd xmm3 fshift (edx + 1) in
  let xmm4 := movsd fshift (edx + 2) in
  let xmm3 := addpd xmm3 xmm6 in
  let xmm4 := addsd xmm4 xmm7 in
  let fshift := movlpd_st fshift edx xmm3 in
  let fshift := movhpd_st fshift (edx + 1) xmm3 in
  let fshift := movsd_st fshift (edx + 2) xmm4 in
  let esi := n in
  let edx := ld32 (a_gid a) esi in
  let xmm7 := nb232_vctot acc in
  let xmm6 := movhlps_d xmm6 xmm7 in
  let xmm7 := addsd xmm7 xmm6 in
  let xmm7 := addsd_m xmm7 Vc edx in
  let Vc := movsd_st Vc edx xmm7 in
  let xmm7 := nb232_Vvdwtot acc in
  let xmm6 := movhlps_d xmm6 xmm7 in
  let xmm7 := addsd xmm7 xmm6 in
  let xmm7 := addsd_m xmm7 Vvdw edx in
  let Vvdw := movsd_st Vvdw edx xmm7 in
  (Xmmd xmm0 xmm1 xmm2 xmm3 xmm4 xmm5 xmm6 xmm7,
   Outputs faction fshift Vc Vvdw).

(** One pass of [.nb232_unroll_loop] up to its back edge. *)
Definition unroll_body (a : args) (k : consts) (e : entry) (s : inner) : inner :=
  let '(g, x, rax, rbx, nb232_innerjjnr) :=
    calc_geom a k e (i_xmm s) (nb232_innerjjnr s) in
  let '(acc, scr, x, eax, ebx) :=
    interactions a k g (i_acc s) (i_scr s) x rax rbx in
  let '(x, faction) := update_jforces scr x eax ebx (i_faction s) in
  Inner acc scr nb232_innerjjnr (nb232_innerk s) x faction.

(** [.nb232_dosingle]. *)
Definition dosingle (a : args) (k : consts) (e : entry) (s : inner) : inner :=
  let '(g, x, rax) := calc_geom1 a k e (i_xmm s) (nb232_innerjjnr s) in
  let '(acc, scr, x, rax) :=
    interactions1 a k g (i_acc s) (i_scr s) x rax in
  let '(x, faction) := update_jforces1 scr x rax (i_faction s) in
  Inner acc scr (nb232_innerjjnr s) (nb232_innerk s) x faction.

(** [.nb232_unroll_loop] with its back edge
    ([sub dword ptr [rsp + nb232_innerk], 2; jl .nb232_checksingle]). *)
Fixpoint unroll_loop (fuel : nat) (a : args) (k : consts) (e : entry)
    (s : inner) : option inner :=
  match fuel with
  | O => None
  | S fuel' =>
      let s := unroll_body a k e s in
      let fl := sub_flags (nb232_innerk s) 2 in
      let s := Inner (i_acc s) (i_scr s) (nb232_innerjjnr s)
                     (sub32 (nb232_innerk s) 2) (i_xmm s) (i_faction s) in
      if cond_l fl then Some s else unroll_loop fuel' a k e s
  end.

(** [.nb232_checksingle]: the counter is tested as it stands. *)
Definition checksingle (a : args) (k : consts) (e : entry) (s : inner) : inner :=
  let edx := nb232_innerk s in
  let edx := and32 edx 1 in
  if edx =? 0 then s else dosingle a k e s.         (* jnz .nb232_dosingle *)

(** The registers and the scratch slots that one outer entry leaves to the
    next. *)
Definition carried : Type := (xmmd * scratch)%type.

(** One outer entry, from [.nb232_outer] to the end of
    [.nb232_updateouterdata]. *)
Definition outer_entry (fuel : nat) (a : args) (k : consts) (esi : Z)
    (ninner : Z) (c : carried) (o : outputs) : option (Z * carried * outputs) :=
  let '(e, s, ninner, fl) :=
    outer_setup a esi ninner (fst c) (snd c) (o_faction o) in
  match (if cond_ge fl then unroll_loop fuel a k e s else Some s) with
  | None => None
  | Some s =>
      let s := checksingle a k e s in
      let '(x, o) := updateouterdata a e esi (i_acc s) (i_xmm s) (i_faction s) o in
      Some (ninner, (x, i_scr s), o)
  end.

End Code.

(** *** A reference evaluation, one molecule at a time

    The reference follows the specification: for each of the nine atom
    pairs the inverse distance by two Newton-Raphson steps from the
    single-precision seed, the reaction-field energy and force, and for
    the oxygen pair the dispersion and repulsion from the two cubic
    splines of the table. *)

Local Open Scope Qc_scope.

(** The shifted coordinates of the three atoms of the i molecule. *)
Record water : Type := Water {
  w_xO : real; w_yO : real; w_zO : real;
  w_xH1 : real; w_yH1 : real; w_zH1 : real;
  w_xH2 : real; w_yH2 : real; w_zH2 : real
}.

(** Energies and force vector of one atom pair. *)
Record pair : Type := Pair {
  p_Vc : real; p_Vvdw : real; p_tx : real; p_ty : real; p_tz : real
}.

Definition rsq3 (dx dy dz : real) : real := dx * dx + dy * dy + dz * dz.

Section Reference.
Variable rsqrt_approx : real -> real.
Variable to_single : real -> real.
Variable a : args.

Definition two_steps (rsq : real) : real :=
  Formula.nr_step rsq (Formula.nr_step rsq (seed rsqrt_approx to_single rsq)).

(** The charge products and the Lennard-Jones parameters are those of the
    first molecule of the list. *)
Definition qO : real := a_charge a (first_particle a).
Definition qH : real := a_charge a (first_particle a + 1)%Z.
Definition qqOO : real := qO * qO * a_facel a.
Definition qqOH : real := qO * qH * a_facel a.
Definition qqHH : real := qH * qH * a_facel a.
Definition c6 : real := a_vdwparam a (vdw_index a).
Definition c12 : real := a_vdwparam a (vdw_index a + 1)%Z.

(** Reaction field alone. *)
Definition rf_terms (qq dx dy dz rsq rinv : real) : pair :=
  let fscal := Formula.rf_F qq (a_krf a) rsq rinv in
  Pair (Formula.rf_V qq (a_krf a) (a_crf a) rsq rinv) 0
       (fscal * dx) (fscal * dy) (fscal * dz).

(** Reaction field and tabulated Lennard-Jones of the two oxygens. *)
Definition oo_terms (dx dy dz rsq rinv : real) : pair :=
  let tsc := a_tabscale a in
  let rt := rsq * rinv * tsc in
  let n := cvtt rt in
  let eps := rt - of_int n in
  let i := shl32 n 3 in
  let T := a_VFtab a in
  let VVd := Formula.spline_V (T i) (T (i + 1)%Z) (T (i + 2)%Z) (T (i + 3)%Z) eps in
  let FFd := Formula.spline_F (T (i + 1)%Z) (T (i + 2)%Z) (T (i + 3)%Z) eps in
  let VVr := Formula.spline_V (T (i + 4)%Z) (T (i + 5)%Z) (T (i + 6)%Z) (T (i + 7)%Z) eps in
  let FFr := Formula.spline_F (T (i + 5)%Z) (T (i + 6)%Z) (T (i + 7)%Z) eps in
  let fscal := Formula.rf_F qqOO (a_krf a) rsq rinv
               - (c6 * FFd + c12 * FFr) * tsc * rinv in
  Pair (Formula.rf_V qqOO (a_krf a) (a_crf a) rsq rinv) (c6 * VVd + c12 * VVr)
       (fscal * dx) (fscal * dy) (fscal * dz).

(** Both lanes of a slot from two scalar geometries, and one lane of each
    slot. *)
Definition gzip (u v : @geom_of real) : geom :=
  Geom (V2 (nb232_dxOO u) (nb232_dxOO v)) (V2 (nb232_dyOO u) (nb232_dyOO v))
  (V2 (nb232_dzOO u) (nb232_dzOO v)) (V2 (nb232_dxOH1 u) (nb232_dxOH1 v))
  (V2 (nb232_dyOH1 u) (nb232_dyOH1 v)) (V2 (nb232_dzOH1 u) (nb232_dzOH1 v))
  (V2 (nb232_dxOH2 u) (nb232_dxOH2 v)) (V2 (nb232_dyOH2 u) (nb232_dyOH2 v))
  (V2 (nb232_dzOH2 u) (nb232_dzOH2 v)) (V2 (nb232_dxH1O u) (nb232_dxH1O v))
  (V2 (nb232_dyH1O u) (nb232_dyH1O v)) (V2 (nb232_dzH1O u) (nb232_dzH1O v))
  (V2 (nb232_dxH1H1 u) (nb232_dxH1H1 v))
  (V2 (nb232_dyH1H1 u) (nb232_dyH1H1 v))
  (V2 (nb232_dzH1H1 u) (nb232_dzH1H1 v))
  (V2 (nb232_dxH1H2 u) (nb232_dxH1H2 v))
  (V2 (nb232_dyH1H2 u) (nb232_dyH1H2 v))
  (V2 (nb232_dzH1H2 u) (nb232_dzH1H2 v)) (V2 (nb232_dxH2O u) (nb232_dxH2O v))
  (V2 (nb232_dyH2O u) (nb232_dyH2O v)) (V2 (nb232_dzH2O u) (nb232_dzH2O v))
  (V2 (nb232_dxH2H1 u) (nb232_dxH2H1 v))
  (V2 (nb232_dyH2H1 u) (nb232_dyH2H1 v))
  (V2 (nb232_dzH2H1 u) (nb232_dzH2H1 v))
  (V2 (nb232_dxH2H2 u) (nb232_dxH2H2 v))
  (V2 (nb232_dyH2H2 u) (nb232_dyH2H2 v))
  (V2 (nb232_dzH2H2 u) (nb232_dzH2H2 v)) (V2 (nb232_rsqOO u) (nb232_rsqOO v))
  (V2 (nb232_rsqOH1 u) (nb232_rsqOH1 v))
  (V2 (nb232_rsqOH2 u) (nb232_rsqOH2 v))
  (V2 (nb232_rsqH1O u) (nb232_rsqH1O v))
  (V2 (nb232_rsqH1H1 u) (nb232_rsqH1H1 v))
  (V2 (nb232_rsqH1H2 u) (nb232_rsqH1H2 v))
  (V2 (nb232_rsqH2O u) (nb232_rsqH2O v))
  (V2 (nb232_rsqH2H1 u) (nb232_rsqH2H1 v))
  (V2 (nb232_rsqH2H2 u) (nb232_rsqH2H2 v))
  (V2 (nb232_rinvOO u) (nb232_rinvOO v))
  (V2 (nb232_rinvOH1 u) (nb232_rinvOH1 v))
  (V2 (nb232_rinvOH2 u) (nb232_rinvOH2 v))
  (V2 (nb232_rinvH1O u) (nb232_rinvH1O v))
  (V2 (nb232_rinvH1H1 u) (nb232_rinvH1H1 v))
  (V2 (nb232_rinvH1H2 u) (nb232_rinvH1H2 v))
  (V2 (nb232_rinvH2O u) (nb232_rinvH2O v))
  (V2 (nb232_rinvH2H1 u) (nb232_rinvH2H1 v))
  (V2 (nb232_rinvH2H2 u) (nb232_rinvH2H2 v)).

Definition gmap (l : v2 -> real) (g : geom) : @geom_of real :=
  Geom (l (nb232_dxOO g)) (l (nb232_dyOO g)) (l (nb232_dzOO g))
  (l (nb232_dxOH1 g)) (l (nb232_dyOH1 g)) (l (nb232_dzOH1 g))
  (l (nb232_dxOH2 g)) (l (nb232_dyOH2 g)) (l (nb232_dzOH2 g))
  (l (nb232_dxH1O g)) (l (nb232_dyH1O g)) (l (nb232_dzH1O g))
  (l (nb232_dxH1H1 g)) (l (nb232_dyH1H1 g)) (l (nb232_dzH1H1 g))
  (l (nb232_dxH1H2 g)) (l (nb232_dyH1H2 g)) (l (nb232_dzH1H2 g))
  (l (nb232_dxH2O g)) (l (nb232_dyH2O g)) (l (nb232_dzH2O g))
  (l (nb232_dxH2H1 g)) (l (nb232_dyH2H1 g)) (l (nb232_dzH2H1 g))
  (l (nb232_dxH2H2 g)) (l (nb232_dyH2H2 g)) (l (nb232_dzH2H2 g))
  (l (nb232_rsqOO g)) (l (nb232_rsqOH1 g)) (l (nb232_rsqOH2 g))
  (l (nb232_rsqH1O g)) (l (nb232_rsqH1H1 g)) (l (nb232_rsqH1H2 g))
  (l (nb232_rsqH2O g)) (l (nb232_rsqH2H1 g)) (l (nb232_rsqH2H2 g))
  (l (nb232_rinvOO g)) (l (nb232_rinvOH1 g)) (l (nb232_rinvOH2 g))
  (l (nb232_rinvH1O g)) (l (nb232_rinvH1H1 g)) (l (nb232_rinvH1H2 g))
  (l (nb232_rinvH2O g)) (l (nb232_rinvH2H1 g)) (l (nb232_rinvH2H2 g)).

(** The geometry of the i molecule at [w] and the j molecule whose
    coordinates start at element [j3] of [pos]. *)
Definition ref_geom (w : water) (j3 : Z) : @geom_of real :=
  let jxO := a_pos a j3 in
  let jyO := a_pos a (j3 + 1)%Z in
  let jzO := a_pos a (j3 + 2)%Z in
  let jxH1 := a_pos a (j3 + 3)%Z in
  let jyH1 := a_pos a (j3 + 4)%Z in
  let jzH1 := a_pos a (j3 + 5)%Z in
  let jxH2 := a_pos a (j3 + 6)%Z in
  let jyH2 := a_pos a (j3 + 7)%Z in
  let jzH2 := a_pos a (j3 + 8)%Z in
  let dxOO := w_xO w - jxO in
  let dyOO := w_yO w - jyO in
  let dzOO := w_zO w - jzO in
  let dxOH1 := w_xO w - jxH1 in
  let dyOH1 := w_yO w - jyH1 in
  let dzOH1 := w_zO w - jzH1 in
  let dxOH2 := w_xO w - jxH2 in
  let dyOH2 := w_yO w - jyH2 in
  let dzOH2 := w_zO w - jzH2 in
  let dxH1O := w_xH1 w - jxO in
  let dyH1O := w_yH1 w - jyO in
  let dzH1O := w_zH1 w - jzO in
  let dxH1H1 := w_xH1 w - jxH1 in
  let dyH1H1 := w_yH1 w - jyH1 in
  let dzH1H1 := w_zH1 w - jzH1 in
  let dxH1H2 := w_xH1 w - jxH2 in
  let dyH1H2 := w_yH1 w - jyH2 in
  let dzH1H2 := w_zH1 w - jzH2 in
  let dxH2O := w_xH2 w - jxO in
  let dyH2O := w_yH2 w - jyO in
  let dzH2O := w_zH2 w - jzO in
  let dxH2H1 := w_xH2 w - jxH1 in
  let dyH2H1 := w_yH2 w - jyH1 in
  let dzH2H1 := w_zH2 w - jzH1 in
  let dxH2H2 := w_xH2 w - jxH2 in
  let dyH2H2 := w_yH2 w - jyH2 in
  let dzH2H2 := w_zH2 w - jzH2 in
  let rsqOO := rsq3 dxOO dyOO dzOO in
  let rsqOH1 := rsq3 dxOH1 dyOH1 dzOH1 in
  let rsqOH2 := rsq3 dxOH2 dyOH2 dzOH2 in
  let rsqH1O := rsq3 dxH1O dyH1O dzH1O in
  let rsqH1H1 := rsq3 dxH1H1 dyH1H1 dzH1H1 in
  let rsqH1H2 := rsq3 dxH1H2 dyH1H2 dzH1H2 in
  let rsqH2O := rsq3 dxH2O dyH2O dzH2O in
  let rsqH2H1 := rsq3 dxH2H1 dyH2H1 dzH2H1 in
  let rsqH2H2 := rsq3 dxH2H2 dyH2H2 dzH2H2 in
  Geom dxOO dyOO dzOO dxOH1 dyOH1 dzOH1 dxOH2 dyOH2 dzOH2 dxH1O dyH1O dzH1O
  dxH1H1 dyH1H1 dzH1H1 dxH1H2 dyH1H2 dzH1H2 dxH2O dyH2O dzH2O dxH2H1 dyH2H1
  dzH2H1 dxH2H2 dyH2H2 dzH2H2 rsqOO rsqOH1 rsqOH2 rsqH1O rsqH1H1 rsqH1H2
  rsqH2O rsqH2H1 rsqH2H2 (two_steps rsqOO) (two_steps rsqOH1)
  (two_steps rsqOH2) (two_steps rsqH1O) (two_steps rsqH1H1)
  (two_steps rsqH1H2) (two_steps rsqH2O) (two_steps rsqH2H1)
  (two_steps rsqH2H2).

(** What one j molecule adds to the two energies and to the forces on the
    three i atoms, and what it takes from the forces on its own atoms. *)
Record mol_terms : Type := MolTerms {
  m_Vc : real;
  m_Vvdw : real;
  m_fixO : real;
  m_fiyO : real;
  m_fizO : real;
  m_fixH1 : real;
  m_fiyH1 : real;
  m_fizH1 : real;
  m_fixH2 : real;
  m_fiyH2 : real;
  m_fizH2 : real;
  m_fjxO : real;
  m_fjyO : real;
  m_fjzO : real;
  m_fjxH1 : real;
  m_fjyH1 : real;
  m_fjzH1 : real;
  m_fjxH2 : real;
  m_fjyH2 : real;
  m_fjzH2 : real
}.

Definition mol_terms_of (g : @geom_of real) : mol_terms :=
  let pOO := oo_terms
    (nb232_dxOO g) (nb232_dyOO g) (nb232_dzOO g) (nb232_rsqOO g) (nb232_rinvOO g) in
  let pOH1 := rf_terms qqOH
    (nb232_dxOH1 g) (nb232_dyOH1 g) (nb232_dzOH1 g) (nb232_rsqOH1 g) (nb232_rinvOH1 g) in
  let pOH2 := rf_terms qqOH
    (nb232_dxOH2 g) (nb232_dyOH2 g) (nb232_dzOH2 g) (nb232_rsqOH2 g) (nb232_rinvOH2 g) in
  let pH1O := rf_terms qqOH
    (nb232_dxH1O g) (nb232_dyH1O g) (nb232_dzH1O g) (nb232_rsqH1O g) (nb232_rinvH1O g) in
  let pH1H1 := rf_terms qqHH
    (nb232_dxH1H1 g) (nb232_dyH1H1 g) (nb232_dzH1H1 g) (nb232_rsqH1H1 g) (nb232_rinvH1H1 g) in
  let pH1H2 := rf_terms qqHH
    (nb232_dxH1H2 g) (nb232_dyH1H2 g) (nb232_dzH1H2 g) (nb232_rsqH1H2 g) (nb232_rinvH1H2 g) in
  let pH2O := rf_terms qqOH
    (nb232_dxH2O g) (nb232_dyH2O g) (nb232_dzH2O g) (nb232_rsqH2O g) (nb232_rinvH2O g) in
  let pH2H1 := rf_terms qqHH
    (nb232_dxH2H1 g) (nb232_dyH2H1 g) (nb232_dzH2H1 g) (nb232_rsqH2H1 g) (nb232_rinvH2H1 g) in
  let pH2H2 := rf_terms qqHH
    (nb232_dxH2H2 g) (nb232_dyH2H2 g) (nb232_dzH2H2 g) (nb232_rsqH2H2 g) (nb232_rinvH2H2 g) in
  MolTerms
    (p_Vc pOO + p_Vc pOH1 + p_Vc pOH2 + p_Vc pH1O + p_Vc pH1H1 + p_Vc pH1H2 + p_Vc pH2O + p_Vc pH2H1 + p_Vc pH2H2)
    (p_Vvdw pOO)
    (p_tx pOO + p_tx pOH1 + p_tx pOH2)
    (p_ty pOO + p_ty pOH1 + p_ty pOH2)
    (p_tz pOO + p_tz pOH1 + p_tz pOH2)
    (p_tx pH1O + p_tx pH1H1 + p_tx pH1H2)
    (p_ty pH1O + p_ty pH1H1 + p_ty pH1H2)
    (p_tz pH1O + p_tz pH1H1 + p_tz pH1H2)
    (p_tx pH2O + p_tx pH2H1 + p_tx pH2H2)
    (p_ty pH2O + p_ty pH2H1 + p_ty pH2H2)
    (p_tz pH2O + p_tz pH2H1 + p_tz pH2H2)
    (p_tx pOO + p_tx pH1O + p_tx pH2O)
    (p_ty pOO + p_ty pH1O + p_ty pH2O)
    (p_tz pOO + p_tz pH1O + p_tz pH2O)
    (p_tx pOH1 + p_tx pH1H1 + p_tx pH2H1)
    (p_ty pOH1 + p_ty pH1H1 + p_ty pH2H1)
    (p_tz pOH1 + p_tz pH1H1 + p_tz pH2H1)
    (p_tx pOH2 + p_tx pH1H2 + p_tx pH2H2)
    (p_ty pOH2 + p_ty pH1H2 + p_ty pH2H2)
    (p_tz pOH2 + p_tz pH1H2 + p_tz pH2H2).

(** [f[i .. i+8] -= ] the forces on the three atoms of a j molecule. *)
Definition sub_mol (f : fmem) (i : Z) (m : mol_terms) : fmem :=
  sub_force
    (sub_force
       (sub_force f i (m_fjxO m) (m_fjyO m) (m_fjzO m))
       (i + 3)%Z (m_fjxH1 m) (m_fjyH1 m) (m_fjzH1 m))
    (i + 6)%Z (m_fjxH2 m) (m_fjyH2 m) (m_fjzH2 m).

(** Scalar running totals of one outer entry and the force array. *)
Record totals : Type := Totals {
  t_Vc : real; t_Vvdw : real;
  t_fixO : real; t_fiyO : real; t_fizO : real;
  t_fixH1 : real; t_fiyH1 : real; t_fizH1 : real;
  t_fixH2 : real; t_fiyH2 : real; t_fizH2 : real;
  t_faction : fmem
}.

Definition add_terms (t : totals) (m : mol_terms) (f : fmem) : totals :=
  Totals (t_Vc t + m_Vc m) (t_Vvdw t + m_Vvdw m)
         (t_fixO t + m_fixO m) (t_fiyO t + m_fiyO m) (t_fizO t + m_fizO m)
         (t_fixH1 t + m_fixH1 m) (t_fiyH1 t + m_fiyH1 m) (t_fizH1 t + m_fizH1 m)
         (t_fixH2 t + m_fixH2 m) (t_fiyH2 t + m_fiyH2 m) (t_fizH2 t + m_fizH2 m)
         f.

(** The j molecule whose first atom is particle [j]. *)
Definition ref_step (w : water) (t : totals) (j : Z) : totals :=
  let m := mol_terms_of (ref_geom w (3 * j)) in
  add_terms t m (sub_mol (t_faction t) (3 * j) m).

Definition ref_eval (w : water) (js : list Z) (t : totals) : totals :=
  fold_left (ref_step w) js t.

End Reference.

(** One lane of the i coordinates. *)
Definition lane_w (l : v2 -> real) (e : entry) : water :=
  Water (l (nb232_ixO e)) (l (nb232_iyO e)) (l (nb232_izO e))
        (l (nb232_ixH1 e)) (l (nb232_iyH1 e)) (l (nb232_izH1 e))
        (l (nb232_ixH2 e)) (l (nb232_iyH2 e)) (l (nb232_izH2 e)).

(** *** The two halves of a pass, lane by lane *)


Lemma Geom_eq (A : Type)
    (u0 u1 u2 u3 u4 u5 u6 u7 u8 u9 u10 u11 u12 u13 u14 u15 u16 u17 u18 u19
    u20 u21 u22 u23 u24 u25 u26 u27 u28 u29 u30 u31 u32 u33 u34 u35 u36 u37
    u38 u39 u40 u41 u42 u43 u44 v0 v1 v2 v3 v4 v5 v6 v7 v8 v9 v10 v11 v12 v13
    v14 v15 v16 v17 v18 v19 v20 v21 v22 v23 v24 v25 v26 v27 v28 v29 v30 v31
    v32 v33 v34 v35 v36 v37 v38 v39 v40 v41 v42 v43 v44 : A) :
  u0 = v0 -> u1 = v1 -> u2 = v2 -> u3 = v3 -> u4 = v4 -> u5 = v5 ->
  u6 = v6 -> u7 = v7 -> u8 = v8 -> u9 = v9 -> u10 = v10 -> u11 = v11 ->
  u12 = v12 -> u13 = v13 -> u14 = v14 -> u15 = v15 -> u16 = v16 ->
  u17 = v17 -> u18 = v18 -> u19 = v19 -> u20 = v20 -> u21 = v21 ->
  u22 = v22 -> u23 = v23 -> u24 = v24 -> u25 = v25 -> u26 = v26 ->
  u27 = v27 -> u28 = v28 -> u29 = v29 -> u30 = v30 -> u31 = v31 ->
  u32 = v32 -> u33 = v33 -> u34 = v34 -> u35 = v35 -> u36 = v36 ->
  u37 = v37 -> u38 = v38 -> u39 = v39 -> u40 = v40 -> u41 = v41 ->
  u42 = v42 -> u43 = v43 -> u44 = v44 ->
  Geom u0 u1 u2 u3 u4 u5 u6 u7 u8 u9 u10 u11 u12 u13 u14 u15 u16 u17 u18 u19
  u20 u21 u22 u23 u24 u25 u26 u27 u28 u29 u30 u31 u32 u33 u34 u35 u36 u37 u38
  u39 u40 u41 u42 u43 u44 =
  Geom v0 v1 v2 v3 v4 v5 v6 v7 v8 v9 v10 v11 v12 v13 v14 v15 v16 v17 v18 v19
  v20 v21 v22 v23 v24 v25 v26 v27 v28 v29 v30 v31 v32 v33 v34 v35 v36 v37 v38
  v39 v40 v41 v42 v43 v44.
Proof. intros. subst. reflexivity. Qed.

Lemma V2_eq (u0 u1 v0 v1 : real) : u0 = v0 -> u1 = v1 -> V2 u0 u1 = V2 v0 v1.
Proof. intros. subst. reflexivity. Qed.

Lemma Accum_eq (u0 u1 u2 u3 u4 u5 u6 u7 u8 u9 u10 v0 v1 v2 v3 v4 v5 v6 v7 v8 v9 v10 : SSE.v2) :
  u0 = v0 -> u1 = v1 -> u2 = v2 -> u3 = v3 -> u4 = v4 -> u5 = v5 -> u6 = v6 ->
  u7 = v7 -> u8 = v8 -> u9 = v9 -> u10 = v10 ->
  Accum u0 u1 u2 u3 u4 u5 u6 u7 u8 u9 u10 = Accum v0 v1 v2 v3 v4 v5 v6 v7 v8 v9 v10.
Proof. intros. subst. reflexivity. Qed.

Ltac w_red :=
  cbv beta iota zeta delta
    [calc_geom calc_geom1 interactions interactions1 updateouterdata outer_setup
     gzip gmap ref_geom lane_w mol_terms_of add_terms
     w_xO w_yO w_zO w_xH1 w_yH1 w_zH1 w_xH2 w_yH2 w_zH2
     p_Vc p_Vvdw p_tx p_ty p_tz
     m_Vc m_Vvdw m_fixO m_fiyO m_fizO m_fixH1 m_fiyH1 m_fizH1 m_fixH2 m_fiyH2 m_fizH2
     m_fjxO m_fjyO m_fjzO m_fjxH1 m_fjyH1 m_fjzH1 m_fjxH2 m_fjyH2 m_fjzH2
     i_acc i_scr i_xmm i_faction nb232_innerjjnr nb232_innerk
     nb232_is3 nb232_ii3
     nb232_ixO nb232_iyO nb232_izO nb232_ixH1 nb232_iyH1 nb232_izH1
     nb232_ixH2 nb232_iyH2 nb232_izH2
     nb232_vctot nb232_Vvdwtot
     nb232_fixO nb232_fiyO nb232_fizO nb232_fixH1 nb232_fiyH1 nb232_fizH1
     nb232_fixH2 nb232_fiyH2 nb232_fizH2
     nb232_fstmp nb232_fjxO nb232_fjyO nb232_fjzO nb232_fjxH1 nb232_fjyH1 nb232_fjzH1
     nb232_fjxH2 nb232_fjyH2 nb232_fjzH2
     nb232_dxOO nb232_dyOO nb232_dzOO nb232_dxOH1 nb232_dyOH1 nb232_dzOH1
     nb232_dxOH2 nb232_dyOH2 nb232_dzOH2 nb232_dxH1O nb232_dyH1O nb232_dzH1O
     nb232_dxH1H1 nb232_dyH1H1 nb232_dzH1H1 nb232_dxH1H2 nb232_dyH1H2 nb232_dzH1H2
     nb232_dxH2O nb232_dyH2O nb232_dzH2O nb232_dxH2H1 nb232_dyH2H1 nb232_dzH2H1
     nb232_dxH2H2 nb232_dyH2H2 nb232_dzH2H2
     nb232_rsqOO nb232_rsqOH1 nb232_rsqOH2 nb232_rsqH1O nb232_rsqH1H1 nb232_rsqH1H2
     nb232_rsqH2O nb232_rsqH2H1 nb232_rsqH2H2
     nb232_rinvOO nb232_rinvOH1 nb232_rinvOH2 nb232_rinvH1O nb232_rinvH1H1
     nb232_rinvH1H2 nb232_rinvH2O nb232_rinvH2H1 nb232_rinvH2H2
     nb232_facel nb232_tsc nb232_krf nb232_crf nb232_half nb232_two nb232_three
     nb232_qqOO nb232_qqOH nb232_qqHH nb232_c6 nb232_c12
     NB030d.q0 NB030d.q1 NB030d.q2 NB030d.q3 NB030d.q4 NB030d.q5 NB030d.q6 NB030d.q7
     d0 d1 l0 l1 l2 l3 splat2
     xorpd_self addpd subpd mulpd addsd subsd mulsd shufpd unpcklpd unpckhpd
     movsd movsd_v movsd_rr movlpd movhpd movapd_ld NB030d.addsd_m NB030d.movsd_st
     movlpd_st movhpd_st NB030d.movhlps_d NB030d.cvttsd2si NB030d.cvtsi2sd
     cvtsd2ss rsqrtss cvtss2sd
     rsqrtps cvtpd2ps cvtps2pd cvttpd2pi cvtpi2pd pslld psrlq32 movd fst snd
     Z.land Z.shiftr Z.shiftl Pos.land Z.of_N Pos.div2 Z.div2 Pos.iter Z.opp Z.pos_sub
     Pos.pred_double Pos.succ Pos.Nsucc_double Pos.Ndouble].

Ltac t_red :=
  cbv beta iota zeta delta
    [oo_terms rf_terms p_Vc p_Vvdw p_tx p_ty p_tz qqOO qqOH qqHH qO qH c6 c12
     Formula.rf_V Formula.rf_F Formula.spline_V Formula.spline_F].

(** The slots of two j molecules do not overlap. *)
Definition disjoint_mols (i0 i1 : Z) : Prop := (i0 + 8 < i1 \/ i1 + 8 < i0)%Z.

(** Both lanes of the accumulators after one molecule each. *)
Definition acc_add (acc : accum) (m0 m1 : mol_terms) : accum :=
  let lane (f : accum -> v2) (t : mol_terms -> real) :=
    V2 (d0 (f acc) + t m0) (d1 (f acc) + t m1) in
  Accum (lane nb232_vctot m_Vc) (lane nb232_Vvdwtot m_Vvdw)
        (lane nb232_fixO m_fixO) (lane nb232_fiyO m_fiyO) (lane nb232_fizO m_fizO)
        (lane nb232_fixH1 m_fixH1) (lane nb232_fiyH1 m_fiyH1) (lane nb232_fizH1 m_fizH1)
        (lane nb232_fixH2 m_fixH2) (lane nb232_fiyH2 m_fiyH2) (lane nb232_fizH2 m_fizH2).

(** The scratch slots hold the negated sums of the forces on the j atoms. *)
Definition fj_hold (scr : scratch) (m0 m1 : mol_terms) : Prop :=
  let lane (f : scratch -> v2) (t : mol_terms -> real) :=
    f scr = V2 (0 - t m0) (0 - t m1) in
  lane nb232_fjxO m_fjxO /\ lane nb232_fjyO m_fjyO /\ lane nb232_fjzO m_fjzO
  /\ lane nb232_fjxH1 m_fjxH1 /\ lane nb232_fjyH1 m_fjyH1 /\ lane nb232_fjzH1 m_fjzH1
  /\ lane nb232_fjxH2 m_fjxH2 /\ lane nb232_fjyH2 m_fjyH2 /\ lane nb232_fjzH2 m_fjzH2.

Definition fj_hold1 (scr : scratch) (m0 : mol_terms) : Prop :=
  let lane (f : scratch -> v2) (t : mol_terms -> real) :=
    d0 (f scr) = 0 - t m0 in
  lane nb232_fjxO m_fjxO /\ lane nb232_fjyO m_fjyO /\ lane nb232_fjzO m_fjzO
  /\ lane nb232_fjxH1 m_fjxH1 /\ lane nb232_fjyH1 m_fjyH1 /\ lane nb232_fjzH1 m_fjzH1
  /\ lane nb232_fjxH2 m_fjxH2 /\ lane nb232_fjyH2 m_fjyH2 /\ lane nb232_fjzH2 m_fjzH2.

(** Lines 1225-1273: two molecules with separate slots lose what the
    scratch slots hold. *)
Lemma update_jforces_spec scr x i0 i1 f m0 m1 :
  disjoint_mols i0 i1 -> fj_hold scr m0 m1 ->
  snd (update_jforces scr x i0 i1 f) = sub_mol (sub_mol f i0 m0) i1 m1.
Proof.
  unfold disjoint_mols, fj_hold. intros Hd H.
  destruct scr. cbn [nb232_fjxO nb232_fjyO nb232_fjzO nb232_fjxH1 nb232_fjyH1
    nb232_fjzH1 nb232_fjxH2 nb232_fjyH2 nb232_fjzH2] in H.
  destruct H as (-> & -> & -> & -> & -> & -> & -> & -> & ->).
  destruct m0, m1. unfold sub_mol.
  cbv beta iota zeta delta
    [update_jforces snd fst d0 d1 addpd movlpd movhpd movlpd_st movhpd_st
     nb232_fjxO nb232_fjyO nb232_fjzO nb232_fjxH1 nb232_fjyH1
     nb232_fjzH1 nb232_fjxH2 nb232_fjyH2 nb232_fjzH2
     m_fjxO m_fjyO m_fjzO m_fjxH1 m_fjyH1 m_fjzH1 m_fjxH2 m_fjyH2 m_fjzH2].
  apply functional_extensionality. intros p.
  unfold sub_force.
  replace (i0 + 3 + 1)%Z with (i0 + 4)%Z by lia.
  replace (i0 + 3 + 2)%Z with (i0 + 5)%Z by lia.
  replace (i0 + 6 + 1)%Z with (i0 + 7)%Z by lia.
  replace (i0 + 6 + 2)%Z with (i0 + 8)%Z by lia.
  replace (i1 + 3 + 1)%Z with (i1 + 4)%Z by lia.
  replace (i1 + 3 + 2)%Z with (i1 + 5)%Z by lia.
  replace (i1 + 6 + 1)%Z with (i1 + 7)%Z by lia.
  replace (i1 + 6 + 2)%Z with (i1 + 8)%Z by lia.
  unfold store.
  repeat match goal with
         | |- context [Z.eqb ?u ?v] =>
             destruct (Z.eqb_spec u v); try (exfalso; lia); cbv beta iota
         end; try subst p; ring.
Qed.

(** Lines 2079-2109: the single molecule loses what the lower halves of
    the scratch slots hold. *)
Lemma update_jforces1_spec scr x i0 f m0 :
  fj_hold1 scr m0 ->
  snd (update_jforces1 scr x i0 f) = sub_mol f i0 m0.
Proof.
  unfold fj_hold1. intros H.
  destruct scr as [? [? ?] [? ?] [? ?] [? ?] [? ?] [? ?] [? ?] [? ?] [? ?]].
  cbn [nb232_fjxO nb232_fjyO nb232_fjzO nb232_fjxH1 nb232_fjyH1
    nb232_fjzH1 nb232_fjxH2 nb232_fjyH2 nb232_fjzH2 d0] in H.
  destruct H as (-> & -> & -> & -> & -> & -> & -> & -> & ->).
  destruct m0. unfold sub_mol.
  cbv beta iota zeta delta
    [update_jforces1 snd fst d0 d1 addpd addsd movlpd movhpd movlpd_st movhpd_st
     movsd NB030d.movsd_st NB030d.addsd_m movsd_v
     nb232_fjxO nb232_fjyO nb232_fjzO nb232_fjxH1 nb232_fjyH1
     nb232_fjzH1 nb232_fjxH2 nb232_fjyH2 nb232_fjzH2
     m_fjxO m_fjyO m_fjzO m_fjxH1 m_fjyH1 m_fjzH1 m_fjxH2 m_fjyH2 m_fjzH2].
  apply functional_extensionality. intros p.
  unfold sub_force.
  replace (i0 + 3 + 1)%Z with (i0 + 4)%Z by lia.
  replace (i0 + 3 + 2)%Z with (i0 + 5)%Z by lia.
  replace (i0 + 6 + 1)%Z with (i0 + 7)%Z by lia.
  replace (i0 + 6 + 2)%Z with (i0 + 8)%Z by lia.
  unfold store.
  repeat match goal with
         | |- context [Z.eqb ?u ?v] =>
             destruct (Z.eqb_spec u v); try (exfalso; lia); cbv beta iota
         end; try subst p; ring.
Qed.

(** The lower lane alone. *)
Definition acc_add1 (acc : accum) (m0 : mol_terms) : accum :=
  let lane (f : accum -> v2) (t : mol_terms -> real) :=
    V2 (d0 (f acc) + t m0) (d1 (f acc)) in
  Accum (lane nb232_vctot m_Vc) (lane nb232_Vvdwtot m_Vvdw)
        (lane nb232_fixO m_fixO) (lane nb232_fiyO m_fiyO) (lane nb232_fizO m_fizO)
        (lane nb232_fixH1 m_fixH1) (lane nb232_fiyH1 m_fiyH1) (lane nb232_fizH1 m_fizH1)
        (lane nb232_fixH2 m_fixH2) (lane nb232_fiyH2 m_fiyH2) (lane nb232_fizH2 m_fizH2).

Section Halves.
Variable rsqrt_approx : real -> real.
Variable to_single : real -> real.
Variable a : args.
Variable x4 : v2.

Let k := setup a x4.

Ltac rinv_goal :=
  unfold two_steps, seed;
  match goal with
  | |- _ = Formula.nr_step ?R _ =>
      match goal with
      | |- context [rsqrt_approx (to_single ?r)] =>
          first [ constr_eq r R
                | let H := fresh in
                  assert (H : r = R) by (unfold rsq3; ring); rewrite !H; clear H ]
      end;
      generalize R; intro; unfold Formula.nr_step; ring
  end.

(** Lines 402-765: each lane holds the geometry of its own j molecule. *)
Lemma calc_geom_spec e x p :
  let j0 := ld32 (a_jjnr a) p in
  let j1 := ld32 (a_jjnr a) (p + 1) in
  let '(g, _, rax, rbx, jj) := calc_geom rsqrt_approx to_single a k e x p in
  g = gzip (ref_geom rsqrt_approx to_single a (lane_w d0 e) (j0 + j0 * 2))
           (ref_geom rsqrt_approx to_single a (lane_w d1 e) (j1 + j1 * 2))
  /\ rax = (j0 + j0 * 2)%Z /\ rbx = (j1 + j1 * 2)%Z /\ jj = (p + 2)%Z.
Proof.
  unfold k. rewrite nb232_setup_spec. w_red.
  split; [|repeat split].
  apply Geom_eq; apply V2_eq; try reflexivity; try (unfold rsq3; ring); rinv_goal.
Qed.

(** Lines 766-1224: every accumulator lane receives the terms of its own
    molecule, and the scratch slots hold what its atoms lose. *)
Lemma interactions_spec g acc scr x rax rbx :
  let m0 := mol_terms_of a (gmap d0 g) in
  let m1 := mol_terms_of a (gmap d1 g) in
  let '(acc', scr', _, eax, ebx) := interactions a k g acc scr x rax rbx in
  acc' = acc_add acc m0 m1 /\ fj_hold scr' m0 m1
  /\ eax = wrap rax /\ ebx = wrap rbx.
Proof.
  unfold k. rewrite nb232_setup_spec. unfold acc_add, fj_hold. w_red. t_red.
  rewrite !two_eq.
  split; [apply Accum_eq; apply V2_eq; ring|].
  repeat split; apply V2_eq; ring.
Qed.

(** Lines 1285-1635: the lower lanes hold the geometry of the one
    molecule. *)
Lemma calc_geom1_spec e x p :
  let j0 := ld32 (a_jjnr a) p in
  let '(g, _, rax) := calc_geom1 rsqrt_approx to_single a k e x p in
  gmap d0 g = ref_geom rsqrt_approx to_single a (lane_w d0 e) (j0 + j0 * 2)
  /\ rax = (j0 + j0 * 2)%Z.
Proof.
  unfold k. rewrite nb232_setup_spec. w_red.
  split; [|reflexivity].
  apply Geom_eq; try reflexivity; try (unfold rsq3; ring); rinv_goal.
Qed.

(** Lines 1636-2078: the lower lane of every accumulator receives the
    terms of the molecule, the upper lane keeps its value. *)
Lemma interactions1_spec g acc scr x rax :
  let m0 := mol_terms_of a (gmap d0 g) in
  let '(acc', scr', _, rax') := interactions1 a k g acc scr x rax in
  acc' = acc_add1 acc m0 /\ fj_hold1 scr' m0 /\ rax' = rax.
Proof.
  unfold k. rewrite nb232_setup_spec. unfold acc_add1, fj_hold1. w_red. t_red.
  rewrite !two_eq.
  split; [apply Accum_eq; apply V2_eq; try reflexivity; ring|].
  repeat split; ring.
Qed.

End Halves.

(** *** The inner loop *)

Definition set_innerk (s : inner) (k' : Z) : inner :=
  Inner (i_acc s) (i_scr s) (nb232_innerjjnr s) k' (i_xmm s) (i_faction s).

Lemma w_unroll_loop_eq rsqrt_approx to_single a k e fuel : forall s,
  unroll_loop rsqrt_approx to_single fuel a k e s =
  PassLoop.pass_loop nb232_innerk set_innerk
    (unroll_body rsqrt_approx to_single a k e) fuel s.
Proof.
  induction fuel as [|fuel IH]; intros s; [reflexivity|].
  cbn [unroll_loop PassLoop.pass_loop]. rewrite IH. reflexivity.
Qed.

(** The scalar totals of one outer entry and the force array, as the flush
    will see them. *)
Definition totals_of (s : inner) : totals :=
  let sum (f : accum -> v2) := d0 (f (i_acc s)) + d1 (f (i_acc s)) in
  Totals (sum nb232_vctot) (sum nb232_Vvdwtot)
         (sum nb232_fixO) (sum nb232_fiyO) (sum nb232_fizO)
         (sum nb232_fixH1) (sum nb232_fiyH1) (sum nb232_fizH1)
         (sum nb232_fixH2) (sum nb232_fiyH2) (sum nb232_fizH2)
         (i_faction s).

(** The molecules of positions [lo .. hi-1] of [jjnr] have separate force
    slots, all below [2^32]. *)
Definition distinct_mols (a : args) (lo hi : Z) : Prop :=
  (forall q, (lo <= q < hi)%Z -> (3 * ld32 (a_jjnr a) q + 8 < 2 ^ 32)%Z)
  /\ (forall q q', (lo <= q < hi)%Z -> (lo <= q' < hi)%Z -> q <> q' ->
        disjoint_mols (3 * ld32 (a_jjnr a) q) (3 * ld32 (a_jjnr a) q')).

Lemma distinct_mols_sub a lo hi lo' hi' :
  (lo <= lo')%Z -> (hi' <= hi)%Z -> distinct_mols a lo hi -> distinct_mols a lo' hi'.
Proof.
  intros H1 H2 [Hb Hd]. split.
  - intros q Hq. apply Hb. lia.
  - intros q q' Hq Hq'. apply Hd; lia.
Qed.

Lemma gmap_gzip_d0 u v : gmap d0 (gzip u v) = u.
Proof. destruct u. reflexivity. Qed.

Lemma gmap_gzip_d1 u v : gmap d1 (gzip u v) = v.
Proof. destruct v. reflexivity. Qed.

(** The entry slots of an i molecule at [w]. *)
Definition entry_w (is3 ii3 : Z) (w : water) : entry :=
  Entry is3 ii3 (splat2 (w_xO w)) (splat2 (w_yO w)) (splat2 (w_zO w))
        (splat2 (w_xH1 w)) (splat2 (w_yH1 w)) (splat2 (w_zH1 w))
        (splat2 (w_xH2 w)) (splat2 (w_yH2 w)) (splat2 (w_zH2 w)).

Lemma lane_w_d0 is3 ii3 w : lane_w d0 (entry_w is3 ii3 w) = w.
Proof. destruct w. reflexivity. Qed.

Lemma lane_w_d1 is3 ii3 w : lane_w d1 (entry_w is3 ii3 w) = w.
Proof. destruct w. reflexivity. Qed.

Lemma w_ref_eval_app rs ts a w l1 l2 t :
  ref_eval rs ts a w (l1 ++ l2) t = ref_eval rs ts a w l2 (ref_eval rs ts a w l1 t).
Proof. unfold ref_eval. apply fold_left_app. Qed.

Section EntryReference.
Variable rsqrt_approx : real -> real.
Variable to_single : real -> real.
Variable a : args.
Variable x4 : v2.
Variables is3 ii3 : Z.
Variable w : water.

Let k := setup a x4.
Let e := entry_w is3 ii3 w.
Let ref := ref_eval rsqrt_approx to_single a w.

Lemma w_unroll_body_innerk s :
  nb232_innerk (unroll_body rsqrt_approx to_single a k e s) = nb232_innerk s.
Proof.
  unfold unroll_body.
  destruct (calc_geom _ _ _ _ _ _ _) as [[[[g x'] rax] rbx] jj].
  destruct (interactions _ _ _ _ _ _ _ _) as [[[[acc' scr'] x''] eax] ebx].
  destruct (update_jforces _ _ _ _ _). reflexivity.
Qed.

Lemma w_unroll_body_innerjjnr s :
  nb232_innerjjnr (unroll_body rsqrt_approx to_single a k e s) =
  (nb232_innerjjnr s + 2)%Z.
Proof.
  unfold unroll_body.
  pose proof (calc_geom_spec rsqrt_approx to_single a x4 e (i_xmm s)
                (nb232_innerjjnr s)) as HA.
  cbv zeta in HA. fold k in HA.
  destruct (calc_geom _ _ _ _ _ _ _) as [[[[g x'] rax] rbx] jj].
  destruct HA as (_ & _ & _ & ->).
  destruct (interactions _ _ _ _ _ _ _ _) as [[[[acc' scr'] x''] eax] ebx].
  destruct (update_jforces _ _ _ _ _). reflexivity.
Qed.

(** One pass over two different molecules does what two reference
    evaluations do. *)
Lemma w_unroll_body_totals s :
  distinct_mols a (nb232_innerjjnr s) (nb232_innerjjnr s + 2) ->
  totals_of (unroll_body rsqrt_approx to_single a k e s) =
  ref (NB030.j_list a (nb232_innerjjnr s) 2) (totals_of s).
Proof.
  intros [Hb Hd]. unfold unroll_body.
  pose proof (calc_geom_spec rsqrt_approx to_single a x4 e (i_xmm s)
                (nb232_innerjjnr s)) as HA.
  cbv zeta in HA. fold k in HA.
  destruct (calc_geom _ _ _ _ _ _ _) as [[[[g x'] rax] rbx] jj].
  destruct HA as (Hg & -> & -> & ->).
  pose proof (interactions_spec a x4 g (i_acc s) (i_scr s) x'
                (ld32 (a_jjnr a) (nb232_innerjjnr s)
                 + ld32 (a_jjnr a) (nb232_innerjjnr s) * 2)
                (ld32 (a_jjnr a) (nb232_innerjjnr s + 1)
                 + ld32 (a_jjnr a) (nb232_innerjjnr s + 1) * 2)) as HB.
  cbv zeta in HB. fold k in HB.
  destruct (interactions _ _ _ _ _ _ _ _) as [[[[acc' scr'] x''] eax] ebx].
  destruct HB as (-> & Hfj & -> & ->).
  set (j0 := ld32 (a_jjnr a) (nb232_innerjjnr s)) in *.
  set (j1 := ld32 (a_jjnr a) (nb232_innerjjnr s + 1)) in *.
  assert (B0 : (0 <= j0 /\ 3 * j0 + 8 < 2 ^ 32)%Z)
    by (split; [apply Entry030.ld32_range | apply Hb; lia]).
  assert (B1 : (0 <= j1 /\ 3 * j1 + 8 < 2 ^ 32)%Z)
    by (split; [apply Entry030.ld32_range | apply Hb; lia]).
  assert (D01 : disjoint_mols (3 * j0) (3 * j1)) by (apply Hd; lia).
  rewrite !(wrap_small (z := _ + _ * 2)) in * by lia.
  replace (j0 + j0 * 2)%Z with (3 * j0)%Z in * by lia.
  replace (j1 + j1 * 2)%Z with (3 * j1)%Z in * by lia.
  pose proof (update_jforces_spec x'' (i_faction s) D01 Hfj) as HW.
  destruct (update_jforces _ _ _ _ _) as [x3 f']. cbn [snd] in HW. subst f'.
  subst g. rewrite gmap_gzip_d0, gmap_gzip_d1. unfold e.
  rewrite lane_w_d0, lane_w_d1.
  unfold ref. rewrite NB030.j_list_2. fold j0 j1.
  unfold ref_eval, ref_step. cbn [fold_left].
  set (m0 := mol_terms_of a _). set (m1 := mol_terms_of a _).
  unfold totals_of, acc_add, add_terms.
  cbn [i_acc i_faction nb232_vctot nb232_Vvdwtot nb232_fixO nb232_fiyO nb232_fizO
       nb232_fixH1 nb232_fiyH1 nb232_fizH1 nb232_fixH2 nb232_fiyH2 nb232_fizH2 d0 d1
       t_Vc t_Vvdw t_fixO t_fiyO t_fizO t_fixH1 t_fiyH1 t_fizH1 t_fixH2 t_fiyH2
       t_fizH2 t_faction].
  f_equal; ring.
Qed.


(** [.nb232_checksingle] with the remainder [r] of the list: the counter
    holds [r - 2], and bit 0 of that word is [r]. *)
Lemma w_checksingle_spec s r :
  (0 <= r <= 1)%Z -> nb232_innerk s = wrap (r - 2) ->
  checksingle rsqrt_approx to_single a k e s =
  if (r =? 0)%Z then s else dosingle rsqrt_approx to_single a k e s.
Proof.
  intros Hr Hk. unfold checksingle. rewrite Hk.
  assert (Hc : (r = 0 \/ r = 1)%Z) by lia.
  destruct Hc as [-> | ->]; reflexivity.
Qed.

Lemma w_checksingle_totals s r :
  (0 <= r <= 1)%Z -> nb232_innerk s = wrap (r - 2) ->
  totals_of (checksingle rsqrt_approx to_single a k e s) =
  ref (NB030.j_list a (nb232_innerjjnr s) r) (totals_of s).
Proof.
  intros Hr Hk. rewrite (w_checksingle_spec s Hr Hk).
  assert (Hc : (r = 0 \/ r = 1)%Z) by lia.
  destruct Hc as [-> | ->]; cbn [Z.eqb]; [reflexivity|].
  unfold dosingle.
  pose proof (calc_geom1_spec rsqrt_approx to_single a x4 e (i_xmm s)
                (nb232_innerjjnr s)) as HA.
  cbv zeta in HA. fold k in HA.
  destruct (calc_geom1 _ _ _ _ _ _ _) as [[g x'] rax].
  destruct HA as (Hg & ->).
  pose proof (interactions1_spec a x4 g (i_acc s) (i_scr s) x'
                (ld32 (a_jjnr a) (nb232_innerjjnr s)
                 + ld32 (a_jjnr a) (nb232_innerjjnr s) * 2)) as HB.
  cbv zeta in HB. fold k in HB.
  destruct (interactions1 _ _ _ _ _ _ _) as [[[acc' scr'] x''] rax'].
  destruct HB as (-> & Hfj & ->).
  set (j0 := ld32 (a_jjnr a) (nb232_innerjjnr s)) in *.
  replace (j0 + j0 * 2)%Z with (3 * j0)%Z in * by lia.
  pose proof (update_jforces1_spec x'' (3 * j0) (i_faction s) Hfj) as HW.
  destruct (update_jforces1 _ _ _ _) as [x3 f']. cbn [snd] in HW. subst f'.
  rewrite Hg. unfold e. rewrite lane_w_d0.
  unfold ref. rewrite NB030.j_list_1. fold j0.
  unfold ref_eval, ref_step. cbn [fold_left].
  set (m0 := mol_terms_of a _).
  unfold totals_of, acc_add1, add_terms.
  cbn [i_acc i_faction nb232_vctot nb232_Vvdwtot nb232_fixO nb232_fiyO nb232_fizO
       nb232_fixH1 nb232_fiyH1 nb232_fizH1 nb232_fixH2 nb232_fiyH2 nb232_fizH2 d0 d1
       t_Vc t_Vvdw t_fixO t_fiyO t_fizO t_fixH1 t_fiyH1 t_fizH1 t_fixH2 t_fiyH2
       t_fizH2 t_faction].
  f_equal; ring.
Qed.

Lemma iter_pass_ref m : forall p t,
  PassLoop.iter_pass (fun p t => ref (NB030.j_list a p 2) t) m p t =
  ref (NB030.j_list a p (2 * Z.of_nat m)) t.
Proof.
  induction m as [|m IH]; intros p t; [reflexivity|].
  cbn [PassLoop.iter_pass]. rewrite IH.
  replace (2 * Z.of_nat (S m))%Z with (2 + 2 * Z.of_nat m)%Z by lia.
  rewrite Entry030.j_list_app by lia. unfold ref.
  rewrite w_ref_eval_app. reflexivity.
Qed.

(** The unrolled loop followed by the single-molecule tail, from a state
    whose counter holds [N - 2]: the [N] molecules are evaluated once
    each, in order. *)
Lemma w_inner_loop_totals (fuel : nat) (s : inner) (N : Z) :
  (0 <= N < 2 ^ 31)%Z -> (N <= 2 * Z.of_nat fuel)%Z ->
  nb232_innerk s = sub32 N 2 ->
  distinct_mols a (nb232_innerjjnr s) (nb232_innerjjnr s + N) ->
  exists s',
    (if cond_ge (add_flags (sub32 N 2) 0)
     then unroll_loop rsqrt_approx to_single fuel a k e s else Some s) = Some s'
    /\ totals_of (checksingle rsqrt_approx to_single a k e s') =
       ref (NB030.j_list a (nb232_innerjjnr s) N) (totals_of s).
Proof.
  intros HN Hfuel Hk Hd.
  assert (H2 : in_range (sub32 N 2)) by apply wrap_range.
  rewrite cond_ge_add0 by exact H2.
  destruct (Z_lt_le_dec N 2) as [Hlt|Hge].
  - assert (Hs : signed (sub32 N 2) = (N - 2)%Z).
    { unfold sub32. apply signed_wrap_neg. lia. }
    rewrite Hs. destruct (Z.leb_spec 0 (N - 2)); [lia|].
    exists s. split; [reflexivity|].
    apply w_checksingle_totals; [lia | exact Hk].
  - assert (Hk2 : sub32 N 2 = (N - 2)%Z).
    { unfold sub32. apply wrap_small. lia. }
    assert (Hs : signed (sub32 N 2) = (N - 2)%Z).
    { rewrite Hk2. apply signed_small. lia. }
    rewrite Hs. destruct (Z.leb_spec 0 (N - 2)); [|lia].
    rewrite w_unroll_loop_eq.
    destruct (@PassLoop.pass_loop_totals inner totals nb232_innerk nb232_innerjjnr
                set_innerk totals_of
                (unroll_body rsqrt_approx to_single a k e)
                (fun p => distinct_mols a p (p + 2))
                (fun p t => ref (NB030.j_list a p 2) t)
                (fun s1 k' => eq_refl) (fun s1 k' => eq_refl) (fun s1 k' => eq_refl)
                w_unroll_body_innerk w_unroll_body_innerjjnr w_unroll_body_totals)
      with (fuel := fuel) (s := s)
      as (s' & m & r & Hrun & Hr & HK & Hk' & Hj' & Ht').
    + rewrite Hk. exact H2.
    + rewrite Hk, Hs. lia.
    + intros i Hi Hi'. rewrite Hk, Hs in Hi'.
      eapply distinct_mols_sub; [| |exact Hd]; lia.
    + exists s'. split; [exact Hrun|].
      rewrite Hk, Hs in HK.
      rewrite (@w_checksingle_totals s' r ltac:(lia) Hk').
      rewrite Hj', Ht'. rewrite iter_pass_ref.
      replace (NB030.j_list a (nb232_innerjjnr s) N)
        with (NB030.j_list a (nb232_innerjjnr s) (2 * Z.of_nat (S m) + r))
        by (f_equal; lia).
      rewrite Entry030.j_list_app by lia. unfold ref.
      rewrite w_ref_eval_app. reflexivity.
Qed.

End EntryReference.

(** *** One outer entry *)

(** The shifted coordinates of the i molecule of entry [esi]. *)
Definition water_of (a : args) (esi : Z) : water :=
  let sh := ld32 (a_shift a) esi in
  let ii := ld32 (a_iinr a) esi in
  let sh3 := (sh + sh * 2)%Z in
  let ii3 := (ii + ii * 2)%Z in
  let sx := a_shiftvec a sh3 in
  let sy := a_shiftvec a (sh3 + 1)%Z in
  let sz := a_shiftvec a (sh3 + 2)%Z in
  Water (sx + a_pos a ii3) (sy + a_pos a (ii3 + 1)%Z) (sz + a_pos a (ii3 + 2)%Z)
        (sx + a_pos a (ii3 + 3)%Z) (sy + a_pos a (ii3 + 4)%Z) (sz + a_pos a (ii3 + 5)%Z)
        (sx + a_pos a (ii3 + 6)%Z) (sy + a_pos a (ii3 + 7)%Z) (sz + a_pos a (ii3 + 8)%Z).

(** What [.nb232_outer] leaves in the entry slots. *)
Definition entry_of (a : args) (esi : Z) : entry :=
  let sh := ld32 (a_shift a) esi in
  let ii := ld32 (a_iinr a) esi in
  entry_w (wrap (sh + sh * 2)) (wrap (ii + ii * 2)) (water_of a esi).

Definition zero_acc : accum :=
  Accum xorpd_self xorpd_self xorpd_self xorpd_self xorpd_self xorpd_self
        xorpd_self xorpd_self xorpd_self xorpd_self xorpd_self.

Definition zero_totals (f : fmem) : totals := Totals 0 0 0 0 0 0 0 0 0 0 0 f.

Lemma w_totals_of_zero scr j k x f :
  totals_of (Inner zero_acc scr j k x f) = zero_totals f.
Proof.
  unfold totals_of, zero_totals.
  cbn [i_acc zero_acc nb232_vctot nb232_Vvdwtot nb232_fixO nb232_fiyO nb232_fizO
       nb232_fixH1 nb232_fiyH1 nb232_fizH1 nb232_fixH2 nb232_fiyH2 nb232_fizH2
       i_faction xorpd_self d0 d1].
  rewrite Qcplus_0_l. reflexivity.
Qed.

Lemma w_outer_setup_spec a esi ninner x scr f :
  outer_setup a esi ninner x scr f =
  (entry_of a esi,
   Inner zero_acc scr (NB030.nj0 a esi)
         (add32 (sub32 (NB030.ninner_of a esi) 2) 0)
         (i_xmm (snd (fst (fst (outer_setup a esi ninner x scr f))))) f,
   add32 (NB030.ninner_of a esi) ninner,
   add_flags (sub32 (NB030.ninner_of a esi) 2) 0).
Proof. reflexivity. Qed.

(** [f[i .. i+8] += ] the forces on the three atoms of the i molecule. *)
Definition add_mol (f : fmem) (i : Z) (t : totals) : fmem :=
  add_force
    (add_force
       (add_force f i (t_fixO t) (t_fiyO t) (t_fizO t))
       (i + 3)%Z (t_fixH1 t) (t_fiyH1 t) (t_fizH1 t))
    (i + 6)%Z (t_fixH2 t) (t_fiyH2 t) (t_fizH2 t).

(** What [.nb232_updateouterdata] does with the totals of an entry: the
    forces go to the three i atoms, their sum to the shift force, the
    energies to the group of the entry. *)
Definition flush (e : entry) (g : Z) (t : totals) (o : outputs) : outputs :=
  Outputs (add_mol (t_faction t) (nb232_ii3 e) t)
          (add_force (o_fshift o) (nb232_is3 e)
             (t_fixO t + t_fixH1 t + t_fixH2 t)
             (t_fiyO t + t_fiyH1 t + t_fiyH2 t)
             (t_fizO t + t_fizH1 t + t_fizH2 t))
          (store (o_Vc o) g (t_Vc t + o_Vc o g))
          (store (o_Vvdw o) g (t_Vvdw t + o_Vvdw o g)).

Lemma Outputs_eq (u0 u1 u2 u3 v0 v1 v2 v3 : fmem) :
  u0 = v0 -> u1 = v1 -> u2 = v2 -> u3 = v3 ->
  Outputs u0 u1 u2 u3 = Outputs v0 v1 v2 v3.
Proof. intros. subst. reflexivity. Qed.

Lemma w_updateouterdata_spec a e n s o :
  snd (updateouterdata a e n (i_acc s) (i_xmm s) (i_faction s) o) =
  flush e (ld32 (a_gid a) n) (totals_of s) o.
Proof.
  destruct s as [[[? ?] [? ?] [? ?] [? ?] [? ?] [? ?] [? ?] [? ?] [? ?] [? ?] [? ?]]
                   ? ? ? x f].
  destruct o as [f0 fs Vc Vv], e as [is3 ii3 ? ? ? ? ? ? ? ? ?].
  unfold flush, add_mol, totals_of.
  cbv beta iota zeta delta
    [updateouterdata snd fst i_acc i_xmm i_faction
     nb232_is3 nb232_ii3 nb232_vctot nb232_Vvdwtot
     nb232_fixO nb232_fiyO nb232_fizO nb232_fixH1 nb232_fiyH1 nb232_fizH1
     nb232_fixH2 nb232_fiyH2 nb232_fizH2
     t_Vc t_Vvdw t_fixO t_fiyO t_fizO t_fixH1 t_fiyH1 t_fizH1 t_fixH2 t_fiyH2
     t_fizH2 t_faction o_faction o_fshift o_Vc o_Vvdw
     NB030d.q0 NB030d.q1 NB030d.q2 NB030d.q3 NB030d.q4 NB030d.q5 NB030d.q6 NB030d.q7
     d0 d1 addpd addsd unpcklpd movsd movsd_rr movlpd movhpd movlpd_st movhpd_st
     NB030d.addsd_m NB030d.movsd_st NB030d.movhlps_d].
  apply Outputs_eq; try reflexivity.
  apply functional_extensionality. intros p.
  unfold add_force.
  replace (ii3 + 3 + 1)%Z with (ii3 + 4)%Z by lia.
  replace (ii3 + 3 + 2)%Z with (ii3 + 5)%Z by lia.
  replace (ii3 + 6 + 1)%Z with (ii3 + 7)%Z by lia.
  replace (ii3 + 6 + 2)%Z with (ii3 + 8)%Z by lia.
  unfold store.
  repeat match goal with
         | |- context [Z.eqb ?u ?v] =>
             destruct (Z.eqb_spec u v); try (exfalso; lia); cbv beta iota
         end; try subst p; ring.
Qed.

Section EntryTheorems.
Variable rsqrt_approx : real -> real.
Variable to_single : real -> real.
Variable a : args.
Variable x4 : v2.

Let k := setup a x4.

(** What an entry does by the reference: the forces of its list taken off
    the atoms of the j molecules, their sums added to the atoms of the i
    molecule and to the shift force, the energies added to the slots of
    the entry's group. *)
Definition ref_entry (esi : Z) (o : outputs) : outputs :=
  let R := ref_eval rsqrt_approx to_single a (water_of a esi)
             (NB030.j_list a (NB030.nj0 a esi) (NB030.ninner_of a esi))
             (zero_totals (o_faction o)) in
  flush (entry_of a esi) (ld32 (a_gid a) esi) R o.

Lemma w_outer_entry_reference (fuel : nat) (esi ninner : Z) (c : carried)
    (o : outputs) :
  let N := NB030.ninner_of a esi in
  let p := NB030.nj0 a esi in
  (N < 2 ^ 31)%Z -> (N <= 2 * Z.of_nat fuel)%Z ->
  distinct_mols a p (p + N) ->
  exists c',
    outer_entry rsqrt_approx to_single fuel a k esi ninner c o =
    Some (add32 N ninner, c', ref_entry esi o).
Proof.
  intros N p HN Hfuel Hd.
  assert (HNr : in_range N) by apply wrap_range.
  unfold outer_entry.
  rewrite (w_outer_setup_spec a esi ninner (fst c) (snd c) (o_faction o)).
  set (x1 := i_xmm _).
  rewrite NB030.add32_0_sub32. fold N.
  unfold entry_of. cbv zeta.
  match goal with
  | |- context [unroll_loop _ _ _ _ _ (entry_w ?i1 ?i2 ?w) ?s] =>
      destruct (@w_inner_loop_totals rsqrt_approx to_single a x4 i1 i2 w
                  fuel s N)
        as (s' & Hrun & Htot)
  end.
  - unfold in_range in HNr. lia.
  - exact Hfuel.
  - reflexivity.
  - exact Hd.
  - fold k in Hrun, Htot. rewrite Hrun.
    rewrite w_totals_of_zero in Htot. cbn [nb232_innerjjnr] in Htot.
    rewrite (surjective_pairing (updateouterdata _ _ _ _ _ _ _)).
    rewrite w_updateouterdata_spec. rewrite Htot.
    eexists. reflexivity.
Qed.

(** Kernel 232 against the reference: an outer entry whose list holds [N]
    water molecules with separate force slots leaves in the output arrays
    what the reference leaves, which evaluates the nine atom pairs of each
    molecule with two Newton-Raphson steps on the single-precision seed. *)
Theorem w_entry_reference (fuel : nat) (esi ninner : Z) (c : carried)
    (o : outputs) :
  let N := NB030.ninner_of a esi in
  let p := NB030.nj0 a esi in
  (N < 2 ^ 31)%Z -> (N <= 2 * Z.of_nat fuel)%Z ->
  distinct_mols a p (p + N) ->
  exists c',
    outer_entry rsqrt_approx to_single fuel a k esi ninner c o =
    Some (add32 N ninner, c', ref_entry esi o).
Proof. apply w_outer_entry_reference. Qed.

End EntryTheorems.

(** *** The whole kernel, run by one thread *)

Section Kernel232.
Variable rsqrt_approx : real -> real.
Variable to_single : real -> real.

(** Lines 207-278 with the registers they leave: [xmm0]-[xmm5] hold what
    was last stored, [xmm6] the scalar [facel]. *)
Definition prologue (a : args) (x : xmmd) : consts * xmmd :=
  let k := setup a (q4 x) in
  (k, Xmmd (nb232_c6 k) (nb232_c12 k) (nb232_two k) (nb232_qqOO k)
           (nb232_qqOH k) (nb232_qqHH k) (movsd_v (nb232_facel k)) (q7 x)).

(** The kernel from its first instruction to [ret] (lines 160-2279);
    [count] is the value of the shared counter when it is called, [scr]
    what the scratch slots of the new stack frame hold. *)
Definition nb_kernel232 (fuel ofuel ifuel : nat) (a : args) (count : Z)
    (x : xmmd) (scr : scratch) (o : outputs)
    : option (Threads.kernel_result carried outputs) :=
  let eax := 0%Z in
  let nb232_nouter := eax in
  let nb232_ninner := eax in
  let edi := wrap (a_nri a) in                          (* mov edi, [rdi] *)
  let nb232_nri := edi in
  let '(k, x) := prologue a x in
  Threads.thread_loop (outer_entry rsqrt_approx to_single ifuel a k)
    fuel ofuel nb232_nri count nb232_nouter nb232_ninner (x, scr) o.

(** An entry the kernel can run: its list is not longer than [2^31 - 1]
    (and than the fuel allows), and names water molecules with separate
    force slots below [2^32]. *)
Definition entry_ok (ifuel : nat) (a : args) (n : Z) : Prop :=
  ((NB030.ninner_of a n < 2 ^ 31)%Z /\ (NB030.ninner_of a n <= 2 * Z.of_nat ifuel)%Z)
  /\ distinct_mols a (NB030.nj0 a n) (NB030.nj0 a n + NB030.ninner_of a n).

Definition ref_entries (a : args) : nat -> Z -> outputs -> outputs :=
  Threads.fold_from (ref_entry rsqrt_approx to_single a).

Lemma w_kernel_run (fuel ofuel ifuel : nat) (a : args) (c : Z)
    (x : xmmd) (scr : scratch) (o : outputs) :
  let nri := wrap (a_nri a) in
  (0 <= c < nri)%Z -> (nri < 2 ^ 31)%Z ->
  (nri - c <= Z.of_nat fuel)%Z -> (0 < ofuel)%nat ->
  (forall n, (c <= n < nri)%Z -> entry_ok ifuel a n) ->
  exists c',
    nb_kernel232 fuel ofuel ifuel a c x scr o =
      Some (Threads.Run nri (nri - c)
              (wrap (Run030.sum_ninner a (Z.to_nat (nri - c)) c)) c'
              (ref_entries a (Z.to_nat (nri - c)) c o)).
Proof.
  intros nri Hc Hnri Hf Hof Hfit.
  unfold nb_kernel232. cbv zeta. fold nri.
  rewrite (surjective_pairing (prologue a x)).
  destruct (@Threads.entries_fold carried outputs
              (outer_entry rsqrt_approx to_single ifuel a (fst (prologue a x)))
              (NB030.ninner_of a) (ref_entry rsqrt_approx to_single a)
              (entry_ok ifuel a))
    with (m := Z.to_nat (nri - c)) (c := c) (ninner := 0%Z)
         (x := (snd (prologue a x), scr)) (o := o)
    as (x' & Hent).
  - intros esi ni y p [[H1 H2] Hd].
    apply (@w_outer_entry_reference rsqrt_approx to_single a (q4 x) ifuel esi ni y p
             H1 H2 Hd).
  - intros n Hn. apply Hfit. lia.
  - exists x'. apply Threads.thread_loop_run; try assumption. apply wrap_range.
Qed.


(** The whole of kernel 232 against the reference: a single thread leaves
    in the output arrays what the reference leaves after the entries
    [c .. nri-1], and reports [nri - c] outer and the summed list lengths
    as inner iterations. *)
Theorem w_kernel_reference (fuel ofuel ifuel : nat) (a : args) (c : Z)
    (x : xmmd) (scr : scratch) (o : outputs) :
  let nri := wrap (a_nri a) in
  (0 <= c < nri)%Z -> (nri < 2 ^ 31)%Z ->
  (nri - c <= Z.of_nat fuel)%Z -> (0 < ofuel)%nat ->
  (forall n, (c <= n < nri)%Z -> entry_ok ifuel a n) ->
  exists c',
    nb_kernel232 fuel ofuel ifuel a c x scr o =
      Some (Threads.Run nri (nri - c)
              (wrap (Run030.sum_ninner a (Z.to_nat (nri - c)) c)) c'
              (ref_entries a (Z.to_nat (nri - c)) c o)).
Proof. apply w_kernel_run. Qed.

End Kernel232.
End Water232.


(** ** The energy-only [nb_kernel232nf_x86_64_sse2] *)

Module Water232nf.
Import W32 SSE Kernel.
Local Open Scope Z_scope.

Abbreviation xmmd := NB030d.xmmd.
Abbreviation Xmmd := NB030d.Xmmd.
Abbreviation q0 := NB030d.q0.
Abbreviation q1 := NB030d.q1.
Abbreviation q2 := NB030d.q2.
Abbreviation q3 := NB030d.q3.
Abbreviation q4 := NB030d.q4.
Abbreviation q5 := NB030d.q5.
Abbreviation q6 := NB030d.q6.
Abbreviation q7 := NB030d.q7.
Abbreviation movhlps_d := NB030d.movhlps_d.
Abbreviation addsd_m := NB030d.addsd_m.
Abbreviation movsd_st := NB030d.movsd_st.
Abbreviation cvttsd2si := NB030d.cvttsd2si.
Abbreviation cvtsi2sd := NB030d.cvtsi2sd.

(** Stack slots written once before the thread loop. *)
Record consts : Type := Consts {
  nb232nf_facel : real;
  nb232nf_tsc : v2;
  nb232nf_krf : v2;
  nb232nf_crf : v2;
  nb232nf_half : v2;
  nb232nf_three : v2;
  nb232nf_qqOO : v2;
  nb232nf_qqOH : v2;
  nb232nf_qqHH : v2;
  nb232nf_c6 : v2;
  nb232nf_c12 : v2
}.

(** Stack slots written at the start of an outer entry. *)
Record entry : Type := Entry {
  nb232nf_is3 : Z;
  nb232nf_ii3 : Z;
  nb232nf_ixO : v2; nb232nf_iyO : v2; nb232nf_izO : v2;
  nb232nf_ixH1 : v2; nb232nf_iyH1 : v2; nb232nf_izH1 : v2;
  nb232nf_ixH2 : v2; nb232nf_iyH2 : v2; nb232nf_izH2 : v2
}.

(** The two energies. *)
Record accum : Type := Accum {
  nb232nf_vctot : v2;
  nb232nf_Vvdwtot : v2
}.

(** Squared distances and inverse distances of the nine atom pairs. *)
Record dist_of {A : Type} : Type := Dist {
  nb232nf_rsqOO : A;
  nb232nf_rsqOH1 : A;
  nb232nf_rsqOH2 : A;
  nb232nf_rsqH1O : A;
  nb232nf_rsqH1H1 : A;
  nb232nf_rsqH1H2 : A;
  nb232nf_rsqH2O : A;
  nb232nf_rsqH2H1 : A;
  nb232nf_rsqH2H2 : A;
  nb232nf_rinvOO : A;
  nb232nf_rinvOH1 : A;
  nb232nf_rinvOH2 : A;
  nb232nf_rinvH1O : A;
  nb232nf_rinvH1H1 : A;
  nb232nf_rinvH1H2 : A;
  nb232nf_rinvH2O : A;
  nb232nf_rinvH2H1 : A;
  nb232nf_rinvH2H2 : A
}.
Abbreviation dist := (@dist_of v2).

(** What the inner loop carries from pass to pass. *)
Record inner : Type := Inner {
  i_acc : accum;
  nb232nf_innerjjnr : Z;    (* index into jjnr of the next entry *)
  nb232nf_innerk : Z;
  i_xmm : xmmd
}.

Section Code.

(** The hardware approximation behind [rsqrtps] and [rsqrtss], and the
    rounding of a double to single precision. *)
Variable rsqrt_approx : real -> real.
Variable to_single : real -> real.

Definition rsqrtps (s : v4) : v4 :=
  V4 (rsqrt_approx (l0 s)) (rsqrt_approx (l1 s))
     (rsqrt_approx (l2 s)) (rsqrt_approx (l3 s)).

Definition cvtsd2ss (s : v2) : real := to_single (d0 s).
Definition rsqrtss (x : real) : real := rsqrt_approx x.
Definition cvtss2sd (d : v2) (x : real) : v2 := V2 x (d1 d).

(** Lines 2399-2469: the table scale, the reaction-field constants, the
    numeric constants, and the charge products and Lennard-Jones parameters
    of the first water molecule. *)
Definition prologue (a : args) (x : xmmd) : consts * xmmd :=
  let xmm0 := movsd_v (a_facel a) in
  let nb232nf_facel := d0 xmm0 in
  let xmm3 := movsd_v (a_tabscale a) in
  let xmm3 := shufpd xmm3 xmm3 0 in
  let nb232nf_tsc := xmm3 in
  let xmm1 := movsd_v (a_krf a) in
  let xmm2 := movsd_v (a_crf a) in
  let xmm1 := shufpd xmm1 xmm1 0 in
  let xmm2 := shufpd xmm2 xmm2 0 in
  let nb232nf_krf := xmm1 in
  let nb232nf_crf := xmm2 in
  let xmm1 := movsd_v half_bits in
  let xmm1 := shufpd xmm1 xmm1 0 in
  let xmm3 := xmm1 in
  let xmm3 := addpd xmm3 xmm3 in
  let xmm2 := xmm3 in
  let xmm2 := addpd xmm2 xmm2 in
  let xmm3 := addpd xmm3 xmm2 in
  let nb232nf_half := xmm1 in
  let nb232nf_three := xmm3 in
  let ebx := ld32 (a_iinr a) 0 in
  let xmm3 := movsd (a_charge a) ebx in
  let xmm4 := movsd_rr (q4 x) xmm3 in
  let xmm5 := movsd (a_charge a) (ebx + 1) in
  let xmm6 := movsd_v nb232nf_facel in
  let xmm3 := mulsd xmm3 xmm3 in
  let xmm4 := mulsd xmm4 xmm5 in
  let xmm5 := mulsd xmm5 xmm5 in
  let xmm3 := mulsd xmm3 xmm6 in
  let xmm4 := mulsd xmm4 xmm6 in
  let xmm5 := mulsd xmm5 xmm6 in
  let xmm3 := shufpd xmm3 xmm3 0 in
  let xmm4 := shufpd xmm4 xmm4 0 in
  let xmm5 := shufpd xmm5 xmm5 0 in
  let nb232nf_qqOO := xmm3 in
  let nb232nf_qqOH := xmm4 in
  let nb232nf_qqHH := xmm5 in
  let xmm0 := xorpd_self in
  let ecx := ld32 (a_type a) ebx in
  let ecx := shl32 ecx 1 in
  let edx := ecx in
  let ecx := mul32 ecx (wrap (a_ntype a)) in
  let edx := add32 edx ecx in
  let xmm0 := movlpd xmm0 (a_vdwparam a) edx in
  let xmm1 := movlpd xmm1 (a_vdwparam a) (edx + 1) in
  let xmm0 := shufpd xmm0 xmm0 0 in
  let xmm1 := shufpd xmm1 xmm1 0 in
  let nb232nf_c6 := xmm0 in
  let nb232nf_c12 := xmm1 in
  (Consts nb232nf_facel nb232nf_tsc nb232nf_krf nb232nf_crf nb232nf_half
    nb232nf_three nb232nf_qqOO nb232nf_qqOH nb232nf_qqHH nb232nf_c6
    nb232nf_c12,
   Xmmd xmm0 xmm1 xmm2 xmm3 xmm4 xmm5 xmm6 (q7 x)).

(** Lines 2583-2921: the nine coordinates of the two j molecules, the nine
    squared distances and their inverse square roots. *)
Definition calc_dist (a : args) (k : consts) (e : entry) (x : xmmd)
    (nb232nf_innerjjnr : Z) : dist * xmmd * Z :=
  let rdx := nb232nf_innerjjnr in
  let eax := ld32 (a_jjnr a) rdx in
  let ebx := ld32 (a_jjnr a) (rdx + 1) in
  let nb232nf_innerjjnr := nb232nf_innerjjnr + 2 in
  let rax := eax + eax * 2 in
  let rbx := ebx + ebx * 2 in
  let xmm2 := movlpd (q2 x) (a_pos a) rax in
  let xmm3 := movlpd (q3 x) (a_pos a) (rax + 1) in
  let xmm4 := movlpd (q4 x) (a_pos a) (rax + 2) in
  let xmm5 := movlpd (q5 x) (a_pos a) (rax + 3) in
  let xmm6 := movlpd (q6 x) (a_pos a) (rax + 4) in
  let xmm7 := movlpd (q7 x) (a_pos a) (rax + 5) in
  let xmm2 := movhpd xmm2 (a_pos a) rbx in
  let xmm3 := movhpd xmm3 (a_pos a) (rbx + 1) in
  let xmm4 := movhpd xmm4 (a_pos a) (rbx + 2) in
  let xmm5 := movhpd xmm5 (a_pos a) (rbx + 3) in
  let xmm6 := movhpd xmm6 (a_pos a) (rbx + 4) in
  let xmm7 := movhpd xmm7 (a_pos a) (rbx + 5) in
  let nb232nf_jxO := xmm2 in
  let nb232nf_jyO := xmm3 in
  let nb232nf_jzO := xmm4 in
  let nb232nf_jxH1 := xmm5 in
  let nb232nf_jyH1 := xmm6 in
  let nb232nf_jzH1 := xmm7 in
  let xmm2 := movlpd xmm2 (a_pos a) (rax + 6) in
  let xmm3 := movlpd xmm3 (a_pos a) (rax + 7) in
  let xmm4 := movlpd xmm4 (a_pos a) (rax + 8) in
  let xmm2 := movhpd xmm2 (a_pos a) (rbx + 6) in
  let xmm3 := movhpd xmm3 (a_pos a) (rbx + 7) in
  let xmm4 := movhpd xmm4 (a_pos a) (rbx + 8) in
  let nb232nf_jxH2 := xmm2 in
  let nb232nf_jyH2 := xmm3 in
  let nb232nf_jzH2 := xmm4 in
  let xmm0 := nb232nf_ixO e in
  let xmm1 := nb232nf_iyO e in
  let xmm2 := nb232nf_izO e in
  let xmm3 := nb232nf_ixO e in
  let xmm4 := nb232nf_iyO e in
  let xmm5 := nb232nf_izO e in
  let xmm0 := subpd xmm0 nb232nf_jxO in
  let xmm1 := subpd xmm1 nb232nf_jyO in
  let xmm2 := subpd xmm2 nb232nf_jzO in
  let xmm3 := subpd xmm3 nb232nf_jxH1 in
  let xmm4 := subpd xmm4 nb232nf_jyH1 in
  let xmm5 := subpd xmm5 nb232nf_jzH1 in
  let xmm0 := mulpd xmm0 xmm0 in
  let xmm1 := mulpd xmm1 xmm1 in
  let xmm2 := mulpd xmm2 xmm2 in
  let xmm3 := mulpd xmm3 xmm3 in
  let xmm4 := mulpd xmm4 xmm4 in
  let xmm5 := mulpd xmm5 xmm5 in
  let xmm0 := addpd xmm0 xmm1 in
  let xmm0 := addpd xmm0 xmm2 in
  let xmm3 := addpd xmm3 xmm4 in
  let xmm3 := addpd xmm3 xmm5 in
  let nb232nf_rsqOO := xmm0 in
  let nb232nf_rsqOH1 := xmm3 in
  let xmm0 := nb232nf_ixO e in
  let xmm1 := nb232nf_iyO e in
  let xmm2 := nb232nf_izO e in
  let xmm3 := nb232nf_ixH1 e in
  let xmm4 := nb232nf_iyH1 e in
  let xmm5 := nb232nf_izH1 e in
  let xmm0 := subpd xmm0 nb232nf_jxH2 in
  let xmm1 := subpd xmm1 nb232nf_jyH2 in
  let xmm2 := subpd xmm2 nb232nf_jzH2 in
  let xmm3 := subpd xmm3 nb232nf_jxO in
  let xmm4 := subpd xmm4 nb232nf_jyO in
  let xmm5 := subpd xmm5 nb232nf_jzO in
  let xmm0 := mulpd xmm0 xmm0 in
  let xmm1 := mulpd xmm1 xmm1 in
  let xmm2 := mulpd xmm2 xmm2 in
  let xmm3 := mulpd xmm3 xmm3 in
  let xmm4 := mulpd xmm4 xmm4 in
  let xmm5 := mulpd xmm5 xmm5 in
  let xmm0 := addpd xmm0 xmm1 in
  let xmm0 := addpd xmm0 xmm2 in
  let xmm3 := addpd xmm3 xmm4 in
  let xmm3 := addpd xmm3 xmm5 in
  let nb232nf_rsqOH2 := xmm0 in
  let nb232nf_rsqH1O := xmm3 in
  let xmm0 := nb232nf_ixH1 e in
  let xmm1 := nb232nf_iyH1 e in
  let xmm2 := nb232nf_izH1 e in
  let xmm3 := nb232nf_ixH1 e in
  let xmm4 := nb232nf_iyH1 e in
  let xmm5 := nb232nf_izH1 e in
  let xmm0 := subpd xmm0 nb232nf_jxH1 in
  let xmm1 := subpd xmm1 nb232nf_jyH1 in
  let xmm2 := subpd xmm2 nb232nf_jzH1 in
  let xmm3 := subpd xmm3 nb232nf_jxH2 in
  let xmm4 := subpd xmm4 nb232nf_jyH2 in
  let xmm5 := subpd xmm5 nb232nf_jzH2 in
  let xmm0 := mulpd xmm0 xmm0 in
  let xmm1 := mulpd xmm1 xmm1 in
  let xmm2 := mulpd xmm2 xmm2 in
  let xmm3 := mulpd xmm3 xmm3 in
  let xmm4 := mulpd xmm4 xmm4 in
  let xmm5 := mulpd xmm5 xmm5 in
  let xmm0 := addpd xmm0 xmm1 in
  let xmm0 := addpd xmm0 xmm2 in
  let xmm3 := addpd xmm3 xmm4 in
  let xmm3 := addpd xmm3 xmm5 in
  let nb232nf_rsqH1H1 := xmm0 in
  let nb232nf_rsqH1H2 := xmm3 in
  let xmm0 := nb232nf_ixH2 e in
  let xmm1 := nb232nf_iyH2 e in
  let xmm2 := nb232nf_izH2 e in
  let xmm3 := nb232nf_ixH2 e in
  let xmm4 := nb232nf_iyH2 e in
  let xmm5 := nb232nf_izH2 e in
  let xmm0 := subpd xmm0 nb232nf_jxO in
  let xmm1 := subpd xmm1 nb232nf_jyO in
  let xmm2 := subpd xmm2 nb232nf_jzO in
  let xmm3 := subpd xmm3 nb232nf_jxH1 in
  let xmm4 := subpd xmm4 nb232nf_jyH1 in
  let xmm5 := subpd xmm5 nb232nf_jzH1 in
  let xmm0 := mulpd xmm0 xmm0 in
  let xmm1 := mulpd xmm1 xmm1 in
  let xmm2 := mulpd xmm2 xmm2 in
  let xmm3 := mulpd xmm3 xmm3 in
  let xmm4 := mulpd xmm4 xmm4 in
  let xmm5 := mulpd xmm5 xmm5 in
  let xmm0 := addpd xmm0 xmm1 in
  let xmm0 := addpd xmm0 xmm2 in
  let xmm4 := addpd xmm4 xmm3 in
  let xmm4 := addpd xmm4 xmm5 in
  let nb232nf_rsqH2O := xmm0 in
  let nb232nf_rsqH2H1 := xmm4 in
  let xmm0 := nb232nf_ixH2 e in
  let xmm1 := nb232nf_iyH2 e in
  let xmm2 := nb232nf_izH2 e in
  let xmm0 := subpd xmm0 nb232nf_jxH2 in
  let xmm1 := subpd xmm1 nb232nf_jyH2 in
  let xmm2 := subpd xmm2 nb232nf_jzH2 in
  let xmm0 := mulpd xmm0 xmm0 in
  let xmm1 := mulpd xmm1 xmm1 in
  let xmm2 := mulpd xmm2 xmm2 in
  let xmm0 := addpd xmm0 xmm1 in
  let xmm0 := addpd xmm0 xmm2 in
  let nb232nf_rsqH2H2 := xmm0 in
  let xmm1s := cvtpd2ps to_single xmm0 in
  let xmm5s := cvtpd2ps to_single xmm4 in
  let xmm1s := rsqrtps xmm1s in
  let xmm5s := rsqrtps xmm5s in
  let xmm1 := cvtps2pd xmm1s in
  let xmm5 := cvtps2pd xmm5s in
  let xmm2 := xmm1 in
  let xmm6 := xmm5 in
  let xmm1 := mulpd xmm1 xmm1 in
  let xmm5 := mulpd xmm5 xmm5 in
  let xmm3 := nb232nf_three k in
  let xmm1 := mulpd xmm1 xmm0 in
  let xmm5 := mulpd xmm5 xmm4 in
  let xmm7 := xmm3 in
  let xmm3 := subpd xmm3 xmm1 in
  let xmm7 := subpd xmm7 xmm5 in
  let xmm3 := mulpd xmm3 xmm2 in
  let xmm7 := mulpd xmm7 xmm6 in
  let xmm3 := mulpd xmm3 (nb232nf_half k) in
  let xmm7 := mulpd xmm7 (nb232nf_half k) in
  let xmm2 := xmm3 in
  let xmm6 := xmm7 in
  let xmm3 := mulpd xmm3 xmm3 in
  let xmm7 := mulpd xmm7 xmm7 in
  let xmm1 := nb232nf_three k in
  let xmm3 := mulpd xmm3 xmm0 in
  let xmm7 := mulpd xmm7 xmm4 in
  let xmm5 := xmm1 in
  let xmm1 := subpd xmm1 xmm3 in
  let xmm5 := subpd xmm5 xmm7 in
  let xmm1 := mulpd xmm1 xmm2 in
  let xmm5 := mulpd xmm5 xmm6 in
  let xmm1 := mulpd xmm1 (nb232nf_half k) in
  let xmm5 := mulpd xmm5 (nb232nf_half k) in
  let nb232nf_rinvH2H2 := xmm1 in
  let nb232nf_rinvH2H1 := xmm5 in
  let xmm0 := nb232nf_rsqOO in
  let xmm4 := nb232nf_rsqOH1 in
  let xmm1s := cvtpd2ps to_single xmm0 in
  let xmm5s := cvtpd2ps to_single xmm4 in
  let xmm1s := rsqrtps xmm1s in
  let xmm5s := rsqrtps xmm5s in
  let xmm1 := cvtps2pd xmm1s in
  let xmm5 := cvtps2pd xmm5s in
  let xmm2 := xmm1 in
  let xmm6 := xmm5 in
  let xmm1 := mulpd xmm1 xmm1 in
  let xmm5 := mulpd xmm5 xmm5 in
  let xmm3 := nb232nf_three k in
  let xmm1 := mulpd xmm1 xmm0 in
  let xmm5 := mulpd xmm5 xmm4 in
  let xmm7 := xmm3 in
  let xmm3 := subpd xmm3 xmm1 in
  let xmm7 := subpd xmm7 xmm5 in
  let xmm3 := mulpd xmm3 xmm2 in
  let xmm7 := mulpd xmm7 xmm6 in
  let xmm3 := mulpd xmm3 (nb232nf_half k) in
  let xmm7 := mulpd xmm7 (nb232nf_half k) in
  let xmm2 := xmm3 in
  let xmm6 := xmm7 in
  let xmm3 := mulpd xmm3 xmm3 in
  let xmm7 := mulpd xmm7 xmm7 in
  let xmm1 := nb232nf_three k in
  let xmm3 := mulpd xmm3 xmm0 in
  let xmm7 := mulpd xmm7 xmm4 in
  let xmm5 := xmm1 in
  let xmm1 := subpd xmm1 xmm3 in
  let xmm5 := subpd xmm5 xmm7 in
  let xmm1 := mulpd xmm1 xmm2 in
  let xmm5 := mulpd xmm5 xmm6 in
  let xmm1 := mulpd xmm1 (nb232nf_half k) in
  let xmm5 := mulpd xmm5 (nb232nf_half k) in
  let nb232nf_rinvOO := xmm1 in
  let nb232nf_rinvOH1 := xmm5 in
  let xmm0 := nb232nf_rsqOH2 in
  let xmm4 := nb232nf_rsqH1O in
  let xmm1s := cvtpd2ps to_single xmm0 in
  let xmm5s := cvtpd2ps to_single xmm4 in
  let xmm1s := rsqrtps xmm1s in
  let xmm5s := rsqrtps xmm5s in
  let xmm1 := cvtps2pd xmm1s in
  let xmm5 := cvtps2pd xmm5s in
  let xmm2 := xmm1 in
  let xmm6 := xmm5 in
  let xmm1 := mulpd xmm1 xmm1 in
  let xmm5 := mulpd xmm5 xmm5 in
  let xmm3 := nb232nf_three k in
  let xmm1 := mulpd xmm1 xmm0 in
  let xmm5 := mulpd xmm5 xmm4 in
  let xmm7 := xmm3 in
  let xmm3 := subpd xmm3 xmm1 in
  let xmm7 := subpd xmm7 xmm5 in
  let xmm3 := mulpd xmm3 xmm2 in
  let xmm7 := mulpd xmm7 xmm6 in
  let xmm3 := mulpd xmm3 (nb232nf_half k) in
  let xmm7 := mulpd xmm7 (nb232nf_half k) in
  let xmm2 := xmm3 in
  let xmm6 := xmm7 in
  let xmm3 := mulpd xmm3 xmm3 in
  let xmm7 := mulpd xmm7 xmm7 in
  let xmm1 := nb232nf_three k in
  let xmm3 := mulpd xmm3 xmm0 in
  let xmm7 := mulpd xmm7 xmm4 in
  let xmm5 := xmm1 in
  let xmm1 := subpd xmm1 xmm3 in
  let xmm5 := subpd xmm5 xmm7 in
  let xmm1 := mulpd xmm1 xmm2 in
  let xmm5 := mulpd xmm5 xmm6 in
  let xmm1 := mulpd xmm1 (nb232nf_half k) in
  let xmm5 := mulpd xmm5 (nb232nf_half k) in
  let nb232nf_rinvOH2 := xmm1 in
  let nb232nf_rinvH1O := xmm5 in
  let xmm0 := nb232nf_rsqH1H1 in
  let xmm4 := nb232nf_rsqH1H2 in
  let xmm1s := cvtpd2ps to_single xmm0 in
  let xmm5s := cvtpd2ps to_single xmm4 in
  let xmm1s := rsqrtps xmm1s in
  let xmm5s := rsqrtps xmm5s in
  let xmm1 := cvtps2pd xmm1s in
  let xmm5 := cvtps2pd xmm5s in
  let xmm2 := xmm1 in
  let xmm6 := xmm5 in
  let xmm1 := mulpd xmm1 xmm1 in
  let xmm5 := mulpd xmm5 xmm5 in
  let xmm3 := nb232nf_three k in
  let xmm1 := mulpd xmm1 xmm0 in
  let xmm5 := mulpd xmm5 xmm4 in
  let xmm7 := xmm3 in
  let xmm3 := subpd xmm3 xmm1 in
  let xmm7 := subpd xmm7 xmm5 in
  let xmm3 := mulpd xmm3 xmm2 in
  let xmm7 := mulpd xmm7 xmm6 in
  let xmm3 := mulpd xmm3 (nb232nf_half k) in
  let xmm7 := mulpd xmm7 (nb232nf_half k) in
  let xmm2 := xmm3 in
  let xmm6 := xmm7 in
  let xmm3 := mulpd xmm3 xmm3 in
  let xmm7 := mulpd xmm7 xmm7 in
  let xmm1 := nb232nf_three k in
  let xmm3 := mulpd xmm3 xmm0 in
  let xmm7 := mulpd xmm7 xmm4 in
  let xmm5 := xmm1 in
  let xmm1 := subpd xmm1 xmm3 in
  let xmm5 := subpd xmm5 xmm7 in
  let xmm1 := mulpd xmm1 xmm2 in
  let xmm5 := mulpd xmm5 xmm6 in
  let xmm1 := mulpd xmm1 (nb232nf_half k) in
  let xmm5 := mulpd xmm5 (nb232nf_half k) in
  let nb232nf_rinvH1H1 := xmm1 in
  let nb232nf_rinvH1H2 := xmm5 in
  let xmm0 := nb232nf_rsqH2O in
  let xmm1s := cvtpd2ps to_single xmm0 in
  let xmm1s := rsqrtps xmm1s in
  let xmm1 := cvtps2pd xmm1s in
  let xmm2 := xmm1 in
  let xmm1 := mulpd xmm1 xmm1 in
  let xmm3 := nb232nf_three k in
  let xmm1 := mulpd xmm1 xmm0 in
  let xmm3 := subpd xmm3 xmm1 in
  let xmm3 := mulpd xmm3 xmm2 in
  let xmm3 := mulpd xmm3 (nb232nf_half k) in
  let xmm2 := xmm3 in
  let xmm3 := mulpd xmm3 xmm3 in
  let xmm1 := nb232nf_three k in
  let xmm3 := mulpd xmm3 xmm0 in
  let xmm1 := subpd xmm1 xmm3 in
  let xmm1 := mulpd xmm1 xmm2 in
  let xmm1 := mulpd xmm1 (nb232nf_half k) in
  let nb232nf_rinvH2O := xmm1 in
  (Dist nb232nf_rsqOO nb232nf_rsqOH1 nb232nf_rsqOH2 nb232nf_rsqH1O
    nb232nf_rsqH1H1 nb232nf_rsqH1H2 nb232nf_rsqH2O nb232nf_rsqH2H1
    nb232nf_rsqH2H2 nb232nf_rinvOO nb232nf_rinvOH1 nb232nf_rinvOH2
    nb232nf_rinvH1O nb232nf_rinvH1H1 nb232nf_rinvH1H2 nb232nf_rinvH2O
    nb232nf_rinvH2H1 nb232nf_rinvH2H2,
   Xmmd xmm0 xmm1 xmm2 xmm3 xmm4 xmm5 xmm6 xmm7,
   nb232nf_innerjjnr).

(** Lines 2922-3124: the energies of the nine interactions. *)
Definition energies (a : args) (k : consts) (g : dist) (acc : accum)
    (x : xmmd) : accum * xmmd :=
  let xmm0 := nb232nf_rinvOO g in
  let xmm7 := xmm0 in
  let xmm5 := nb232nf_krf k in
  let xmm5 := mulpd xmm5 (nb232nf_rsqOO g) in
  let xmm6 := xmm5 in
  let xmm6 := addpd xmm6 xmm7 in
  let xmm6 := subpd xmm6 (nb232nf_crf k) in
  let xmm6 := mulpd xmm6 (nb232nf_qqOO k) in
  let xmm6 := addpd xmm6 (nb232nf_vctot acc) in
  let nb232nf_vctot := xmm6 in
  let xmm4 := nb232nf_rsqOO g in
  let xmm4 := mulpd xmm4 xmm0 in
  let xmm4 := mulpd xmm4 (nb232nf_tsc k) in
  let mm6 := cvttpd2pi xmm4 in
  let xmm5 := cvtpi2pd mm6 in
  let xmm4 := subpd xmm4 xmm5 in
  let xmm1 := xmm4 in
  let xmm2 := xmm1 in
  let xmm2 := mulpd xmm2 xmm2 in
  let mm6 := pslld mm6 3 in
  let eax := movd mm6 in
  let mm6 := psrlq32 mm6 in
  let ebx := movd mm6 in
  let xmm4 := movlpd xmm4 (a_VFtab a) eax in
  let xmm3 := movlpd (q3 x) (a_VFtab a) ebx in
  let xmm4 := movhpd xmm4 (a_VFtab a) (eax + 1) in
  let xmm3 := movhpd xmm3 (a_VFtab a) (ebx + 1) in
  let xmm5 := xmm4 in
  let xmm4 := unpcklpd xmm4 xmm3 in
  let xmm5 := unpckhpd xmm5 xmm3 in
  let xmm6 := movlpd xmm6 (a_VFtab a) (eax + 2) in
  let xmm3 := movlpd xmm3 (a_VFtab a) (ebx + 2) in
  let xmm6 := movhpd xmm6 (a_VFtab a) (eax + 3) in
  let xmm3 := movhpd xmm3 (a_VFtab a) (ebx + 3) in
  let xmm7 := xmm6 in
  let xmm6 := unpcklpd xmm6 xmm3 in
  let xmm7 := unpckhpd xmm7 xmm3 in
  let xmm6 := mulpd xmm6 xmm1 in
  let xmm7 := mulpd xmm7 xmm2 in
  let xmm5 := addpd xmm5 xmm6 in
  let xmm5 := addpd xmm5 xmm7 in
  let xmm5 := mulpd xmm5 xmm1 in
  let xmm5 := addpd xmm5 xmm4 in
  let xmm4 := nb232nf_c6 k in
  let xmm5 := mulpd xmm5 xmm4 in
  let xmm5 := addpd xmm5 (nb232nf_Vvdwtot acc) in
  let nb232nf_Vvdwtot := xmm5 in
  let xmm4 := movlpd xmm4 (a_VFtab a) (eax + 4) in
  let xmm3 := movlpd xmm3 (a_VFtab a) (ebx + 4) in
  let xmm4 := movhpd xmm4 (a_VFtab a) (eax + 5) in
  let xmm3 := movhpd xmm3 (a_VFtab a) (ebx + 5) in
  let xmm5 := xmm4 in
  let xmm4 := unpcklpd xmm4 xmm3 in
  let xmm5 := unpckhpd xmm5 xmm3 in
  let xmm6 := movlpd xmm6 (a_VFtab a) (eax + 6) in
  let xmm3 := movlpd xmm3 (a_VFtab a) (ebx + 6) in
  let xmm6 := movhpd xmm6 (a_VFtab a) (eax + 7) in
  let xmm3 := movhpd xmm3 (a_VFtab a) (ebx + 7) in
  let xmm7 := xmm6 in
  let xmm6 := unpcklpd xmm6 xmm3 in
  let xmm7 := unpckhpd xmm7 xmm3 in
  let xmm6 := mulpd xmm6 xmm1 in
  let xmm7 := mulpd xmm7 xmm2 in
  let xmm5 := addpd xmm5 xmm6 in
  let xmm5 := addpd xmm5 xmm7 in
  let xmm5 := mulpd xmm5 xmm1 in
  let xmm5 := addpd xmm5 xmm4 in
  let xmm4 := nb232nf_c12 k in
  let xmm5 := mulpd xmm5 xmm4 in
  let xmm5 := addpd xmm5 nb232nf_Vvdwtot in
  let nb232nf_Vvdwtot := xmm5 in
  let xmm0 := nb232nf_rinvOH1 g in
  let xmm7 := xmm0 in
  let xmm5 := nb232nf_krf k in
  let xmm1 := xmm0 in
  let xmm5 := mulpd xmm5 (nb232nf_rsqOH1 g) in
  let xmm4 := xmm5 in
  let xmm4 := addpd xmm4 xmm7 in
  let xmm0 := mulpd xmm0 xmm0 in
  let xmm4 := subpd xmm4 (nb232nf_crf k) in
  let xmm4 := mulpd xmm4 (nb232nf_qqOH k) in
  let xmm6 := nb232nf_vctot in
  let xmm6 := addpd xmm6 xmm4 in
  let xmm0 := nb232nf_rinvOH2 g in
  let xmm7 := xmm0 in
  let xmm5 := nb232nf_krf k in
  let xmm1 := xmm0 in
  let xmm5 := mulpd xmm5 (nb232nf_rsqOH2 g) in
  let xmm4 := xmm5 in
  let xmm4 := addpd xmm4 xmm7 in
  let xmm0 := mulpd xmm0 xmm0 in
  let xmm4 := subpd xmm4 (nb232nf_crf k) in
  let xmm4 := mulpd xmm4 (nb232nf_qqOH k) in
  let xmm6 := addpd xmm6 xmm4 in
  let xmm0 := nb232nf_rinvH1O g in
  let xmm7 := xmm0 in
  let xmm5 := nb232nf_krf k in
  let xmm1 := xmm0 in
  let xmm5 := mulpd xmm5 (nb232nf_rsqH1O g) in
  let xmm4 := xmm5 in
  let xmm4 := addpd xmm4 xmm7 in
  let xmm0 := mulpd xmm0 xmm0 in
  let xmm4 := subpd xmm4 (nb232nf_crf k) in
  let xmm4 := mulpd xmm4 (nb232nf_qqOH k) in
  let xmm6 := addpd xmm6 xmm4 in
  let xmm0 := nb232nf_rinvH1H1 g in
  let xmm7 := xmm0 in
  let xmm5 := nb232nf_krf k in
  let xmm1 := xmm0 in
  let xmm5 := mulpd xmm5 (nb232nf_rsqH1H1 g) in
  let xmm4 := xmm5 in
  let xmm4 := addpd xmm4 xmm7 in
  let xmm4 := subpd xmm4 (nb232nf_crf k) in
  let xmm0 := mulpd xmm0 xmm0 in
  let xmm4 := mulpd xmm4 (nb232nf_qqHH k) in
  let xmm6 := addpd xmm6 xmm4 in
  let xmm0 := nb232nf_rinvH1H2 g in
  let xmm7 := xmm0 in
  let xmm5 := nb232nf_krf k in
  let xmm1 := xmm0 in
  let xmm5 := mulpd xmm5 (nb232nf_rsqH1H2 g) in
  let xmm4 := xmm5 in
  let xmm4 := addpd xmm4 xmm7 in
  let xmm0 := mulpd xmm0 xmm0 in
  let xmm4 := subpd xmm4 (nb232nf_crf k) in
  let xmm4 := mulpd xmm4 (nb232nf_qqHH k) in
  let xmm6 := addpd xmm6 xmm4 in
  let xmm0 := nb232nf_rinvH2O g in
  let xmm7 := xmm0 in
  let xmm5 := nb232nf_krf k in
  let xmm1 := xmm0 in
  let xmm5 := mulpd xmm5 (nb232nf_rsqH2O g) in
  let xmm4 := xmm5 in
  let xmm4 := addpd xmm4 xmm7 in
  let xmm4 := subpd xmm4 (nb232nf_crf k) in
  let xmm0 := mulpd xmm0 xmm0 in
  let xmm4 := mulpd xmm4 (nb232nf_qqOH k) in
  let xmm6 := addpd xmm6 xmm4 in
  let xmm0 := nb232nf_rinvH2H1 g in
  let xmm7 := xmm0 in
  let xmm5 := nb232nf_krf k in
  let xmm1 := xmm0 in
  let xmm5 := mulpd xmm5 (nb232nf_rsqH2H1 g) in
  let xmm4 := xmm5 in
  let xmm4 := addpd xmm4 xmm7 in
  let xmm4 := subpd xmm4 (nb232nf_crf k) in
  let xmm0 := mulpd xmm0 xmm0 in
  let xmm4 := mulpd xmm4 (nb232nf_qqHH k) in
  let xmm6 := addpd xmm6 xmm4 in
  let xmm0 := nb232nf_rinvH2H2 g in
  let xmm7 := xmm0 in
  let xmm5 := nb232nf_krf k in
  let xmm1 := xmm0 in
  let xmm5 := mulpd xmm5 (nb232nf_rsqH2H2 g) in
  let xmm4 := xmm5 in
  let xmm4 := addpd xmm4 xmm7 in
  let xmm4 := subpd xmm4 (nb232nf_crf k) in
  let xmm0 := mulpd xmm0 xmm0 in
  let xmm4 := mulpd xmm4 (nb232nf_qqHH k) in
  let xmm6 := addpd xmm6 xmm4 in
  let nb232nf_vctot := xmm6 in
  (Accum nb232nf_vctot nb232nf_Vvdwtot,
   Xmmd xmm0 xmm1 xmm2 xmm3 xmm4 xmm5 xmm6 xmm7).

(** Lines 3136-3459: the same for one j molecule, in the lower lanes. *)
Definition calc_dist1 (a : args) (k : consts) (e : entry) (x : xmmd)
    (nb232nf_innerjjnr : Z) : dist * xmmd :=
  let rdx := nb232nf_innerjjnr in
  let eax := ld32 (a_jjnr a) rdx in
  let rax := eax + eax * 2 in
  let xmm2 := movlpd (q2 x) (a_pos a) rax in
  let xmm3 := movlpd (q3 x) (a_pos a) (rax + 1) in
  let xmm4 := movlpd (q4 x) (a_pos a) (rax + 2) in
  let xmm5 := movlpd (q5 x) (a_pos a) (rax + 3) in
  let xmm6 := movlpd (q6 x) (a_pos a) (rax + 4) in
  let xmm7 := movlpd (q7 x) (a_pos a) (rax + 5) in
  let nb232nf_jxO := xmm2 in
  let nb232nf_jyO := xmm3 in
  let nb232nf_jzO := xmm4 in
  let nb232nf_jxH1 := xmm5 in
  let nb232nf_jyH1 := xmm6 in
  let nb232nf_jzH1 := xmm7 in
  let xmm2 := movlpd xmm2 (a_pos a) (rax + 6) in
  let xmm3 := movlpd xmm3 (a_pos a) (rax + 7) in
  let xmm4 := movlpd xmm4 (a_pos a) (rax + 8) in
  let nb232nf_jxH2 := xmm2 in
  let nb232nf_jyH2 := xmm3 in
  let nb232nf_jzH2 := xmm4 in
  let xmm0 := nb232nf_ixO e in
  let xmm1 := nb232nf_iyO e in
  let xmm2 := nb232nf_izO e in
  let xmm3 := nb232nf_ixO e in
  let xmm4 := nb232nf_iyO e in
  let xmm5 := nb232nf_izO e in
  let xmm0 := subsd xmm0 nb232nf_jxO in
  let xmm1 := subsd xmm1 nb232nf_jyO in
  let xmm2 := subsd xmm2 nb232nf_jzO in
  let xmm3 := subsd xmm3 nb232nf_jxH1 in
  let xmm4 := subsd xmm4 nb232nf_jyH1 in
  let xmm5 := subsd xmm5 nb232nf_jzH1 in
  let xmm0 := mulsd xmm0 xmm0 in
  let xmm1 := mulsd xmm1 xmm1 in
  let xmm2 := mulsd xmm2 xmm2 in
  let xmm3 := mulsd xmm3 xmm3 in
  let xmm4 := mulsd xmm4 xmm4 in
  let xmm5 := mulsd xmm5 xmm5 in
  let xmm0 := addsd xmm0 xmm1 in
  let xmm0 := addsd xmm0 xmm2 in
  let xmm3 := addsd xmm3 xmm4 in
  let xmm3 := addsd xmm3 xmm5 in
  let nb232nf_rsqOO := xmm0 in
  let nb232nf_rsqOH1 := xmm3 in
  let xmm0 := nb232nf_ixO e in
  let xmm1 := nb232nf_iyO e in
  let xmm2 := nb232nf_izO e in
  let xmm3 := nb232nf_ixH1 e in
  let xmm4 := nb232nf_iyH1 e in
  let xmm5 := nb232nf_izH1 e in
  let xmm0 := subsd xmm0 nb232nf_jxH2 in
  let xmm1 := subsd xmm1 nb232nf_jyH2 in
  let xmm2 := subsd xmm2 nb232nf_jzH2 in
  let xmm3 := subsd xmm3 nb232nf_jxO in
  let xmm4 := subsd xmm4 nb232nf_jyO in
  let xmm5 := subsd xmm5 nb232nf_jzO in
  let xmm0 := mulsd xmm0 xmm0 in
  let xmm1 := mulsd xmm1 xmm1 in
  let xmm2 := mulsd xmm2 xmm2 in
  let xmm3 := mulsd xmm3 xmm3 in
  let xmm4 := mulsd xmm4 xmm4 in
  let xmm5 := mulsd xmm5 xmm5 in
  let xmm0 := addsd xmm0 xmm1 in
  let xmm0 := addsd xmm0 xmm2 in
  let xmm3 := addsd xmm3 xmm4 in
  let xmm3 := addsd xmm3 xmm5 in
  let nb232nf_rsqOH2 := xmm0 in
  let nb232nf_rsqH1O := xmm3 in
  let xmm0 := nb232nf_ixH1 e in
  let xmm1 := nb232nf_iyH1 e in
  let xmm2 := nb232nf_izH1 e in
  let xmm3 := nb232nf_ixH1 e in
  let xmm4 := nb232nf_iyH1 e in
  let xmm5 := nb232nf_izH1 e in
  let xmm0 := subsd xmm0 nb232nf_jxH1 in
  let xmm1 := subsd xmm1 nb232nf_jyH1 in
  let xmm2 := subsd xmm2 nb232nf_jzH1 in
  let xmm3 := subsd xmm3 nb232nf_jxH2 in
  let xmm4 := subsd xmm4 nb232nf_jyH2 in
  let xmm5 := subsd xmm5 nb232nf_jzH2 in
  let xmm0 := mulsd xmm0 xmm0 in
  let xmm1 := mulsd xmm1 xmm1 in
  let xmm2 := mulsd xmm2 xmm2 in
  let xmm3 := mulsd xmm3 xmm3 in
  let xmm4 := mulsd xmm4 xmm4 in
  let xmm5 := mulsd xmm5 xmm5 in
  let xmm0 := addsd xmm0 xmm1 in
  let xmm0 := addsd xmm0 xmm2 in
  let xmm3 := addsd xmm3 xmm4 in
  let xmm3 := addsd xmm3 xmm5 in
  let nb232nf_rsqH1H1 := xmm0 in
  let nb232nf_rsqH1H2 := xmm3 in
  let xmm0 := nb232nf_ixH2 e in
  let xmm1 := nb232nf_iyH2 e in
  let xmm2 := nb232nf_izH2 e in
  let xmm3 := nb232nf_ixH2 e in
  let xmm4 := nb232nf_iyH2 e in
  let xmm5 := nb232nf_izH2 e in
  let xmm0 := subsd xmm0 nb232nf_jxO in
  let xmm1 := subsd xmm1 nb232nf_jyO in
  let xmm2 := subsd xmm2 nb232nf_jzO in
  let xmm3 := subsd xmm3 nb232nf_jxH1 in
  let xmm4 := subsd xmm4 nb232nf_jyH1 in
  let xmm5 := subsd xmm5 nb232nf_jzH1 in
  let xmm0 := mulsd xmm0 xmm0 in
  let xmm1 := mulsd xmm1 xmm1 in
  let xmm2 := mulsd xmm2 xmm2 in
  let xmm3 := mulsd xmm3 xmm3 in
  let xmm4 := mulsd xmm4 xmm4 in
  let xmm5 := mulsd xmm5 xmm5 in
  let xmm0 := addsd xmm0 xmm1 in
  let xmm0 := addsd xmm0 xmm2 in
  let xmm4 := addsd xmm4 xmm3 in
  let xmm4 := addsd xmm4 xmm5 in
  let nb232nf_rsqH2O := xmm0 in
  let nb232nf_rsqH2H1 := xmm4 in
  let xmm0 := nb232nf_ixH2 e in
  let xmm1 := nb232nf_iyH2 e in
  let xmm2 := nb232nf_izH2 e in
  let xmm0 := subsd xmm0 nb232nf_jxH2 in
  let xmm1 := subsd xmm1 nb232nf_jyH2 in
  let xmm2 := subsd xmm2 nb232nf_jzH2 in
  let xmm0 := mulsd xmm0 xmm0 in
  let xmm1 := mulsd xmm1 xmm1 in
  let xmm2 := mulsd xmm2 xmm2 in
  let xmm0 := addsd xmm0 xmm1 in
  let xmm0 := addsd xmm0 xmm2 in
  let nb232nf_rsqH2H2 := xmm0 in
  let xmm1s := cvtsd2ss xmm0 in
  let xmm5s := cvtsd2ss xmm4 in
  let xmm1s := rsqrtss xmm1s in
  let xmm5s := rsqrtss xmm5s in
  let xmm1 := cvtss2sd xmm1 xmm1s in
  let xmm5 := cvtss2sd xmm5 xmm5s in
  let xmm2 := xmm1 in
  let xmm6 := xmm5 in
  let xmm1 := mulsd xmm1 xmm1 in
  let xmm5 := mulsd xmm5 xmm5 in
  let xmm3 := nb232nf_three k in
  let xmm1 := mulsd xmm1 xmm0 in
  let xmm5 := mulsd xmm5 xmm4 in
  let xmm7 := xmm3 in
  let xmm3 := subsd xmm3 xmm1 in
  let xmm7 := subsd xmm7 xmm5 in
  let xmm3 := mulsd xmm3 xmm2 in
  let xmm7 := mulsd xmm7 xmm6 in
  let xmm3 := mulsd xmm3 (nb232nf_half k) in
  let xmm7 := mulsd xmm7 (nb232nf_half k) in
  let xmm2 := xmm3 in
  let xmm6 := xmm7 in
  let xmm3 := mulsd xmm3 xmm3 in
  let xmm7 := mulsd xmm7 xmm7 in
  let xmm1 := nb232nf_three k in
  let xmm3 := mulsd xmm3 xmm0 in
  let xmm7 := mulsd xmm7 xmm4 in
  let xmm5 := xmm1 in
  let xmm1 := subsd xmm1 xmm3 in
  let xmm5 := subsd xmm5 xmm7 in
  let xmm1 := mulsd xmm1 xmm2 in
  let xmm5 := mulsd xmm5 xmm6 in
  let xmm1 := mulsd xmm1 (nb232nf_half k) in
  let xmm5 := mulsd xmm5 (nb232nf_half k) in
  let nb232nf_rinvH2H2 := xmm1 in
  let nb232nf_rinvH2H1 := xmm5 in
  let xmm0 := nb232nf_rsqOO in
  let xmm4 := nb232nf_rsqOH1 in
  let xmm1s := cvtsd2ss xmm0 in
  let xmm5s := cvtsd2ss xmm4 in
  let xmm1s := rsqrtss xmm1s in
  let xmm5s := rsqrtss xmm5s in
  let xmm1 := cvtss2sd xmm1 xmm1s in
  let xmm5 := cvtss2sd xmm5 xmm5s in
  let xmm2 := xmm1 in
  let xmm6 := xmm5 in
  let xmm1 := mulsd xmm1 xmm1 in
  let xmm5 := mulsd xmm5 xmm5 in
  let xmm3 := nb232nf_three k in
  let xmm1 := mulsd xmm1 xmm0 in
  let xmm5 := mulsd xmm5 xmm4 in
  let xmm7 := xmm3 in
  let xmm3 := subsd xmm3 xmm1 in
  let xmm7 := subsd xmm7 xmm5 in
  let xmm3 := mulsd xmm3 xmm2 in
  let xmm7 := mulsd xmm7 xmm6 in
  let xmm3 := mulsd xmm3 (nb232nf_half k) in
  let xmm7 := mulsd xmm7 (nb232nf_half k) in
  let xmm2 := xmm3 in
  let xmm6 := xmm7 in
  let xmm3 := mulsd xmm3 xmm3 in
  let xmm7 := mulsd xmm7 xmm7 in
  let xmm1 := nb232nf_three k in
  let xmm3 := mulsd xmm3 xmm0 in
  let xmm7 := mulsd xmm7 xmm4 in
  let xmm5 := xmm1 in
  let xmm1 := subsd xmm1 xmm3 in
  let xmm5 := subsd xmm5 xmm7 in
  let xmm1 := mulsd xmm1 xmm2 in
  let xmm5 := mulsd xmm5 xmm6 in
  let xmm1 := mulsd xmm1 (nb232nf_half k) in
  let xmm5 := mulsd xmm5 (nb232nf_half k) in
  let nb232nf_rinvOO := xmm1 in
  let nb232nf_rinvOH1 := xmm5 in
  let xmm0 := nb232nf_rsqOH2 in
  let xmm4 := nb232nf_rsqH1O in
  let xmm1s := cvtsd2ss xmm0 in
  let xmm5s := cvtsd2ss xmm4 in
  let xmm1s := rsqrtss xmm1s in
  let xmm5s := rsqrtss xmm5s in
  let xmm1 := cvtss2sd xmm1 xmm1s in
  let xmm5 := cvtss2sd xmm5 xmm5s in
  let xmm2 := xmm1 in
  let xmm6 := xmm5 in
  let xmm1 := mulsd xmm1 xmm1 in
  let xmm5 := mulsd xmm5 xmm5 in
  let xmm3 := nb232nf_three k in
  let xmm1 := mulsd xmm1 xmm0 in
  let xmm5 := mulsd xmm5 xmm4 in
  let xmm7 := xmm3 in
  let xmm3 := subsd xmm3 xmm1 in
  let xmm7 := subsd xmm7 xmm5 in
  let xmm3 := mulsd xmm3 xmm2 in
  let xmm7 := mulsd xmm7 xmm6 in
  let xmm3 := mulsd xmm3 (nb232nf_half k) in
  let xmm7 := mulsd xmm7 (nb232nf_half k) in
  let xmm2 := xmm3 in
  let xmm6 := xmm7 in
  let xmm3 := mulsd xmm3 xmm3 in
  let xmm7 := mulsd xmm7 xmm7 in
  let xmm1 := nb232nf_three k in
  let xmm3 := mulsd xmm3 xmm0 in
  let xmm7 := mulsd xmm7 xmm4 in
  let xmm5 := xmm1 in
  let xmm1 := subsd xmm1 xmm3 in
  let xmm5 := subsd xmm5 xmm7 in
  let xmm1 := mulsd xmm1 xmm2 in
  let xmm5 := mulsd xmm5 xmm6 in
  let xmm1 := mulsd xmm1 (nb232nf_half k) in
  let xmm5 := mulsd xmm5 (nb232nf_half k) in
  let nb232nf_rinvOH2 := xmm1 in
  let nb232nf_rinvH1O := xmm5 in
  let xmm0 := nb232nf_rsqH1H1 in
  let xmm4 := nb232nf_rsqH1H2 in
  let xmm1s := cvtsd2ss xmm0 in
  let xmm5s := cvtsd2ss xmm4 in
  let xmm1s := rsqrtss xmm1s in
  let xmm5s := rsqrtss xmm5s in
  let xmm1 := cvtss2sd xmm1 xmm1s in
  let xmm5 := cvtss2sd xmm5 xmm5s in
  let xmm2 := xmm1 in
  let xmm6 := xmm5 in
  let xmm1 := mulsd xmm1 xmm1 in
  let xmm5 := mulsd xmm5 xmm5 in
  let xmm3 := nb232nf_three k in
  let xmm1 := mulsd xmm1 xmm0 in
  let xmm5 := mulsd xmm5 xmm4 in
  let xmm7 := xmm3 in
  let xmm3 := subsd xmm3 xmm1 in
  let xmm7 := subsd xmm7 xmm5 in
  let xmm3 := mulsd xmm3 xmm2 in
  let xmm7 := mulsd xmm7 xmm6 in
  let xmm3 := mulsd xmm3 (nb232nf_half k) in
  let xmm7 := mulsd xmm7 (nb232nf_half k) in
  let xmm2 := xmm3 in
  let xmm6 := xmm7 in
  let xmm3 := mulsd xmm3 xmm3 in
  let xmm7 := mulsd xmm7 xmm7 in
  let xmm1 := nb232nf_three k in
  let xmm3 := mulsd xmm3 xmm0 in
  let xmm7 := mulsd xmm7 xmm4 in
  let xmm5 := xmm1 in
  let xmm1 := subsd xmm1 xmm3 in
  let xmm5 := subsd xmm5 xmm7 in
  let xmm1 := mulsd xmm1 xmm2 in
  let xmm5 := mulsd xmm5 xmm6 in
  let xmm1 := mulsd xmm1 (nb232nf_half k) in
  let xmm5 := mulsd xmm5 (nb232nf_half k) in
  let nb232nf_rinvH1H1 := xmm1 in
  let nb232nf_rinvH1H2 := xmm5 in
  let xmm0 := nb232nf_rsqH2O in
  let xmm1s := cvtsd2ss xmm0 in
  let xmm1s := rsqrtss xmm1s in
  let xmm1 := cvtss2sd xmm1 xmm1s in
  let xmm2 := xmm1 in
  let xmm1 := mulsd xmm1 xmm1 in
  let xmm3 := nb232nf_three k in
  let xmm1 := mulsd xmm1 xmm0 in
  let xmm3 := subsd xmm3 xmm1 in
  let xmm3 := mulsd xmm3 xmm2 in
  let xmm3 := mulsd xmm3 (nb232nf_half k) in
  let xmm2 := xmm3 in
  let xmm3 := mulsd xmm3 xmm3 in
  let xmm1 := nb232nf_three k in
  let xmm3 := mulsd xmm3 xmm0 in
  let xmm1 := subsd xmm1 xmm3 in
  let xmm1 := mulsd xmm1 xmm2 in
  let xmm1 := mulsd xmm1 (nb232nf_half k) in
  let nb232nf_rinvH2O := xmm1 in
  (Dist nb232nf_rsqOO nb232nf_rsqOH1 nb232nf_rsqOH2 nb232nf_rsqH1O
    nb232nf_rsqH1H1 nb232nf_rsqH1H2 nb232nf_rsqH2O nb232nf_rsqH2H1
    nb232nf_rsqH2H2 nb232nf_rinvOO nb232nf_rinvOH1 nb232nf_rinvOH2
    nb232nf_rinvH1O nb232nf_rinvH1H1 nb232nf_rinvH1H2 nb232nf_rinvH2O
    nb232nf_rinvH2H1 nb232nf_rinvH2H2,
   Xmmd xmm0 xmm1 xmm2 xmm3 xmm4 xmm5 xmm6 xmm7).

(** Lines 3460-3652: the energies of the single molecule. *)
Definition energies1 (a : args) (k : consts) (g : dist) (acc : accum)
    (x : xmmd) : accum * xmmd :=
  let xmm0 := movsd_v (d0 (nb232nf_rinvOO g)) in
  let xmm7 := movsd_rr (q7 x) xmm0 in
  let xmm5 := movsd_v (d0 (nb232nf_krf k)) in
  let xmm5 := mulsd xmm5 (nb232nf_rsqOO g) in
  let xmm6 := movsd_rr (q6 x) xmm5 in
  let xmm6 := addsd xmm6 xmm7 in
  let xmm6 := subsd xmm6 (nb232nf_crf k) in
  let xmm6 := mulsd xmm6 (nb232nf_qqOO k) in
  let xmm6 := addsd xmm6 (nb232nf_vctot acc) in
  let nb232nf_vctot := V2 (d0 xmm6) (d1 (nb232nf_vctot acc)) in
  let xmm4 := movsd_v (d0 (nb232nf_rsqOO g)) in
  let xmm4 := mulsd xmm4 xmm0 in
  let xmm4 := mulsd xmm4 (nb232nf_tsc k) in
  let ebx := cvttsd2si xmm4 in
  let xmm5 := cvtsi2sd xmm5 ebx in
  let xmm4 := subsd xmm4 xmm5 in
  let xmm1 := movsd_rr (q1 x) xmm4 in
  let xmm2 := movsd_rr (q2 x) xmm1 in
  let xmm2 := mulsd xmm2 xmm2 in
  let ebx := shl32 ebx 3 in
  let xmm4 := movlpd xmm4 (a_VFtab a) ebx in
  let xmm4 := movhpd xmm4 (a_VFtab a) (ebx + 1) in
  let xmm5 := xmm4 in
  let xmm4 := unpcklpd xmm4 (q3 x) in
  let xmm5 := unpckhpd xmm5 (q3 x) in
  let xmm6 := movlpd xmm6 (a_VFtab a) (ebx + 2) in
  let xmm6 := movhpd xmm6 (a_VFtab a) (ebx + 3) in
  let xmm7 := xmm6 in
  let xmm6 := unpcklpd xmm6 (q3 x) in
  let xmm7 := unpckhpd xmm7 (q3 x) in
  let xmm6 := mulsd xmm6 xmm1 in
  let xmm7 := mulsd xmm7 xmm2 in
  let xmm5 := addsd xmm5 xmm6 in
  let xmm5 := addsd xmm5 xmm7 in
  let xmm5 := mulsd xmm5 xmm1 in
  let xmm5 := addsd xmm5 xmm4 in
  let xmm4 := movsd_v (d0 (nb232nf_c6 k)) in
  let xmm5 := mulsd xmm5 xmm4 in
  let xmm5 := addsd xmm5 (nb232nf_Vvdwtot acc) in
  let nb232nf_Vvdwtot := V2 (d0 xmm5) (d1 (nb232nf_Vvdwtot acc)) in
  let xmm4 := movlpd xmm4 (a_VFtab a) (ebx + 4) in
  let xmm4 := movhpd xmm4 (a_VFtab a) (ebx + 5) in
  let xmm5 := xmm4 in
  let xmm4 := unpcklpd xmm4 (q3 x) in
  let xmm5 := unpckhpd xmm5 (q3 x) in
  let xmm6 := movlpd xmm6 (a_VFtab a) (ebx + 6) in
  let xmm6 := movhpd xmm6 (a_VFtab a) (ebx + 7) in
  let xmm7 := xmm6 in
  let xmm6 := unpcklpd xmm6 (q3 x) in
  let xmm7 := unpckhpd xmm7 (q3 x) in
  let xmm6 := mulsd xmm6 xmm1 in
  let xmm7 := mulsd xmm7 xmm2 in
  let xmm5 := addsd xmm5 xmm6 in
  let xmm5 := addsd xmm5 xmm7 in
  let xmm5 := mulsd xmm5 xmm1 in
  let xmm5 := addsd xmm5 xmm4 in
  let xmm4 := movsd_v (d0 (nb232nf_c12 k)) in
  let xmm5 := mulsd xmm5 xmm4 in
  let xmm5 := addsd xmm5 nb232nf_Vvdwtot in
  let nb232nf_Vvdwtot := V2 (d0 xmm5) (d1 nb232nf_Vvdwtot) in
  let xmm0 := nb232nf_rinvOH1 g in
  let xmm7 := xmm0 in
  let xmm5 := nb232nf_krf k in
  let xmm1 := xmm0 in
  let xmm5 := mulsd xmm5 (nb232nf_rsqOH1 g) in
  let xmm4 := xmm5 in
  let xmm4 := addsd xmm4 xmm7 in
  let xmm0 := mulsd xmm0 xmm0 in
  let xmm4 := subsd xmm4 (nb232nf_crf k) in
  let xmm4 := mulsd xmm4 (nb232nf_qqOH k) in
  let xmm6 := movsd_v (d0 nb232nf_vctot) in
  let xmm6 := addsd xmm6 xmm4 in
  let xmm0 := nb232nf_rinvOH2 g in
  let xmm7 := xmm0 in
  let xmm5 := nb232nf_krf k in
  let xmm1 := xmm0 in
  let xmm5 := mulsd xmm5 (nb232nf_rsqOH2 g) in
  let xmm4 := xmm5 in
  let xmm4 := addsd xmm4 xmm7 in
  let xmm0 := mulsd xmm0 xmm0 in
  let xmm4 := subsd xmm4 (nb232nf_crf k) in
  let xmm4 := mulsd xmm4 (nb232nf_qqOH k) in
  let xmm6 := addsd xmm6 xmm4 in
  let xmm0 := nb232nf_rinvH1O g in
  let xmm7 := xmm0 in
  let xmm5 := nb232nf_krf k in
  let xmm1 := xmm0 in
  let xmm5 := mulsd xmm5 (nb232nf_rsqH1O g) in
  let xmm4 := xmm5 in
  let xmm4 := addsd xmm4 xmm7 in
  let xmm0 := mulsd xmm0 xmm0 in
  let xmm4 := subsd xmm4 (nb232nf_crf k) in
  let xmm4 := mulsd xmm4 (nb232nf_qqOH k) in
  let xmm6 := addsd xmm6 xmm4 in
  let xmm0 := nb232nf_rinvH1H1 g in
  let xmm7 := xmm0 in
  let xmm5 := nb232nf_krf k in
  let xmm1 := xmm0 in
  let xmm5 := mulsd xmm5 (nb232nf_rsqH1H1 g) in
  let xmm4 := xmm5 in
  let xmm4 := addsd xmm4 xmm7 in
  let xmm4 := subsd xmm4 (nb232nf_crf k) in
  let xmm0 := mulsd xmm0 xmm0 in
  let xmm4 := mulsd xmm4 (nb232nf_qqHH k) in
  let xmm6 := addsd xmm6 xmm4 in
  let xmm0 := nb232nf_rinvH1H2 g in
  let xmm7 := xmm0 in
  let xmm5 := nb232nf_krf k in
  let xmm1 := xmm0 in
  let xmm5 := mulsd xmm5 (nb232nf_rsqH1H2 g) in
  let xmm4 := xmm5 in
  let xmm4 := addsd xmm4 xmm7 in
  let xmm0 := mulsd xmm0 xmm0 in
  let xmm4 := subsd xmm4 (nb232nf_crf k) in
  let xmm4 := mulsd xmm4 (nb232nf_qqHH k) in
  let xmm6 := addsd xmm6 xmm4 in
  let xmm0 := nb232nf_rinvH2O g in
  let xmm7 := xmm0 in
  let xmm5 := nb232nf_krf k in
  let xmm1 := xmm0 in
  let xmm5 := mulsd xmm5 (nb232nf_rsqH2O g) in
  let xmm4 := xmm5 in
  let xmm4 := addsd xmm4 xmm7 in
  let xmm4 := subsd xmm4 (nb232nf_crf k) in
  let xmm0 := mulsd xmm0 xmm0 in
  let xmm4 := mulsd xmm4 (nb232nf_qqOH k) in
  let xmm6 := addsd xmm6 xmm4 in
  let xmm0 := nb232nf_rinvH2H1 g in
  let xmm7 := xmm0 in
  let xmm5 := nb232nf_krf k in
  let xmm1 := xmm0 in
  let xmm5 := mulsd xmm5 (nb232nf_rsqH2H1 g) in
  let xmm4 := xmm5 in
  let xmm4 := addsd xmm4 xmm7 in
  let xmm4 := subsd xmm4 (nb232nf_crf k) in
  let xmm0 := mulsd xmm0 xmm0 in
  let xmm4 := mulsd xmm4 (nb232nf_qqHH k) in
  let xmm6 := addsd xmm6 xmm4 in
  let xmm0 := nb232nf_rinvH2H2 g in
  let xmm7 := xmm0 in
  let xmm5 := nb232nf_krf k in
  let xmm1 := xmm0 in
  let xmm5 := mulsd xmm5 (nb232nf_rsqH2H2 g) in
  let xmm4 := xmm5 in
  let xmm4 := addsd xmm4 xmm7 in
  let xmm4 := subsd xmm4 (nb232nf_crf k) in
  let xmm0 := mulsd xmm0 xmm0 in
  let xmm4 := mulsd xmm4 (nb232nf_qqHH k) in
  let xmm6 := addsd xmm6 xmm4 in
  let nb232nf_vctot := V2 (d0 xmm6) (d1 nb232nf_vctot) in
  (Accum nb232nf_vctot nb232nf_Vvdwtot,
   Xmmd xmm0 xmm1 xmm2 (q3 x) xmm4 xmm5 xmm6 xmm7).

(** Lines 2503-2581: the shifted coordinates of the three i atoms, the
    cleared energies and the bounds of the inner list. *)
Definition outer_setup (a : args) (esi : Z) (ninner : Z) (x : xmmd)
    : entry * inner * Z * flags :=
  let ebx := ld32 (a_shift a) esi in
  let rbx := ebx + ebx * 2 in
  let nb232nf_is3 := wrap rbx in
  let xmm0 := movlpd (q0 x) (a_shiftvec a) rbx in
  let xmm1 := movlpd (q1 x) (a_shiftvec a) (rbx + 1) in
  let xmm2 := movlpd (q2 x) (a_shiftvec a) (rbx + 2) in
  let ebx := ld32 (a_iinr a) esi in
  let rbx := ebx + ebx * 2 in
  let nb232nf_ii3 := wrap rbx in
  let xmm3 := xmm0 in
  let xmm4 := xmm1 in
  let xmm5 := xmm2 in
  let xmm3 := addsd_m xmm3 (a_pos a) rbx in
  let xmm4 := addsd_m xmm4 (a_pos a) (rbx + 1) in
  let xmm5 := addsd_m xmm5 (a_pos a) (rbx + 2) in
  let xmm3 := shufpd xmm3 xmm3 0 in
  let xmm4 := shufpd xmm4 xmm4 0 in
  let xmm5 := shufpd xmm5 xmm5 0 in
  let nb232nf_ixO := xmm3 in
  let nb232nf_iyO := xmm4 in
  let nb232nf_izO := xmm5 in
  let xmm3 := movsd_rr xmm3 xmm0 in
  let xmm4 := movsd_rr xmm4 xmm1 in
  let xmm5 := movsd_rr xmm5 xmm2 in
  let xmm0 := addsd_m xmm0 (a_pos a) (rbx + 3) in
  let xmm1 := addsd_m xmm1 (a_pos a) (rbx + 4) in
  let xmm2 := addsd_m xmm2 (a_pos a) (rbx + 5) in
  let xmm3 := addsd_m xmm3 (a_pos a) (rbx + 6) in
  let xmm4 := addsd_m xmm4 (a_pos a) (rbx + 7) in
  let xmm5 := addsd_m xmm5 (a_pos a) (rbx + 8) in
  let xmm0 := shufpd xmm0 xmm0 0 in
  let xmm1 := shufpd xmm1 xmm1 0 in
  let xmm2 := shufpd xmm2 xmm2 0 in
  let xmm3 := shufpd xmm3 xmm3 0 in
  let xmm4 := shufpd xmm4 xmm4 0 in
  let xmm5 := shufpd xmm5 xmm5 0 in
  let nb232nf_ixH1 := xmm0 in
  let nb232nf_iyH1 := xmm1 in
  let nb232nf_izH1 := xmm2 in
  let nb232nf_ixH2 := xmm3 in
  let nb232nf_iyH2 := xmm4 in
  let nb232nf_izH2 := xmm5 in
  let xmm4 := xorpd_self in
  let nb232nf_vctot := xmm4 in
  let nb232nf_Vvdwtot := xmm4 in
  let ecx := ld32 (a_jindex a) esi in
  let edx := ld32 (a_jindex a) (esi + 1) in
  let edx := sub32 edx ecx in
  let ecx := shl32 ecx 2 in
  let nb232nf_innerjjnr := ecx / 4 in               (* jjnr + rcx bytes *)
  let ecx := edx in
  let edx := sub32 edx 2 in
  let ecx := add32 ecx ninner in
  let nb232nf_ninner := ecx in
  let fl := add_flags edx 0 in
  let edx := add32 edx 0 in
  let nb232nf_innerk := edx in
  (Entry nb232nf_is3 nb232nf_ii3 nb232nf_ixO nb232nf_iyO nb232nf_izO
    nb232nf_ixH1 nb232nf_iyH1 nb232nf_izH1 nb232nf_ixH2 nb232nf_iyH2
    nb232nf_izH2,
   Inner (Accum nb232nf_vctot nb232nf_Vvdwtot)
         nb232nf_innerjjnr nb232nf_innerk
         (Xmmd xmm0 xmm1 xmm2 xmm3 xmm4 xmm5 (q6 x) (q7 x)),
   nb232nf_ninner, fl).

(** Lines 3656-3683: the two energies are added to their group. *)
Definition updateouterdata (a : args) (n : Z) (acc : accum)
    (x : xmmd) (o : outputs) : xmmd * outputs :=
  let Vc := o_Vc o in
  let Vvdw := o_Vvdw o in
  let esi := n in
  let edx := ld32 (a_gid a) esi in
  let xmm7 := nb232nf_vctot acc in
  let xmm6 := movhlps_d (q6 x) xmm7 in
  let xmm7 := addsd xmm7 xmm6 in
  let xmm7 := addsd_m xmm7 Vc edx in
  let Vc := movsd_st Vc edx xmm7 in
  let xmm7 := nb232nf_Vvdwtot acc in
  let xmm6 := movhlps_d xmm6 xmm7 in
  let xmm7 := addsd xmm7 xmm6 in
  let xmm7 := addsd_m xmm7 Vvdw edx in
  let Vvdw := movsd_st Vvdw edx xmm7 in
  (Xmmd (q0 x) (q1 x) (q2 x) (q3 x) (q4 x) (q5 x) xmm6 xmm7,
   Outputs (o_faction o) (o_fshift o) Vc Vvdw).

(** One pass of [.nb232nf_unroll_loop] up to its back edge. *)
Definition unroll_body (a : args) (k : consts) (e : entry) (s : inner) : inner :=
  let '(g, x, nb232nf_innerjjnr) :=
    calc_dist a k e (i_xmm s) (nb232nf_innerjjnr s) in
  let '(acc, x) := energies a k g (i_acc s) x in
  Inner acc nb232nf_innerjjnr (nb232nf_innerk s) x.

(** [.nb232nf_dosingle]. *)
Definition dosingle (a : args) (k : consts) (e : entry) (s : inner) : inner :=
  let '(g, x) := calc_dist1 a k e (i_xmm s) (nb232nf_innerjjnr s) in
  let '(acc, x) := energies1 a k g (i_acc s) x in
  Inner acc (nb232nf_innerjjnr s) (nb232nf_innerk s) x.

(** [.nb232nf_unroll_loop] with its back edge
    ([sub dword ptr [rsp + nb232nf_innerk], 2; jl .nb232nf_checksingle]). *)
Fixpoint unroll_loop (fuel : nat) (a : args) (k : consts) (e : entry)
    (s : inner) : option inner :=
  match fuel with
  | O => None
  | S fuel' =>
      let s := unroll_body a k e s in
      let fl := sub_flags (nb232nf_innerk s) 2 in
      let s := Inner (i_acc s) (nb232nf_innerjjnr s)
                     (sub32 (nb232nf_innerk s) 2) (i_xmm s) in
      if cond_l fl then Some s else unroll_loop fuel' a k e s
  end.

(** [.nb232nf_checksingle]: the counter is tested as it stands. *)
Definition checksingle (a : args) (k : consts) (e : entry) (s : inner) : inner :=
  let edx := nb232nf_innerk s in
  let edx := and32 edx 1 in
  if edx =? 0 then s else dosingle a k e s.         (* jnz .nb232nf_dosingle *)

(** One outer entry, from [.nb232nf_outer] to the end of
    [.nb232nf_updateouterdata]. *)
Definition outer_entry (fuel : nat) (a : args) (k : consts) (esi : Z)
    (ninner : Z) (x : xmmd) (o : outputs) : option (Z * xmmd * outputs) :=
  let '(e, s, ninner, fl) := outer_setup a esi ninner x in
  match (if cond_ge fl then unroll_loop fuel a k e s else Some s) with
  | None => None
  | Some s =>
      let s := checksingle a k e s in
      let '(x, o) := updateouterdata a esi (i_acc s) (i_xmm s) o in
      Some (ninner, x, o)
  end.

(** The kernel from its first instruction to [ret] (lines 2379-3716);
    [count] is the value of the shared counter when it is called. *)
Definition nb_kernel232nf (fuel ofuel ifuel : nat) (a : args) (count : Z)
    (x : xmmd) (o : outputs) : option (Threads.kernel_result xmmd outputs) :=
  let eax := 0%Z in
  let nb232nf_nouter := eax in
  let nb232nf_ninner := eax in
  let edi := wrap (a_nri a) in                          (* mov edi, [rdi] *)
  let nb232nf_nri := edi in
  let '(k, x) := prologue a x in
  Threads.thread_loop (outer_entry ifuel a k)
    fuel ofuel nb232nf_nri count nb232nf_nouter nb232nf_ninner x o.

End Code.

Local Open Scope Qc_scope.

(** The distances of a geometry, both lanes of a slot, and one lane of each
    slot. *)
Definition gdist (g : @Water232.geom_of real) : @dist_of real :=
  Dist (Water232.nb232_rsqOO g) (Water232.nb232_rsqOH1 g)
  (Water232.nb232_rsqOH2 g) (Water232.nb232_rsqH1O g)
  (Water232.nb232_rsqH1H1 g) (Water232.nb232_rsqH1H2 g)
  (Water232.nb232_rsqH2O g) (Water232.nb232_rsqH2H1 g)
  (Water232.nb232_rsqH2H2 g) (Water232.nb232_rinvOO g)
  (Water232.nb232_rinvOH1 g) (Water232.nb232_rinvOH2 g)
  (Water232.nb232_rinvH1O g) (Water232.nb232_rinvH1H1 g)
  (Water232.nb232_rinvH1H2 g) (Water232.nb232_rinvH2O g)
  (Water232.nb232_rinvH2H1 g) (Water232.nb232_rinvH2H2 g).

Definition dzip (u v : @dist_of real) : dist :=
  Dist (V2 (nb232nf_rsqOO u) (nb232nf_rsqOO v))
  (V2 (nb232nf_rsqOH1 u) (nb232nf_rsqOH1 v))
  (V2 (nb232nf_rsqOH2 u) (nb232nf_rsqOH2 v))
  (V2 (nb232nf_rsqH1O u) (nb232nf_rsqH1O v))
  (V2 (nb232nf_rsqH1H1 u) (nb232nf_rsqH1H1 v))
  (V2 (nb232nf_rsqH1H2 u) (nb232nf_rsqH1H2 v))
  (V2 (nb232nf_rsqH2O u) (nb232nf_rsqH2O v))
  (V2 (nb232nf_rsqH2H1 u) (nb232nf_rsqH2H1 v))
  (V2 (nb232nf_rsqH2H2 u) (nb232nf_rsqH2H2 v))
  (V2 (nb232nf_rinvOO u) (nb232nf_rinvOO v))
  (V2 (nb232nf_rinvOH1 u) (nb232nf_rinvOH1 v))
  (V2 (nb232nf_rinvOH2 u) (nb232nf_rinvOH2 v))
  (V2 (nb232nf_rinvH1O u) (nb232nf_rinvH1O v))
  (V2 (nb232nf_rinvH1H1 u) (nb232nf_rinvH1H1 v))
  (V2 (nb232nf_rinvH1H2 u) (nb232nf_rinvH1H2 v))
  (V2 (nb232nf_rinvH2O u) (nb232nf_rinvH2O v))
  (V2 (nb232nf_rinvH2H1 u) (nb232nf_rinvH2H1 v))
  (V2 (nb232nf_rinvH2H2 u) (nb232nf_rinvH2H2 v)).

Definition dmap (l : v2 -> real) (g : dist) : @dist_of real :=
  Dist (l (nb232nf_rsqOO g)) (l (nb232nf_rsqOH1 g)) (l (nb232nf_rsqOH2 g))
  (l (nb232nf_rsqH1O g)) (l (nb232nf_rsqH1H1 g)) (l (nb232nf_rsqH1H2 g))
  (l (nb232nf_rsqH2O g)) (l (nb232nf_rsqH2H1 g)) (l (nb232nf_rsqH2H2 g))
  (l (nb232nf_rinvOO g)) (l (nb232nf_rinvOH1 g)) (l (nb232nf_rinvOH2 g))
  (l (nb232nf_rinvH1O g)) (l (nb232nf_rinvH1H1 g)) (l (nb232nf_rinvH1H2 g))
  (l (nb232nf_rinvH2O g)) (l (nb232nf_rinvH2H1 g)) (l (nb232nf_rinvH2H2 g)).

Lemma Dist_eq (A : Type)
    (u0 u1 u2 u3 u4 u5 u6 u7 u8 u9 u10 u11 u12 u13 u14 u15 u16 u17 v0 v1 v2
    v3 v4 v5 v6 v7 v8 v9 v10 v11 v12 v13 v14 v15 v16 v17 : A) :
  u0 = v0 -> u1 = v1 -> u2 = v2 -> u3 = v3 -> u4 = v4 -> u5 = v5 ->
  u6 = v6 -> u7 = v7 -> u8 = v8 -> u9 = v9 -> u10 = v10 -> u11 = v11 ->
  u12 = v12 -> u13 = v13 -> u14 = v14 -> u15 = v15 -> u16 = v16 ->
  u17 = v17 ->
  Dist u0 u1 u2 u3 u4 u5 u6 u7 u8 u9 u10 u11 u12 u13 u14 u15 u16 u17 =
  Dist v0 v1 v2 v3 v4 v5 v6 v7 v8 v9 v10 v11 v12 v13 v14 v15 v16 v17.
Proof. intros. subst. reflexivity. Qed.

(** *** The energies of one molecule *)

Section Energies.
Variable a : args.

(** The Coulomb and the Lennard-Jones energy of a j molecule, from the
    distances of its nine atom pairs: the energies of the reference terms,
    which do not depend on the displacements. *)
Definition mol_Vc (g : @dist_of real) : real :=
  let rf qq rsq rinv := Water232.p_Vc (Water232.rf_terms a qq 0 0 0 rsq rinv) in
  Water232.p_Vc (Water232.oo_terms a 0 0 0 (nb232nf_rsqOO g) (nb232nf_rinvOO g))
  + rf (Water232.qqOH a) (nb232nf_rsqOH1 g) (nb232nf_rinvOH1 g)
  + rf (Water232.qqOH a) (nb232nf_rsqOH2 g) (nb232nf_rinvOH2 g)
  + rf (Water232.qqOH a) (nb232nf_rsqH1O g) (nb232nf_rinvH1O g)
  + rf (Water232.qqHH a) (nb232nf_rsqH1H1 g) (nb232nf_rinvH1H1 g)
  + rf (Water232.qqHH a) (nb232nf_rsqH1H2 g) (nb232nf_rinvH1H2 g)
  + rf (Water232.qqOH a) (nb232nf_rsqH2O g) (nb232nf_rinvH2O g)
  + rf (Water232.qqHH a) (nb232nf_rsqH2H1 g) (nb232nf_rinvH2H1 g)
  + rf (Water232.qqHH a) (nb232nf_rsqH2H2 g) (nb232nf_rinvH2H2 g).

Definition mol_Vvdw (g : @dist_of real) : real :=
  Water232.p_Vvdw (Water232.oo_terms a 0 0 0 (nb232nf_rsqOO g) (nb232nf_rinvOO g)).

Lemma mol_Vc_terms g :
  Water232.m_Vc (Water232.mol_terms_of a g) = mol_Vc (gdist g).
Proof. destruct g. reflexivity. Qed.

Lemma mol_Vvdw_terms g :
  Water232.m_Vvdw (Water232.mol_terms_of a g) = mol_Vvdw (gdist g).
Proof. destruct g. reflexivity. Qed.

End Energies.

(** One lane of the i coordinates. *)
Definition lane_w (l : v2 -> real) (e : entry) : Water232.water :=
  Water232.Water
    (l (nb232nf_ixO e)) (l (nb232nf_iyO e)) (l (nb232nf_izO e))
    (l (nb232nf_ixH1 e)) (l (nb232nf_iyH1 e)) (l (nb232nf_izH1 e))
    (l (nb232nf_ixH2 e)) (l (nb232nf_iyH2 e)) (l (nb232nf_izH2 e)).

Definition entry_w (is3 ii3 : Z) (w : Water232.water) : entry :=
  Entry is3 ii3
    (splat2 (Water232.w_xO w)) (splat2 (Water232.w_yO w)) (splat2 (Water232.w_zO w))
    (splat2 (Water232.w_xH1 w)) (splat2 (Water232.w_yH1 w)) (splat2 (Water232.w_zH1 w))
    (splat2 (Water232.w_xH2 w)) (splat2 (Water232.w_yH2 w)) (splat2 (Water232.w_zH2 w)).

Lemma nf_lane_w_d0 is3 ii3 w : lane_w d0 (entry_w is3 ii3 w) = w.
Proof. destruct w. reflexivity. Qed.

Lemma nf_lane_w_d1 is3 ii3 w : lane_w d1 (entry_w is3 ii3 w) = w.
Proof. destruct w. reflexivity. Qed.

Lemma dmap_dzip_d0 u v : dmap d0 (dzip u v) = u.
Proof. destruct u. reflexivity. Qed.

Lemma dmap_dzip_d1 u v : dmap d1 (dzip u v) = v.
Proof. destruct v. reflexivity. Qed.

(** What the prologue leaves on the stack, whatever the registers held. *)
Definition consts_of (a : args) : consts :=
  Consts (a_facel a) (splat2 (a_tabscale a)) (splat2 (a_krf a)) (splat2 (a_crf a))
         (splat2 half_bits) (splat2 three)
         (splat2 (Water232.qqOO a)) (splat2 (Water232.qqOH a))
         (splat2 (Water232.qqHH a))
         (splat2 (Water232.c6 a)) (splat2 (Water232.c12 a)).

Lemma nf232_prologue_consts a x : fst (prologue a x) = consts_of a.
Proof. reflexivity. Qed.

Lemma nf_Accum_eq (u0 u1 v0 v1 : v2) :
  u0 = v0 -> u1 = v1 -> Accum u0 u1 = Accum v0 v1.
Proof. intros. subst. reflexivity. Qed.

(** *** The two halves of a pass, lane by lane *)

Ltac nf_red :=
  cbv beta iota zeta delta
    [calc_dist calc_dist1 energies energies1 consts_of
     gdist dzip dmap lane_w Water232.ref_geom mol_Vc mol_Vvdw
     Water232.w_xO Water232.w_yO Water232.w_zO Water232.w_xH1 Water232.w_yH1
     Water232.w_zH1 Water232.w_xH2 Water232.w_yH2 Water232.w_zH2
     Water232.nb232_rsqOO Water232.nb232_rsqOH1 Water232.nb232_rsqOH2
     Water232.nb232_rsqH1O Water232.nb232_rsqH1H1 Water232.nb232_rsqH1H2
     Water232.nb232_rsqH2O Water232.nb232_rsqH2H1 Water232.nb232_rsqH2H2
     Water232.nb232_rinvOO Water232.nb232_rinvOH1 Water232.nb232_rinvOH2
     Water232.nb232_rinvH1O Water232.nb232_rinvH1H1 Water232.nb232_rinvH1H2
     Water232.nb232_rinvH2O Water232.nb232_rinvH2H1 Water232.nb232_rinvH2H2
     Water232.oo_terms Water232.rf_terms Water232.p_Vc Water232.p_Vvdw
     Water232.qqOO Water232.qqOH Water232.qqHH Water232.qO Water232.qH
     Water232.c6 Water232.c12
     Formula.rf_V Formula.rf_F Formula.spline_V Formula.spline_F
     i_acc i_xmm nb232nf_innerjjnr nb232nf_innerk nb232nf_is3 nb232nf_ii3
     nb232nf_ixO nb232nf_iyO nb232nf_izO nb232nf_ixH1 nb232nf_iyH1 nb232nf_izH1
     nb232nf_ixH2 nb232nf_iyH2 nb232nf_izH2
     nb232nf_vctot nb232nf_Vvdwtot
     nb232nf_rsqOO nb232nf_rsqOH1 nb232nf_rsqOH2 nb232nf_rsqH1O nb232nf_rsqH1H1
     nb232nf_rsqH1H2 nb232nf_rsqH2O nb232nf_rsqH2H1 nb232nf_rsqH2H2
     nb232nf_rinvOO nb232nf_rinvOH1 nb232nf_rinvOH2 nb232nf_rinvH1O nb232nf_rinvH1H1
     nb232nf_rinvH1H2 nb232nf_rinvH2O nb232nf_rinvH2H1 nb232nf_rinvH2H2
     nb232nf_facel nb232nf_tsc nb232nf_krf nb232nf_crf nb232nf_half nb232nf_three
     nb232nf_qqOO nb232nf_qqOH nb232nf_qqHH nb232nf_c6 nb232nf_c12
     NB030d.q0 NB030d.q1 NB030d.q2 NB030d.q3 NB030d.q4 NB030d.q5 NB030d.q6 NB030d.q7
     d0 d1 l0 l1 l2 l3 splat2
     xorpd_self addpd subpd mulpd addsd subsd mulsd shufpd unpcklpd unpckhpd
     movsd movsd_v movsd_rr movlpd movhpd movapd_ld NB030d.addsd_m NB030d.movsd_st
     movlpd_st movhpd_st NB030d.movhlps_d NB030d.cvttsd2si NB030d.cvtsi2sd
     cvtsd2ss rsqrtss cvtss2sd
     rsqrtps cvtpd2ps cvtps2pd cvttpd2pi cvtpi2pd pslld psrlq32 movd fst snd
     Z.land Z.shiftr Z.shiftl Pos.land Z.of_N Pos.div2 Z.div2 Pos.iter Z.opp Z.pos_sub
     Pos.pred_double Pos.succ Pos.Nsucc_double Pos.Ndouble].

Section Halves.
Variable rsqrt_approx : real -> real.
Variable to_single : real -> real.
Variable a : args.

Let k := consts_of a.

Ltac rinv_goal :=
  unfold Water232.two_steps, NB232.seed;
  match goal with
  | |- _ = Formula.nr_step ?R _ =>
      match goal with
      | |- context [rsqrt_approx (to_single ?r)] =>
          first [ constr_eq r R
                | let H := fresh in
                  assert (H : r = R) by (unfold Water232.rsq3; ring);
                  rewrite !H; clear H ]
      end;
      generalize R; intro; unfold Formula.nr_step; ring
  end.

(** Lines 2583-2921: each lane holds the distances of its own j molecule. *)
Lemma calc_dist_spec e x p :
  let j0 := ld32 (a_jjnr a) p in
  let j1 := ld32 (a_jjnr a) (p + 1) in
  let '(g, _, jj) := calc_dist rsqrt_approx to_single a k e x p in
  g = dzip (gdist (Water232.ref_geom rsqrt_approx to_single a (lane_w d0 e)
                     (j0 + j0 * 2)))
           (gdist (Water232.ref_geom rsqrt_approx to_single a (lane_w d1 e)
                     (j1 + j1 * 2)))
  /\ jj = (p + 2)%Z.
Proof.
  unfold k. nf_red.
  split; [|reflexivity].
  apply Dist_eq; apply Water232.V2_eq; try reflexivity;
    try (unfold Water232.rsq3; ring); rinv_goal.
Qed.

(** Lines 2922-3124: each lane of the two energies receives the energy of
    its own molecule. *)
Lemma energies_spec g acc x :
  fst (energies a k g acc x) =
  Accum (V2 (d0 (nb232nf_vctot acc) + mol_Vc a (dmap d0 g))
            (d1 (nb232nf_vctot acc) + mol_Vc a (dmap d1 g)))
        (V2 (d0 (nb232nf_Vvdwtot acc) + mol_Vvdw a (dmap d0 g))
            (d1 (nb232nf_Vvdwtot acc) + mol_Vvdw a (dmap d1 g))).
Proof.
  unfold k. nf_red.
  apply nf_Accum_eq; apply Water232.V2_eq; ring.
Qed.

(** Lines 3136-3459: the lower lanes hold the distances of the one
    molecule. *)
Lemma calc_dist1_spec e x p :
  let j0 := ld32 (a_jjnr a) p in
  dmap d0 (fst (calc_dist1 rsqrt_approx to_single a k e x p)) =
  gdist (Water232.ref_geom rsqrt_approx to_single a (lane_w d0 e) (j0 + j0 * 2)).
Proof.
  unfold k. nf_red.
  apply Dist_eq; try reflexivity; try (unfold Water232.rsq3; ring); rinv_goal.
Qed.

(** Lines 3460-3652: the lower lane of the two energies receives the
    energy of the molecule, the upper lane keeps its value. *)
Lemma energies1_spec g acc x :
  fst (energies1 a k g acc x) =
  Accum (V2 (d0 (nb232nf_vctot acc) + mol_Vc a (dmap d0 g))
            (d1 (nb232nf_vctot acc)))
        (V2 (d0 (nb232nf_Vvdwtot acc) + mol_Vvdw a (dmap d0 g))
            (d1 (nb232nf_Vvdwtot acc))).
Proof.
  unfold k. nf_red.
  apply nf_Accum_eq; apply Water232.V2_eq; try reflexivity; ring.
Qed.

End Halves.

(** *** The inner loop *)

Definition set_innerk (s : inner) (k' : Z) : inner :=
  Inner (i_acc s) (nb232nf_innerjjnr s) k' (i_xmm s).

Lemma nf232_unroll_loop_eq rsqrt_approx to_single a k e fuel : forall s,
  unroll_loop rsqrt_approx to_single fuel a k e s =
  PassLoop.pass_loop nb232nf_innerk set_innerk
    (unroll_body rsqrt_approx to_single a k e) fuel s.
Proof.
  induction fuel as [|fuel IH]; intros s; [reflexivity|].
  cbn [unroll_loop PassLoop.pass_loop]. rewrite IH. reflexivity.
Qed.

(** The two energies of one outer entry, as the flush will see them. *)
Definition energies_of (s : inner) : real * real :=
  (d0 (nb232nf_vctot (i_acc s)) + d1 (nb232nf_vctot (i_acc s)),
   d0 (nb232nf_Vvdwtot (i_acc s)) + d1 (nb232nf_Vvdwtot (i_acc s))).

Section EntryReference.
Variable rsqrt_approx : real -> real.
Variable to_single : real -> real.
Variable a : args.
Variable w : Water232.water.

(** The energies of the reference alone. *)
Definition energy_step (t : real * real) (j : Z) : real * real :=
  let g := gdist (Water232.ref_geom rsqrt_approx to_single a w (3 * j)) in
  (fst t + mol_Vc a g, snd t + mol_Vvdw a g).

Definition energy_eval (js : list Z) (t : real * real) : real * real :=
  fold_left energy_step js t.

Lemma energy_eval_app l1 l2 t :
  energy_eval (l1 ++ l2) t = energy_eval l2 (energy_eval l1 t).
Proof. unfold energy_eval. apply fold_left_app. Qed.

(** The energies of the full reference do not depend on the forces. *)
Lemma ref_eval_energy js : forall T,
  (Water232.t_Vc (Water232.ref_eval rsqrt_approx to_single a w js T),
   Water232.t_Vvdw (Water232.ref_eval rsqrt_approx to_single a w js T)) =
  energy_eval js (Water232.t_Vc T, Water232.t_Vvdw T).
Proof.
  induction js as [|j js IH]; intros T; [reflexivity|].
  unfold Water232.ref_eval, energy_eval in *. cbn [fold_left].
  rewrite IH. reflexivity.
Qed.

Variables is3 ii3 : Z.

Let k := consts_of a.
Let e := entry_w is3 ii3 w.

Lemma nf232_unroll_body_innerk s :
  nb232nf_innerk (unroll_body rsqrt_approx to_single a k e s) = nb232nf_innerk s.
Proof.
  unfold unroll_body.
  destruct (calc_dist _ _ _ _ _ _ _) as [[g x'] jj].
  destruct (energies _ _ _ _ _). reflexivity.
Qed.

Lemma nf232_unroll_body_innerjjnr s :
  nb232nf_innerjjnr (unroll_body rsqrt_approx to_single a k e s) =
  (nb232nf_innerjjnr s + 2)%Z.
Proof.
  unfold unroll_body.
  pose proof (calc_dist_spec rsqrt_approx to_single a e (i_xmm s)
                (nb232nf_innerjjnr s)) as HA.
  cbv zeta in HA. fold k in HA.
  destruct (calc_dist _ _ _ _ _ _ _) as [[g x'] jj].
  destruct HA as (_ & ->).
  destruct (energies _ _ _ _ _). reflexivity.
Qed.

(** One pass over two molecules adds the energies of two reference
    evaluations, whatever the molecules are. *)
Lemma nf232_unroll_body_totals s :
  energies_of (unroll_body rsqrt_approx to_single a k e s) =
  energy_eval (NB030.j_list a (nb232nf_innerjjnr s) 2) (energies_of s).
Proof.
  unfold unroll_body.
  pose proof (calc_dist_spec rsqrt_approx to_single a e (i_xmm s)
                (nb232nf_innerjjnr s)) as HA.
  cbv zeta in HA. fold k in HA.
  destruct (calc_dist _ _ _ _ _ _ _) as [[g x'] jj].
  destruct HA as (-> & ->).
  match goal with
  | |- context [energies ?a0 ?k0 ?g0 ?acc0 ?x0] =>
      pose proof (energies_spec a0 g0 acc0 x0) as HB; fold k in HB;
      destruct (energies a0 k0 g0 acc0 x0) as [acc' x'']
  end.
  cbn [fst] in HB. subst acc'.
  rewrite dmap_dzip_d0, dmap_dzip_d1. unfold e.
  rewrite nf_lane_w_d0, nf_lane_w_d1.
  rewrite NB030.j_list_2.
  set (j0 := ld32 (a_jjnr a) (nb232nf_innerjjnr s)).
  set (j1 := ld32 (a_jjnr a) (nb232nf_innerjjnr s + 1)).
  replace (j0 + j0 * 2)%Z with (3 * j0)%Z by lia.
  replace (j1 + j1 * 2)%Z with (3 * j1)%Z by lia.
  unfold energy_eval, energy_step, energies_of.
  cbn [fold_left fst snd i_acc nb232nf_vctot nb232nf_Vvdwtot d0 d1].
  f_equal; ring.
Qed.

(** [.nb232nf_checksingle] with the remainder [r] of the list. *)
Lemma nf232_checksingle_spec s r :
  (0 <= r <= 1)%Z -> nb232nf_innerk s = wrap (r - 2) ->
  checksingle rsqrt_approx to_single a k e s =
  if (r =? 0)%Z then s else dosingle rsqrt_approx to_single a k e s.
Proof.
  intros Hr Hk. unfold checksingle. rewrite Hk.
  assert (Hc : (r = 0 \/ r = 1)%Z) by lia.
  destruct Hc as [-> | ->]; reflexivity.
Qed.

Lemma nf232_checksingle_totals s r :
  (0 <= r <= 1)%Z -> nb232nf_innerk s = wrap (r - 2) ->
  energies_of (checksingle rsqrt_approx to_single a k e s) =
  energy_eval (NB030.j_list a (nb232nf_innerjjnr s) r) (energies_of s).
Proof.
  intros Hr Hk. rewrite (nf232_checksingle_spec s Hr Hk).
  assert (Hc : (r = 0 \/ r = 1)%Z) by lia.
  destruct Hc as [-> | ->]; cbn [Z.eqb]; [reflexivity|].
  unfold dosingle.
  pose proof (calc_dist1_spec rsqrt_approx to_single a e (i_xmm s)
                (nb232nf_innerjjnr s)) as HA.
  cbv zeta in HA. fold k in HA.
  destruct (calc_dist1 _ _ _ _ _ _ _) as [g x']. cbn [fst] in HA.
  match goal with
  | |- context [energies1 ?a0 ?k0 ?g0 ?acc0 ?x0] =>
      pose proof (energies1_spec a0 g0 acc0 x0) as HB; fold k in HB;
      destruct (energies1 a0 k0 g0 acc0 x0) as [acc' x'']
  end.
  cbn [fst] in HB. subst acc'.
  rewrite HA. unfold e. rewrite nf_lane_w_d0.
  rewrite NB030.j_list_1.
  set (j0 := ld32 (a_jjnr a) (nb232nf_innerjjnr s)).
  replace (j0 + j0 * 2)%Z with (3 * j0)%Z by lia.
  unfold energy_eval, energy_step, energies_of.
  cbn [fold_left fst snd i_acc nb232nf_vctot nb232nf_Vvdwtot d0 d1].
  f_equal; ring.
Qed.

Lemma nf232_iter_pass_ref m : forall p t,
  PassLoop.iter_pass (fun p t => energy_eval (NB030.j_list a p 2) t) m p t =
  energy_eval (NB030.j_list a p (2 * Z.of_nat m)) t.
Proof.
  induction m as [|m IH]; intros p t; [reflexivity|].
  cbn [PassLoop.iter_pass]. rewrite IH.
  replace (2 * Z.of_nat (S m))%Z with (2 + 2 * Z.of_nat m)%Z by lia.
  rewrite Entry030.j_list_app by lia.
  rewrite energy_eval_app. reflexivity.
Qed.

(** The unrolled loop followed by the single-molecule tail, from a state
    whose counter holds [N - 2]: the [N] molecules are evaluated once
    each, in order. *)
Lemma nf232_inner_loop_totals (fuel : nat) (s : inner) (N : Z) :
  (0 <= N < 2 ^ 31)%Z -> (N <= 2 * Z.of_nat fuel)%Z ->
  nb232nf_innerk s = sub32 N 2 ->
  exists s',
    (if cond_ge (add_flags (sub32 N 2) 0)
     then unroll_loop rsqrt_approx to_single fuel a k e s else Some s) = Some s'
    /\ energies_of (checksingle rsqrt_approx to_single a k e s') =
       energy_eval (NB030.j_list a (nb232nf_innerjjnr s) N) (energies_of s).
Proof.
  intros HN Hfuel Hk.
  assert (H2 : in_range (sub32 N 2)) by apply wrap_range.
  rewrite cond_ge_add0 by exact H2.
  destruct (Z_lt_le_dec N 2) as [Hlt|Hge].
  - assert (Hs : signed (sub32 N 2) = (N - 2)%Z).
    { unfold sub32. apply signed_wrap_neg. lia. }
    rewrite Hs. destruct (Z.leb_spec 0 (N - 2)); [lia|].
    exists s. split; [reflexivity|].
    apply nf232_checksingle_totals; [lia | exact Hk].
  - assert (Hk2 : sub32 N 2 = (N - 2)%Z).
    { unfold sub32. apply wrap_small. lia. }
    assert (Hs : signed (sub32 N 2) = (N - 2)%Z).
    { rewrite Hk2. apply signed_small. lia. }
    rewrite Hs. destruct (Z.leb_spec 0 (N - 2)); [|lia].
    rewrite nf232_unroll_loop_eq.
    destruct (@PassLoop.pass_loop_totals inner (real * real)%type nb232nf_innerk
                nb232nf_innerjjnr set_innerk energies_of
                (unroll_body rsqrt_approx to_single a k e)
                (fun _ => True)
                (fun p t => energy_eval (NB030.j_list a p 2) t)
                (fun s1 k' => eq_refl) (fun s1 k' => eq_refl) (fun s1 k' => eq_refl)
                nf232_unroll_body_innerk nf232_unroll_body_innerjjnr
                (fun s1 _ => nf232_unroll_body_totals s1))
      with (fuel := fuel) (s := s)
      as (s' & m & r & Hrun & Hr & HK & Hk' & Hj' & Ht').
    + rewrite Hk. exact H2.
    + rewrite Hk, Hs. lia.
    + intros. exact I.
    + exists s'. split; [exact Hrun|].
      rewrite Hk, Hs in HK.
      rewrite (@nf232_checksingle_totals s' r ltac:(lia) Hk').
      rewrite Hj', Ht'. rewrite nf232_iter_pass_ref.
      replace (NB030.j_list a (nb232nf_innerjjnr s) N)
        with (NB030.j_list a (nb232nf_innerjjnr s) (2 * Z.of_nat (S m) + r))
        by (f_equal; lia).
      rewrite Entry030.j_list_app by lia.
      rewrite energy_eval_app. reflexivity.
Qed.

End EntryReference.

(** *** One outer entry *)

Definition entry_of (a : args) (esi : Z) : entry :=
  let sh := ld32 (a_shift a) esi in
  let ii := ld32 (a_iinr a) esi in
  entry_w (wrap (sh + sh * 2)) (wrap (ii + ii * 2)) (Water232.water_of a esi).

Definition zero_acc : accum := Accum xorpd_self xorpd_self.

Lemma nf232_outer_setup_spec a esi ninner x :
  outer_setup a esi ninner x =
  (entry_of a esi,
   Inner zero_acc (NB030.nj0 a esi)
         (add32 (sub32 (NB030.ninner_of a esi) 2) 0)
         (i_xmm (snd (fst (fst (outer_setup a esi ninner x))))),
   add32 (NB030.ninner_of a esi) ninner,
   add_flags (sub32 (NB030.ninner_of a esi) 2) 0).
Proof. reflexivity. Qed.

(** What [.nb232nf_updateouterdata] does with the energies of an entry. *)
Definition flush (g : Z) (t : real * real) (o : outputs) : outputs :=
  Outputs (o_faction o) (o_fshift o)
          (store (o_Vc o) g (fst t + o_Vc o g))
          (store (o_Vvdw o) g (snd t + o_Vvdw o g)).

Lemma nf232_updateouterdata_spec a n s o :
  snd (updateouterdata a n (i_acc s) (i_xmm s) o) =
  flush (ld32 (a_gid a) n) (energies_of s) o.
Proof.
  destruct s as [[[? ?] [? ?]] ? ? x]. destruct o. reflexivity.
Qed.

Section EntryTheorems.
Variable rsqrt_approx : real -> real.
Variable to_single : real -> real.
Variable a : args.

(** What an entry does by the reference of the force kernel: its two
    energies are added to the slots of the entry's group; the forces are
    left alone. *)
Definition ref_entry (esi : Z) (o : outputs) : outputs :=
  let R := Water232.ref_eval rsqrt_approx to_single a (Water232.water_of a esi)
             (NB030.j_list a (NB030.nj0 a esi) (NB030.ninner_of a esi))
             (Water232.zero_totals (o_faction o)) in
  flush (ld32 (a_gid a) esi) (Water232.t_Vc R, Water232.t_Vvdw R) o.

Lemma nf232_outer_entry_reference (fuel : nat) (esi ninner : Z) (x0 x : xmmd)
    (o : outputs) :
  let N := NB030.ninner_of a esi in
  (N < 2 ^ 31)%Z -> (N <= 2 * Z.of_nat fuel)%Z ->
  exists x',
    outer_entry rsqrt_approx to_single fuel a (fst (prologue a x0)) esi ninner x o =
    Some (add32 N ninner, x', ref_entry esi o).
Proof.
  intros N HN Hfuel.
  assert (HNr : in_range N) by apply wrap_range.
  rewrite nf232_prologue_consts. unfold outer_entry.
  rewrite (nf232_outer_setup_spec a esi ninner x).
  set (x1 := i_xmm _).
  rewrite NB030.add32_0_sub32. fold N.
  unfold entry_of. cbv zeta.
  match goal with
  | |- context [unroll_loop _ _ _ _ _ (entry_w ?i1 ?i2 ?w) ?s] =>
      destruct (@nf232_inner_loop_totals rsqrt_approx to_single a w i1 i2
                  fuel s N)
        as (s' & Hrun & Htot)
  end.
  - unfold in_range in HNr. lia.
  - exact Hfuel.
  - reflexivity.
  - rewrite Hrun.
    rewrite (surjective_pairing (updateouterdata _ _ _ _ _)).
    rewrite nf232_updateouterdata_spec. rewrite Htot.
    cbn [nb232nf_innerjjnr].
    unfold ref_entry. cbv zeta. rewrite ref_eval_energy.
    eexists. reflexivity.
Qed.

(** The energy-only kernel 232 against the reference of the force kernel:
    an outer entry with fewer than [2^31] list elements, whatever they
    are, returns, adds to the Vc and Vvdw slots of its group the energies
    that the reference gives for the list, and leaves the force arrays
    as they were. *)
Theorem nf232_entry_reference (fuel : nat) (esi ninner : Z) (x0 x : xmmd)
    (o : outputs) :
  let N := NB030.ninner_of a esi in
  (N < 2 ^ 31)%Z -> (N <= 2 * Z.of_nat fuel)%Z ->
  exists x',
    outer_entry rsqrt_approx to_single fuel a (fst (prologue a x0)) esi ninner x o =
    Some (add32 N ninner, x', ref_entry esi o).
Proof. apply nf232_outer_entry_reference. Qed.

Definition ref_entries : nat -> Z -> outputs -> outputs :=
  Threads.fold_from ref_entry.

(** An entry the kernel can run: its list is not longer than [2^31 - 1]
    (and than the fuel allows). *)
Definition entry_fits (ifuel : nat) (n : Z) : Prop :=
  (NB030.ninner_of a n < 2 ^ 31)%Z /\ (NB030.ninner_of a n <= 2 * Z.of_nat ifuel)%Z.

Lemma nf232_kernel_run (fuel ofuel ifuel : nat) (c : Z) (x : xmmd) (o : outputs) :
  let nri := wrap (a_nri a) in
  (0 <= c < nri)%Z -> (nri < 2 ^ 31)%Z ->
  (nri - c <= Z.of_nat fuel)%Z -> (0 < ofuel)%nat ->
  (forall n, (c <= n < nri)%Z -> entry_fits ifuel n) ->
  exists x',
    nb_kernel232nf rsqrt_approx to_single fuel ofuel ifuel a c x o =
      Some (Threads.Run nri (nri - c)
              (wrap (Run030.sum_ninner a (Z.to_nat (nri - c)) c)) x'
              (ref_entries (Z.to_nat (nri - c)) c o)).
Proof.
  intros nri Hc Hnri Hf Hof Hfit.
  unfold nb_kernel232nf. cbv zeta. fold nri.
  rewrite (surjective_pairing (prologue a x)).
  destruct (@Threads.entries_fold xmmd outputs
              (outer_entry rsqrt_approx to_single ifuel a (fst (prologue a x)))
              (NB030.ninner_of a) ref_entry (entry_fits ifuel))
    with (m := Z.to_nat (nri - c)) (c := c) (ninner := 0%Z)
         (x := snd (prologue a x)) (o := o)
    as (x' & Hent).
  - intros esi ni y p [H1 H2].
    apply (@nf232_outer_entry_reference ifuel esi ni x y p H1 H2).
  - intros n Hn. apply Hfit. lia.
  - exists x'. apply Threads.thread_loop_run; try assumption. apply wrap_range.
Qed.

(** The energies that the reference entries leave do not depend on the
    force arrays they start from: the entries of the energy-only kernel
    and those of the force kernel leave the same Vc and Vvdw. *)
Lemma ref_entries_energy (m : nat) : forall c o o',
  o_Vc o = o_Vc o' -> o_Vvdw o = o_Vvdw o' ->
  let r := ref_entries m c o in
  let r' := Water232.ref_entries rsqrt_approx to_single a m c o' in
  o_Vc r = o_Vc r' /\ o_Vvdw r = o_Vvdw r'.
Proof.
  induction m as [|m IH]; intros c o o' HV HW; [split; assumption|].
  unfold ref_entries, Water232.ref_entries in *. cbn [Threads.fold_from].
  apply IH.
  - unfold ref_entry, Water232.ref_entry, flush, Water232.flush. cbv zeta.
    cbn [o_Vc fst].
    pose proof (ref_eval_energy rsqrt_approx to_single a (Water232.water_of a c)
                  (NB030.j_list a (NB030.nj0 a c) (NB030.ninner_of a c))
                  (Water232.zero_totals (o_faction o))) as E1.
    pose proof (ref_eval_energy rsqrt_approx to_single a (Water232.water_of a c)
                  (NB030.j_list a (NB030.nj0 a c) (NB030.ninner_of a c))
                  (Water232.zero_totals (o_faction o'))) as E2.
    cbn [Water232.zero_totals Water232.t_Vc Water232.t_Vvdw] in E1, E2.
    rewrite <- E2 in E1. injection E1 as E1 E3.
    rewrite E1, HV. reflexivity.
  - unfold ref_entry, Water232.ref_entry, flush, Water232.flush. cbv zeta.
    cbn [o_Vvdw snd].
    pose proof (ref_eval_energy rsqrt_approx to_single a (Water232.water_of a c)
                  (NB030.j_list a (NB030.nj0 a c) (NB030.ninner_of a c))
                  (Water232.zero_totals (o_faction o))) as E1.
    pose proof (ref_eval_energy rsqrt_approx to_single a (Water232.water_of a c)
                  (NB030.j_list a (NB030.nj0 a c) (NB030.ninner_of a c))
                  (Water232.zero_totals (o_faction o'))) as E2.
    cbn [Water232.zero_totals Water232.t_Vc Water232.t_Vvdw] in E1, E2.
    rewrite <- E2 in E1. injection E1 as E1 E3.
    rewrite E3, HW. reflexivity.
Qed.

(** The whole energy-only kernel 232 against the reference: a single
    thread adds to Vc and Vvdw what the reference of the force kernel adds
    after the entries [c .. nri-1], leaves the force arrays as they were,
    and reports the same iteration counts; the lists may hold any
    molecules. *)
Theorem nf232_kernel_reference (fuel ofuel ifuel : nat) (c : Z) (x : xmmd)
    (o : outputs) :
  let nri := wrap (a_nri a) in
  (0 <= c < nri)%Z -> (nri < 2 ^ 31)%Z ->
  (nri - c <= Z.of_nat fuel)%Z -> (0 < ofuel)%nat ->
  (forall n, (c <= n < nri)%Z -> entry_fits ifuel n) ->
  exists x',
    nb_kernel232nf rsqrt_approx to_single fuel ofuel ifuel a c x o =
      Some (Threads.Run nri (nri - c)
              (wrap (Run030.sum_ninner a (Z.to_nat (nri - c)) c)) x'
              (ref_entries (Z.to_nat (nri - c)) c o)).
Proof. apply nf232_kernel_run. Qed.

(** Run by one thread on the same arguments and counter, over lists of
    water molecules with separate force slots, the energy-only kernel and
    the force kernel both return, with the same Vc and Vvdw arrays, the
    same counter and the same iteration counts. *)
Theorem nf232_kernel_energy (fuel ofuel ifuel : nat) (c : Z) (x y : xmmd)
    (scr : Water232.scratch) (o : outputs) :
  let nri := wrap (a_nri a) in
  (0 <= c < nri)%Z -> (nri < 2 ^ 31)%Z ->
  (nri - c <= Z.of_nat fuel)%Z -> (0 < ofuel)%nat ->
  (forall n, (c <= n < nri)%Z -> Water232.entry_ok ifuel a n) ->
  exists r r',
    nb_kernel232nf rsqrt_approx to_single fuel ofuel ifuel a c x o = Some r
    /\ Water232.nb_kernel232 rsqrt_approx to_single fuel ofuel ifuel a c y scr o
       = Some r'
    /\ o_Vc (Threads.k_out r) = o_Vc (Threads.k_out r')
    /\ o_Vvdw (Threads.k_out r) = o_Vvdw (Threads.k_out r')
    /\ Threads.k_count r = Threads.k_count r'
    /\ Threads.k_outeriter r = Threads.k_outeriter r'
    /\ Threads.k_inneriter r = Threads.k_inneriter r'.
Proof.
  intros nri Hc Hnri Hf Hof Hok.
  destruct (@nf232_kernel_run fuel ofuel ifuel c x o Hc Hnri Hf Hof) as (x' & H1).
  { intros n Hn. exact (proj1 (Hok n Hn)). }
  destruct (@Water232.w_kernel_run rsqrt_approx to_single fuel ofuel ifuel a c y scr o
              Hc Hnri Hf Hof Hok) as (c' & H2).
  fold nri in H1, H2.
  destruct (@ref_entries_energy (Z.to_nat (nri - c)) c o o eq_refl eq_refl)
    as [EV EW].
  eexists. eexists. split; [exact H1|]. split; [exact H2|].
  cbn [Threads.k_out Threads.k_count Threads.k_outeriter Threads.k_inneriter].
  repeat split; assumption.
Qed.

End EntryTheorems.
End Water232nf.

(** * A small system on which the hypotheses of the theorems above hold *)

Module Sample030.
Import W32 SSE Kernel NB030 Entry030 Threads Run030.
Local Open Scope Z_scope.
Local Open Scope Qc_scope.

(** Two outer entries of five particles each; position [q] of the list
    names particle [q + 1]. *)
Definition sample_system : args :=
  Args 2 (fun _ => 0%Z) (fun i => (5 * i)%Z) (fun q => (q + 1)%Z) (fun _ => 0%Z)
       (fun _ => 0) (fun _ => 0%Z)
       (fun i => if (i <? 3)%Z then 0 else 1)
       (fun _ => 1) 1 1 1 (fun _ => 0%Z) 1 (fun _ => 1) 1 (fun _ => 1).

Lemma sample_distinct lo hi :
  (0 <= lo)%Z -> (hi < 2 ^ 20)%Z -> distinct_js sample_system lo hi.
Proof.
  intros Hlo Hhi. unfold distinct_js, ld32. cbn [a_jjnr sample_system]. split.
  - intros q Hq. rewrite wrap_small by lia. lia.
  - intros q q' Hq Hq' Hne. rewrite !wrap_small by lia. lia.
Qed.

Lemma sample_fits n :
  (0 <= n < 2)%Z ->
  entry_fits 2 sample_system n
  /\ distinct_js sample_system (nj0 sample_system n)
       (nj0 sample_system n + 4 * (ninner_of sample_system n / 4)).
Proof.
  intros Hn. assert (E : n = 0%Z \/ n = 1%Z) by lia.
  destruct E as [-> | ->].
  - split; [split; [reflexivity | vm_compute; discriminate]|].
    apply sample_distinct; [vm_compute; discriminate | reflexivity].
  - split; [split; [reflexivity | vm_compute; discriminate]|].
    apply sample_distinct; [vm_compute; discriminate | reflexivity].
Qed.

Lemma pass_reference_witness :
  let a := sample_system in
  let s := Inner zero_acc 0 (wrap (5 - 4)) Sample.sample_xmm (fun _ => 0) in
  distinct_js a (nb030_innerjjnr s) (nb030_innerjjnr s + 4)
  /\ totals_of (unroll_body Sample.sample_seed a (fst (prologue a Sample.sample_xmm))
                  (Entry 0 0 0 (splat 0) (splat 0) (splat 0)) s) =
     ref_eval Sample.sample_seed a 0 0 0 0 (j_list a (nb030_innerjjnr s) 4)
       (totals_of s).
Proof.
  intros a s.
  assert (H : distinct_js a (nb030_innerjjnr s) (nb030_innerjjnr s + 4))
    by (apply sample_distinct; [vm_compute; discriminate | reflexivity]).
  split; [exact H|].
  exact (@pass_reference Sample.sample_seed a 0 0 0 0 0 0 Sample.sample_xmm s H).
Defined.

Lemma update_forces4_duplicate_witness :
  (disjoint_slots 3 6 /\ disjoint_slots 3 9 /\ disjoint_slots 6 9)
  /\ snd (update_forces4 (splat 1) (splat 1) (splat 1) zero_acc (splat 0)
            3 3 6 9 (splat 1) (splat 0) (fun _ => 0)) 3%Z = 0 - 1 * 1.
Proof.
  assert (H1 : disjoint_slots 3 6) by (unfold disjoint_slots; lia).
  assert (H2 : disjoint_slots 3 9) by (unfold disjoint_slots; lia).
  assert (H3 : disjoint_slots 6 9) by (unfold disjoint_slots; lia).
  split; [split; [|split]; assumption|].
  exact (proj1 (@update_forces4_duplicate (splat 1) (splat 1) (splat 1) zero_acc
                  (splat 0) 3 6 9 (splat 1) (splat 0) (fun _ => 0) H1 H2 H3)).
Defined.

Lemma entry_reference_witness :
  let a := sample_system in
  ((ninner_of a 1 < 2 ^ 31)%Z /\ (ninner_of a 1 <= 4 * Z.of_nat 2)%Z
   /\ distinct_js a (nj0 a 1) (nj0 a 1 + 4 * (ninner_of a 1 / 4)))
  /\ exists r,
       outer_entry Sample.sample_seed 2 a (fst (prologue a Sample.sample_xmm))
                   1 0 Sample.sample_xmm Sample.sample_out = Some r.
Proof.
  intros a.
  destruct (@sample_fits 1 ltac:(lia)) as [[H1 H2] H3].
  split; [split; [|split]; assumption|].
  destruct (@entry_reference Sample.sample_seed a Sample.sample_xmm 2%nat 1 0
              Sample.sample_xmm Sample.sample_out H1 H2 H3) as (x' & Hrun).
  eexists. exact Hrun.
Defined.

Lemma entry_frame_witness :
  let a := sample_system in
  ((ninner_of a 1 < 2 ^ 31)%Z /\ (ninner_of a 1 <= 4 * Z.of_nat 2)%Z)
  /\ exists r o',
       outer_entry Sample.sample_seed 2 a (fst (prologue a Sample.sample_xmm))
                   1 0 Sample.sample_xmm Sample.sample_out = Some (r, o')
       /\ o_Vc o' = o_Vc Sample.sample_out.
Proof.
  intros a.
  destruct (@sample_fits 1 ltac:(lia)) as [[H1 H2] _].
  split; [split; assumption|].
  destruct (@entry_frame Sample.sample_seed a Sample.sample_xmm 2%nat 1 0
              Sample.sample_xmm Sample.sample_out H1 H2)
    as (r & o' & Hrun & HVc & _).
  exists r, o'. split; assumption.
Defined.

Lemma entry_sums_witness :
  let a := sample_system in
  ((ninner_of a 1 < 2 ^ 31)%Z /\ (ninner_of a 1 <= 4 * Z.of_nat 2)%Z)
  /\ exists x' o',
       outer_entry Sample.sample_seed 2 a (fst (prologue a Sample.sample_xmm))
                   1 0 Sample.sample_xmm Sample.sample_out
       = Some (add32 (ninner_of a 1) 0, x', o').
Proof.
  intros a.
  destruct (@sample_fits 1 ltac:(lia)) as [[H1 H2] _].
  split; [split; assumption|].
  destruct (@entry_sums Sample.sample_seed a Sample.sample_xmm 2%nat 1 0
              Sample.sample_xmm Sample.sample_out H1 H2)
    as (x' & o' & Hrun & _).
  exists x', o'. exact Hrun.
Defined.

Lemma nf_entry_reference_witness :
  let a := sample_system in
  ((ninner_of a 1 < 2 ^ 31)%Z /\ (ninner_of a 1 <= 4 * Z.of_nat 2)%Z)
  /\ exists r,
       NB030nf.outer_entry Sample.sample_seed 2 a
         (fst (NB030nf.prologue a Sample.sample_xmm)) 1 0 Sample.sample_xmm
         (fun _ => 0) = Some r.
Proof.
  intros a.
  destruct (@sample_fits 1 ltac:(lia)) as [[H1 H2] _].
  split; [split; assumption|].
  destruct (@NB030nf.nf_entry_reference Sample.sample_seed a 2%nat Sample.sample_xmm
              1 0 Sample.sample_xmm (fun _ => 0) H1 H2)
    as (x' & Hrun).
  eexists. exact Hrun.
Defined.

(** The same for the double-precision kernel. *)
Definition sample_xmmd : NB030d.xmmd :=
  NB030d.Xmmd (splat2 1) (splat2 1) (splat2 1) (splat2 1)
              (splat2 1) (splat2 1) (splat2 1) (splat2 1).

Lemma sample_ok n :
  (0 <= n < 2)%Z -> NB030d.entry_ok 3 sample_system n.
Proof.
  intros Hn. assert (E : n = 0%Z \/ n = 1%Z) by lia.
  destruct E as [-> | ->].
  - split; [split; [reflexivity | vm_compute; discriminate]|].
    apply sample_distinct; [vm_compute; discriminate | reflexivity].
  - split; [split; [reflexivity | vm_compute; discriminate]|].
    apply sample_distinct; [vm_compute; discriminate | reflexivity].
Qed.

Lemma d_entry_reference_witness :
  let a := sample_system in
  ((ninner_of a 1 < 2 ^ 31)%Z /\ (ninner_of a 1 <= 2 * Z.of_nat 3)%Z
   /\ distinct_js a (nj0 a 1) (nj0 a 1 + ninner_of a 1))
  /\ exists r,
       NB030d.outer_entry Sample.sample_seed Sample.sample_seed 3 a
         (fst (NB030d.prologue a sample_xmmd)) 1 0 sample_xmmd Sample.sample_out
       = Some r.
Proof.
  intros a.
  destruct (@sample_ok 1 ltac:(lia)) as [[H1 H2] H3].
  split; [split; [|split]; assumption|].
  destruct (@NB030d.d_entry_reference Sample.sample_seed Sample.sample_seed a
              sample_xmmd 3%nat 1 0 sample_xmmd Sample.sample_out H1 H2 H3)
    as (x' & Hrun).
  eexists. exact Hrun.
Defined.

Lemma d_kernel_reference_witness :
  let a := sample_system in
  exists r,
    NB030d.nb_kernel030_sse2 Sample.sample_seed Sample.sample_seed 2 1 3 a 0
      sample_xmmd Sample.sample_out = Some r
    /\ Threads.k_count r = 2%Z /\ Threads.k_inneriter r = 10%Z.
Proof.
  intros a.
  destruct (@NB030d.d_kernel_reference Sample.sample_seed Sample.sample_seed 2 1 3 a
              0%Z sample_xmmd Sample.sample_out)
    as (x' & Hrun).
  - vm_compute. split; [discriminate | reflexivity].
  - reflexivity.
  - vm_compute. discriminate.
  - lia.
  - intros n Hn. apply sample_ok. exact Hn.
  - eexists. split; [exact Hrun|]. split; reflexivity.
Defined.


Lemma kernel_counters_witness :
  let a := sample_system in
  exists x' o',
    nb_kernel030 Sample.sample_seed 2 1 2 a 0 Sample.sample_xmm Sample.sample_out
    = Some (Run 2 2 10 x' o').
Proof.
  intros a.
  destruct (@kernel_counters Sample.sample_seed 2 1 2 a 0%Z Sample.sample_xmm
              Sample.sample_out)
    as (x' & o' & Hrun & _).
  - vm_compute. split; [discriminate | reflexivity].
  - reflexivity.
  - vm_compute. discriminate.
  - lia.
  - intros n Hn. apply sample_fits. exact Hn.
  - exists x', o'. exact Hrun.
Defined.

Lemma kernel_reference_witness :
  let a := sample_system in
  exists x',
    nb_kernel030 Sample.sample_seed 2 1 2 a 0 Sample.sample_xmm Sample.sample_out
    = Some (Run 2 2 10 x' (ref_entries Sample.sample_seed a 2 0 Sample.sample_out)).
Proof.
  intros a.
  destruct (@kernel_reference Sample.sample_seed 2 1 2 a 0%Z Sample.sample_xmm
              Sample.sample_out)
    as (x' & Hrun).
  - vm_compute. split; [discriminate | reflexivity].
  - reflexivity.
  - vm_compute. discriminate.
  - lia.
  - intros n Hn. apply sample_fits. exact Hn.
  - exists x'. exact Hrun.
Defined.

Lemma kernel_nothing_left_witness :
  let a := Sample.sample_args 1 in
  ((0 <= 1 < 2 ^ 31 - 1)%Z /\ (signed (wrap (a_nri a)) <= 1)%Z)
  /\ exists x',
       nb_kernel030 Sample.sample_seed 1 0 0 a 1 Sample.sample_xmm Sample.sample_out
       = Some (Run 2 0 0 x' Sample.sample_out).
Proof.
  intros a.
  assert (H1 : (0 <= 1 < 2 ^ 31 - 1)%Z) by lia.
  assert (H2 : (signed (wrap (a_nri a)) <= 1)%Z) by (vm_compute; discriminate).
  split; [split; assumption|].
  exact (@kernel_nothing_left Sample.sample_seed 1 0 0 a 1%Z Sample.sample_xmm
           Sample.sample_out H1 H2 ltac:(lia)).
Defined.

End Sample030.


(** * A small system of water molecules on which the hypotheses hold *)

Module Sample232.
Import W32 SSE Kernel Water232.
Local Open Scope Z_scope.
Local Open Scope Qc_scope.

(** Two outer entries of three molecules each; position [q] of the list
    names the molecule whose oxygen is particle [3 * q + 3]. *)
Definition sample_waters : args :=
  Args 2 (fun _ => 0%Z) (fun i => (3 * i)%Z) (fun q => (3 * q + 3)%Z) (fun _ => 0%Z)
       (fun _ => 0) (fun _ => 0%Z)
       (fun i => if (i <? 9)%Z then 0 else 1)
       (fun _ => 1) 1 1 1 (fun _ => 0%Z) 1 (fun _ => 1) 1 (fun _ => 1).

Definition sample_scratch : scratch :=
  Scratch (splat2 0) (splat2 0) (splat2 0) (splat2 0) (splat2 0)
          (splat2 0) (splat2 0) (splat2 0) (splat2 0) (splat2 0).

Lemma sample_separate lo hi :
  (0 <= lo)%Z -> (hi < 2 ^ 20)%Z -> distinct_mols sample_waters lo hi.
Proof.
  intros Hlo Hhi. unfold distinct_mols, disjoint_mols, ld32.
  cbn [a_jjnr sample_waters]. split.
  - intros q Hq. rewrite wrap_small by lia. lia.
  - intros q q' Hq Hq' Hne. rewrite !wrap_small by lia. lia.
Qed.

Lemma sample_entry_ok n :
  (0 <= n < 2)%Z -> entry_ok 2 sample_waters n.
Proof.
  intros Hn. assert (E : n = 0%Z \/ n = 1%Z) by lia.
  destruct E as [-> | ->].
  - split; [split; [reflexivity | vm_compute; discriminate]|].
    apply sample_separate; [vm_compute; discriminate | reflexivity].
  - split; [split; [reflexivity | vm_compute; discriminate]|].
    apply sample_separate; [vm_compute; discriminate | reflexivity].
Qed.

Lemma w_entry_reference_witness :
  let a := sample_waters in
  ((NB030.ninner_of a 1 < 2 ^ 31)%Z /\ (NB030.ninner_of a 1 <= 2 * Z.of_nat 2)%Z
   /\ distinct_mols a (NB030.nj0 a 1) (NB030.nj0 a 1 + NB030.ninner_of a 1))
  /\ exists r,
       outer_entry Sample.sample_seed Sample.sample_seed 2 a
         (NB232.setup a (splat2 0)) 1 0 (Sample030.sample_xmmd, sample_scratch)
         Sample.sample_out
       = Some r.
Proof.
  intros a.
  destruct (@sample_entry_ok 1 ltac:(lia)) as [[H1 H2] H3].
  split; [split; [|split]; assumption|].
  destruct (@w_entry_reference Sample.sample_seed Sample.sample_seed a (splat2 0)
              2%nat 1 0 (Sample030.sample_xmmd, sample_scratch) Sample.sample_out
              H1 H2 H3)
    as (x' & Hrun).
  eexists. exact Hrun.
Defined.

Lemma w_kernel_reference_witness :
  let a := sample_waters in
  exists r,
    nb_kernel232 Sample.sample_seed Sample.sample_seed 2 1 2 a 0
      Sample030.sample_xmmd sample_scratch Sample.sample_out = Some r
    /\ Threads.k_count r = 2%Z /\ Threads.k_inneriter r = 6%Z.
Proof.
  intros a.
  destruct (@w_kernel_reference Sample.sample_seed Sample.sample_seed 2 1 2 a
              0%Z Sample030.sample_xmmd sample_scratch Sample.sample_out)
    as (x' & Hrun).
  - vm_compute. split; [discriminate | reflexivity].
  - reflexivity.
  - vm_compute. discriminate.
  - lia.
  - intros n Hn. apply sample_entry_ok. exact Hn.
  - eexists. split; [exact Hrun|]. split; reflexivity.
Defined.

Lemma sample_entry_fits n :
  (0 <= n < 2)%Z -> Water232nf.entry_fits sample_waters 2 n.
Proof. intros Hn. exact (proj1 (sample_entry_ok Hn)). Qed.

Lemma nf232_entry_reference_witness :
  let a := sample_waters in
  ((NB030.ninner_of a 1 < 2 ^ 31)%Z /\ (NB030.ninner_of a 1 <= 2 * Z.of_nat 2)%Z)
  /\ exists r,
       Water232nf.outer_entry Sample.sample_seed Sample.sample_seed 2 a
         (fst (Water232nf.prologue a Sample030.sample_xmmd)) 1 0
         Sample030.sample_xmmd Sample.sample_out
       = Some r.
Proof.
  intros a.
  destruct (@sample_entry_fits 1 ltac:(lia)) as [H1 H2].
  split; [split; assumption|].
  destruct (@Water232nf.nf232_entry_reference Sample.sample_seed Sample.sample_seed a
              2%nat 1 0 Sample030.sample_xmmd Sample030.sample_xmmd
              Sample.sample_out H1 H2)
    as (x' & Hrun).
  eexists. exact Hrun.
Defined.

Lemma nf232_kernel_reference_witness :
  let a := sample_waters in
  exists r,
    Water232nf.nb_kernel232nf Sample.sample_seed Sample.sample_seed 2 1 2 a 0
      Sample030.sample_xmmd Sample.sample_out = Some r
    /\ Threads.k_count r = 2%Z /\ Threads.k_inneriter r = 6%Z.
Proof.
  intros a.
  destruct (@Water232nf.nf232_kernel_reference Sample.sample_seed Sample.sample_seed
              a 2 1 2 0%Z Sample030.sample_xmmd Sample.sample_out)
    as (x' & Hrun).
  - vm_compute. split; [discriminate | reflexivity].
  - reflexivity.
  - vm_compute. discriminate.
  - lia.
  - intros n Hn. apply sample_entry_fits. exact Hn.
  - eexists. split; [exact Hrun|]. split; reflexivity.
Defined.

Lemma nf232_kernel_energy_witness :
  let a := sample_waters in
  exists r r',
    Water232nf.nb_kernel232nf Sample.sample_seed Sample.sample_seed 2 1 2 a 0
      Sample030.sample_xmmd Sample.sample_out = Some r
    /\ nb_kernel232 Sample.sample_seed Sample.sample_seed 2 1 2 a 0
         Sample030.sample_xmmd sample_scratch Sample.sample_out = Some r'
    /\ o_Vc (Threads.k_out r) = o_Vc (Threads.k_out r')
    /\ o_Vvdw (Threads.k_out r) = o_Vvdw (Threads.k_out r').
Proof.
  intros a.
  destruct (@Water232nf.nf232_kernel_energy Sample.sample_seed Sample.sample_seed
              a 2 1 2 0%Z Sample030.sample_xmmd Sample030.sample_xmmd
              sample_scratch Sample.sample_out)
    as (r & r' & H1 & H2 & H3 & H4 & _).
  - vm_compute. split; [discriminate | reflexivity].
  - reflexivity.
  - vm_compute. discriminate.
  - lia.
  - intros n Hn. apply sample_entry_ok. exact Hn.
  - exists r, r'. repeat split; assumption.
Defined.

End Sample232.
